(* ===== verification/_CoqProject ===== *)
-Q . S2P
Prelude.v
UnicodeCase.v
PyStr.v
Normalizer.v
Json.v
JsonRoundtrip.v
Regex.v
World.v
Base64.v
Extract.v
Pipeline.v
Cli.v
Scenarios.v
