(* ===== verification/Prelude.v ===== *)
(** * A verification development of invoice_renamer

    The repository holds two Python scripts with the same pipeline:
    [src/rename_invoices.py] (the current one, with an OCR fallback and
    per-file error isolation) and [src/label_invoices.py] (the older one,
    vision model only, aborting on the first failure).  For each invoice
    file of a folder the pipeline

    - extracts two fields, [company_name] and [amount], by sending the
      image to a remote vision model ([extract_info_from_image]), falling
      back to Tesseract OCR plus two regular expressions
      ([extract_info_with_tesseract]); a PDF is rasterised page by page
      and the per-page results are merged, first non-empty value per
      field ([extract_info_from_pdf]);
    - exchanges these results between functions as JSON text
      ([json.dumps] / [json.loads]);
    - builds the target file name ["{COMPANY} -- {amount}.pdf"] with
      [str.upper] and [str.replace];
    - converts the original into a PDF in [processed/]
      ([rename_and_convert_to_pdf]) and moves the original into [raw/]
      ([shutil.move]);
    - runs this per file of the folder ([process_invoices]).

    ** Files and what they model

    - [Prelude] (this file): characters as Unicode code points ([N]),
      Python strings as [list N]; the exceptions the code can raise
      ([exn]) and the result type [res]; the shared list lemmas, the hint
      databases [pyrw] (rewriting) and [pyauto], and common tactics.
    - [UnicodeCase] (Module [UnicodeCase]): the case tables of CPython
      3.11 (Unicode 14.0) as sorted runs and ranges, their lookups and
      the lemmas that check a property on every table entry.
    - [PyStr]: the library functions the code calls, modelled after
      CPython's documented behaviour rather than translated from the
      repository ([str.upper], [lower], [strip], [replace], [endswith]
      with a tuple, [os.path.join]).
    - [Normalizer] (Module [Normalizer]): the file-name template
      ([rename_invoices.py] lines 139-141, [label_invoices.py] 85-87).
    - [Json] (Module [Json]): [json.dumps] with its defaults and the C
      scanner behind [json.loads], subscripting ([getitem]) and truth
      values ([truthy]); [JsonRoundtrip] proves that [loads] inverts
      [dumps].
    - [Regex] (Module [Regex]): a backtracking matcher in
      continuation-passing style for the two patterns of
      [extract_info_with_tesseract] (lines 66-73), [re.search] and
      [group(1)], with a language semantics [in_lang] it is proved sound
      and complete against.
    - [World] (Module [World]): the state of a run, a file system as a
      [gmap] from resolved paths to files and directories, the working
      directory and the printed lines; the monad [M] of Python statements
      (results and exceptions, with the effects before an exception kept;
      [try_except], [try_finally]); POSIX path resolution; [open], [os]
      and [shutil] operations; the well-formedness invariant [wf] with
      the proof that every operation preserves it ([preserves], hint
      database [wfdb]) and the read-only operations ([readonly], [rodb]).
    - [Base64] (Module [Base64]): [base64.b64encode] of [encode_image] and
      its round trip.
    - [Extract] (Module [Extract]): the collaborators as the record
      [env] of functions (HTTP endpoint, PIL, Tesseract, PyMuPDF) with
      the process environment; [api_key] ([os.getenv]) and the
      [headers] dictionary of lines 17-23 (label 11-16), which the
      vision request passes to the endpoint; the vision request, the OCR fallback, the PDF page loop with its
      temporary files, merge, [except] and [finally] (lines 25-108), and
      the [label_invoices.py] variants (lines 18-56).
    - [Pipeline] (Module [Pipeline]): [rename_and_convert_to_pdf], the
      per-file pipeline, the batch loop with its failure list and report,
      [process_invoices] of both scripts (lines 110-154; label 58-93).
    - [Cli] (Module [Cli]): the [__main__] blocks (lines 157-161; label
      96-101): [argparse]'s [parse_args] for the one positional
      [folder_path] and the help flags, the help text built from the
      parser's description and argument help ([help_lines]), and the
      exit status of the process ([main], [main_label]).
    - [Scenarios]: the specification's end-to-end scenario and the
      behaviours found while modelling, evaluated on concrete folders.

    ** What the theorems show

    - The OCR fallback never raises and returns the JSON text of the two
      fields the regular expressions find ([ocr_fallback_never_raises]);
      the amount is empty exactly when the OCR text has no decimal digit
      (any Unicode digit, as [\d] matches in a [str] pattern), and is made
      of digits, commas and periods; when the first digit of the text
      starts a run of four or more digits the amount is the first three
      of them ([ocr_amount_truncates], from the greedy order of the
      matcher on [\d{1,3}]); the company name never spans a line.  These
      rest on the matcher's soundness and completeness against the
      language of the pattern and on [re.search] finding the leftmost
      match ([Regex.search_leftmost]).
    - The PDF extractor changes the file system only by removing its own
      temporary page images, on every path of its [try]/[except]/[finally]
      ([pdf_leaves_no_temp_files]); the merge keeps the first true value
      of each field ([merge_first_non_empty]).
    - The materializer never overwrites an existing target for a PDF and
      always does for an image ([pdf_existing_target_unchanged],
      [image_target_overwritten]).
    - Each file of the folder has a commit point ([process_file_commit]):
      the per-file pipeline either fails with the file in place and its
      bytes intact, or succeeds with the file gone from the folder and its
      bytes at another path.  The proof composes frame lemmas: path
      resolution is stable under any change that keeps every directory
      ([World.keeps_dirs], [resolve_mono]), the extractors touch only
      their temporary page images, whose names are not PDF names, the
      target of a conversion ends in [.pdf] and so is never the image it
      converts, and [shutil.move] either fails with the world unchanged or
      moves the bytes ([move_file]).
    - The success path of an image ([image_invoice_committed]): when the
      vision reply parses to a name and the image decodes, the pipeline
      writes [processed/<name>] and moves the bytes to [raw/<file>],
      with nothing printed and nothing else changed.  The success path
      of a PDF ([pdf_invoice_committed]): the page images are removed,
      [processed/<name>] receives the saved document only when nothing
      is there yet, so a second invoice with the same name is archived
      without a copy and no error is reported, and the bytes go to
      [raw/<file>] (composed from [Pipeline.convert_pdf_at] and
      [Pipeline.archive_move]).  The PDF
      extractor on its success path returns the merge of the page
      values and leaves only its page images removed
      ([pdf_extractor_success]), while a failure on a later page discards
      the earlier pages ([pdf_later_page_failure]).  The same
      commit point holds for one iteration of [label_invoices.py]
      ([process_file_label_commit]), also when its page image is left
      behind ([label_pdf_leaves_temp]); the shared frame lemma is
      [Pipeline.convert_move_commit] over [World.file_frame].
    - Types of values: the OCR fallback and the PDF extractor return a
      [str] whenever they return ([extractors_return_str]), stated with
      the postcondition judgement [World.has_post] and its rules (hint
      database [postdb]).
    - A missing [OPENAI_API_KEY] is not caught at start-up: both scripts
      send [Authorization: Bearer None], and an error reply ends in the
      OCR fallback ([rename_invoices.py]) or a [KeyError] that stops the
      batch ([label_invoices.py]) ([missing_key_request]).
    - A second run over the same folder: with [raw/] and [processed/]
      already there, the setup raises nothing and changes nothing, so
      [rename_invoices.py] reaches its report and [label_invoices.py] its
      loop ([rerun_setup_ok]); it rests on [World.folder_layout], the
      behaviour of [os.makedirs(join(folder, name), exist_ok=True)]
      through the recursion of [Lib/os.py].  The end-to-end scenario of
      the specification holds for any folder with one image invoice
      ([single_image_run]): setup, loop, per-file success path and
      success report composed ([Pipeline.setup_ok],
      [Pipeline.process_invoices_setup], [Pipeline.image_commit_at]).
    - The batch loop of [rename_invoices.py] never raises and returns the
      paths of some of the listed files, in order, each at most once
      ([process_loop_never_raises]), and once the folder setup succeeds
      the run always reaches its final report and returns
      ([batch_reaches_report], the liveness of the batch), so the script
      run on one folder exits with status 0 unless the folder setup
      raises, with the usage status 2, before any effect, on no or
      several arguments, and with status 0 after the help when a help
      flag is given ([main_exit_status]).  The library facts behind these
      are lemmas, not properties of the scripts: every operation
      preserves the well-formedness of the file system (hint database
      [wfdb]), [json.loads] inverts [json.dumps]
      ([JsonRoundtrip.json_roundtrip]), and [base64] decoding inverts
      encoding ([Base64.b64_roundtrip], [Base64.b64_length_alphabet]).
    - [encode_image] sends the whole file: the text it returns decodes
      to exactly the file's bytes and has [4 * ceil(n / 3)] characters
      ([encode_image_roundtrip]).
    - The file name is built by [Normalizer.new_filename], which
      [Pipeline.target_name] calls after the two subscripts and the
      [str] checks of lines 139-141.  The segment of the amount is one
      pass over it ([amount_segment_single_pass]); a space in the amount is
      deleted rather than turned into an underscore
      ([amount_segment_deletes_spaces]), so distinct amounts and company
      casings give the same name ([new_filename_collision]).
    - Findings proved for all inputs: any PDF whose first page renders
      destroys the file [temp_image_0.jpg] of the working directory
      ([pdf_clobbers_temp0], composed from the frame lemmas of the page
      loop and of the [except]/[finally] blocks,
      [Extract.pdf_after_loop_frame]); [label_invoices.py] ends the batch
      at the first failing file and never touches the later ones
      ([label_loop_stops]); a vision reply whose content is not JSON is
      not a fallback case and fails the file ([malformed_content_no_fallback]);
      a reply whose target name is [../x] makes the
      pipeline write the conversion into the invoice folder itself, where
      the next run lists it ([target_escapes_processed], from the success
      path at any resolved target, [Pipeline.image_commit_at], and the
      resolution of [..], [World.resolve_join_up]); the extension filter
      and the branch tests accept any name ending in the letters of an
      extension, with no dot and in either case
      ([extension_filter_without_dot]).
    - The scenarios reproduce the specification's examples and exhibit
      the findings on concrete folders: a failing file isolated from the
      others, a PDF collision archived without a copy, a target name
      escaping [processed/], the label script's leftover page image and
      its stop at the first failure, and the Unicode case mapping of a
      company name.

    ** Character model, bounds and fuel

    A Python [str] is a sequence of code points; the model keeps them as
    [N].  The case mappings are CPython 3.11's for all of Unicode 14.0
    ([UnicodeCase]): [upper] is the full upper case, one code point at a
    time ([ß] to ["SS"], ligatures to several letters), and is idempotent
    ([PyStr.upper_upper_char], checked entry by entry on the tables);
    [lower] is the full lower case with the final-sigma rule (a capital
    sigma after a cased letter and not before one becomes U+03C2), whose
    context never crosses a [/] ([PyStr.lower_sep]), and [lower_char] is
    the simple lower case [sre] compares under [(?i)]; [isspace] is the
    complete CPython whitespace table.  The fuel of [str.replace] and of the JSON
    scanner is the length of the text, of a regex repetition one more than
    the length of the text, of [os.makedirs] one more than the length of
    the path: each step consumes input, and lemmas show the fuel is never
    the limit ([replace_go_fuel], [mtch_star_unfold], [loads_dumps],
    [World.makedirs_fuel]: any two fuels above the path's length agree).

    ** What is not modelled

    [argparse] is modelled on argument lists of positionals and the
    help flags [-h] and [--help] (the help in the format of CPython 3.10
    and later): unknown options, abbreviations of [--help], combined
    short flags, [--] and negative numbers go through parts of
    [argparse] whose behaviour differs between Python versions and that
    the model leaves out; standard error (usage messages, tracebacks)
    is not recorded.  Progress bars ([tqdm], which writes
    to standard error) and [warnings.filterwarnings] have no effect on
    the state the model keeps.  The HTTP
    transport, Tesseract, PIL and PyMuPDF are external collaborators whose
    results are inputs of the model (the fields of [Extract.env]), not code
    of this repository; the text [str()] gives a number, list or dict in
    an f-string of [label_invoices.py] is also an input.  [os.listdir]
    returns the entries in the map's order, where the real order is the
    file system's; symbolic links and moving a directory are not
    modelled.  [print] always succeeds: standard output is assumed to
    encode every name (a UTF-8 locale with [surrogateescape], as CPython
    sets up for a UTF-8 or POSIX locale); with a strict encoding a file
    name holding undecodable bytes would make the handler's [print] of
    line 146 raise, which the theorems that the loop never raises
    ([process_loop_never_raises], [batch_reaches_report],
    [main_exit_status]) assume away. *)

From stdpp Require Export base list options.
From Stdlib Require Export NArith.
From Stdlib Require Import String Ascii.
Export String.StringSyntax.
Export ListNotations.

(** ** Characters and strings *)

(** A character is a Unicode code point; a Python [str] is a list of them. *)
Abbreviation char := N (only parsing).
Abbreviation pystr := (list N) (only parsing).

Declare Scope py_scope.
Delimit Scope py_scope with py.

(** Conversion from a Rocq string literal (each byte read as a Latin-1
    code point) to a Python string; used for literals of the source. *)
Fixpoint of_string (s : string) : pystr :=
  match s with
  | EmptyString => []
  | String a s' => N_of_ascii a :: of_string s'
  end.

Definition py (s : string) : pystr := of_string s.
Arguments py s%_string.
Open Scope py_scope.

(** Character constants used by the source's literals. *)
Definition ch_nl : char := 10%N.
Definition ch_space : char := 32%N.
Definition ch_dot : char := 46%N.
Definition ch_slash : char := 47%N.
Definition ch_underscore : char := 95%N.

(** ** Python exceptions

    The exception classes the modelled code can raise.  Every one of them
    is a subclass of [Exception], so an [except Exception] handler
    catches all of them. *)
Inductive exn :=
  | KeyError
  | IndexError
  | TypeError
  | AttributeError
  | JSONDecodeError
  | FileNotFoundError
  | FileExistsError
  | IsADirectoryError
  | NotADirectoryError
  | ShutilError
  | RequestException
  | UnidentifiedImageError
  | TesseractError
  | FitzError
  | OSError.

#[export] Instance exn_eq_dec : EqDecision exn.
Proof. solve_decision. Defined.

(** The outcome of a Python computation: a value or a raised exception. *)
Inductive res (A : Type) :=
  | Ok (a : A)
  | Err (e : exn).
Arguments Ok {A} a.
Arguments Err {A} e.

Definition res_bind {A B} (r : res A) (f : A -> res B) : res B :=
  match r with Ok a => f a | Err e => Err e end.

Notation "'let!' x := r 'in' k" := (res_bind r (fun x => k))
  (at level 10, x name, r at level 100, k at level 200) : py_scope.

Definition is_ok {A} (r : res A) : bool :=
  match r with Ok _ => true | Err _ => false end.

(** ** Generic lemmas on lists and strings *)

(** The code points below [n], in order: a property of every code point
    below a bound is checked by evaluating a boolean test on this list. *)
Fixpoint N_range (start : N) (k : nat) : list N :=
  match k with O => [] | S k' => start :: N_range (N.succ start) k' end.

Definition N_below (n : N) : list N := N_range 0 (N.to_nat n).

Create Rewrite HintDb pyrw.
Create HintDb pyauto discriminated.

Lemma of_string_app (s t : string) :
  of_string (s ++ t) = of_string s ++ of_string t.
Proof. induction s as [|a s IH]; simpl; [done | by rewrite IH]. Qed.
#[export] Hint Rewrite of_string_app : pyrw.

Lemma flat_map_app {A B} (f : A -> list B) (l1 l2 : list A) :
  flat_map f (l1 ++ l2) = flat_map f l1 ++ flat_map f l2.
Proof. induction l1 as [|x l1 IH]; simpl; [done | by rewrite IH, app_assoc]. Qed.
#[export] Hint Rewrite @flat_map_app : pyrw.

(** A character [c] occurs in [flat_map f s] only if it occurs in the
    image of some character of [s]. *)
Lemma elem_of_flat_map {A B} (f : A -> list B) (l : list A) (y : B) :
  y ∈ flat_map f l <-> exists x, x ∈ l /\ y ∈ f x.
Proof.
  induction l as [|x l IH]; simpl.
  - split; [by intros ?%elem_of_nil | intros (? & ?%elem_of_nil & _); done].
  - rewrite elem_of_app, IH. setoid_rewrite elem_of_cons. naive_solver.
Qed.

Lemma in_N_range (start c : N) (k : nat) :
  (start <= c)%N -> (N.to_nat c < N.to_nat start + k)%nat -> In c (N_range start k).
Proof.
  revert start. induction k as [|k IH]; intros start H1 H2; [lia|]. simpl.
  destruct (N.eq_dec start c) as [->|Hne]; [by left|]. right. apply IH; lia.
Qed.

Lemma forallb_N_below (P : N -> Prop) `{!forall c, Decision (P c)} (n : N) :
  forallb (fun c => bool_decide (P c)) (N_below n) = true -> forall c, (c < n)%N -> P c.
Proof.
  intros Hb c Hc. rewrite forallb_forall in Hb. apply (bool_decide_eq_true_1 (P c)), Hb.
  apply in_N_range; lia.
Qed.

(** ** Tactics *)

(** [destruct_match]: case on the first [match] scrutinee of the goal,
    remembering the equation. *)
Ltac destruct_match :=
  match goal with
  | |- context [match ?x with _ => _ end] =>
      let E := fresh "E" in destruct x eqn:E
  end.

(** [py_simpl]: rewrite with the development's equations and simplify. *)
Ltac py_simpl := repeat (autorewrite with pyrw in *; simpl in *).
