(* ===== verification/UnicodeCase.v ===== *)
(** * The Unicode case tables of CPython's [str.upper] and [str.lower]

    The data behind the case mapping of CPython 3.11 (Unicode 14.0,
    [Objects/unicodectype.c] and the tables [makeunicodedata.py] builds
    from [UnicodeData.txt], [SpecialCasing.txt] and
    [DerivedCoreProperties.txt]), for [PyStr.upper] and [PyStr.lower]:

    - [upper_runs]: the code points whose full upper case is one
      character, as runs [CaseRun lo hi step delta] (every [step]-th code
      point from [lo] to [hi] maps to itself plus [delta]);
    - [upper_special]: the code points whose upper case is longer (the
      [SpecialCasing.txt] entries such as [ß] to ["SS"]);
    - [lower_runs]: the simple lower case, which is the full one except at
      U+0130 (full [i] followed by U+0307, simple [i]) and the final sigma;
    - [cased_ranges] and [case_ignorable_ranges]: the derived properties
      [Cased] and [Case_Ignorable] that decide the final sigma.

    Each table is sorted by its first code point, so a lookup stops at
    the first entry past the code point. *)

From S2P Require Import Prelude.

Open Scope N_scope.

Module UnicodeCase.

(** A run of code points with the same case offset. *)
Record case_run := CaseRun { run_lo : N; run_hi : N; run_step : N; run_delta : Z }.

(** The one-character upper-case mappings, as runs. *)
Definition upper_runs : list case_run := [
  CaseRun 97 122 1 (-32); CaseRun 181 181 1 743; CaseRun 224 246 1 (-32);
  CaseRun 248 254 1 (-32); CaseRun 255 255 1 121; CaseRun 257 303 2 (-1);
  CaseRun 305 305 1 (-232); CaseRun 307 311 2 (-1); CaseRun 314 328 2 (-1);
  CaseRun 331 375 2 (-1); CaseRun 378 382 2 (-1); CaseRun 383 383 1 (-300);
  CaseRun 384 384 1 195; CaseRun 387 389 2 (-1); CaseRun 392 392 1 (-1);
  CaseRun 396 396 1 (-1); CaseRun 402 402 1 (-1); CaseRun 405 405 1 97; CaseRun 409 409 1 (-1);
  CaseRun 410 410 1 163; CaseRun 414 414 1 130; CaseRun 417 421 2 (-1); CaseRun 424 424 1 (-1);
  CaseRun 429 429 1 (-1); CaseRun 432 432 1 (-1); CaseRun 436 438 2 (-1);
  CaseRun 441 441 1 (-1); CaseRun 445 445 1 (-1); CaseRun 447 447 1 56; CaseRun 453 453 1 (-1);
  CaseRun 454 454 1 (-2); CaseRun 456 456 1 (-1); CaseRun 457 457 1 (-2);
  CaseRun 459 459 1 (-1); CaseRun 460 460 1 (-2); CaseRun 462 476 2 (-1);
  CaseRun 477 477 1 (-79); CaseRun 479 495 2 (-1); CaseRun 498 498 1 (-1);
  CaseRun 499 499 1 (-2); CaseRun 501 501 1 (-1); CaseRun 505 543 2 (-1);
  CaseRun 547 563 2 (-1); CaseRun 572 572 1 (-1); CaseRun 575 576 1 10815;
  CaseRun 578 578 1 (-1); CaseRun 583 591 2 (-1); CaseRun 592 592 1 10783;
  CaseRun 593 593 1 10780; CaseRun 594 594 1 10782; CaseRun 595 595 1 (-210);
  CaseRun 596 596 1 (-206); CaseRun 598 599 1 (-205); CaseRun 601 601 1 (-202);
  CaseRun 603 603 1 (-203); CaseRun 604 604 1 42319; CaseRun 608 608 1 (-205);
  CaseRun 609 609 1 42315; CaseRun 611 611 1 (-207); CaseRun 613 613 1 42280;
  CaseRun 614 614 1 42308; CaseRun 616 616 1 (-209); CaseRun 617 617 1 (-211);
  CaseRun 618 618 1 42308; CaseRun 619 619 1 10743; CaseRun 620 620 1 42305;
  CaseRun 623 623 1 (-211); CaseRun 625 625 1 10749; CaseRun 626 626 1 (-213);
  CaseRun 629 629 1 (-214); CaseRun 637 637 1 10727; CaseRun 640 640 1 (-218);
  CaseRun 642 642 1 42307; CaseRun 643 643 1 (-218); CaseRun 647 647 1 42282;
  CaseRun 648 648 1 (-218); CaseRun 649 649 1 (-69); CaseRun 650 651 1 (-217);
  CaseRun 652 652 1 (-71); CaseRun 658 658 1 (-219); CaseRun 669 669 1 42261;
  CaseRun 670 670 1 42258; CaseRun 837 837 1 84; CaseRun 881 883 2 (-1);
  CaseRun 887 887 1 (-1); CaseRun 891 893 1 130; CaseRun 940 940 1 (-38);
  CaseRun 941 943 1 (-37); CaseRun 945 961 1 (-32); CaseRun 962 962 1 (-31);
  CaseRun 963 971 1 (-32); CaseRun 972 972 1 (-64); CaseRun 973 974 1 (-63);
  CaseRun 976 976 1 (-62); CaseRun 977 977 1 (-57); CaseRun 981 981 1 (-47);
  CaseRun 982 982 1 (-54); CaseRun 983 983 1 (-8); CaseRun 985 1007 2 (-1);
  CaseRun 1008 1008 1 (-86); CaseRun 1009 1009 1 (-80); CaseRun 1010 1010 1 7;
  CaseRun 1011 1011 1 (-116); CaseRun 1013 1013 1 (-96); CaseRun 1016 1016 1 (-1);
  CaseRun 1019 1019 1 (-1); CaseRun 1072 1103 1 (-32); CaseRun 1104 1119 1 (-80);
  CaseRun 1121 1153 2 (-1); CaseRun 1163 1215 2 (-1); CaseRun 1218 1230 2 (-1);
  CaseRun 1231 1231 1 (-15); CaseRun 1233 1327 2 (-1); CaseRun 1377 1414 1 (-48);
  CaseRun 4304 4346 1 3008; CaseRun 4349 4351 1 3008; CaseRun 5112 5117 1 (-8);
  CaseRun 7296 7296 1 (-6254); CaseRun 7297 7297 1 (-6253); CaseRun 7298 7298 1 (-6244);
  CaseRun 7299 7300 1 (-6242); CaseRun 7301 7301 1 (-6243); CaseRun 7302 7302 1 (-6236);
  CaseRun 7303 7303 1 (-6181); CaseRun 7304 7304 1 35266; CaseRun 7545 7545 1 35332;
  CaseRun 7549 7549 1 3814; CaseRun 7566 7566 1 35384; CaseRun 7681 7829 2 (-1);
  CaseRun 7835 7835 1 (-59); CaseRun 7841 7935 2 (-1); CaseRun 7936 7943 1 8;
  CaseRun 7952 7957 1 8; CaseRun 7968 7975 1 8; CaseRun 7984 7991 1 8; CaseRun 8000 8005 1 8;
  CaseRun 8017 8023 2 8; CaseRun 8032 8039 1 8; CaseRun 8048 8049 1 74; CaseRun 8050 8053 1 86;
  CaseRun 8054 8055 1 100; CaseRun 8056 8057 1 128; CaseRun 8058 8059 1 112;
  CaseRun 8060 8061 1 126; CaseRun 8112 8113 1 8; CaseRun 8126 8126 1 (-7205);
  CaseRun 8144 8145 1 8; CaseRun 8160 8161 1 8; CaseRun 8165 8165 1 7;
  CaseRun 8526 8526 1 (-28); CaseRun 8560 8575 1 (-16); CaseRun 8580 8580 1 (-1);
  CaseRun 9424 9449 1 (-26); CaseRun 11312 11359 1 (-48); CaseRun 11361 11361 1 (-1);
  CaseRun 11365 11365 1 (-10795); CaseRun 11366 11366 1 (-10792); CaseRun 11368 11372 2 (-1);
  CaseRun 11379 11379 1 (-1); CaseRun 11382 11382 1 (-1); CaseRun 11393 11491 2 (-1);
  CaseRun 11500 11502 2 (-1); CaseRun 11507 11507 1 (-1); CaseRun 11520 11557 1 (-7264);
  CaseRun 11559 11559 1 (-7264); CaseRun 11565 11565 1 (-7264); CaseRun 42561 42605 2 (-1);
  CaseRun 42625 42651 2 (-1); CaseRun 42787 42799 2 (-1); CaseRun 42803 42863 2 (-1);
  CaseRun 42874 42876 2 (-1); CaseRun 42879 42887 2 (-1); CaseRun 42892 42892 1 (-1);
  CaseRun 42897 42899 2 (-1); CaseRun 42900 42900 1 48; CaseRun 42903 42921 2 (-1);
  CaseRun 42933 42947 2 (-1); CaseRun 42952 42954 2 (-1); CaseRun 42961 42961 1 (-1);
  CaseRun 42967 42969 2 (-1); CaseRun 42998 42998 1 (-1); CaseRun 43859 43859 1 (-928);
  CaseRun 43888 43967 1 (-38864); CaseRun 65345 65370 1 (-32); CaseRun 66600 66639 1 (-40);
  CaseRun 66776 66811 1 (-40); CaseRun 66967 66977 1 (-39); CaseRun 66979 66993 1 (-39);
  CaseRun 66995 67001 1 (-39); CaseRun 67003 67004 1 (-39); CaseRun 68800 68850 1 (-64);
  CaseRun 71872 71903 1 (-32); CaseRun 93792 93823 1 (-32); CaseRun 125218 125251 1 (-34)].

(** The upper-case mappings to more than one character ([SpecialCasing.txt]). *)
Definition upper_special : list (N * list N) := [
  (223, [83; 83]); (329, [700; 78]); (496, [74; 780]); (912, [921; 776; 769]);
  (944, [933; 776; 769]); (1415, [1333; 1362]); (7830, [72; 817]); (7831, [84; 776]);
  (7832, [87; 778]); (7833, [89; 778]); (7834, [65; 702]); (8016, [933; 787]);
  (8018, [933; 787; 768]); (8020, [933; 787; 769]); (8022, [933; 787; 834]);
  (8064, [7944; 921]); (8065, [7945; 921]); (8066, [7946; 921]); (8067, [7947; 921]);
  (8068, [7948; 921]); (8069, [7949; 921]); (8070, [7950; 921]); (8071, [7951; 921]);
  (8072, [7944; 921]); (8073, [7945; 921]); (8074, [7946; 921]); (8075, [7947; 921]);
  (8076, [7948; 921]); (8077, [7949; 921]); (8078, [7950; 921]); (8079, [7951; 921]);
  (8080, [7976; 921]); (8081, [7977; 921]); (8082, [7978; 921]); (8083, [7979; 921]);
  (8084, [7980; 921]); (8085, [7981; 921]); (8086, [7982; 921]); (8087, [7983; 921]);
  (8088, [7976; 921]); (8089, [7977; 921]); (8090, [7978; 921]); (8091, [7979; 921]);
  (8092, [7980; 921]); (8093, [7981; 921]); (8094, [7982; 921]); (8095, [7983; 921]);
  (8096, [8040; 921]); (8097, [8041; 921]); (8098, [8042; 921]); (8099, [8043; 921]);
  (8100, [8044; 921]); (8101, [8045; 921]); (8102, [8046; 921]); (8103, [8047; 921]);
  (8104, [8040; 921]); (8105, [8041; 921]); (8106, [8042; 921]); (8107, [8043; 921]);
  (8108, [8044; 921]); (8109, [8045; 921]); (8110, [8046; 921]); (8111, [8047; 921]);
  (8114, [8122; 921]); (8115, [913; 921]); (8116, [902; 921]); (8118, [913; 834]);
  (8119, [913; 834; 921]); (8124, [913; 921]); (8130, [8138; 921]); (8131, [919; 921]);
  (8132, [905; 921]); (8134, [919; 834]); (8135, [919; 834; 921]); (8140, [919; 921]);
  (8146, [921; 776; 768]); (8147, [921; 776; 769]); (8150, [921; 834]);
  (8151, [921; 776; 834]); (8162, [933; 776; 768]); (8163, [933; 776; 769]);
  (8164, [929; 787]); (8166, [933; 834]); (8167, [933; 776; 834]); (8178, [8186; 921]);
  (8179, [937; 921]); (8180, [911; 921]); (8182, [937; 834]); (8183, [937; 834; 921]);
  (8188, [937; 921]); (64256, [70; 70]); (64257, [70; 73]); (64258, [70; 76]);
  (64259, [70; 70; 73]); (64260, [70; 70; 76]); (64261, [83; 84]); (64262, [83; 84]);
  (64275, [1348; 1350]); (64276, [1348; 1333]); (64277, [1348; 1339]); (64278, [1358; 1350]);
  (64279, [1348; 1341])].

(** The simple lower-case mappings, as runs. *)
Definition lower_runs : list case_run := [
  CaseRun 65 90 1 32; CaseRun 192 214 1 32; CaseRun 216 222 1 32; CaseRun 256 302 2 1;
  CaseRun 304 304 1 (-199); CaseRun 306 310 2 1; CaseRun 313 327 2 1; CaseRun 330 374 2 1;
  CaseRun 376 376 1 (-121); CaseRun 377 381 2 1; CaseRun 385 385 1 210; CaseRun 386 388 2 1;
  CaseRun 390 390 1 206; CaseRun 391 391 1 1; CaseRun 393 394 1 205; CaseRun 395 395 1 1;
  CaseRun 398 398 1 79; CaseRun 399 399 1 202; CaseRun 400 400 1 203; CaseRun 401 401 1 1;
  CaseRun 403 403 1 205; CaseRun 404 404 1 207; CaseRun 406 406 1 211; CaseRun 407 407 1 209;
  CaseRun 408 408 1 1; CaseRun 412 412 1 211; CaseRun 413 413 1 213; CaseRun 415 415 1 214;
  CaseRun 416 420 2 1; CaseRun 422 422 1 218; CaseRun 423 423 1 1; CaseRun 425 425 1 218;
  CaseRun 428 428 1 1; CaseRun 430 430 1 218; CaseRun 431 431 1 1; CaseRun 433 434 1 217;
  CaseRun 435 437 2 1; CaseRun 439 439 1 219; CaseRun 440 440 1 1; CaseRun 444 444 1 1;
  CaseRun 452 452 1 2; CaseRun 453 453 1 1; CaseRun 455 455 1 2; CaseRun 456 456 1 1;
  CaseRun 458 458 1 2; CaseRun 459 475 2 1; CaseRun 478 494 2 1; CaseRun 497 497 1 2;
  CaseRun 498 500 2 1; CaseRun 502 502 1 (-97); CaseRun 503 503 1 (-56); CaseRun 504 542 2 1;
  CaseRun 544 544 1 (-130); CaseRun 546 562 2 1; CaseRun 570 570 1 10795; CaseRun 571 571 1 1;
  CaseRun 573 573 1 (-163); CaseRun 574 574 1 10792; CaseRun 577 577 1 1;
  CaseRun 579 579 1 (-195); CaseRun 580 580 1 69; CaseRun 581 581 1 71; CaseRun 582 590 2 1;
  CaseRun 880 882 2 1; CaseRun 886 886 1 1; CaseRun 895 895 1 116; CaseRun 902 902 1 38;
  CaseRun 904 906 1 37; CaseRun 908 908 1 64; CaseRun 910 911 1 63; CaseRun 913 929 1 32;
  CaseRun 931 939 1 32; CaseRun 975 975 1 8; CaseRun 984 1006 2 1; CaseRun 1012 1012 1 (-60);
  CaseRun 1015 1015 1 1; CaseRun 1017 1017 1 (-7); CaseRun 1018 1018 1 1;
  CaseRun 1021 1023 1 (-130); CaseRun 1024 1039 1 80; CaseRun 1040 1071 1 32;
  CaseRun 1120 1152 2 1; CaseRun 1162 1214 2 1; CaseRun 1216 1216 1 15; CaseRun 1217 1229 2 1;
  CaseRun 1232 1326 2 1; CaseRun 1329 1366 1 48; CaseRun 4256 4293 1 7264;
  CaseRun 4295 4295 1 7264; CaseRun 4301 4301 1 7264; CaseRun 5024 5103 1 38864;
  CaseRun 5104 5109 1 8; CaseRun 7312 7354 1 (-3008); CaseRun 7357 7359 1 (-3008);
  CaseRun 7680 7828 2 1; CaseRun 7838 7838 1 (-7615); CaseRun 7840 7934 2 1;
  CaseRun 7944 7951 1 (-8); CaseRun 7960 7965 1 (-8); CaseRun 7976 7983 1 (-8);
  CaseRun 7992 7999 1 (-8); CaseRun 8008 8013 1 (-8); CaseRun 8025 8031 2 (-8);
  CaseRun 8040 8047 1 (-8); CaseRun 8072 8079 1 (-8); CaseRun 8088 8095 1 (-8);
  CaseRun 8104 8111 1 (-8); CaseRun 8120 8121 1 (-8); CaseRun 8122 8123 1 (-74);
  CaseRun 8124 8124 1 (-9); CaseRun 8136 8139 1 (-86); CaseRun 8140 8140 1 (-9);
  CaseRun 8152 8153 1 (-8); CaseRun 8154 8155 1 (-100); CaseRun 8168 8169 1 (-8);
  CaseRun 8170 8171 1 (-112); CaseRun 8172 8172 1 (-7); CaseRun 8184 8185 1 (-128);
  CaseRun 8186 8187 1 (-126); CaseRun 8188 8188 1 (-9); CaseRun 8486 8486 1 (-7517);
  CaseRun 8490 8490 1 (-8383); CaseRun 8491 8491 1 (-8262); CaseRun 8498 8498 1 28;
  CaseRun 8544 8559 1 16; CaseRun 8579 8579 1 1; CaseRun 9398 9423 1 26;
  CaseRun 11264 11311 1 48; CaseRun 11360 11360 1 1; CaseRun 11362 11362 1 (-10743);
  CaseRun 11363 11363 1 (-3814); CaseRun 11364 11364 1 (-10727); CaseRun 11367 11371 2 1;
  CaseRun 11373 11373 1 (-10780); CaseRun 11374 11374 1 (-10749);
  CaseRun 11375 11375 1 (-10783); CaseRun 11376 11376 1 (-10782); CaseRun 11378 11378 1 1;
  CaseRun 11381 11381 1 1; CaseRun 11390 11391 1 (-10815); CaseRun 11392 11490 2 1;
  CaseRun 11499 11501 2 1; CaseRun 11506 11506 1 1; CaseRun 42560 42604 2 1;
  CaseRun 42624 42650 2 1; CaseRun 42786 42798 2 1; CaseRun 42802 42862 2 1;
  CaseRun 42873 42875 2 1; CaseRun 42877 42877 1 (-35332); CaseRun 42878 42886 2 1;
  CaseRun 42891 42891 1 1; CaseRun 42893 42893 1 (-42280); CaseRun 42896 42898 2 1;
  CaseRun 42902 42920 2 1; CaseRun 42922 42922 1 (-42308); CaseRun 42923 42923 1 (-42319);
  CaseRun 42924 42924 1 (-42315); CaseRun 42925 42925 1 (-42305);
  CaseRun 42926 42926 1 (-42308); CaseRun 42928 42928 1 (-42258);
  CaseRun 42929 42929 1 (-42282); CaseRun 42930 42930 1 (-42261); CaseRun 42931 42931 1 928;
  CaseRun 42932 42946 2 1; CaseRun 42948 42948 1 (-48); CaseRun 42949 42949 1 (-42307);
  CaseRun 42950 42950 1 (-35384); CaseRun 42951 42953 2 1; CaseRun 42960 42960 1 1;
  CaseRun 42966 42968 2 1; CaseRun 42997 42997 1 1; CaseRun 65313 65338 1 32;
  CaseRun 66560 66599 1 40; CaseRun 66736 66771 1 40; CaseRun 66928 66938 1 39;
  CaseRun 66940 66954 1 39; CaseRun 66956 66962 1 39; CaseRun 66964 66965 1 39;
  CaseRun 68736 68786 1 64; CaseRun 71840 71871 1 32; CaseRun 93760 93791 1 32;
  CaseRun 125184 125217 1 34].

(** The code points with the derived property [Cased]. *)
Definition cased_ranges : list (N * N) := [
  (65, 90); (97, 122); (170, 170); (181, 181); (186, 186); (192, 214); (216, 246); (248, 442);
  (444, 447); (452, 659); (661, 696); (704, 705); (736, 740); (837, 837); (880, 883);
  (886, 887); (890, 893); (895, 895); (902, 902); (904, 906); (908, 908); (910, 929);
  (931, 1013); (1015, 1153); (1162, 1327); (1329, 1366); (1376, 1416); (4256, 4293);
  (4295, 4295); (4301, 4301); (4304, 4346); (4349, 4351); (5024, 5109); (5112, 5117);
  (7296, 7304); (7312, 7354); (7357, 7359); (7424, 7615); (7680, 7957); (7960, 7965);
  (7968, 8005); (8008, 8013); (8016, 8023); (8025, 8025); (8027, 8027); (8029, 8029);
  (8031, 8061); (8064, 8116); (8118, 8124); (8126, 8126); (8130, 8132); (8134, 8140);
  (8144, 8147); (8150, 8155); (8160, 8172); (8178, 8180); (8182, 8188); (8305, 8305);
  (8319, 8319); (8336, 8348); (8450, 8450); (8455, 8455); (8458, 8467); (8469, 8469);
  (8473, 8477); (8484, 8484); (8486, 8486); (8488, 8488); (8490, 8493); (8495, 8500);
  (8505, 8505); (8508, 8511); (8517, 8521); (8526, 8526); (8544, 8575); (8579, 8580);
  (9398, 9449); (11264, 11492); (11499, 11502); (11506, 11507); (11520, 11557); (11559, 11559);
  (11565, 11565); (42560, 42605); (42624, 42653); (42786, 42887); (42891, 42894);
  (42896, 42954); (42960, 42961); (42963, 42963); (42965, 42969); (42997, 42998);
  (43000, 43002); (43824, 43866); (43868, 43880); (43888, 43967); (64256, 64262);
  (64275, 64279); (65313, 65338); (65345, 65370); (66560, 66639); (66736, 66771);
  (66776, 66811); (66928, 66938); (66940, 66954); (66956, 66962); (66964, 66965);
  (66967, 66977); (66979, 66993); (66995, 67001); (67003, 67004); (67456, 67456);
  (67459, 67461); (67463, 67504); (67506, 67514); (68736, 68786); (68800, 68850);
  (71840, 71903); (93760, 93823); (119808, 119892); (119894, 119964); (119966, 119967);
  (119970, 119970); (119973, 119974); (119977, 119980); (119982, 119993); (119995, 119995);
  (119997, 120003); (120005, 120069); (120071, 120074); (120077, 120084); (120086, 120092);
  (120094, 120121); (120123, 120126); (120128, 120132); (120134, 120134); (120138, 120144);
  (120146, 120485); (120488, 120512); (120514, 120538); (120540, 120570); (120572, 120596);
  (120598, 120628); (120630, 120654); (120656, 120686); (120688, 120712); (120714, 120744);
  (120746, 120770); (120772, 120779); (122624, 122633); (122635, 122654); (125184, 125251);
  (127280, 127305); (127312, 127337); (127344, 127369)].

(** The code points with the derived property [Case_Ignorable]. *)
Definition case_ignorable_ranges : list (N * N) := [
  (39, 39); (46, 46); (58, 58); (94, 94); (96, 96); (168, 168); (173, 173); (175, 175);
  (180, 180); (183, 184); (688, 879); (884, 885); (890, 890); (900, 901); (903, 903);
  (1155, 1161); (1369, 1369); (1375, 1375); (1425, 1469); (1471, 1471); (1473, 1474);
  (1476, 1477); (1479, 1479); (1524, 1524); (1536, 1541); (1552, 1562); (1564, 1564);
  (1600, 1600); (1611, 1631); (1648, 1648); (1750, 1757); (1759, 1768); (1770, 1773);
  (1807, 1807); (1809, 1809); (1840, 1866); (1958, 1968); (2027, 2037); (2042, 2042);
  (2045, 2045); (2070, 2093); (2137, 2139); (2184, 2184); (2192, 2193); (2200, 2207);
  (2249, 2306); (2362, 2362); (2364, 2364); (2369, 2376); (2381, 2381); (2385, 2391);
  (2402, 2403); (2417, 2417); (2433, 2433); (2492, 2492); (2497, 2500); (2509, 2509);
  (2530, 2531); (2558, 2558); (2561, 2562); (2620, 2620); (2625, 2626); (2631, 2632);
  (2635, 2637); (2641, 2641); (2672, 2673); (2677, 2677); (2689, 2690); (2748, 2748);
  (2753, 2757); (2759, 2760); (2765, 2765); (2786, 2787); (2810, 2815); (2817, 2817);
  (2876, 2876); (2879, 2879); (2881, 2884); (2893, 2893); (2901, 2902); (2914, 2915);
  (2946, 2946); (3008, 3008); (3021, 3021); (3072, 3072); (3076, 3076); (3132, 3132);
  (3134, 3136); (3142, 3144); (3146, 3149); (3157, 3158); (3170, 3171); (3201, 3201);
  (3260, 3260); (3263, 3263); (3270, 3270); (3276, 3277); (3298, 3299); (3328, 3329);
  (3387, 3388); (3393, 3396); (3405, 3405); (3426, 3427); (3457, 3457); (3530, 3530);
  (3538, 3540); (3542, 3542); (3633, 3633); (3636, 3642); (3654, 3662); (3761, 3761);
  (3764, 3772); (3782, 3782); (3784, 3789); (3864, 3865); (3893, 3893); (3895, 3895);
  (3897, 3897); (3953, 3966); (3968, 3972); (3974, 3975); (3981, 3991); (3993, 4028);
  (4038, 4038); (4141, 4144); (4146, 4151); (4153, 4154); (4157, 4158); (4184, 4185);
  (4190, 4192); (4209, 4212); (4226, 4226); (4229, 4230); (4237, 4237); (4253, 4253);
  (4348, 4348); (4957, 4959); (5906, 5908); (5938, 5939); (5970, 5971); (6002, 6003);
  (6068, 6069); (6071, 6077); (6086, 6086); (6089, 6099); (6103, 6103); (6109, 6109);
  (6155, 6159); (6211, 6211); (6277, 6278); (6313, 6313); (6432, 6434); (6439, 6440);
  (6450, 6450); (6457, 6459); (6679, 6680); (6683, 6683); (6742, 6742); (6744, 6750);
  (6752, 6752); (6754, 6754); (6757, 6764); (6771, 6780); (6783, 6783); (6823, 6823);
  (6832, 6862); (6912, 6915); (6964, 6964); (6966, 6970); (6972, 6972); (6978, 6978);
  (7019, 7027); (7040, 7041); (7074, 7077); (7080, 7081); (7083, 7085); (7142, 7142);
  (7144, 7145); (7149, 7149); (7151, 7153); (7212, 7219); (7222, 7223); (7288, 7293);
  (7376, 7378); (7380, 7392); (7394, 7400); (7405, 7405); (7412, 7412); (7416, 7417);
  (7468, 7530); (7544, 7544); (7579, 7679); (8125, 8125); (8127, 8129); (8141, 8143);
  (8157, 8159); (8173, 8175); (8189, 8190); (8203, 8207); (8216, 8217); (8228, 8228);
  (8231, 8231); (8234, 8238); (8288, 8292); (8294, 8303); (8305, 8305); (8319, 8319);
  (8336, 8348); (8400, 8432); (11388, 11389); (11503, 11505); (11631, 11631); (11647, 11647);
  (11744, 11775); (11823, 11823); (12293, 12293); (12330, 12333); (12337, 12341);
  (12347, 12347); (12441, 12446); (12540, 12542); (40981, 40981); (42232, 42237);
  (42508, 42508); (42607, 42610); (42612, 42621); (42623, 42623); (42652, 42655);
  (42736, 42737); (42752, 42785); (42864, 42864); (42888, 42890); (42994, 42996);
  (43000, 43001); (43010, 43010); (43014, 43014); (43019, 43019); (43045, 43046);
  (43052, 43052); (43204, 43205); (43232, 43249); (43263, 43263); (43302, 43309);
  (43335, 43345); (43392, 43394); (43443, 43443); (43446, 43449); (43452, 43453);
  (43471, 43471); (43493, 43494); (43561, 43566); (43569, 43570); (43573, 43574);
  (43587, 43587); (43596, 43596); (43632, 43632); (43644, 43644); (43696, 43696);
  (43698, 43700); (43703, 43704); (43710, 43711); (43713, 43713); (43741, 43741);
  (43756, 43757); (43763, 43764); (43766, 43766); (43867, 43871); (43881, 43883);
  (44005, 44005); (44008, 44008); (44013, 44013); (64286, 64286); (64434, 64450);
  (65024, 65039); (65043, 65043); (65056, 65071); (65106, 65106); (65109, 65109);
  (65279, 65279); (65287, 65287); (65294, 65294); (65306, 65306); (65342, 65342);
  (65344, 65344); (65392, 65392); (65438, 65439); (65507, 65507); (65529, 65531);
  (66045, 66045); (66272, 66272); (66422, 66426); (67456, 67461); (67463, 67504);
  (67506, 67514); (68097, 68099); (68101, 68102); (68108, 68111); (68152, 68154);
  (68159, 68159); (68325, 68326); (68900, 68903); (69291, 69292); (69446, 69456);
  (69506, 69509); (69633, 69633); (69688, 69702); (69744, 69744); (69747, 69748);
  (69759, 69761); (69811, 69814); (69817, 69818); (69821, 69821); (69826, 69826);
  (69837, 69837); (69888, 69890); (69927, 69931); (69933, 69940); (70003, 70003);
  (70016, 70017); (70070, 70078); (70089, 70092); (70095, 70095); (70191, 70193);
  (70196, 70196); (70198, 70199); (70206, 70206); (70367, 70367); (70371, 70378);
  (70400, 70401); (70459, 70460); (70464, 70464); (70502, 70508); (70512, 70516);
  (70712, 70719); (70722, 70724); (70726, 70726); (70750, 70750); (70835, 70840);
  (70842, 70842); (70847, 70848); (70850, 70851); (71090, 71093); (71100, 71101);
  (71103, 71104); (71132, 71133); (71219, 71226); (71229, 71229); (71231, 71232);
  (71339, 71339); (71341, 71341); (71344, 71349); (71351, 71351); (71453, 71455);
  (71458, 71461); (71463, 71467); (71727, 71735); (71737, 71738); (71995, 71996);
  (71998, 71998); (72003, 72003); (72148, 72151); (72154, 72155); (72160, 72160);
  (72193, 72202); (72243, 72248); (72251, 72254); (72263, 72263); (72273, 72278);
  (72281, 72283); (72330, 72342); (72344, 72345); (72752, 72758); (72760, 72765);
  (72767, 72767); (72850, 72871); (72874, 72880); (72882, 72883); (72885, 72886);
  (73009, 73014); (73018, 73018); (73020, 73021); (73023, 73029); (73031, 73031);
  (73104, 73105); (73109, 73109); (73111, 73111); (73459, 73460); (78896, 78904);
  (92912, 92916); (92976, 92982); (92992, 92995); (94031, 94031); (94095, 94111);
  (94176, 94177); (94179, 94180); (110576, 110579); (110581, 110587); (110589, 110590);
  (113821, 113822); (113824, 113827); (118528, 118573); (118576, 118598); (119143, 119145);
  (119155, 119170); (119173, 119179); (119210, 119213); (119362, 119364); (121344, 121398);
  (121403, 121452); (121461, 121461); (121476, 121476); (121499, 121503); (121505, 121519);
  (122880, 122886); (122888, 122904); (122907, 122913); (122915, 122916); (122918, 122922);
  (123184, 123197); (123566, 123566); (123628, 123631); (125136, 125142); (125252, 125259);
  (127995, 127999); (917505, 917505); (917536, 917631); (917760, 917999)].

(** ** Lookups *)

Definition in_run (r : case_run) (c : N) : bool :=
  (run_lo r <=? c) && (c <=? run_hi r) && (N.modulo (c - run_lo r) (run_step r) =? 0).

(** The image of a member of a run. *)
Definition run_image (r : case_run) (c : N) : N := Z.to_N (Z.of_N c + run_delta r).

(** The image of [c] under the runs, sorted by [run_lo]. *)
Fixpoint run_lookup (rs : list case_run) (c : N) : option N :=
  match rs with
  | [] => None
  | r :: rs' =>
      if c <? run_lo r then None
      else if in_run r c then Some (run_image r c)
      else run_lookup rs' c
  end.

(** The entry of [c] in a table sorted by key. *)
Fixpoint special_lookup (t : list (N * list N)) (c : N) : option (list N) :=
  match t with
  | [] => None
  | (k, v) :: t' => if c <? k then None else if c =? k then Some v else special_lookup t' c
  end.

(** Membership in a list of inclusive ranges. *)
Definition in_ranges (rs : list (N * N)) (c : N) : bool :=
  existsb (fun '(lo, hi) => (lo <=? c) && (c <=? hi)) rs.

(** The code points [start], [start + step], ... ([k] of them). *)
Fixpoint N_steps (start step : N) (k : nat) : list N :=
  match k with O => [] | S k' => start :: N_steps (start + step) step k' end.

(** The code points of a run, in order. *)
Definition run_members (r : case_run) : list N :=
  N_steps (run_lo r) (run_step r) (S (N.to_nat ((run_hi r - run_lo r) / run_step r))).

(** ** Lemmas *)

Lemma in_N_steps (start step : N) (k i : nat) :
  (i < k)%nat -> In (start + step * N.of_nat i) (N_steps start step k).
Proof.
  revert start i. induction k as [|k IH]; intros start i Hi; [lia|]. simpl.
  destruct i as [|i]; [left; lia|]. right.
  replace (start + step * N.of_nat (S i)) with (start + step + step * N.of_nat i) by lia.
  apply IH. lia.
Qed.

Lemma in_run_members (r : case_run) (c : N) :
  0 < run_step r -> in_run r c = true -> In c (run_members r).
Proof.
  unfold in_run. intros Hs H. apply andb_true_iff in H as [[Hlo Hhi]%andb_true_iff Hm].
  apply N.leb_le in Hlo, Hhi. apply N.eqb_eq in Hm.
  replace c with (run_lo r + run_step r * N.of_nat (N.to_nat ((c - run_lo r) / run_step r))).
  - apply in_N_steps. assert ((c - run_lo r) / run_step r <= (run_hi r - run_lo r) / run_step r)
      by (apply N.div_le_mono; lia). lia.
  - rewrite N2Nat.id. pose proof (N.div_mod (c - run_lo r) (run_step r)). lia.
Qed.

Lemma run_lookup_some (rs : list case_run) (c d : N) :
  run_lookup rs c = Some d -> exists r, In r rs /\ in_run r c = true /\ d = run_image r c.
Proof.
  induction rs as [|r rs IH]; simpl; [done|].
  destruct (c <? run_lo r); [done|]. destruct (in_run r c) eqn:Hr.
  - intros [= <-]. by exists r; auto.
  - intros (r' & ? & ? & ?)%IH. by exists r'; auto.
Qed.

(** A property of every code point of a table and its image, checked
    member by member. *)
Lemma run_lookup_forall (P : N -> N -> bool) (rs : list case_run) (c d : N) :
  forallb (fun r => (0 <? run_step r) && forallb (fun m => P m (run_image r m)) (run_members r)) rs
    = true ->
  run_lookup rs c = Some d -> P c d = true.
Proof.
  intros Hall (r & Hin & Hr & ->)%run_lookup_some. rewrite forallb_forall in Hall.
  apply Hall, andb_true_iff in Hin as [Hs%N.ltb_lt Hm].
  rewrite forallb_forall in Hm. apply Hm.
  by apply in_run_members.
Qed.

Lemma special_lookup_forall (P : N -> list N -> bool) (t : list (N * list N)) (c : N) (u : list N) :
  forallb (fun e => P e.1 e.2) t = true -> special_lookup t c = Some u -> P c u = true.
Proof.
  intros Hall. induction t as [|[k v] t IH]; simpl in *; [done|].
  apply andb_true_iff in Hall as [Hk Hall].
  destruct (c <? k); [done|]. destruct (N.eqb_spec c k) as [->|_]; [|by apply IH].
  by intros [= <-].
Qed.

Lemma run_lookup_above (rs : list case_run) (b c : N) :
  forallb (fun r => run_hi r <? b) rs = true -> b <= c -> run_lookup rs c = None.
Proof.
  intros Hb Hc. induction rs as [|r rs IH]; [done|]. simpl in Hb |- *.
  apply andb_true_iff in Hb as [Hr Hb%IH]. apply N.ltb_lt in Hr.
  destruct (c <? run_lo r); [done|]. unfold in_run.
  by rewrite (proj2 (N.leb_gt c (run_hi r))) by lia; rewrite andb_false_r.
Qed.

Lemma special_lookup_above (t : list (N * list N)) (b c : N) :
  forallb (fun e => e.1 <? b) t = true -> b <= c -> special_lookup t c = None.
Proof.
  intros Hb Hc. induction t as [|[k v] t IH]; [done|]. simpl in Hb |- *.
  apply andb_true_iff in Hb as [Hk Hb%IH]. apply N.ltb_lt in Hk.
  destruct (c <? k); [done|]. by rewrite (proj2 (N.eqb_neq c k)) by lia.
Qed.

End UnicodeCase.
