(* ===== verification/PyStr.v ===== *)
(** * Python [str] methods and [os.path.join]

    The string primitives that [src/rename_invoices.py] and
    [src/label_invoices.py] call: [str.upper] (line 139), [str.lower] and
    [str.endswith] with a tuple (lines 111-114, 125, 131-133),
    [str.strip] (line 75), [str.replace] (line 141) and
    [os.path.join] (lines 120-121, 129, 142, 144).  These are CPython
    library functions, modelled from their documented semantics; each
    definition is executable and the lemmas below are what the pipeline's
    theorems use. *)

From S2P Require Import Prelude UnicodeCase.

Open Scope N_scope.

Import UnicodeCase.

(** ** Case mapping *)

(** [str.upper] of one code point: [_PyUnicode_ToUpperFull], the full
    upper case of [Objects/unicodectype.c], with the tables of
    [UnicodeCase]. *)
Definition upper_char (c : char) : pystr :=
  match special_lookup upper_special c with
  | Some u => u
  | None => match run_lookup upper_runs c with Some d => [d] | None => [c] end
  end.

(** [str.upper] maps each code point on its own. *)
Definition upper (s : pystr) : pystr := flat_map upper_char s.

(** The simple lower case of one code point ([_PyUnicode_ToLowercase]),
    which is also what [sre] compares under [(?i)]. *)
Definition lower_char (c : char) : char :=
  match run_lookup lower_runs c with Some d => d | None => c end.

Definition is_cased (c : char) : bool := in_ranges cased_ranges c.
Definition is_case_ignorable (c : char) : bool := in_ranges case_ignorable_ranges c.

(** The first code point of [l] that is not case-ignorable. *)
Fixpoint skip_case_ignorable (l : pystr) : option char :=
  match l with
  | [] => None
  | c :: l' => if is_case_ignorable c then skip_case_ignorable l' else Some c
  end.

(** [handle_capital_sigma]: a capital sigma is final when, skipping
    case-ignorable code points, a cased one comes before it and none
    comes after it.  [before] is the text before the sigma, nearest
    first; [after] the text after it. *)
Definition final_sigma (before after : pystr) : bool :=
  match skip_case_ignorable before with
  | Some c => is_cased c && match skip_case_ignorable after with
                            | Some d => negb (is_cased d)
                            | None => true
                            end
  | None => false
  end.

(** [_PyUnicode_ToLowerFull]: the full lower case of a code point out
    of context, which differs from the simple one only at U+0130. *)
Definition to_lower_full (c : char) : pystr :=
  if c =? 304 then [105; 775] else [lower_char c].

(** [lower_ucs4]: the full lower case of the code point [c] between
    [before] and [after]; only the capital sigma U+03A3 looks at them. *)
Definition lower_full (c : char) (before after : pystr) : pystr :=
  if c =? 931 then [if final_sigma before after then 962 else 963]
  else to_lower_full c.

(** [do_lower]: each code point in its context; [before] is the text
    already read, nearest first. *)
Fixpoint lower_go (before : pystr) (s : pystr) : pystr :=
  match s with
  | [] => []
  | c :: rest => lower_full c before rest ++ lower_go (c :: before) rest
  end.

(** [str.lower]. *)
Definition lower (s : pystr) : pystr := lower_go [] s.

(** ** Whitespace and [strip] *)

(** [str.isspace] of one code point: CPython's [Py_UNICODE_ISSPACE]
    table, complete for all of Unicode. *)
Definition isspace (c : char) : bool :=
  ((9 <=? c) && (c <=? 13)) || ((28 <=? c) && (c <=? 32)) ||
  (c =? 133) || (c =? 160) || (c =? 5760) ||
  ((8192 <=? c) && (c <=? 8202)) || (c =? 8232) || (c =? 8233) ||
  (c =? 8239) || (c =? 8287) || (c =? 12288).

Fixpoint drop_while (p : char -> bool) (s : pystr) : pystr :=
  match s with
  | [] => []
  | c :: s' => if p c then drop_while p s' else s
  end.

Definition lstrip (s : pystr) : pystr := drop_while isspace s.
Definition rstrip (s : pystr) : pystr := rev (drop_while isspace (rev s)).

(** [str.strip()] with no argument. *)
Definition strip (s : pystr) : pystr := rstrip (lstrip s).

(** ** [str.replace] *)

Fixpoint is_prefix (p s : pystr) : bool :=
  match p, s with
  | [], _ => true
  | x :: p', y :: s' => (x =? y) && is_prefix p' s'
  | _ :: _, [] => false
  end.

(** The scan of [str.replace] for a non-empty [old]: left to right,
    non-overlapping.  Each step consumes at least one character, so
    [length s] steps of fuel suffice ([replace_go_fuel] below). *)
Fixpoint replace_go (fuel : nat) (old new s : pystr) : pystr :=
  match fuel, s with
  | O, _ => s
  | S _, [] => []
  | S f, c :: s' =>
      if is_prefix old s then new ++ replace_go f old new (drop (length old) s)
      else c :: replace_go f old new s'
  end.

(** [s.replace(old, new)]; with an empty [old] CPython inserts [new]
    before every character and at the end. *)
Definition replace (s old new : pystr) : pystr :=
  match old with
  | [] => new ++ flat_map (fun c => c :: new) s
  | _ :: _ => replace_go (length s) old new s
  end.

(** ** [str.endswith] and [os.path.join] *)

Definition endswith (s suffix : pystr) : bool := is_prefix (rev suffix) (rev s).

(** [s.endswith((a, b, ...))]: true when one of the suffixes matches. *)
Definition endswith_any (s : pystr) (suffixes : list pystr) : bool :=
  existsb (endswith s) suffixes.

(** [posixpath.join(a, b)]: an absolute [b] replaces [a]; otherwise a
    separator is inserted unless [a] is empty or already ends with one. *)
Definition path_join (a b : pystr) : pystr :=
  if is_prefix [ch_slash] b then b
  else match a with
       | [] => b
       | _ :: _ => if endswith a [ch_slash] then a ++ b else a ++ [ch_slash] ++ b
       end.

(** ** Lemmas *)

Lemma is_prefix_spec (p s : pystr) : is_prefix p s = true <-> exists t, s = p ++ t.
Proof.
  revert s; induction p as [|x p IH]; intros [|y s]; simpl.
  - split; eauto.
  - split; eauto.
  - split; [done | by intros [? ?]].
  - rewrite andb_true_iff, N.eqb_eq, IH. split.
    + intros [-> [t ->]]. eauto.
    + intros [t [= -> ->]]. eauto.
Qed.

Lemma is_prefix_app (p t : pystr) : is_prefix p (p ++ t) = true.
Proof. apply is_prefix_spec. eauto. Qed.
#[export] Hint Rewrite is_prefix_app : pyrw.

Lemma endswith_spec (s suffix : pystr) :
  endswith s suffix = true <-> exists t, s = t ++ suffix.
Proof.
  unfold endswith. rewrite is_prefix_spec. split.
  - intros [t Ht]. exists (rev t).
    by rewrite <- (rev_involutive s), Ht, rev_app_distr, rev_involutive.
  - intros [t ->]. exists (rev t). by rewrite rev_app_distr.
Qed.

(** A prefix test never looks past the first character absent from the
    prefix. *)
Lemma is_prefix_stop (p t r : pystr) (c : char) :
  forallb (fun x => negb (x =? c)) p = true -> is_prefix p (t ++ c :: r) = is_prefix p t.
Proof.
  revert p. induction t as [|y t IH]; intros [|x p] Hp; cbn [app is_prefix]; try done.
  - cbn [forallb] in Hp. apply andb_true_iff in Hp as [Hx _]. apply negb_true_iff in Hx.
    by rewrite Hx.
  - cbn [forallb] in Hp. apply andb_true_iff in Hp as [_ Hp]. by rewrite IH.
Qed.

(** A suffix without the character [c] is tested after the last [c]. *)
Lemma endswith_sep (s1 s2 suffix : pystr) (c : char) :
  forallb (fun x => negb (x =? c)) suffix = true ->
  endswith (s1 ++ [c] ++ s2) suffix = endswith s2 suffix.
Proof.
  intros Hs. unfold endswith. rewrite !rev_app_distr, <- app_assoc. cbn [rev app].
  apply is_prefix_stop. rewrite forallb_forall in *. intros x Hx. apply Hs, in_rev, Hx.
Qed.

Lemma endswith_app (t suffix : pystr) : endswith (t ++ suffix) suffix = true.
Proof. apply endswith_spec. eauto. Qed.
#[export] Hint Rewrite endswith_app : pyrw.

(** The scan of [replace_go] does not depend on the fuel once the fuel
    covers the string. *)
Lemma replace_go_fuel (f1 f2 : nat) (old new s : pystr) :
  old <> [] -> (length s <= f1)%nat -> (length s <= f2)%nat ->
  replace_go f1 old new s = replace_go f2 old new s.
Proof.
  intros Hold. revert f1 f2 s.
  induction f1 as [|f1 IH]; intros [|f2] [|c s] H1 H2; simpl in *; try lia; try done.
  destruct (is_prefix old (c :: s)) eqn:Hp.
  - f_equal. apply IH; rewrite length_drop; simpl;
      (destruct old; [done | simpl; lia]).
  - f_equal. apply IH; lia.
Qed.

(** [str.replace] with a one-character [old] rewrites each occurrence of
    that character independently: it is a [flat_map]. *)
Lemma replace_char (s new : pystr) (c : char) :
  replace s [c] new = flat_map (fun x => if x =? c then new else [x]) s.
Proof.
  unfold replace.
  enough (forall f, (length s <= f)%nat ->
    replace_go f [c] new s = flat_map (fun x => if x =? c then new else [x]) s)
    by auto.
  induction s as [|x s IH]; intros [|f] Hf; simpl in *; try lia; try done.
  rewrite andb_true_r, N.eqb_sym. destruct (x =? c); simpl; [rewrite drop_0|];
    f_equal; apply IH; lia.
Qed.
#[export] Hint Rewrite replace_char : pyrw.

Lemma replace_char_app (s1 s2 new : pystr) (c : char) :
  replace (s1 ++ s2) [c] new = replace s1 [c] new ++ replace s2 [c] new.
Proof. rewrite !replace_char. apply flat_map_app. Qed.

(** After [replace s [c] new], [c] occurs only where [new] contributed it. *)
Lemma elem_of_replace_char (s new : pystr) (c y : char) :
  y ∈ replace s [c] new <-> (y ∈ s /\ y <> c) \/ (c ∈ s /\ y ∈ new).
Proof.
  rewrite replace_char, elem_of_flat_map. split.
  - intros (x & Hx & Hy). destruct (N.eqb_spec x c) as [->|Hne]; [by right|].
    apply list_elem_of_singleton in Hy as ->. by left.
  - intros [[Hy Hne] | [Hc Hy]].
    + exists y. split; [done|]. rewrite (proj2 (N.eqb_neq y c) Hne). by left.
    + exists c. by rewrite N.eqb_refl.
Qed.

Lemma length_upper_char_ascii (c : char) : c < 128 -> length (upper_char c) = 1%nat.
Proof.
  revert c. apply (forallb_N_below (fun c => length (upper_char c) = 1%nat)).
  by vm_compute.
Qed.

(** Each [str.upper] output character is a fixed point of [str.upper],
    checked on every entry of the tables. *)
Lemma upper_upper_char (c : char) : upper (upper_char c) = upper_char c.
Proof.
  unfold upper_char. destruct (special_lookup upper_special c) as [u|] eqn:Es.
  - pose proof (special_lookup_forall (fun _ u => bool_decide (upper u = u)) upper_special c u) as H.
    specialize (H ltac:(by vm_compute) Es). by apply bool_decide_eq_true_1 in H.
  - destruct (run_lookup upper_runs c) as [d|] eqn:Er; unfold upper; simpl; rewrite app_nil_r.
    + pose proof (run_lookup_forall (fun _ d => bool_decide (upper_char d = [d])) upper_runs c d) as H.
      specialize (H ltac:(by vm_compute) Er). by apply bool_decide_eq_true_1 in H.
    + unfold upper_char. by rewrite Es, Er.
Qed.

Lemma lower_go_app (before u t : pystr) :
  exists x, lower_go before (u ++ t) = x ++ lower_go (rev u ++ before) t.
Proof.
  revert before. induction u as [|c u IH]; intros before; [by exists []|].
  destruct (IH (c :: before)) as [x Hx]. exists (lower_full c before (u ++ t) ++ x).
  simpl. by rewrite Hx, <- app_assoc, <- app_assoc.
Qed.

(** Without a capital sigma, [lower] is a map of [to_lower_full]. *)
Lemma lower_go_no_sigma (before t : pystr) :
  forallb (fun c => negb (c =? 931)) t = true -> lower_go before t = flat_map to_lower_full t.
Proof.
  revert before. induction t as [|c t IH]; intros before Ht; [done|]. simpl in Ht |- *.
  apply andb_true_iff in Ht as [Hc Ht]. unfold lower_full. destruct (c =? 931); [done|].
  by rewrite IH.
Qed.

(** The lower case of a text ending in [t], when [t] holds no capital
    sigma, ends in the lower case of [t]. *)
Lemma lower_app_no_sigma (s t : pystr) :
  forallb (fun c => negb (c =? 931)) t = true -> exists x, lower (s ++ t) = x ++ lower t.
Proof.
  intros Ht. destruct (lower_go_app [] s t) as [x Hx]. exists x. unfold lower.
  by rewrite Hx, !lower_go_no_sigma.
Qed.

(** The same, read from the end as [endswith] does. *)
Lemma rev_lower_app (s t : pystr) :
  forallb (fun c => negb (c =? 931)) t = true -> exists x, rev (lower (s ++ t)) = rev (lower t) ++ x.
Proof. intros [x ->]%(lower_app_no_sigma s). exists (rev x). apply rev_app_distr. Qed.

Section Boundary.
(** A code point [b] that is neither cased nor case-ignorable stops the
    search for the context of a final sigma, as the ends of the text do. *)
Variable b : char.
Hypothesis Hign : is_case_ignorable b = false.
Hypothesis Hcased : is_cased b = false.

Lemma skip_boundary (l r : pystr) :
  skip_case_ignorable (l ++ b :: r) =
    match skip_case_ignorable l with Some c => Some c | None => Some b end.
Proof using Hign.
  induction l as [|c l IH]; simpl; [by rewrite Hign|]. by destruct (is_case_ignorable c).
Qed.

Lemma final_sigma_before (l x after : pystr) :
  final_sigma (l ++ b :: x) after = final_sigma l after.
Proof using Hign Hcased. unfold final_sigma. rewrite skip_boundary. by destruct (skip_case_ignorable l); rewrite ?Hcased. Qed.

Lemma final_sigma_after (before r y : pystr) :
  final_sigma before (r ++ b :: y) = final_sigma before r.
Proof using Hign Hcased. unfold final_sigma. rewrite skip_boundary. by destruct (skip_case_ignorable r); rewrite ?Hcased. Qed.

Lemma lower_go_before (l x t : pystr) : lower_go (l ++ b :: x) t = lower_go l t.
Proof using Hign Hcased.
  revert l. induction t as [|c t IH]; intros l; [done|]. simpl.
  unfold lower_full. rewrite final_sigma_before. f_equal. apply (IH (c :: l)).
Qed.

Lemma lower_go_after (before u t : pystr) :
  lower_go before (u ++ b :: t) = lower_go before u ++ lower_go (rev u ++ before) (b :: t).
Proof using Hign Hcased.
  revert before. induction u as [|c u IH]; intros before; [done|]. simpl.
  unfold lower_full at 1 2. rewrite final_sigma_after, IH, <- !app_assoc. done.
Qed.

(** [lower] on both sides of [b] is [lower] of each side. *)
Lemma lower_sep (u t : pystr) :
  b <> 931 -> lower (u ++ [b] ++ t) = lower u ++ to_lower_full b ++ lower t.
Proof using Hign Hcased.
  intros Hb. unfold lower. simpl. rewrite lower_go_after. f_equal. simpl.
  unfold lower_full. rewrite (proj2 (N.eqb_neq b 931)) by done. f_equal.
  apply (lower_go_before [] (rev u ++ [])).
Qed.

End Boundary.

(** On ASCII text [upper] preserves the length. *)
Lemma length_upper_ascii (s : pystr) :
  Forall (fun c => c < 128) s -> length (upper s) = length s.
Proof.
  induction 1 as [|c s Hc _ IH]; [done|]. unfold upper in *; simpl.
  by rewrite length_app, IH, length_upper_char_ascii.
Qed.

Lemma drop_while_app_l (p : char -> bool) (s1 s2 : pystr) :
  Forall (fun c => p c = true) s1 -> drop_while p (s1 ++ s2) = drop_while p s2.
Proof. induction 1 as [|c s1 Hc _ IH]; simpl; [done | by rewrite Hc]. Qed.

(** [drop_while] leaves a string that is empty or starts with a character
    outside the predicate. *)
Lemma drop_while_head (p : char -> bool) (s : pystr) :
  match drop_while p s with [] => True | c :: _ => p c = false end.
Proof. induction s as [|c s IH]; simpl; [done|]. by destruct (p c) eqn:?. Qed.

Lemma drop_while_suffix (p : char -> bool) (s : pystr) :
  exists t, s = t ++ drop_while p s /\ Forall (fun c => p c = true) t.
Proof.
  induction s as [|c s (t & Ht & Hall)]; simpl; [by exists []|].
  destruct (p c) eqn:Hc.
  - exists (c :: t). simpl. rewrite <- Ht. auto.
  - by exists [].
Qed.
