(* ===== verification/Normalizer.v ===== *)
(** * Filename normalizer

    The target name built from the two extracted fields:
    [src/rename_invoices.py] lines 139-141

    {[
      company_name = info["company_name"].upper()
      amount = info["amount"]
      new_filename = f"{company_name} -- {amount.replace(' ', '').replace('.', '_')}.pdf"
    ]}

    and [src/label_invoices.py] lines 85-87, the same template without
    [.upper()].  This file models the string computation on two [str]
    values; the dictionary lookups and the exceptions they raise on
    non-string values are in [Pipeline]. *)

From S2P Require Import Prelude PyStr.

Open Scope N_scope.

Module Normalizer.

(** [amount.replace(' ', '').replace('.', '_')] *)
Definition amount_segment (amount : pystr) : pystr :=
  replace (replace amount [ch_space] []) [ch_dot] [ch_underscore].

(** [f"{company} -- {segment}.pdf"] for an already cased company name. *)
Definition format_filename (company amount : pystr) : pystr :=
  company ++ py " -- " ++ amount_segment amount ++ py ".pdf".

(** [rename_invoices.py]: the company name is upper-cased. *)
Definition new_filename (company amount : pystr) : pystr :=
  format_filename (upper company) amount.

(** [label_invoices.py]: the company name is kept as extracted. *)
Definition new_filename_label (company amount : pystr) : pystr :=
  format_filename company amount.

(** The per-character effect of the two chained replacements. *)
Definition segment_char (c : char) : pystr :=
  if c =? ch_space then [] else if c =? ch_dot then [ch_underscore] else [c].

(** ** Lemmas *)

Lemma amount_segment_app (a1 a2 : pystr) :
  amount_segment (a1 ++ a2) = amount_segment a1 ++ amount_segment a2.
Proof. unfold amount_segment. by rewrite !replace_char_app. Qed.

(** Every name of the template ends in [.pdf]. *)
Lemma format_filename_pdf (company amount : pystr) :
  format_filename company amount = (company ++ py " -- " ++ amount_segment amount) ++ py ".pdf".
Proof. unfold format_filename. by rewrite <- !app_assoc. Qed.

(** The two chained [str.replace] calls are one pass of [segment_char]. *)
Lemma amount_segment_flat_map (amount : pystr) :
  amount_segment amount = flat_map segment_char amount.
Proof.
  unfold amount_segment. rewrite !replace_char.
  induction amount as [|c a IH]; [done|]. simpl.
  rewrite flat_map_app, IH. unfold segment_char.
  destruct (c =? ch_space) eqn:Hs; simpl; [done|].
  destruct (c =? ch_dot); simpl; done.
Qed.

(** [str.upper] is idempotent. *)
Lemma upper_idem (s : pystr) : upper (upper s) = upper s.
Proof.
  unfold upper at 2. induction s as [|c s IH]; [done|]. simpl.
  unfold upper in *. by rewrite flat_map_app, IH, upper_upper_char.
Qed.

End Normalizer.

Import Normalizer.

(** C22: The amount segment is the amount with every space deleted and every
    period turned into an underscore, each character handled on its own:
    the two chained [str.replace] calls equal one pass of [segment_char]. *)
Theorem amount_segment_single_pass (amount : pystr) :
  amount_segment amount = flat_map segment_char amount.
Proof. apply amount_segment_flat_map. Qed.

(** The amount segment of a file name never contains a space or a
    period, whatever the extracted amount. *)
Theorem amount_segment_clean (amount : pystr) :
  (ch_space ∉ amount_segment amount) /\ (ch_dot ∉ amount_segment amount).
Proof.
  unfold amount_segment. rewrite !elem_of_replace_char. split.
  - intros [[[[? ?] | [_ Hin]] Hne] | [_ Hin]].
    + done.
    + by apply elem_of_nil in Hin.
    + apply list_elem_of_singleton in Hin. discriminate.
  - intros [[_ Hne] | [_ Hin]]; [done|].
    apply list_elem_of_singleton in Hin. discriminate.
Qed.

(** The examples of the specification: ["123.45"] gives the segment
    ["123_45"] and ["1,234.50"] gives ["1,234_50"] (commas kept). *)
Example amount_segment_spec_examples :
  amount_segment (py "123.45") = py "123_45" /\
  amount_segment (py "1,234.50") = py "1,234_50".
Proof. split; reflexivity. Qed.

(** C30: Spaces in the amount are deleted, not replaced by underscores as
    the specification (section 4.5) says: wherever a space stands in the
    amount, the segment is that of the text before it followed by that of
    the text after it, never with an underscore between them (so
    ["12 34.50"] gives ["1234_50"], not ["12_34_50"]). *)
Theorem amount_segment_deletes_spaces (a1 a2 : pystr) :
  amount_segment (a1 ++ [ch_space] ++ a2) = amount_segment a1 ++ amount_segment a2 /\
  amount_segment (a1 ++ [ch_space] ++ a2) <> amount_segment a1 ++ [ch_underscore] ++ amount_segment a2.
Proof.
  rewrite !amount_segment_app. change (amount_segment [ch_space]) with (@nil char).
  split; [done|]. intros H. apply (f_equal length) in H. rewrite !length_app in H. cbn in H. lia.
Qed.

(** C31: The file name of [rename_invoices.py] does not determine the
    extracted fields: inserting a space anywhere in the amount, writing
    an underscore for a period, or upper-casing the company gives the
    same name, so distinct invoices collide in [processed/] (["1 2.5"],
    ["12.5"] and ["12_5"] with ["Acme"] or ["acme"] all give
    ["ACME -- 12_5.pdf"]). *)
Theorem new_filename_collision (c a1 a2 : pystr) :
  new_filename c (a1 ++ [ch_space] ++ a2) = new_filename c (a1 ++ a2) /\
  new_filename c (a1 ++ [ch_dot] ++ a2) = new_filename c (a1 ++ [ch_underscore] ++ a2) /\
  new_filename (upper c) a1 = new_filename c a1.
Proof.
  unfold new_filename, format_filename. rewrite !amount_segment_app, upper_idem.
  split_and!; reflexivity.
Qed.
