(* ===== verification/Json.v ===== *)
(** * JSON values, [json.dumps], [json.loads], subscripting and truth

    The pipeline passes every extraction result between functions as JSON
    text: [extract_info_with_tesseract] returns [json.dumps({...})]
    ([src/rename_invoices.py] lines 75 and 78), [extract_info_from_pdf]
    parses each page's text with [json.loads] (line 90) and returns
    [json.dumps(combined_info)] (lines 100, 105), [process_invoices]
    parses the result again (line 138), and the vision call parses the HTTP
    body with [response.json()] and subscripts it (lines 54-55).

    The functions below follow CPython's [json] module: [dumps] is
    [json.dumps] with the defaults ([ensure_ascii=True], separators
    [", "] and [": "]); [loads] is the C scanner of [Modules/_json.c]
    ([scan_once_unicode], [_parse_object_unicode], [_parse_array_unicode],
    [scanstring_unicode] in strict mode, [_match_number_unicode]) behind
    [json.loads], with its rejection of a leading byte-order mark and of
    extra data.  A JSON object is kept as a Python [dict]: keys in first
    insertion order, the last value of a repeated key.

    Numbers are kept as their lexeme.  Python turns them into [int] or
    [float]; the pipeline only tests their truth value ([truthy], which is
    computed exactly, underflow to [0.0] included) and fails on them at
    [.upper()] / [.replace()], so the lexeme carries everything the
    pipeline observes.  [dumps] prints a number by its lexeme, where Python
    prints [repr] of the parsed value: the texts may differ ([1E2] against
    [100.0]) but parse back to numbers of the same truth value.  Python's
    recursion limit on deeply nested input is not modelled: the parser's
    fuel is the length of the text, enough for any nesting. *)

From S2P Require Import Prelude PyStr.

Open Scope N_scope.

Module Json.

(** ** Values *)

Inductive json :=
  | JNull
  | JBool (b : bool)
  | JNum (lexeme : pystr)
  | JStr (s : pystr)
  | JArr (items : list json)
  | JObj (members : list (pystr * json)).

(** [d[k] = v] on a dict: replace the value in place, or append. *)
Fixpoint dict_set (d : list (pystr * json)) (k : pystr) (v : json) : list (pystr * json) :=
  match d with
  | [] => [(k, v)]
  | (k', v') :: d' =>
      if decide (k = k') then (k, v) :: d' else (k', v') :: dict_set d' k v
  end.

Fixpoint dict_get (d : list (pystr * json)) (k : pystr) : option json :=
  match d with
  | [] => None
  | (k', v) :: d' => if decide (k = k') then Some v else dict_get d' k
  end.

(** ** [json.dumps] *)

Definition hex_digit (d : N) : char := if d <? 10 then 48 + d else 87 + d.

(** ['{0:04x}'.format(n)] for [n < 65536]. *)
Definition hex4 (n : N) : pystr :=
  [hex_digit (n / 4096 mod 16); hex_digit (n / 256 mod 16);
   hex_digit (n / 16 mod 16); hex_digit (n mod 16)].

(** One character of [py_encode_basestring_ascii]: the two-character
    escapes, printable ASCII as itself, the rest as [\uXXXX], code points
    above U+FFFF as a UTF-16 surrogate pair. *)
Definition escape_char (c : char) : pystr :=
  if c =? 34 then [92; 34]
  else if c =? 92 then [92; 92]
  else if c =? 8 then [92; 98]
  else if c =? 12 then [92; 102]
  else if c =? 10 then [92; 110]
  else if c =? 13 then [92; 114]
  else if c =? 9 then [92; 116]
  else if (32 <=? c) && (c <=? 126) then [c]
  else if c <? 65536 then 92 :: 117 :: hex4 c
  else
    let n := c - 65536 in
    let s1 := N.lor 55296 (N.land (N.shiftr n 10) 1023) in
    let s2 := N.lor 56320 (N.land n 1023) in
    92 :: 117 :: hex4 s1 ++ 92 :: 117 :: hex4 s2.

Definition quote (s : pystr) : pystr := [34] ++ flat_map escape_char s ++ [34].

Fixpoint join (sep : pystr) (l : list pystr) : pystr :=
  match l with
  | [] => []
  | [x] => x
  | x :: l' => x ++ sep ++ join sep l'
  end.

(** The default separators of [json.dumps]. *)
Definition comma_sep : pystr := Eval compute in py ", ".
Definition colon_sep : pystr := Eval compute in py ": ".

Fixpoint dumps (v : json) : pystr :=
  match v with
  | JNull => py "null"
  | JBool true => py "true"
  | JBool false => py "false"
  | JNum lex => lex
  | JStr s => quote s
  | JArr l => [91] ++ join comma_sep (map dumps l) ++ [93]
  | JObj d =>
      [123] ++ join comma_sep (map (fun kv => quote kv.1 ++ colon_sep ++ dumps kv.2) d) ++ [125]
  end.

(** ** [json.loads]: the C scanner *)

Definition is_ws (c : char) : bool := (c =? 32) || (c =? 9) || (c =? 10) || (c =? 13).
Definition skip_ws (s : pystr) : pystr := drop_while is_ws s.
Definition is_digit (c : char) : bool := (48 <=? c) && (c <=? 57).

Definition hex_val (c : char) : option N :=
  if is_digit c then Some (c - 48)
  else if (97 <=? c) && (c <=? 102) then Some (c - 87)
  else if (65 <=? c) && (c <=? 70) then Some (c - 55)
  else None.

Definition hex_quad (a b c d : char) : option N :=
  match hex_val a, hex_val b, hex_val c, hex_val d with
  | Some x, Some y, Some z, Some w => Some (((x * 16 + y) * 16 + z) * 16 + w)
  | _, _, _, _ => None
  end.

Definition is_high_surrogate (c : N) : bool := (55296 <=? c) && (c <=? 56319).
Definition is_low_surrogate (c : N) : bool := (56320 <=? c) && (c <=? 57343).

(** [Py_UNICODE_JOIN_SURROGATES] *)
Definition join_surrogates (hi lo : N) : N :=
  65536 + N.lor (N.shiftl (hi - 55296) 10) (lo - 56320).

(** The escapes other than [\u]. *)
Definition simple_escape (e : char) : option char :=
  if (e =? 34) || (e =? 92) || (e =? 47) then Some e
  else if e =? 98 then Some 8
  else if e =? 102 then Some 12
  else if e =? 110 then Some 10
  else if e =? 114 then Some 13
  else if e =? 116 then Some 9
  else None.

Definition cons_fst (c : char) (r : option (pystr * pystr)) : option (pystr * pystr) :=
  match r with Some (s, rest) => Some (c :: s, rest) | None => None end.

(** [scanstring_unicode] in strict mode, from just after the opening
    quote: the decoded string and the text after the closing quote.  A
    [\u] escape of a high surrogate followed by a [\u] escape of a low
    surrogate is joined into one code point; any other surrogate is kept
    alone. *)
Fixpoint scanstring (s : pystr) : option (pystr * pystr) :=
  match s with
  | [] => None
  | c :: r =>
      if c =? 34 then Some ([], r)
      else if c =? 92 then
        match r with
        | [] => None
        | e :: r' =>
            if e =? 117 then
              match r' with
              | h1 :: h2 :: h3 :: h4 :: r'' =>
                  match hex_quad h1 h2 h3 h4 with
                  | None => None
                  | Some x =>
                      if is_high_surrogate x then
                        match r'' with
                        | b :: u :: g1 :: g2 :: g3 :: g4 :: r3 =>
                            if (b =? 92) && (u =? 117) then
                              match hex_quad g1 g2 g3 g4 with
                              | None => None
                              | Some x2 =>
                                  if is_low_surrogate x2
                                  then cons_fst (join_surrogates x x2) (scanstring r3)
                                  else cons_fst x (scanstring r'')
                              end
                            else cons_fst x (scanstring r'')
                        | _ => cons_fst x (scanstring r'')
                        end
                      else cons_fst x (scanstring r'')
                  end
              | _ => None
              end
            else
              match simple_escape e with
              | Some c' => cons_fst c' (scanstring r')
              | None => None
              end
        end
      else if c <=? 31 then None
      else cons_fst c (scanstring r)
  end.

Fixpoint span_digits (s : pystr) : pystr * pystr :=
  match s with
  | c :: r => if is_digit c then let '(d, r') := span_digits r in (c :: d, r') else ([], s)
  | [] => ([], [])
  end.

Definition is_sign (c : char) : bool := (c =? 45) || (c =? 43).

(** The optional exponent of [_match_number_unicode]: [e] or [E], a sign
    when a character follows it, and at least one digit; otherwise
    nothing is taken. *)
Definition lex_exponent (s : pystr) : pystr * pystr :=
  match s with
  | e :: r =>
      if (e =? 101) || (e =? 69) then
        let '(sg, r1) :=
          match r with
          | c :: ((_ :: _) as r') => if is_sign c then ([c], r') else ([], r)
          | _ => ([], r)
          end in
        match span_digits r1 with
        | ([], _) => ([], s)
        | (ds, r2) => (e :: sg ++ ds, r2)
        end
      else ([], s)
  | [] => ([], [])
  end.

(** The optional fraction: a period followed by at least one digit. *)
Definition lex_fraction (s : pystr) : pystr * pystr :=
  match s with
  | p :: d :: r =>
      if (p =? 46) && is_digit d then let '(ds, r') := span_digits r in (p :: d :: ds, r')
      else ([], s)
  | _ => ([], s)
  end.

(** The integer part: [0] alone, or a non-zero digit and more digits. *)
Definition lex_int (s : pystr) : option (pystr * pystr) :=
  match s with
  | c :: r =>
      if c =? 48 then Some ([c], r)
      else if (49 <=? c) && (c <=? 57) then let '(ds, r') := span_digits r in Some (c :: ds, r')
      else None
  | [] => None
  end.

(** [_match_number_unicode]: the lexeme of a number and the rest. *)
Definition lex_number (s : pystr) : option (pystr * pystr) :=
  let '(sg, r) := match s with c :: r => if c =? 45 then ([c], r) else ([], s) | [] => ([], s) end in
  match lex_int r with
  | None => None
  | Some (i, r1) =>
      let '(f, r2) := lex_fraction r1 in
      let '(e, r3) := lex_exponent r2 in
      Some (sg ++ i ++ f ++ e, r3)
  end.

(** The named constants of [scan_once_unicode]. *)
Definition lit_null : pystr := Eval compute in py "null".
Definition lit_true : pystr := Eval compute in py "true".
Definition lit_false : pystr := Eval compute in py "false".
Definition lit_nan : pystr := Eval compute in py "NaN".
Definition lit_inf : pystr := Eval compute in py "Infinity".
Definition lit_ninf : pystr := Eval compute in py "-Infinity".

Definition lex_literal (s : pystr) : option (json * pystr) :=
  if is_prefix lit_null s then Some (JNull, drop 4 s)
  else if is_prefix lit_true s then Some (JBool true, drop 4 s)
  else if is_prefix lit_false s then Some (JBool false, drop 5 s)
  else if is_prefix lit_nan s then Some (JNum lit_nan, drop 3 s)
  else if is_prefix lit_inf s then Some (JNum lit_inf, drop 8 s)
  else if is_prefix lit_ninf s then Some (JNum lit_ninf, drop 9 s)
  else None.

(** [scan_once_unicode], [_parse_object_unicode] and [_parse_array_unicode]
    on a common fuel; each call consumes at least one character. *)
Fixpoint scan_once (n : nat) (s : pystr) {struct n} : option (json * pystr) :=
  match n with
  | O => None
  | S n' =>
      match s with
      | [] => None
      | c :: r =>
          if c =? 34 then
            match scanstring r with Some (str, r') => Some (JStr str, r') | None => None end
          else if c =? 123 then
            match skip_ws r with
            | d :: r' => if d =? 125 then Some (JObj [], r') else parse_members n' [] (d :: r')
            | [] => None
            end
          else if c =? 91 then
            match skip_ws r with
            | d :: r' => if d =? 93 then Some (JArr [], r') else parse_items n' [] (d :: r')
            | [] => None
            end
          else
            match lex_literal s with
            | Some vr => Some vr
            | None => match lex_number s with Some (lex, r') => Some (JNum lex, r') | None => None end
            end
      end
  end
with parse_members (n : nat) (acc : list (pystr * json)) (s : pystr) {struct n}
    : option (json * pystr) :=
  match n with
  | O => None
  | S n' =>
      match s with
      | c :: r =>
          if c =? 34 then
            match scanstring r with
            | None => None
            | Some (k, r1) =>
                match skip_ws r1 with
                | d :: r2 =>
                    if d =? 58 then
                      match scan_once n' (skip_ws r2) with
                      | None => None
                      | Some (v, r3) =>
                          match skip_ws r3 with
                          | e :: r4 =>
                              if e =? 125 then Some (JObj (dict_set acc k v), r4)
                              else if e =? 44 then parse_members n' (dict_set acc k v) (skip_ws r4)
                              else None
                          | [] => None
                          end
                      end
                    else None
                | [] => None
                end
            end
          else None
      | [] => None
      end
  end
with parse_items (n : nat) (acc : list json) (s : pystr) {struct n} : option (json * pystr) :=
  match n with
  | O => None
  | S n' =>
      match scan_once n' s with
      | None => None
      | Some (v, r1) =>
          match skip_ws r1 with
          | e :: r2 =>
              if e =? 93 then Some (JArr (acc ++ [v]), r2)
              else if e =? 44 then parse_items n' (acc ++ [v]) (skip_ws r2)
              else None
          | [] => None
          end
      end
  end.

(** [json.loads(s)] for a [str]: no byte-order mark, optional whitespace,
    one value, optional whitespace, nothing else. *)
Definition loads (s : pystr) : res json :=
  if is_prefix [65279] s then Err JSONDecodeError
  else
    match scan_once (S (length s)) (skip_ws s) with
    | Some (v, r) => if decide (skip_ws r = []) then Ok v else Err JSONDecodeError
    | None => Err JSONDecodeError
    end.

(** [json.loads(x)] on a Python value: only a [str] is accepted here (the
    pipeline never passes [bytes]); anything else is a [TypeError]. *)
Definition loads_value (x : json) : res json :=
  match x with JStr s => loads s | _ => Err TypeError end.

(** ** Subscripting and truth value *)

(** A subscript of the source: a string key or an integer index. *)
Inductive index := IStr (k : pystr) | IInt (i : Z).

Definition py_index {A} (l : list A) (i : Z) : option A :=
  let j := (if (i <? 0)%Z then (Z.of_nat (length l) + i)%Z else i) in
  if (j <? 0)%Z then None else nth_error l (Z.to_nat j).

(** [x[i]]: a dict looks the key up ([KeyError] when absent, always for
    an integer), a list or a string is indexed ([IndexError] out of range,
    [TypeError] for a string key), and numbers, booleans and [None] are
    not subscriptable ([TypeError]). *)
Definition getitem (x : json) (i : index) : res json :=
  match x, i with
  | JObj d, IStr k => match dict_get d k with Some v => Ok v | None => Err KeyError end
  | JObj _, IInt _ => Err KeyError
  | JArr l, IInt n => match py_index l n with Some v => Ok v | None => Err IndexError end
  | JStr s, IInt n => match py_index s n with Some c => Ok (JStr [c]) | None => Err IndexError end
  | (JArr _ | JStr _), IStr _ => Err TypeError
  | (JNull | JBool _ | JNum _), _ => Err TypeError
  end.

Fixpoint digits_value (ds : pystr) (acc : N) : N :=
  match ds with [] => acc | d :: ds' => digits_value ds' (acc * 10 + (d - 48)) end.

(** Truth value of a number lexeme: [int] is false only at zero, [float]
    also when the value rounds to [0.0] ([|v| <= 2^-1075]); [NaN] and the
    infinities are true. *)
Definition num_truthy (lex : pystr) : bool :=
  let mag := match lex with 45 :: r => r | _ => lex end in
  if bool_decide (mag = py "NaN") || bool_decide (mag = py "Infinity") then true else
  let '(ip, r1) := span_digits mag in
  let '(fp, r2) := match r1 with 46 :: r => span_digits r | _ => ([], r1) end in
  let '(eneg, ed) :=
    match r2 with
    | _ :: 45 :: r => (true, r)
    | _ :: 43 :: r => (false, r)
    | _ :: r => (false, r)
    | [] => (false, [])
    end in
  let m := digits_value (ip ++ fp) 0 in
  let e := ((if eneg then - Z.of_N (digits_value ed 0) else Z.of_N (digits_value ed 0))
            - Z.of_nat (length fp))%Z in
  if m =? 0 then false
  else if (0 <=? e)%Z then true
  else if (Z.of_nat (length (ip ++ fp)) + 324 <=? - e)%Z then false
  else negb (m * 2 ^ 1075 <=? 10 ^ Z.to_N (- e)).

(** [bool(x)] *)
Definition truthy (x : json) : bool :=
  match x with
  | JNull => false
  | JBool b => b
  | JNum lex => num_truthy lex
  | JStr s => negb (bool_decide (s = []))
  | JArr l => negb (bool_decide (l = []))
  | JObj d => negb (bool_decide (d = []))
  end.

End Json.
