(* ===== verification/JsonRoundtrip.v ===== *)
(** * [json.loads] inverts [json.dumps]

    The round trip the pipeline relies on whenever one function returns
    [json.dumps(...)] and its caller applies [json.loads] to it
    ([src/rename_invoices.py] lines 75/78 with 90 and 138, lines 100/105
    with 138).  A string survives when its code points are below U+110000
    and no high surrogate is directly followed by a low surrogate
    ([str_ok]); [dumps] writes such a pair as two [\u] escapes which the
    scanner joins into one code point, so the condition is also necessary
    ([loads_dumps_surrogate_pair]).  A value survives when its strings and
    keys do, its number lexemes are complete numbers and its dictionaries
    have distinct keys ([json_ok]). *)

From S2P Require Import Prelude PyStr Json.

Open Scope N_scope.

Import Json.

(** ** Conditions *)

(** A string [dumps] and [loads] leave unchanged. *)
Fixpoint str_ok (s : pystr) : bool :=
  match s with
  | [] => true
  | c :: s' =>
      (c <? 1114112) &&
      negb (is_high_surrogate c &&
            match s' with c' :: _ => is_low_surrogate c' | [] => false end) &&
      str_ok s'
  end.

(** The text after a high surrogate's escape does not start with the
    escape of a low surrogate. *)
Definition next_not_low (t : pystr) : Prop :=
  match t with
  | b :: r =>
      b = 92 ->
      match r with
      | u :: r' =>
          u = 117 ->
          match r' with
          | g1 :: g2 :: g3 :: g4 :: _ =>
              forall x, hex_quad g1 g2 g3 g4 = Some x -> is_low_surrogate x = false
          | _ => True
          end
      | [] => True
      end
  | [] => True
  end.

(** What [dumps] writes right after a value: nothing, [,], [\]] or [}]. *)
Definition delim (rest : pystr) : Prop :=
  match rest with [] => True | c :: _ => c = 44 \/ c = 93 \/ c = 125 end.

(** A number lexeme [dumps] and [loads] leave unchanged: a named constant
    or a complete match of [_match_number_unicode]. *)
Definition num_ok (lex : pystr) : bool :=
  bool_decide (lex = lit_nan) || bool_decide (lex = lit_inf) || bool_decide (lex = lit_ninf) ||
  match lex_number lex with Some (l, []) => bool_decide (l = lex) | _ => false end.

Fixpoint json_ok (v : json) : bool :=
  match v with
  | JNull | JBool _ => true
  | JNum lex => num_ok lex
  | JStr s => str_ok s
  | JArr l => forallb json_ok l
  | JObj d =>
      bool_decide (NoDup (map fst d)) && forallb (fun kv => str_ok kv.1 && json_ok kv.2) d
  end.

(** Fuel for scanning a value: one per node and one per member. *)
Fixpoint jsize (v : json) : nat :=
  match v with
  | JArr l => S (sum_list_with (fun x => S (jsize x)) l)
  | JObj d => S (sum_list_with (fun kv => S (jsize kv.2)) d)
  | _ => 1
  end.

(** Induction on values with hypotheses for the items of arrays and the
    values of objects. *)
Definition json_rect' (P : json -> Prop)
    (fnull : P JNull) (fbool : forall b, P (JBool b)) (fnum : forall l, P (JNum l))
    (fstr : forall s, P (JStr s)) (farr : forall l, Forall P l -> P (JArr l))
    (fobj : forall d, Forall (fun kv => P kv.2) d -> P (JObj d)) : forall v, P v :=
  fix F (v : json) : P v :=
    match v with
    | JNull => fnull
    | JBool b => fbool b
    | JNum l => fnum l
    | JStr s => fstr s
    | JArr l =>
        farr l ((fix G (l : list json) : Forall P l :=
                   match l with [] => List.Forall_nil _ | x :: l' => List.Forall_cons _ _ _ (F x) (G l') end) l)
    | JObj d =>
        fobj d ((fix G (d : list (pystr * json)) : Forall (fun kv => P kv.2) d :=
                   match d with
                   | [] => List.Forall_nil _
                   | kv :: d' => List.Forall_cons _ _ _ (F kv.2) (G d')
                   end) d)
    end.

(** What the main lemma states of one value. *)
Definition scans_back (v : json) : Prop :=
  forall n rest, (jsize v <= n)%nat -> delim rest -> scan_once n (dumps v ++ rest) = Some (v, rest).

(** ** Arithmetic of the escapes *)

Lemma lor_shiftl_low (a b k : N) : b < 2 ^ k -> N.lor (N.shiftl a k) b = N.shiftl a k + b.
Proof.
  intros Hb.
  assert (Hl : N.land (N.shiftl a k) b = 0).
  { apply N.bits_inj_0. intros i. rewrite N.land_spec.
    destruct (N.lt_ge_cases i k).
    - by rewrite N.shiftl_spec_low by lia.
    - destruct (N.eq_dec b 0) as [->|Hz].
      + rewrite N.bits_0. by destruct (N.testbit _ i).
      + rewrite (N.bits_above_log2 b i); [by destruct (N.testbit _ i)|].
        assert (N.log2 b < k) by (apply N.log2_lt_pow2; lia). lia. }
  rewrite N.add_nocarry_lxor by exact Hl. symmetry. by apply N.lxor_lor.
Qed.

Lemma hex_val_digit (d : N) : d < 16 -> hex_val (hex_digit d) = Some d.
Proof.
  intros Hd. unfold hex_digit, hex_val, is_digit.
  destruct (N.ltb_spec d 10).
  - replace (48 <=? 48 + d) with true by (symmetry; apply N.leb_le; lia).
    replace (48 + d <=? 57) with true by (symmetry; apply N.leb_le; lia).
    simpl. f_equal. lia.
  - replace (87 + d <=? 57) with false by (symmetry; apply N.leb_gt; lia).
    replace (97 <=? 87 + d) with true by (symmetry; apply N.leb_le; lia).
    replace (87 + d <=? 102) with true by (symmetry; apply N.leb_le; lia).
    rewrite andb_false_r. simpl. f_equal. lia.
Qed.

(** The four hexadecimal digits of [hex4] read back as the number. *)
Lemma hex_quad_hex4 (c : N) :
  c < 65536 ->
  hex_quad (hex_digit (c / 4096 mod 16)) (hex_digit (c / 256 mod 16))
           (hex_digit (c / 16 mod 16)) (hex_digit (c mod 16)) = Some c.
Proof.
  intros Hc. unfold hex_quad.
  rewrite !hex_val_digit by (apply N.mod_lt; lia).
  f_equal.
  replace (c / 256) with (c / 16 / 16) by (rewrite N.Div0.div_div; done).
  replace (c / 4096) with (c / 16 / 16 / 16) by (rewrite !N.Div0.div_div; done).
  pose proof (N.div_mod c 16 ltac:(lia)).
  pose proof (N.div_mod (c / 16) 16 ltac:(lia)).
  pose proof (N.div_mod (c / 16 / 16) 16 ltac:(lia)).
  assert (c / 16 / 16 / 16 < 16).
  { rewrite !N.Div0.div_div. apply N.div_lt_upper_bound; lia. }
  rewrite (N.mod_small (c / 16 / 16 / 16)) by done. lia.
Qed.

Lemma land_1023 (n : N) : N.land n 1023 = n mod 1024.
Proof. change 1023 with (N.ones 10). by rewrite N.land_ones. Qed.

(** The two halves of the surrogate pair [escape_char] writes for a code
    point above U+FFFF, and their join. *)
Lemma surrogate_pair (c : N) :
  65536 <= c < 1114112 ->
  let n := c - 65536 in
  let s1 := N.lor 55296 (N.land (N.shiftr n 10) 1023) in
  let s2 := N.lor 56320 (N.land n 1023) in
  s1 = 55296 + n / 1024 /\ s2 = 56320 + n mod 1024 /\
  is_high_surrogate s1 = true /\ is_low_surrogate s2 = true /\
  s1 < 65536 /\ s2 < 65536 /\ join_surrogates s1 s2 = c.
Proof.
  intros Hc n s1 s2.
  assert (Hn : n < 1048576) by (unfold n; lia).
  assert (Hq : n / 1024 < 1024) by (apply N.div_lt_upper_bound; lia).
  assert (Hr : n mod 1024 < 1024) by (apply N.mod_lt; lia).
  assert (E1 : s1 = 55296 + n / 1024).
  { unfold s1. rewrite land_1023, N.shiftr_div_pow2, (N.mod_small (n / 2 ^ 10)) by done.
    change 55296 with (N.shiftl 54 10). rewrite lor_shiftl_low by done. done. }
  assert (E2 : s2 = 56320 + n mod 1024).
  { unfold s2. rewrite land_1023. change 56320 with (N.shiftl 55 10).
    rewrite lor_shiftl_low by done. done. }
  assert (Hcn : c = n + 65536) by (unfold n; lia).
  pose proof (N.div_mod n 1024 ltac:(lia)) as Hdm.
  clearbody s1 s2 n. subst s1 s2 c.
  unfold is_high_surrogate, is_low_surrogate, join_surrogates.
  set (q := n / 1024) in *. set (r := n mod 1024) in *. clearbody q r.
  rewrite !andb_true_iff, !N.leb_le.
  replace (55296 + q - 55296) with q by lia.
  replace (56320 + r - 56320) with r by lia.
  rewrite lor_shiftl_low by done. rewrite N.shiftl_mul_pow2.
  repeat split; lia.
Qed.

(** ** One step of the string scanner *)

Lemma scanstring_plain (c : char) (t : pystr) :
  c <> 34 -> c <> 92 -> 31 < c -> scanstring (c :: t) = cons_fst c (scanstring t).
Proof.
  intros H1 H2 H3. cbn [scanstring].
  rewrite (proj2 (N.eqb_neq _ _) H1), (proj2 (N.eqb_neq _ _) H2).
  by replace (c <=? 31) with false by (symmetry; apply N.leb_gt; lia).
Qed.

Lemma scanstring_simple (e c : char) (t : pystr) :
  e <> 117 -> simple_escape e = Some c -> scanstring (92 :: e :: t) = cons_fst c (scanstring t).
Proof.
  intros He Hs. cbn [scanstring]. simpl (92 =? 34). simpl (92 =? 92).
  by rewrite (proj2 (N.eqb_neq _ _) He), Hs.
Qed.

Lemma scanstring_u_low (h1 h2 h3 h4 : char) (x : N) (t : pystr) :
  hex_quad h1 h2 h3 h4 = Some x -> is_high_surrogate x = false ->
  scanstring (92 :: 117 :: h1 :: h2 :: h3 :: h4 :: t) = cons_fst x (scanstring t).
Proof. intros Hq Hh. cbn [scanstring]. simpl (_ =? _). by rewrite Hq, Hh. Qed.

Lemma scanstring_u_lone (h1 h2 h3 h4 : char) (x : N) (t : pystr) :
  hex_quad h1 h2 h3 h4 = Some x -> is_high_surrogate x = true -> next_not_low t ->
  scanstring (92 :: 117 :: h1 :: h2 :: h3 :: h4 :: t) = cons_fst x (scanstring t).
Proof.
  intros Hq Hh Hn. cbn [scanstring]. simpl (_ =? _). rewrite Hq, Hh.
  destruct t as [|b [|u [|g1 [|g2 [|g3 [|g4 t]]]]]]; try done.
  simpl in Hn. destruct (N.eqb_spec b 92) as [->|Hb]; [destruct (N.eqb_spec u 117) as [->|Hu]|].
  - simpl. destruct (hex_quad g1 g2 g3 g4) as [x2|] eqn:Hg.
    + by rewrite (Hn eq_refl eq_refl x2 eq_refl).
    + cbn [scanstring]. simpl (_ =? _). rewrite ?Hg. done.
  - by rewrite andb_false_r.
  - done.
Qed.

Lemma scanstring_u_pair (h1 h2 h3 h4 g1 g2 g3 g4 : char) (x x2 : N) (t : pystr) :
  hex_quad h1 h2 h3 h4 = Some x -> is_high_surrogate x = true ->
  hex_quad g1 g2 g3 g4 = Some x2 -> is_low_surrogate x2 = true ->
  scanstring (92 :: 117 :: h1 :: h2 :: h3 :: h4 :: 92 :: 117 :: g1 :: g2 :: g3 :: g4 :: t) =
    cons_fst (join_surrogates x x2) (scanstring t).
Proof. intros Hq Hh Hg Hl. cbn [scanstring]. simpl (_ =? _). by rewrite Hq, Hh, Hg, Hl. Qed.

(** ** Strings *)

Lemma high_not_low (x : N) : is_high_surrogate x = true -> is_low_surrogate x = false.
Proof.
  unfold is_high_surrogate, is_low_surrogate. rewrite andb_true_iff, !N.leb_le.
  intros [? ?]. apply andb_false_iff. left. apply N.leb_gt. lia.
Qed.

(** Case analysis on the branches of [escape_char]; the two-character
    escapes are closed by [tac]. *)
Ltac escape_cases c tac :=
  unfold escape_char;
  destruct (N.eqb_spec c 34) as [->|?]; [tac|];
  destruct (N.eqb_spec c 92) as [->|?]; [tac|];
  destruct (N.eqb_spec c 8) as [->|?]; [tac|];
  destruct (N.eqb_spec c 12) as [->|?]; [tac|];
  destruct (N.eqb_spec c 10) as [->|?]; [tac|];
  destruct (N.eqb_spec c 13) as [->|?]; [tac|];
  destruct (N.eqb_spec c 9) as [->|?]; [tac|].

(** Scanning the escape of one character yields that character. *)
Lemma scanstring_escape_char (c : char) (t : pystr) :
  c < 1114112 -> (is_high_surrogate c = true -> next_not_low t) ->
  scanstring (escape_char c ++ t) = cons_fst c (scanstring t).
Proof.
  intros Hc Hn. escape_cases c ltac:(by apply scanstring_simple).
  destruct ((32 <=? c) && (c <=? 126)) eqn:Hp.
  { apply andb_true_iff in Hp as [?%N.leb_le ?%N.leb_le]. apply scanstring_plain; lia. }
  destruct (N.ltb_spec c 65536).
  { unfold hex4. cbn [app]. destruct (is_high_surrogate c) eqn:Hh.
    - apply scanstring_u_lone; auto using hex_quad_hex4.
    - apply scanstring_u_low; auto using hex_quad_hex4. }
  pose proof (surrogate_pair c ltac:(lia)) as Hs. cbv zeta in Hs |- *.
  destruct Hs as (_ & _ & Hh & Hl & L1 & L2 & J).
  unfold hex4. cbn [app].
  etransitivity; [eapply scanstring_u_pair|].
  - by apply hex_quad_hex4.
  - exact Hh.
  - by apply hex_quad_hex4.
  - exact Hl.
  - by rewrite J.
Qed.

(** The escape of a character that is not a low surrogate never reads
    as the escape of a low surrogate. *)
Lemma escape_next_not_low (c : char) (u : pystr) :
  c < 1114112 -> is_low_surrogate c = false -> next_not_low (escape_char c ++ u).
Proof.
  intros Hc Hl. escape_cases c ltac:(intros _ ?; discriminate).
  destruct ((32 <=? c) && (c <=? 126)) eqn:Hp; [simpl; intros ->; done|].
  destruct (N.ltb_spec c 65536).
  { unfold hex4. cbn [app]. simpl. intros _ _ x Hx.
    rewrite hex_quad_hex4 in Hx by done. by injection Hx as <-. }
  pose proof (surrogate_pair c ltac:(lia)) as Hs. cbv zeta in Hs |- *.
  destruct Hs as (_ & _ & Hh & _ & L1 & _ & _).
  unfold hex4. cbn [app]. simpl. intros _ _ x Hx.
  rewrite hex_quad_hex4 in Hx by done. injection Hx as <-. by apply high_not_low.
Qed.

Lemma str_ok_cons (c : char) (s : pystr) :
  str_ok (c :: s) = true ->
  c < 1114112 /\
  (is_high_surrogate c = true -> match s with c' :: _ => is_low_surrogate c' = false | [] => True end) /\
  str_ok s = true.
Proof.
  simpl. rewrite !andb_true_iff, negb_true_iff, N.ltb_lt. intros [[Hc Hp] Hs].
  repeat split; [done| |done]. intros Hh. rewrite Hh in Hp. by destruct s.
Qed.

(** [scanstring] reads back what [quote] wrote, up to the closing quote. *)
Lemma scanstring_quote (s rest : pystr) :
  str_ok s = true -> scanstring (flat_map escape_char s ++ 34 :: rest) = Some (s, rest).
Proof.
  induction s as [|c s IH]; intros Hok; [done|].
  apply str_ok_cons in Hok as (Hc & Hnext & Hok).
  cbn [flat_map]. rewrite <- app_assoc, scanstring_escape_char; [by rewrite IH | done |].
  intros Hh. specialize (Hnext Hh). destruct s as [|c' s].
  - simpl. discriminate.
  - apply str_ok_cons in Hok as (Hc' & _ & _).
    cbn [flat_map]. rewrite <- app_assoc. by apply escape_next_not_low.
Qed.

(** ** Numbers *)

Lemma delim_head (c : char) (rest : pystr) :
  delim (c :: rest) -> is_digit c = false /\ is_sign c = false /\ c <> 46 /\ is_ws c = false.
Proof.
  unfold is_digit, is_sign, is_ws. intros [-> | [-> | ->]]; simpl; done.
Qed.

Lemma span_digits_delim (a rest : pystr) :
  delim rest -> span_digits (a ++ rest) = ((span_digits a).1, (span_digits a).2 ++ rest).
Proof.
  intros Hd. induction a as [|c a IH]; simpl.
  - destruct rest as [|c rest]; [done|]. simpl. by rewrite (proj1 (delim_head c rest Hd)).
  - destruct (is_digit c); [|done]. rewrite IH. by destruct (span_digits a).
Qed.

Lemma lex_fraction_delim (a rest : pystr) :
  delim rest -> lex_fraction (a ++ rest) = ((lex_fraction a).1, (lex_fraction a).2 ++ rest).
Proof.
  intros Hd. destruct a as [|p [|d a]]; simpl.
  - destruct rest as [|c [|c' rest]]; simpl; [done|done|].
    destruct (delim_head c _ Hd) as (_ & _ & H46 & _).
    by rewrite (proj2 (N.eqb_neq _ _) H46).
  - destruct rest as [|c rest]; simpl; [done|].
    by rewrite (proj1 (delim_head c rest Hd)), andb_false_r.
  - destruct ((p =? 46) && is_digit d); [|done].
    rewrite span_digits_delim by done. by destruct (span_digits a).
Qed.

Lemma lex_exponent_delim (a rest : pystr) :
  delim rest -> lex_exponent (a ++ rest) = ((lex_exponent a).1, (lex_exponent a).2 ++ rest).
Proof.
  intros Hd. destruct rest as [|c0 rest]; [rewrite !app_nil_r; by destruct (lex_exponent a)|].
  destruct (delim_head c0 rest Hd) as (Hdig & Hsg & _).
  destruct a as [|e r]; simpl; [destruct Hd as [-> | [-> | ->]]; done|].
  destruct ((e =? 101) || (e =? 69)); [|done].
  destruct r as [|c [|c2 r]]; cbn -[span_digits].
  - destruct rest; simpl; rewrite ?Hsg; simpl; by rewrite Hdig.
  - destruct (is_sign c) eqn:Hs; simpl.
    + rewrite Hdig. destruct (is_digit c) eqn:Hc; [|done]. exfalso.
      unfold is_sign, is_digit in *.
      rewrite orb_true_iff, !N.eqb_eq, andb_true_iff, !N.leb_le in *. lia.
    + destruct (is_digit c); simpl; [by rewrite Hdig | done].
  - destruct (is_sign c); cbn -[span_digits];
      rewrite !app_comm_cons, span_digits_delim by done;
      destruct (span_digits _) as [[|? ?] ?]; done.
Qed.

Lemma lex_int_delim (a rest : pystr) (i r : pystr) :
  delim rest -> lex_int a = Some (i, r) -> lex_int (a ++ rest) = Some (i, r ++ rest).
Proof.
  intros Hd. destruct a as [|c a]; [done|]. simpl.
  destruct (c =? 48); [by intros [= <- <-]|].
  destruct ((49 <=? c) && (c <=? 57)); [|done].
  rewrite span_digits_delim by done. destruct (span_digits a). by intros [= <- <-].
Qed.

(** A lexed number followed by a delimiter lexes the same. *)
Lemma lex_number_delim (a rest l r : pystr) :
  delim rest -> lex_number a = Some (l, r) -> lex_number (a ++ rest) = Some (l, r ++ rest).
Proof.
  intros Hd. unfold lex_number.
  assert (Hsg : forall sg r0, (match a with c :: r' => if c =? 45 then ([c], r') else ([], a) | [] => ([], a) end) = (sg, r0) ->
    lex_int r0 <> None ->
    (match a ++ rest with c :: r' => if c =? 45 then ([c], r') else ([], a ++ rest) | [] => ([], a ++ rest) end) = (sg, r0 ++ rest)).
  { intros sg r0 E Hi. destruct a as [|c a]; simpl in *.
    - injection E as <- <-. done.
    - destruct (c =? 45); by injection E as <- <-. }
  destruct (match a with c :: r' => _ | [] => _ end) as [sg r0] eqn:E.
  destruct (lex_int r0) as [[i r1]|] eqn:Hi; [|done].
  rewrite (Hsg sg r0 eq_refl) by congruence.
  rewrite (lex_int_delim _ _ _ _ Hd Hi), lex_fraction_delim by done.
  destruct (lex_fraction r1) as [f r2]. simpl. rewrite lex_exponent_delim by done.
  destruct (lex_exponent r2) as [x r3]. simpl. by intros [= <- <-].
Qed.

(** ** Values *)

Lemma skip_ws_keep (c : char) (t : pystr) : is_ws c = false -> skip_ws (c :: t) = c :: t.
Proof. intros H. unfold skip_ws. simpl. by rewrite H. Qed.

Lemma skip_ws_space (t : pystr) : skip_ws (32 :: t) = skip_ws t.
Proof. done. Qed.

(** The first character of a number lexeme is [-] or a digit, and a digit
    follows a [-]. *)
Lemma lex_number_head (s l r : pystr) :
  lex_number s = Some (l, r) ->
  exists c t, s = c :: t /\
    ((c = 45 /\ exists d t', t = d :: t' /\ 48 <= d <= 57) \/ 48 <= c <= 57).
Proof.
  unfold lex_number, lex_int. destruct s as [|c t]; [done|].
  destruct (N.eqb_spec c 45) as [->|H45].
  - destruct t as [|d t]; [done|]. intros H. exists 45, (d :: t). split; [done|].
    left. split; [done|]. exists d, t. split; [done|].
    destruct (N.eqb_spec d 48); [lia|].
    destruct ((49 <=? d) && (d <=? 57)) eqn:Hd; [|done].
    apply andb_true_iff in Hd as [?%N.leb_le ?%N.leb_le]. lia.
  - intros H. exists c, t. split; [done|]. right.
    destruct (N.eqb_spec c 48); [lia|].
    destruct ((49 <=? c) && (c <=? 57)) eqn:Hc; [|done].
    apply andb_true_iff in Hc as [?%N.leb_le ?%N.leb_le]. lia.
Qed.

Lemma lex_literal_number (s l r rest : pystr) :
  lex_number s = Some (l, r) -> lex_literal (s ++ rest) = None.
Proof.
  intros (c & t & -> & [[-> (d & t' & -> & Hd)] | Hc])%lex_number_head;
    unfold lex_literal, lit_null, lit_true, lit_false, lit_nan, lit_inf, lit_ninf;
    cbn -[N.eqb].
  - by rewrite (proj2 (N.eqb_neq 73 d)) by lia.
  - by rewrite (proj2 (N.eqb_neq 110 c)), (proj2 (N.eqb_neq 116 c)),
      (proj2 (N.eqb_neq 102 c)), (proj2 (N.eqb_neq 78 c)), (proj2 (N.eqb_neq 73 c)),
      (proj2 (N.eqb_neq 45 c)) by lia.
Qed.

(** The first character [dumps] writes is not blank, not a closing
    bracket and not a byte-order mark. *)
Lemma dumps_head (v : json) :
  json_ok v = true -> exists c t, dumps v = c :: t /\ is_ws c = false /\ c <> 93 /\ c <> 65279.
Proof.
  destruct v as [|[]|lex|s|l|d]; simpl; intros Hok; try by eexists _, _.
  unfold num_ok in Hok. rewrite !orb_true_iff, !bool_decide_eq_true in Hok.
  destruct Hok as [[[-> | ->] | ->] | Hn]; try by eexists _, _.
  destruct (lex_number lex) as [[l' [|]]|] eqn:Hl; try done.
  destruct (lex_number_head _ _ _ Hl) as (c & t & -> & Hc). exists c, t. unfold is_ws.
  destruct Hc as [[-> _] | Hc]; [by repeat split|].
  repeat split; [|lia|lia]. by repeat rewrite (proj2 (N.eqb_neq _ _)) by lia.
Qed.

Lemma scan_once_other (n : nat) (s : pystr) :
  match s with c :: _ => c <> 34 /\ c <> 123 /\ c <> 91 | [] => False end ->
  scan_once (S n) s =
    match lex_literal s with
    | Some vr => Some vr
    | None => match lex_number s with Some (lex, r) => Some (JNum lex, r) | None => None end
    end.
Proof.
  destruct s as [|c t]; [done|]. intros (H1 & H2 & H3). cbn [scan_once].
  by rewrite (proj2 (N.eqb_neq _ _) H1), (proj2 (N.eqb_neq _ _) H2), (proj2 (N.eqb_neq _ _) H3).
Qed.

Lemma join_map_cons {A} (sep : pystr) (f : A -> pystr) (y : A) (l : list A) :
  exists t, join sep (map f (y :: l)) = f y ++ t.
Proof. destruct l; simpl; [exists []; by rewrite app_nil_r | by eexists]. Qed.

(** The blank after a separator is skipped up to the next element. *)
Lemma skip_ws_join {A} (f : A -> pystr) (y : A) (l : list A) (r : pystr) :
  (exists c t, f y = c :: t /\ is_ws c = false) ->
  skip_ws (32 :: join (comma_sep) (map f (y :: l)) ++ r) = join (comma_sep) (map f (y :: l)) ++ r.
Proof.
  intros (c & t & Hy & Hc). rewrite skip_ws_space.
  destruct (join_map_cons (comma_sep) f y l) as [u ->]. rewrite Hy. simpl.
  by apply skip_ws_keep.
Qed.

Lemma dict_set_fresh (acc : list (pystr * json)) (k : pystr) (v : json) :
  k ∉ map fst acc -> dict_set acc k v = acc ++ [(k, v)].
Proof.
  induction acc as [|[k' v'] acc IH]; intros Hk; [done|]. simpl in *.
  rewrite elem_of_cons in Hk. rewrite decide_False by naive_solver. f_equal. naive_solver.
Qed.

Lemma parse_items_dumps (l : list json) :
  Forall (fun x => json_ok x = true -> scans_back x) l -> forallb json_ok l = true -> l <> [] ->
  forall n acc rest, (sum_list_with (fun x => S (jsize x)) l <= n)%nat ->
  parse_items n acc (join (comma_sep) (map dumps l) ++ 93 :: rest) = Some (JArr (acc ++ l), rest).
Proof.
  induction 1 as [|x l Hx Hl IH]; [done|]. intros Hok _ n acc rest Hn.
  simpl in Hok, Hn. apply andb_true_iff in Hok as [Hxok Hlok].
  destruct n as [|n]; [lia|].
  destruct l as [|y l].
  - cbn [map join parse_items]. rewrite (Hx Hxok n (93 :: rest)) by (simpl; auto with lia).
    by rewrite skip_ws_keep.
  - change (join (comma_sep) (map dumps (x :: y :: l)))
      with (dumps x ++ [44; 32] ++ join (comma_sep) (map dumps (y :: l))).
    rewrite <- !app_assoc. cbn [parse_items app].
    rewrite (Hx Hxok n) by (simpl; auto with lia).
    rewrite skip_ws_keep by done. cbv beta iota. simpl (44 =? 93). simpl (44 =? 44). cbv iota.
    assert (Hy : json_ok y = true) by (simpl in Hlok; by apply andb_true_iff in Hlok as []).
    destruct (dumps_head y Hy) as (c & t & Hyd & Hc & _).
    rewrite skip_ws_join by eauto.
    rewrite IH by (done || simpl in *; lia). by rewrite <- app_assoc.
Qed.

Lemma skip_ws_dumps (v : json) (r : pystr) : json_ok v = true -> skip_ws (dumps v ++ r) = dumps v ++ r.
Proof.
  intros Hok. destruct (dumps_head v Hok) as (c & t & Hv & Hc & _).
  rewrite Hv. simpl. by apply skip_ws_keep.
Qed.

(** Scanning one member [key: value] of an object up to the next
    delimiter [d]. *)
Lemma parse_member_step (n : nat) (acc : list (pystr * json)) (k : pystr) (v : json)
    (d : char) (r : pystr) :
  str_ok k = true -> json_ok v = true -> scans_back v -> (jsize v <= n)%nat ->
  (d = 44 \/ d = 125) ->
  parse_members (S n) acc ((quote k ++ colon_sep ++ dumps v) ++ d :: r) =
    if d =? 125 then Some (JObj (dict_set acc k v), r)
    else parse_members n (dict_set acc k v) (skip_ws r).
Proof.
  intros Hk Hvok Hv Hn Hd. unfold quote. change (colon_sep) with [58; 32].
  rewrite <- !app_assoc. cbn [app parse_members]. simpl (34 =? 34). cbv iota.
  rewrite scanstring_quote by done. cbv beta iota.
  rewrite skip_ws_keep by done. simpl (58 =? 58). cbv iota.
  rewrite skip_ws_space, skip_ws_dumps by done.
  rewrite (Hv n (d :: r)) by (simpl; lia || tauto). cbv beta iota.
  rewrite skip_ws_keep by (destruct Hd as [-> | ->]; done).
  destruct Hd as [-> | ->]; done.
Qed.

Lemma parse_members_dumps (d : list (pystr * json)) :
  Forall (fun kv => json_ok kv.2 = true -> scans_back kv.2) d ->
  forallb (fun kv => str_ok kv.1 && json_ok kv.2) d = true -> d <> [] ->
  forall n acc rest, NoDup (map fst (acc ++ d)) ->
  (sum_list_with (fun kv => S (jsize kv.2)) d <= n)%nat ->
  parse_members n acc
    (join (comma_sep) (map (fun kv => quote kv.1 ++ colon_sep ++ dumps kv.2) d) ++ 125 :: rest) =
    Some (JObj (acc ++ d), rest).
Proof.
  induction 1 as [|[k v] d Hv Hd IH]; [done|]. intros Hok _ n acc rest Hnd Hn.
  simpl in Hok, Hn, Hv. apply andb_true_iff in Hok as [[Hk Hvok]%andb_true_iff Hdok].
  destruct n as [|n]; [lia|].
  assert (Hfresh : k ∉ map fst acc).
  { rewrite map_app in Hnd. apply NoDup_app in Hnd as (_ & Hdis & _).
    intros Hin. apply (Hdis k Hin). simpl. left. }
  destruct d as [|kv' d].
  - cbn [map join]. rewrite parse_member_step by (cbn [fst snd] in *; first [done | by apply Hv | by left | by right | lia]); cbn [fst snd].
    simpl (125 =? 125). cbv iota. by rewrite dict_set_fresh.
  - change (join (comma_sep) (map ?f ((k, v) :: kv' :: d)))
      with (f (k, v) ++ [44; 32] ++ join (comma_sep) (map f (kv' :: d))).
    cbv beta. cbn [fst snd]. rewrite <- (app_assoc (quote _ ++ _)), <- (app_assoc [44; 32]).
    cbn [app].
    rewrite parse_member_step by (cbn [fst snd] in *; first [done | by apply Hv | by left | by right | lia]); cbn [fst snd]. simpl (44 =? 125). cbv iota.
    rewrite skip_ws_join by (eexists _, _; split; [done|done]).
    rewrite dict_set_fresh, IH by (done || (rewrite <- app_assoc; done) || (simpl in *; lia)).
    by rewrite <- app_assoc.
Qed.

(** After an opening bracket, a non-empty body that starts with a
    non-blank character other than the closing bracket goes to the member
    or item loop. *)
Lemma scan_open_body {B} (J : pystr) (close : char) (rest : pystr)
    (A : pystr -> B) (K : pystr -> B) (Z : B) :
  (exists c t, J = c :: t /\ is_ws c = false /\ c <> close) ->
  match skip_ws (J ++ close :: rest) with
  | d :: r' => if d =? close then A r' else K (d :: r')
  | [] => Z
  end = K (J ++ close :: rest).
Proof.
  intros (c & t & -> & Hws & Hc). simpl. rewrite skip_ws_keep by done.
  by rewrite (proj2 (N.eqb_neq _ _) Hc).
Qed.

Lemma join_length_bound {A} (f : A -> pystr) (g : A -> nat) (l : list A) :
  Forall (fun x => (g x <= length (f x) + 2)%nat) l ->
  (sum_list_with g l <= length (join (comma_sep) (map f l)) + 2)%nat.
Proof.
  induction 1 as [|x l Hx Hl IH]; simpl; [lia|].
  destruct l as [|y l]; simpl in *; [lia|].
  rewrite !length_app. simpl. lia.
Qed.

(** The fuel [loads] gives, one more than the length of the text, covers
    [jsize]. *)
Lemma jsize_le_length (v : json) : (jsize v <= S (length (dumps v)))%nat.
Proof.
  induction v as [| | | | l IH | d IH] using json_rect'; cbn [jsize dumps];
    try (simpl; lia).
  - rewrite !length_app. cbn [length].
    enough (sum_list_with (fun x => S (jsize x)) l <= length (join (comma_sep) (map dumps l)) + 2)%nat
      by lia.
    apply join_length_bound. eapply Forall_impl; [exact IH|]. simpl. lia.
  - rewrite !length_app. cbn [length].
    enough (sum_list_with (fun kv => S (jsize kv.2)) d <=
      length (join (comma_sep) (map (fun kv => quote kv.1 ++ colon_sep ++ dumps kv.2) d)) + 2)%nat
      by lia.
    apply join_length_bound. eapply Forall_impl; [exact IH|]. intros [k v] Hv.
    unfold quote. simpl in *. rewrite !length_app. simpl. lia.
Qed.

(** Every value that [json_ok] accepts is scanned back from its dump,
    whatever delimiter follows it. *)
Lemma scan_once_dumps (v : json) : json_ok v = true -> scans_back v.
Proof.
  induction v as [|b|lex|s|l IH|d IH] using json_rect';
    intros Hok n rest Hn Hd; (destruct n as [|n]; [simpl in Hn; lia|]).
  - done.
  - by destruct b.
  - simpl in Hok. unfold num_ok in Hok. rewrite !orb_true_iff, !bool_decide_eq_true in Hok.
    destruct Hok as [[[-> | ->] | ->] | Hl]; try done.
    destruct (lex_number lex) as [[l' [|]]|] eqn:Hlex; try done.
    apply bool_decide_eq_true in Hl as ->. cbn [dumps].
    destruct (lex_number_head _ _ _ Hlex) as (c & t & Hct & Hc).
    rewrite scan_once_other
      by (rewrite Hct; simpl; destruct Hc as [[-> _] | Hc]; repeat split; lia).
    rewrite (lex_literal_number _ _ _ _ Hlex), (lex_number_delim _ _ _ _ Hd Hlex). done.
  - cbn [dumps]. unfold quote. rewrite <- !app_assoc. cbn [app scan_once].
    simpl (34 =? 34). cbv iota. simpl in Hok. by rewrite scanstring_quote.
  - simpl in Hok, Hn. cbn [dumps]. rewrite <- !app_assoc. cbn [app scan_once].
    simpl (91 =? 34). simpl (91 =? 123). simpl (91 =? 91). cbv iota.
    destruct l as [|x l]; [done|].
    rewrite scan_open_body.
    + apply parse_items_dumps; [done | done | done | lia].
    + destruct (join_map_cons (comma_sep) dumps x l) as [u ->].
      apply andb_true_iff in Hok as [Hx _].
      destruct (dumps_head x Hx) as (c & t & -> & Hc & H93 & _). by eexists _, _.
  - simpl in Hok, Hn. apply andb_true_iff in Hok as [Hnd Hok].
    apply bool_decide_eq_true in Hnd.
    cbn [dumps]. rewrite <- !app_assoc. cbn [app scan_once].
    simpl (123 =? 34). simpl (123 =? 123). cbv iota.
    destruct d as [|kv d]; [done|].
    rewrite scan_open_body.
    + apply parse_members_dumps; [done | done | done | done | lia].
    + destruct (join_map_cons (comma_sep) (fun kv => quote kv.1 ++ colon_sep ++ dumps kv.2) kv d)
        as [u ->].
      by eexists _, _.
Qed.

(** [loads] inverts [dumps] on every value [json_ok] accepts. *)
Lemma loads_dumps (v : json) : json_ok v = true -> loads (dumps v) = Ok v.
Proof.
  intros Hok. unfold loads.
  destruct (dumps_head v Hok) as (c & t & Hv & _ & _ & Hbom).
  assert (Hb : is_prefix [65279] (dumps v) = false).
  { rewrite Hv. cbn [is_prefix]. by rewrite (proj2 (N.eqb_neq _ _) (not_eq_sym Hbom)). }
  rewrite Hb. rewrite <- (app_nil_r (dumps v)), skip_ws_dumps, scan_once_dumps by
    (done || pose proof (jsize_le_length v); rewrite ?app_nil_r; lia).
  by rewrite decide_True.
Qed.

(** [json.loads] inverts [json.dumps]: every value whose strings are
    valid text, whose numbers are complete lexemes and whose dicts have
    distinct keys parses back from its dump, so [dumps] is injective on
    such values. *)
Theorem json_roundtrip (v : json) :
  json_ok v = true ->
  loads (dumps v) = Ok v /\
  (forall v', json_ok v' = true -> dumps v' = dumps v -> v' = v).
Proof.
  intros Hok. split; [by apply loads_dumps|].
  intros v' Hok' Heq. apply loads_dumps in Hok, Hok'. rewrite Heq, Hok in Hok'.
  by injection Hok'.
Qed.

(** The condition on surrogates is needed: a string holding a high and
    a low surrogate as two code points is dumped as two [\u] escapes that
    [json.loads] joins into the single code point U+10000, as CPython
    does; [str_ok] rejects exactly such a string. *)
Example loads_dumps_surrogate_pair :
  str_ok [55296; 56320] = false /\ loads (dumps (JStr [55296; 56320])) = Ok (JStr [65536]).
Proof. split; reflexivity. Qed.
