(* ===== verification/Regex.v ===== *)
(** * The two regular expressions of the OCR fallback

    [extract_info_with_tesseract] ([src/rename_invoices.py] lines 66-73)
    searches the OCR text with

    {[
      company_pattern = r'(?i)(?:company|business|from):\s*(.+)'
      amount_pattern = r'\$?\s*(\d{1,3}(?:,\d{3})*(?:\.\d{2})?)'
    ]}

    through [re.search] and reads [group(1)].  This file models the part of
    Python's [re] engine these patterns use: a backtracking matcher
    ([mtch]) that tries alternatives left to right and greedy repetitions
    longest first, written in continuation-passing style so that a failure
    later in the pattern backtracks into earlier choices exactly as [sre]
    does, and [re.search], which tries the start positions from left to
    right and returns the first match.

    Character classes follow [sre] for [str] patterns: [\s] is
    [str.isspace] (exact for all of Unicode), [.] is any character but a
    newline, and [(?i)] compares a character by its lower case, with the
    extra equivalences [sre] adds for [i] (U+0131) and [s] (U+017F).  [\d]
    is [str.isdecimal], the Unicode decimal digits (general category
    Nd), given by their ranges in the Unicode 14.0 database of CPython
    3.11; later databases add a few blocks of digits.

    A repetition stops when an iteration consumes nothing, as [sre] does;
    the fuel of [star_loop] is one more than the length of the input, which
    bounds the iterations ([mtch_star_unfold] shows the fuel is never the
    limit). *)

From S2P Require Import Prelude UnicodeCase PyStr.

Open Scope N_scope.

Module Regex.

(** ** Syntax *)

Inductive re :=
  | REps
  | RClass (p : char -> bool)
  | RSeq (r1 r2 : re)
  | RAlt (r1 r2 : re)
  | RStar (r : re)
  | RGroup (r : re).

(** The state of a match: the capture of group 1, as the suffixes of the
    text where the group starts and ends. *)
Definition capture := option (pystr * pystr).

(** A successful match: the text after the match and the capture. *)
Definition mres := (pystr * capture)%type.

Definition cont := pystr -> capture -> option mres.

(** ** The backtracking matcher *)

(** A greedy repetition: try one more iteration of the body first, and
    only if the rest of the match then fails, stop here.  An iteration
    that consumes nothing is not repeated. *)
Fixpoint star_loop (body : pystr -> capture -> cont -> option mres) (fuel : nat)
    (s : pystr) (cap : capture) (k : cont) : option mres :=
  match fuel with
  | O => k s cap
  | S f =>
      match body s cap (fun s' cap' =>
              if (length s' <? length s)%nat then star_loop body f s' cap' k else None) with
      | Some m => Some m
      | None => k s cap
      end
  end.

Fixpoint mtch (r : re) (s : pystr) (cap : capture) (k : cont) {struct r} : option mres :=
  match r with
  | REps => k s cap
  | RClass p => match s with c :: s' => if p c then k s' cap else None | [] => None end
  | RSeq r1 r2 => mtch r1 s cap (fun s' cap' => mtch r2 s' cap' k)
  | RAlt r1 r2 => match mtch r1 s cap k with Some m => Some m | None => mtch r2 s cap k end
  | RStar r1 => star_loop (mtch r1) (S (length s)) s cap k
  | RGroup r1 => mtch r1 s cap (fun s' _ => k s' (Some (s, s')))
  end.

(** The match at one position, with nothing after the pattern. *)
Definition match_at (r : re) (s : pystr) : option mres :=
  mtch r s None (fun s' cap => Some (s', cap)).

(** [re.search(pattern, text)]: the first position, from the left, where
    the pattern matches (the end of the text included). *)
Fixpoint search (r : re) (t : pystr) : option (pystr * mres) :=
  match match_at r t with
  | Some m => Some (t, m)
  | None => match t with [] => None | _ :: t' => search r t' end
  end.

(** [m.group(1)] when the group took part in the match. *)
Definition group1 (m : pystr * mres) : option pystr :=
  match m.2.2 with
  | Some (st, en) => Some (take (length st - length en) st)
  | None => None
  end.

(** ** Character classes and derived forms *)

Definition lit (c : char) : re := RClass (fun x => x =? c).
Definition opt (r : re) : re := RAlt r REps.
Definition plus (r : re) : re := RSeq r (RStar r).
(** The code point ranges of the Unicode decimal digits (Unicode 14.0). *)
Definition decimal_ranges : list (N * N) :=
  [(48, 57); (1632, 1641); (1776, 1785); (1984, 1993); (2406, 2415); (2534, 2543);
   (2662, 2671); (2790, 2799); (2918, 2927); (3046, 3055); (3174, 3183); (3302, 3311);
   (3430, 3439); (3558, 3567); (3664, 3673); (3792, 3801); (3872, 3881); (4160, 4169);
   (4240, 4249); (6112, 6121); (6160, 6169); (6470, 6479); (6608, 6617); (6784, 6793);
   (6800, 6809); (6992, 7001); (7088, 7097); (7232, 7241); (7248, 7257); (42528, 42537);
   (43216, 43225); (43264, 43273); (43472, 43481); (43504, 43513); (43600, 43609);
   (44016, 44025); (65296, 65305); (66720, 66729); (68912, 68921); (69734, 69743);
   (69872, 69881); (69942, 69951); (70096, 70105); (70384, 70393); (70736, 70745);
   (70864, 70873); (71248, 71257); (71360, 71369); (71472, 71481); (71904, 71913);
   (72016, 72025); (72784, 72793); (73040, 73049); (73120, 73129); (92768, 92777);
   (92864, 92873); (93008, 93017); (120782, 120831); (123200, 123209); (123632, 123641);
   (125264, 125273); (130032, 130041)].

(** [str.isdecimal] of one character: what [\d] matches in a [str]
    pattern. *)
Definition is_decimal (c : char) : bool := UnicodeCase.in_ranges decimal_ranges c.

(** [.] without [DOTALL] *)
Definition dot : re := RClass (fun c => negb (c =? ch_nl)).
(** [\s] *)
Definition space : re := RClass isspace.
(** [\d] *)
Definition digit : re := RClass is_decimal.

(** A character equal to the lower-case letter [l] under [(?i)]. *)
Definition ci_char (l : char) (c : char) : bool :=
  (lower_char c =? l) || (c =? 304) && (l =? 105) || (c =? 305) && (l =? 105) ||
  (c =? 383) && (l =? 115) || (c =? 8490) && (l =? 107).

(** A word matched case-insensitively, letter by letter. *)
Fixpoint word_ci (w : pystr) : re :=
  match w with
  | [] => REps
  | l :: w' => RSeq (RClass (ci_char l)) (word_ci w')
  end.

(** ** The two patterns *)

(** [(?i)(?:company|business|from):\s*(.+)] *)
Definition company_pattern : re :=
  RSeq (RAlt (word_ci (py "company")) (RAlt (word_ci (py "business")) (word_ci (py "from"))))
    (RSeq (lit 58) (RSeq (RStar space) (RGroup (plus dot)))).

(** [\d{1,3}] as nested greedy options, which try three, two, then one
    digit, the order of [sre]'s [MAX_REPEAT 1 3]. *)
Definition digits_1_3 : re := RSeq digit (opt (RSeq digit (opt digit))).

(** The group of the amount pattern: [\d{1,3}(?:,\d{3})*(?:\.\d{2})?] *)
Definition amount_digits : re :=
  RSeq digits_1_3
    (RSeq (RStar (RSeq (lit 44) (RSeq digit (RSeq digit digit))))
          (opt (RSeq (lit 46) (RSeq digit digit)))).

(** [\$?\s*(\d{1,3}(?:,\d{3})*(?:\.\d{2})?)] *)
Definition amount_pattern : re :=
  RSeq (opt (lit 36)) (RSeq (RStar space) (RGroup amount_digits)).

(** [company_match.group(1) if company_match else ""], and the same for
    the amount ([src/rename_invoices.py] lines 72-73). *)
Definition search_group (r : re) (text : pystr) : pystr :=
  match search r text with
  | Some m => match group1 m with Some g => g | None => [] end
  | None => []
  end.

(** ** The language of a pattern

    The strings a pattern denotes, the reference the matcher is proved
    against.  An iteration of [RStar] is non-empty: dropping the empty
    iterations of a derivation does not change the string, so this is the
    usual language of the pattern. *)
Inductive in_lang : re -> pystr -> Prop :=
  | L_eps : in_lang REps []
  | L_class (p : char -> bool) (c : char) : p c = true -> in_lang (RClass p) [c]
  | L_seq r1 r2 u1 u2 : in_lang r1 u1 -> in_lang r2 u2 -> in_lang (RSeq r1 r2) (u1 ++ u2)
  | L_alt_l r1 r2 u : in_lang r1 u -> in_lang (RAlt r1 r2) u
  | L_alt_r r1 r2 u : in_lang r2 u -> in_lang (RAlt r1 r2) u
  | L_star_nil r : in_lang (RStar r) []
  | L_star_cons r u1 u2 :
      u1 <> [] -> in_lang r u1 -> in_lang (RStar r) u2 -> in_lang (RStar r) (u1 ++ u2)
  | L_group r u : in_lang r u -> in_lang (RGroup r) u.

(** The characters some class of the pattern accepts. *)
Fixpoint re_chars (r : re) (c : char) : bool :=
  match r with
  | REps => false
  | RClass p => p c
  | RSeq r1 r2 | RAlt r1 r2 => re_chars r1 c || re_chars r2 c
  | RStar r1 | RGroup r1 => re_chars r1 c
  end.

(** A lower bound on the length of the strings of a pattern. *)
Fixpoint min_len (r : re) : nat :=
  match r with
  | REps | RStar _ => 0
  | RClass _ => 1
  | RSeq r1 r2 => min_len r1 + min_len r2
  | RAlt r1 r2 => Nat.min (min_len r1) (min_len r2)
  | RGroup r1 => min_len r1
  end%nat.

(** The body of the group a pattern ends with, for patterns of the form
    [prefix (body)] as both patterns of the code are. *)
Fixpoint group_body (r : re) : option re :=
  match r with
  | RGroup b => Some b
  | RSeq _ r2 => group_body r2
  | _ => None
  end.

(** A suffix of the text that starts with a string of the pattern's
    language. *)
Definition matches_at (r : re) (t1 : pystr) : Prop :=
  exists u s', t1 = u ++ s' /\ in_lang r u.

(** What a match found: a prefix of the text in the language of the
    pattern, and a call of the continuation on the rest. *)
Definition found (r : re) (s : pystr) (k : cont) (m : mres) : Prop :=
  exists u s' cap', s = u ++ s' /\ in_lang r u /\ k s' cap' = Some m.

(** ** Lemmas of the matcher *)

(** Two continuations that agree everywhere. *)
Definition cont_eq (k1 k2 : cont) : Prop := forall s c, k1 s c = k2 s c.

Section StarLoop.
  Variable body : pystr -> capture -> cont -> option mres.
  Hypothesis body_ext : forall s cap k1 k2, cont_eq k1 k2 -> body s cap k1 = body s cap k2.

Lemma star_loop_ext (f : nat) (s : pystr) (cap : capture) (k1 k2 : cont) :
    cont_eq k1 k2 -> star_loop body f s cap k1 = star_loop body f s cap k2.
  Proof using body_ext.
    intros Hk. revert s cap. induction f as [|f IH]; intros s cap; simpl; [apply Hk|].
    rewrite (body_ext s cap _ (fun s' cap' =>
      if (length s' <? length s)%nat then star_loop body f s' cap' k2 else None)).
    - destruct (body _ _ _); [done | apply Hk].
    - intros s' c. by rewrite IH.
  Qed.

  (** Any fuel above the length of the text gives the same result. *)
Lemma star_loop_fuel (f1 f2 : nat) (s : pystr) (cap : capture) (k : cont) :
    (length s < f1)%nat -> (length s < f2)%nat ->
    star_loop body f1 s cap k = star_loop body f2 s cap k.
  Proof using body_ext.
    revert f2 s cap. induction f1 as [|f1 IH]; intros [|f2] s cap H1 H2; try lia; simpl.
    erewrite body_ext; [done|]. intros s' c.
    destruct (Nat.ltb_spec (length s') (length s)); [|done]. apply IH; lia.
  Qed.
End StarLoop.

Lemma mtch_ext (r : re) (s : pystr) (cap : capture) (k1 k2 : cont) :
  cont_eq k1 k2 -> mtch r s cap k1 = mtch r s cap k2.
Proof.
  revert s cap k1 k2.
  induction r as [| p | r1 IH1 r2 IH2 | r1 IH1 r2 IH2 | r1 IH | r1 IH];
    intros s cap k1 k2 Hk; cbn [mtch].
  - apply Hk.
  - destruct s as [|c s]; [done|]. destruct (p c); [apply Hk | done].
  - apply IH1. intros s' c. by apply IH2.
  - rewrite (IH1 s cap k1 k2 Hk). destruct (mtch r1 s cap k2); [done|]. by apply IH2.
  - apply star_loop_ext; [|done]. intros; by apply IH.
  - apply IH. intros s' c. apply Hk.
Qed.

(** The fuel of [RStar] is never the limit: a repetition unfolds into one
    greedy iteration that must consume, or the rest of the match. *)
Lemma mtch_star_unfold (r : re) (s : pystr) (cap : capture) (k : cont) :
  mtch (RStar r) s cap k =
    match mtch r s cap (fun s' cap' =>
            if (length s' <? length s)%nat then mtch (RStar r) s' cap' k else None) with
    | Some m => Some m
    | None => k s cap
    end.
Proof.
  change (mtch (RStar r) s cap k) with (star_loop (mtch r) (S (length s)) s cap k).
  cbn [star_loop]. erewrite mtch_ext; [done|]. intros s' c.
  destruct (Nat.ltb_spec (length s') (length s)); [|done].
  apply star_loop_fuel; [intros; by apply mtch_ext | lia | simpl; lia].
Qed.

Lemma star_loop_sound (r : re) (f : nat) (s : pystr) (cap : capture) (k : cont) (m : mres) :
  (forall s cap k m, mtch r s cap k = Some m -> found r s k m) ->
  star_loop (mtch r) f s cap k = Some m -> found (RStar r) s k m.
Proof.
  intros IH. revert s cap. induction f as [|f IHf]; intros s cap; cbn [star_loop].
  - intros Hk. exists [], s, cap. split_and!; [done | constructor | done].
  - destruct (mtch r s cap _) eqn:E.
    + intros [= <-]. apply IH in E as (u1 & s1 & c1 & -> & Hu1 & Hk).
      destruct (Nat.ltb_spec (length s1) (length (u1 ++ s1))) as [Hlt|]; [|done].
      apply IHf in Hk as (u2 & s' & c' & -> & Hu2 & Hk).
      exists (u1 ++ u2), s', c'. split_and!; [by rewrite app_assoc | | done].
      constructor; [|done..]. intros ->. simpl in Hlt. lia.
    + intros Hk. exists [], s, cap. split_and!; [done | constructor | done].
Qed.

Lemma mtch_sound (r : re) (s : pystr) (cap : capture) (k : cont) (m : mres) :
  mtch r s cap k = Some m -> found r s k m.
Proof.
  revert s cap k m.
  induction r as [| p | r1 IH1 r2 IH2 | r1 IH1 r2 IH2 | r1 IH | r1 IH];
    intros s cap k m; [cbn [mtch] ..| |cbn [mtch]].
  - intros Hk. exists [], s, cap. split_and!; [done | constructor | done].
  - destruct s as [|c s]; [done|]. destruct (p c) eqn:Hp; [|done].
    intros Hk. exists [c], s, cap. split_and!; [done | by constructor | done].
  - intros (u1 & s1 & c1 & -> & H1 & (u2 & s2 & c2 & -> & H2 & Hk)%IH2)%IH1.
    exists (u1 ++ u2), s2, c2. split_and!; [by rewrite app_assoc | by constructor | done].
  - destruct (mtch r1 s cap k) eqn:E.
    + intros [= <-]. apply IH1 in E as (u & s' & c' & -> & Hu & Hk).
      exists u, s', c'. split_and!; [done | by constructor | done].
    + intros (u & s' & c' & -> & Hu & Hk)%IH2.
      exists u, s', c'. split_and!; [done | by apply L_alt_r | done].
  - apply star_loop_sound, IH.
  - intros (u & s' & c' & -> & Hu & Hk)%IH.
    exists u, s', (Some (u ++ s', s')). split_and!; [done | by constructor | done].
Qed.

Lemma star_loop_total (body : pystr -> capture -> cont -> option mres) (f : nat)
    (s : pystr) (cap : capture) (k : cont) :
  k s cap <> None -> star_loop body f s cap k <> None.
Proof. destruct f; cbn [star_loop]; [done|]. by destruct (body _ _ _). Qed.

(** The backtracking explores every way of matching: a prefix in the
    language of the pattern followed by a text the continuation accepts
    is always found. *)
Lemma mtch_complete (r : re) (u : pystr) :
  in_lang r u -> forall s' cap k, (forall c, k s' c <> None) -> mtch r (u ++ s') cap k <> None.
Proof.
  induction 1 as [| p c Hp | r1 r2 u1 u2 _ IH1 _ IH2 | r1 r2 u _ IH | r1 r2 u _ IH
                 | r | r u1 u2 Hne _ IH1 _ IH2 | r u _ IH];
    intros s' cap k Hk.
  - apply Hk.
  - cbn. rewrite Hp. apply Hk.
  - cbn [mtch]. rewrite <- app_assoc. apply IH1. intros c. by apply IH2.
  - cbn [mtch]. destruct (mtch r1 _ cap k) eqn:E; [done|]. by apply IH in E.
  - cbn [mtch]. destruct (mtch r1 _ cap k); [done|]. by apply IH.
  - apply star_loop_total, Hk.
  - rewrite mtch_star_unfold, <- app_assoc.
    destruct (mtch r _ cap _) eqn:E; [done|]. exfalso. revert E. apply IH1. intros c.
    destruct (Nat.ltb_spec (length (u2 ++ s')) (length (u1 ++ u2 ++ s'))) as [_|Hge].
    + by apply IH2.
    + destruct u1; [done|]. simpl in Hge. rewrite !length_app in Hge. lia.
  - cbn [mtch]. apply IH. intros c. apply Hk.
Qed.

(** [search] returns the leftmost position where the pattern matches. *)
Lemma search_spec (r : re) (t t0 : pystr) (m : mres) :
  search r t = Some (t0, m) ->
  match_at r t0 = Some m /\
  exists p, t = p ++ t0 /\
    forall p1 t1, t = p1 ++ t1 -> (length p1 < length p)%nat -> match_at r t1 = None.
Proof.
  revert t0 m. induction t as [|c t IH]; intros t0 m; cbn [search];
    destruct (match_at r _) eqn:E.
  - intros [= <- <-]. split; [done|]. exists []. split; [done|]. simpl; lia.
  - done.
  - intros [= <- <-]. split; [done|]. exists []. split; [done|]. simpl; lia.
  - intros (Hm & p & -> & Hfirst)%IH. split; [done|]. exists (c :: p). split; [done|].
    intros [|c1 p1] t1 Ht Hlen; simplify_eq/=; [done|]. apply (Hfirst p1); [done | lia].
Qed.

Lemma search_complete (r : re) (p t1 : pystr) :
  match_at r t1 <> None -> search r (p ++ t1) <> None.
Proof.
  intros Hm. induction p as [|c p IH]; cbn [app].
  - destruct (match_at r t1) eqn:E; [|done].
    destruct t1; cbn [search]; rewrite E; done.
  - cbn [search]. destruct (match_at r (c :: p ++ t1)); [done | apply IH].
Qed.

(** ** Lemmas of the language *)

Lemma in_lang_chars (r : re) (u : pystr) :
  in_lang r u -> Forall (fun c => re_chars r c = true) u.
Proof.
  induction 1; cbn [re_chars]; rewrite ?Forall_app; repeat constructor;
    try (eapply Forall_impl; [done|]; intros ? ->; rewrite ?orb_true_r; done); done.
Qed.

Lemma in_lang_min_len (r : re) (u : pystr) : in_lang r u -> (min_len r <= length u)%nat.
Proof. induction 1; cbn [min_len length]; rewrite ?length_app; lia. Qed.

Lemma in_lang_seq (r1 r2 : re) (u1 u2 u : pystr) :
  in_lang r1 u1 -> in_lang r2 u2 -> u = u1 ++ u2 -> in_lang (RSeq r1 r2) u.
Proof. intros ? ? ->. by constructor. Qed.

(** A match of a pattern ending in a group: the group's text is in the
    language of the group's body, and the capture is that text. *)
Lemma mtch_group_body (r b : re) (s : pystr) (cap : capture) (k : cont) (m : mres) :
  group_body r = Some b -> mtch r s cap k = Some m ->
  exists pre g s', s = pre ++ g ++ s' /\ in_lang b g /\ k s' (Some (g ++ s', s')) = Some m.
Proof.
  revert s cap k m. induction r as [| | r1 _ r2 IH2 | | | r1 _]; intros s cap k m;
    cbn [group_body]; try done.
  - intros Hb H. cbn [mtch] in H.
    apply mtch_sound in H as (u & s1 & c1 & -> & _ & Hm). cbv beta in Hm.
    destruct (IH2 _ _ _ _ Hb Hm) as (pre & g & s' & -> & Hg & Hk).
    exists (u ++ pre), g, s'. by rewrite <- app_assoc.
  - intros [= <-] H. cbn [mtch] in H.
    apply mtch_sound in H as (g & s' & c' & -> & Hg & Hk). by exists [], g, s'.
Qed.

Lemma group1_capture (t g s' : pystr) :
  group1 (t, (s', Some (g ++ s', s'))) = Some g.
Proof.
  unfold group1. cbn [fst snd]. rewrite length_app, Nat.add_sub, take_app_length. done.
Qed.

(** What [search_group] returns for a pattern ending in a group: nothing
    when there is no match, otherwise a piece of the text in the language
    of the group's body. *)
Lemma search_group_sound (r b : re) (t : pystr) :
  group_body r = Some b ->
  (search r t = None /\ search_group r t = []) \/
  (exists pre post, t = pre ++ search_group r t ++ post /\ in_lang b (search_group r t)).
Proof.
  intros Hb. unfold search_group. destruct (search r t) as [[t0 [s' cap]]|] eqn:Hs;
    [right | by left].
  apply search_spec in Hs as (Hm & p & -> & _).
  destruct (mtch_group_body r b t0 None _ _ Hb Hm) as (pre & g & s1 & -> & Hg & Hk).
  injection Hk as <- <-. rewrite group1_capture.
  exists (p ++ pre), s1. by rewrite <- !app_assoc.
Qed.

(** A match at some position makes [search_group] return the group of
    the leftmost match. *)
Lemma search_group_found (r b : re) (p t1 : pystr) :
  group_body r = Some b -> match_at r t1 <> None ->
  in_lang b (search_group r (p ++ t1)).
Proof.
  intros Hb Hm. destruct (search_group_sound r b (p ++ t1) Hb) as [[Hs _]|(_ & _ & _ & Hg)];
    [|done].
  by apply (search_complete r p) in Hm.
Qed.

(** The matcher succeeds at a position exactly when a prefix of the text
    there is in the language of the pattern. *)
Lemma match_at_iff (r : re) (s : pystr) :
  match_at r s <> None <-> matches_at r s.
Proof.
  split.
  - destruct (match_at r s) as [m|] eqn:Hm; [intros _ | done].
    apply mtch_sound in Hm as (u & s' & _ & -> & Hu & _). by exists u, s'.
  - intros (u & s' & -> & Hu). apply (mtch_complete r u Hu). done.
Qed.

(** ** The two patterns *)

Lemma amount_digits_chars (c : char) :
  re_chars amount_digits c = true -> is_decimal c || (c =? 44) || (c =? 46) = true.
Proof.
  cbn -[is_decimal]. destruct (is_decimal c), (c =? 44), (c =? 46); done.
Qed.

(** A text of the amount group starts with a decimal digit. *)
Lemma amount_digits_head (g : pystr) :
  in_lang amount_digits g -> exists d g', g = d :: g' /\ is_decimal d = true.
Proof.
  intros H. inversion H as [| | ? ? u1 u2 H1 _ | | | | |]; subst.
  apply in_lang_chars in H1 as Hc. apply in_lang_min_len in H1.
  destruct u1 as [|d u1]; [cbn in H1; lia|].
  apply Forall_cons in Hc as [Hd _]. exists d, (u1 ++ u2). split; [done|].
  cbn -[is_decimal] in Hd. by destruct (is_decimal d).
Qed.

(** A single decimal digit is an amount. *)
Lemma amount_pattern_digit (d : char) (s : pystr) :
  is_decimal d = true -> match_at amount_pattern (d :: s) <> None.
Proof.
  intros Hd. apply (mtch_complete amount_pattern [d]); [|done].
  eapply in_lang_seq; [apply L_alt_r, L_eps | | done].
  eapply in_lang_seq; [apply L_star_nil | | done].
  apply L_group. eapply in_lang_seq; [| | by rewrite app_nil_r].
  - eapply in_lang_seq; [by apply L_class | apply L_alt_r, L_eps | done].
  - eapply in_lang_seq; [apply L_star_nil | apply L_alt_r, L_eps | done].
Qed.

(** A match of a sequence: a prefix in the language of the first
    pattern, then the second pattern matched on the rest. *)
Lemma mtch_seq (r1 r2 : re) (s : pystr) (cap : capture) (k : cont) (m : mres) :
  mtch (RSeq r1 r2) s cap k = Some m ->
  exists u1 s1 c1, s = u1 ++ s1 /\ in_lang r1 u1 /\ mtch r2 s1 c1 k = Some m.
Proof. cbn [mtch]. intros (u & s' & c' & -> & Hu & Hk)%mtch_sound. by exists u, s', c'. Qed.

(** No white-space character is a decimal digit. *)
Lemma isspace_not_decimal (c : char) : isspace c = true -> is_decimal c = false.
Proof.
  intros Hs. destruct (N.lt_ge_cases c 12289) as [Hc | Hc].
  - revert c Hc Hs. apply (forallb_N_below (fun c => isspace c = true -> is_decimal c = false)).
    by vm_compute.
  - exfalso. unfold isspace in Hs.
    rewrite !orb_true_iff, !andb_true_iff, !N.eqb_eq, !N.leb_le in Hs. lia.
Qed.

(** What comes before the amount group ([\$?\s*]) holds no digit. *)
Lemma amount_prefix_no_digit (u1 u2 : pystr) :
  in_lang (opt (lit 36)) u1 -> in_lang (RStar space) u2 ->
  Forall (fun c => is_decimal c = false) (u1 ++ u2).
Proof.
  intros H1%in_lang_chars H2%in_lang_chars. apply Forall_app. split.
  - eapply Forall_impl; [exact H1|]. cbn. intros c Hc.
    rewrite orb_false_r in Hc. by apply N.eqb_eq in Hc as ->.
  - eapply Forall_impl; [exact H2|]. apply isspace_not_decimal.
Qed.

(** Two texts without digits before a digit are the same text. *)
Lemma first_digit_unique (x y a b : pystr) (da db : char) :
  Forall (fun c => is_decimal c = false) x -> Forall (fun c => is_decimal c = false) y ->
  is_decimal da = true -> is_decimal db = true -> x ++ da :: a = y ++ db :: b ->
  x = y /\ da :: a = db :: b.
Proof.
  revert y. induction x as [|cx x IH]; intros [|cy y] Hx Hy Ha Hb Heq; simpl in Heq.
  - done.
  - injection Heq as -> _. apply Forall_cons in Hy as [Hy _]. congruence.
  - injection Heq as <- _. apply Forall_cons in Hx as [Hx _]. congruence.
  - injection Heq as -> Heq. apply Forall_cons in Hx as [_ Hx]. apply Forall_cons in Hy as [_ Hy].
    destruct (IH y Hx Hy Ha Hb Heq) as [-> ->]. done.
Qed.

(** On four digits, the greedy [\d{1,3}] takes three, and neither
    [,\d{3}] nor [\.\d{2}] can follow: the group ends before the
    fourth digit. *)
Lemma amount_group_four_digits (d1 d2 d3 d4 : char) (rest : pystr) (cap : capture) :
  is_decimal d1 = true -> is_decimal d2 = true -> is_decimal d3 = true -> is_decimal d4 = true ->
  mtch (RGroup amount_digits) (d1 :: d2 :: d3 :: d4 :: rest) cap (fun s' c => Some (s', c)) =
    Some (d4 :: rest, Some (d1 :: d2 :: d3 :: d4 :: rest, d4 :: rest)).
Proof.
  intros H1 H2 H3 H4.
  assert (Hc : forall n, is_decimal n = false -> (d4 =? n) = false)
    by (intros n Hn; apply N.eqb_neq; intros ->; congruence).
  cbn -[is_decimal length]. rewrite H1, H2, H3, H4, Hc by done. cbn -[is_decimal length].
  by rewrite Hc by done.
Qed.

Lemma company_line_chars (g : pystr) : in_lang (plus dot) g -> g <> [] /\ ch_nl ∉ g.
Proof.
  intros H. split.
  - apply in_lang_min_len in H. intros ->. cbn in H. lia.
  - apply in_lang_chars in H. rewrite Forall_forall in H. intros Hin%H.
    by vm_compute in Hin.
Qed.

End Regex.

Import Regex.

(** [re.search] returns the leftmost position of the text where the
    pattern matches, and fails only when it matches nowhere. *)
Theorem search_leftmost (r : re) (t : pystr) :
  match search r t with
  | None => forall p t1, t = p ++ t1 -> ~ matches_at r t1
  | Some (t0, (s', _)) =>
      exists p u, t = p ++ t0 /\ t0 = u ++ s' /\ in_lang r u /\
        forall p1 t1, t = p1 ++ t1 -> (length p1 < length p)%nat -> ~ matches_at r t1
  end.
Proof.
  destruct (search r t) as [[t0 [s' cap]]|] eqn:Hs.
  - apply search_spec in Hs as (Hm & p & Ht & Hfirst).
    pose proof Hm as (u & s1 & c1 & -> & Hu & Hk)%mtch_sound. injection Hk as <- _.
    exists p, u. split_and!; [done..|]. intros p1 t1 Ht1 Hlen Hma.
    apply match_at_iff in Hma. by apply Hma, (Hfirst p1).
  - intros p t1 -> Hma. apply match_at_iff in Hma.
    by apply (search_complete r p) in Hma.
Qed.

(** C18: The OCR fallback finds no amount exactly when the OCR text
    contains no decimal digit: any digit anywhere, an invoice number or a
    date included, yields a non-empty amount. *)
Theorem ocr_amount_found_iff_digit (t : pystr) :
  search_group amount_pattern t <> [] <-> exists d, d ∈ t /\ is_decimal d = true.
Proof.
  split.
  - destruct (search_group_sound amount_pattern amount_digits t eq_refl)
      as [[_ ->]|(pre & post & Ht & Hg)]; [done | intros _].
    apply amount_digits_head in Hg as (d & g' & Hdg & Hd).
    exists d. split; [|done]. rewrite Ht, Hdg, !elem_of_app, elem_of_cons. auto.
  - intros (d & (p & s & ->)%list_elem_of_split & Hd).
    pose proof (search_group_found amount_pattern amount_digits p (d :: s) eq_refl
      (amount_pattern_digit d s Hd)) as Hg.
    apply amount_digits_head in Hg as (d' & g' & -> & _). done.
Qed.

(** C19: The amount the OCR fallback extracts is a piece of the OCR text
    made of decimal digits, commas and periods only. *)
Theorem ocr_amount_chars (t : pystr) :
  (exists pre post, t = pre ++ search_group amount_pattern t ++ post) /\
  Forall (fun c => is_decimal c || (c =? 44) || (c =? 46) = true)
    (search_group amount_pattern t).
Proof.
  destruct (search_group_sound amount_pattern amount_digits t eq_refl)
    as [[_ ->]|(pre & post & Ht & Hg)].
  - split; [by exists t, []; rewrite app_nil_r | constructor].
  - split; [by exists pre, post|].
    eapply Forall_impl; [by apply in_lang_chars | apply amount_digits_chars].
Qed.

(** C20: The company name the OCR fallback extracts is a piece of one line
    of the OCR text: it never contains a newline. *)
Theorem ocr_company_single_line (t : pystr) :
  (exists pre post, t = pre ++ search_group company_pattern t ++ post) /\
  ch_nl ∉ search_group company_pattern t.
Proof.
  destruct (search_group_sound company_pattern (plus dot) t eq_refl)
    as [[_ ->]|(pre & post & Ht & Hg)].
  - split; [by exists t, []; rewrite app_nil_r | apply not_elem_of_nil].
  - split; [by exists pre, post|]. by apply company_line_chars.
Qed.

(** C29: The amount pattern cuts amounts written without thousands
    separators and takes the first digits of the text, wherever they are:
    when the first decimal digit of the OCR text starts a run of four or
    more digits (an amount [1234.56] written without a comma, or an
    invoice number or a date before the total), the amount is the first
    three digits of that run. *)
Theorem ocr_amount_truncates (p : pystr) (d1 d2 d3 d4 : char) (rest : pystr) :
  Forall (fun c => is_decimal c = false) p ->
  is_decimal d1 = true -> is_decimal d2 = true -> is_decimal d3 = true -> is_decimal d4 = true ->
  search_group amount_pattern (p ++ d1 :: d2 :: d3 :: d4 :: rest) = [d1; d2; d3].
Proof.
  intros Hp H1 H2 H3 H4. set (D := d1 :: d2 :: d3 :: d4 :: rest).
  assert (HD : match_at amount_pattern D <> None) by (apply amount_pattern_digit, H1).
  unfold search_group. destruct (search amount_pattern (p ++ D)) as [[t0 m]|] eqn:Hs;
    [|by apply (search_complete amount_pattern p) in HD].
  apply search_spec in Hs as (Hm & pp & Ht & Hfirst).
  assert (Hle : (length pp <= length p)%nat).
  { destruct (Nat.le_gt_cases (length pp) (length p)) as [|Hgt]; [done|].
    by specialize (Hfirst p D eq_refl Hgt). }
  assert (Ht0 : t0 = drop (length pp) p ++ D).
  { rewrite <- drop_app_le by done. rewrite Ht, drop_app_length. done. }
  assert (Hq : Forall (fun c => is_decimal c = false) (drop (length pp) p))
    by (apply Forall_drop, Hp).
  unfold match_at, amount_pattern in Hm.
  apply mtch_seq in Hm as (u1 & s1 & c1 & Hs1 & Hu1 & Hm).
  apply mtch_seq in Hm as (u2 & s2 & c2 & -> & Hu2 & Hm).
  pose proof Hm as Hg. cbn [mtch] in Hg. apply mtch_sound in Hg as (g & s' & c' & Hs2 & Hgl & _).
  apply amount_digits_head in Hgl as (dg & g' & -> & Hdg).
  rewrite Hs2 in Hs1. rewrite Ht0, app_assoc in Hs1.
  destruct (first_digit_unique _ _ _ _ _ _ Hq (amount_prefix_no_digit u1 u2 Hu1 Hu2) H1 Hdg Hs1)
    as [_ HDs].
  assert (Hs2D : s2 = D) by (rewrite Hs2; symmetry; exact HDs).
  rewrite Hs2D in Hm. unfold D in Hm. rewrite amount_group_four_digits in Hm by done.
  injection Hm as <-. unfold group1. cbn [fst snd length].
  replace (S (S (S (S (length rest)))) - S (length rest))%nat with 3%nat by lia. done.
Qed.

Lemma ocr_amount_truncates_witness :
  let p := py "Invoice #" in let rest := py "-001 Total $45.00" in
  Forall (fun c => is_decimal c = false) p /\
  search_group amount_pattern (p ++ 50 :: 48 :: 50 :: 52 :: rest) = [50; 48; 50].
Proof.
  intros p rest. assert (Hp : Forall (fun c => is_decimal c = false) p)
    by (cbv [p py of_string]; repeat (constructor; [vm_compute; reflexivity|]); constructor).
  split; [exact Hp | apply (ocr_amount_truncates p 50 48 50 52 rest Hp); vm_compute; reflexivity].
Defined.

(** [\d] is [str.isdecimal]: an amount written in Arabic-Indic digits
    (U+0661 U+0662 U+0663 after ["Total: "]) is found and carried
    unchanged into the file name, where the specification (4.3) speaks of
    digits. *)
Example ocr_amount_unicode_digits :
  search_group amount_pattern (py "Total: " ++ [1633; 1634; 1635]) = [1633; 1634; 1635].
Proof. vm_compute. reflexivity. Qed.

(** The company pattern matches inside a line and across blank lines:
    ["Paid from: Bob"] gives ["Bob"], a label followed by blank lines
    takes the next non-blank line, and a label followed only by spaces
    gives one space, which [strip] turns into the empty name. *)
Example ocr_company_examples :
  search_group company_pattern (py "Paid from: Bob") = py "Bob" /\
  search_group company_pattern (py "Company:" ++ [10; 10] ++ py "Acme") = py "Acme" /\
  search_group company_pattern (py "COMPANY:   ") = py " ".
Proof. split_and!; vm_compute; reflexivity. Qed.
