(* ===== verification/World.v ===== *)
(** * The outside world: file system, standard output and the monad

    The pipeline's effects go through [os], [os.path], [shutil], [open]
    and [print].  This file models them over an explicit state [world]: a
    file system (a finite map from resolved paths to files and
    directories), the current working directory, and the lines printed so
    far.  A Python statement that may raise is a function of the world
    returning a result and the world after it ([M]); an exception keeps
    the effects made before it, as in Python.

    Path strings are resolved as POSIX does without symbolic links: split
    at ["/"], from the root for an absolute path and from the working
    directory otherwise; [""] and ["."] stay, [".."] goes to the parent;
    every component but the last must be an existing directory.  A
    resolved path is the list of its components, innermost first, so that
    the parent of [c :: p] is [p].

    The operations follow CPython: [os.path.exists], [os.path.isdir],
    [open(p, "rb").read()], [open(p, "wb").write], [os.remove],
    [os.mkdir], [os.makedirs] (the recursion of [Lib/os.py] over
    [posixpath.split]), [os.listdir], [os.rename] and [shutil.move]
    ([Lib/shutil.py]).  [os.listdir] returns the entries in the map's key
    order: the real order is the file system's, so no theorem of the
    development depends on it.  Moving a directory is not modelled (it
    raises [OSError] here): the pipeline moves a listed entry only after
    reading it as a file.

    Besides the invariant [wf] and its preservation, the file holds the
    frame lemmas the pipeline's theorems compose: resolution is stable
    under changes that keep every directory ([keeps_dirs],
    [resolve_mono]), joined names resolve under their directory
    ([resolve_join]), and [shutil.move] of a file either fails with the
    world unchanged or moves its bytes ([move_file]); and the layout
    theorem [folder_layout] for [os.makedirs]. *)

From S2P Require Import Prelude PyStr.
From stdpp Require Export gmap.

Open Scope N_scope.

Module World.

(** ** State *)

Definition bytes := list N.

(** A resolved path: its components, innermost first. *)
Definition path := list pystr.

Inductive node := File (data : bytes) | Dir.

#[export] Instance node_eq_dec : EqDecision node.
Proof. solve_decision. Defined.

(** A printed line: a constant text, or an f-string around [str(e)]. *)
Inductive line :=
  | Line (text : pystr)
  | LineExn (prefix : pystr) (e : exn) (suffix : pystr).

Record world := mkWorld {
  fs : gmap path node;
  cwd : path;
  out : list line
}.

Definition set_fs (w : world) (m : gmap path node) : world := mkWorld m (cwd w) (out w).

(** ** The monad of Python statements *)

Definition M (A : Type) : Type := world -> res A * world.

#[export] Instance M_ret : MRet M := fun A a w => (Ok a, w).
#[export] Instance M_bind : MBind M := fun A B f m w =>
  match m w with
  | (Ok a, w') => f a w'
  | (Err e, w') => (Err e, w')
  end.

Definition throw {A} (e : exn) : M A := fun w => (Err e, w).

(** [try: m except Exception as e: h(e)] *)
Definition try_except {A} (m : M A) (h : exn -> M A) : M A := fun w =>
  match m w with
  | (Ok a, w') => (Ok a, w')
  | (Err e, w') => h e w'
  end.

(** [try: m finally: f]: [f] runs on both paths; an exception of [f]
    replaces the outcome of [m]. *)
Definition try_finally {A} (m : M A) (f : M unit) : M A := fun w =>
  match m w with
  | (r, w') =>
      match f w' with
      | (Ok _, w'') => (r, w'')
      | (Err e, w'') => (Err e, w'')
      end
  end.

(** A Python result lifted into the monad. *)
Definition lift {A} (r : res A) : M A := fun w => (r, w).

Definition print (l : line) : M unit := fun w =>
  (Ok tt, mkWorld (fs w) (cwd w) (out w ++ [l])).

(** Unfold the monad's combinators. *)
(** Two resolved paths of different lengths or with different
    components are different. *)
Ltac path_neq :=
  let E := fresh in
  intros E; first [apply (f_equal length) in E; simpl in E; lia | injection E; intros; discriminate].

Ltac munfold := unfold mbind, mret, M_bind, M_ret, try_except, try_finally, lift, throw in *.

(** ** Path resolution *)

Definition lit_dot : pystr := [ch_dot].
Definition lit_dotdot : pystr := [ch_dot; ch_dot].

(** [s.split("/")] *)
Fixpoint split_slash (s : pystr) : list pystr :=
  match s with
  | [] => [[]]
  | c :: s' =>
      if c =? ch_slash then [] :: split_slash s'
      else match split_slash s' with
           | [] => [[c]]
           | x :: xs => (c :: x) :: xs
           end
  end.

(** The root always exists and is a directory. *)
Definition node_at (m : gmap path node) (p : path) : option node :=
  match p with [] => Some Dir | _ => m !! p end.

(** One component of a path, from the directory [cur]. *)
Definition step (cur : path) (c : pystr) : path :=
  if bool_decide (c = []) || bool_decide (c = lit_dot) then cur
  else if bool_decide (c = lit_dotdot) then tail cur
  else c :: cur.

Fixpoint walk (m : gmap path node) (cur : path) (comps : list pystr) : res path :=
  match comps with
  | [] => Ok cur
  | c :: cs =>
      match cs with
      | [] => Ok (step cur c)
      | _ :: _ =>
          match node_at m (step cur c) with
          | Some Dir => walk m (step cur c) cs
          | Some (File _) => Err NotADirectoryError
          | None => Err FileNotFoundError
          end
      end
  end.

Definition resolve (w : world) (s : pystr) : res path :=
  match s with
  | [] => Err FileNotFoundError
  | c :: _ => walk (fs w) (if c =? ch_slash then [] else cwd w) (split_slash s)
  end.

(** ** Queries *)

Definition lookup_path (w : world) (s : pystr) : option node :=
  match resolve w s with Ok p => node_at (fs w) p | Err _ => None end.

(** [os.path.exists(s)]: [False] also when resolution fails. *)
Definition exists_b (w : world) (s : pystr) : bool :=
  match lookup_path w s with Some _ => true | None => false end.

Definition os_path_exists (s : pystr) : M bool := fun w => (Ok (exists_b w s), w).

Definition isdir_b (w : world) (s : pystr) : bool :=
  bool_decide (lookup_path w s = Some Dir).

(** [open(s, "rb").read()] *)
Definition read_bytes (s : pystr) : M bytes := fun w =>
  match resolve w s with
  | Err e => (Err e, w)
  | Ok p =>
      match node_at (fs w) p with
      | Some (File d) => (Ok d, w)
      | Some Dir => (Err IsADirectoryError, w)
      | None => (Err FileNotFoundError, w)
      end
  end.

(** [open(s, "wb").write(d)]: creates or truncates a file. *)
Definition write_bytes (s : pystr) (d : bytes) : M unit := fun w =>
  match resolve w s with
  | Err e => (Err e, w)
  | Ok p =>
      match node_at (fs w) p with
      | Some Dir => (Err IsADirectoryError, w)
      | _ => (Ok tt, set_fs w (<[p := File d]> (fs w)))
      end
  end.

(** [os.remove(s)] *)
Definition os_remove (s : pystr) : M unit := fun w =>
  match resolve w s with
  | Err e => (Err e, w)
  | Ok p =>
      match node_at (fs w) p with
      | Some (File _) => (Ok tt, set_fs w (delete p (fs w)))
      | Some Dir => (Err IsADirectoryError, w)
      | None => (Err FileNotFoundError, w)
      end
  end.

(** Trailing separators of a directory name, which [mkdir] accepts. *)
Definition rstrip_slash (s : pystr) : pystr :=
  match rev (drop_while (fun c => c =? ch_slash) (rev s)) with
  | [] => match s with [] => [] | _ :: _ => [ch_slash] end
  | s' => s'
  end.

(** [os.mkdir(s)] *)
Definition os_mkdir (s : pystr) : M unit := fun w =>
  match resolve w (rstrip_slash s) with
  | Err e => (Err e, w)
  | Ok p =>
      match node_at (fs w) p with
      | Some _ => (Err FileExistsError, w)
      | None => (Ok tt, set_fs w (<[p := Dir]> (fs w)))
      end
  end.

(** [posixpath.split(s)] *)
Definition path_split (s : pystr) : pystr * pystr :=
  let i := length (drop_while (fun c => negb (c =? ch_slash)) (rev s)) in
  let head := take i s in
  let tail := drop i s in
  let head' :=
    if bool_decide (head <> []) && negb (forallb (fun c => c =? ch_slash) head)
    then rev (drop_while (fun c => c =? ch_slash) (rev head)) else head in
  (head', tail).

(** [try: os.mkdir(s) except OSError: if not exist_ok or not
    os.path.isdir(s): raise] *)
Definition mkdir_exist_ok (s : pystr) (exist_ok : bool) : M unit :=
  try_except (os_mkdir s)
    (fun e w => if exist_ok && isdir_b w s then (Ok tt, w) else (Err e, w)).

(** [os.makedirs(s, exist_ok=e)], the recursion of [Lib/os.py]; the head
    of [path_split] is shorter than the name, so [length s] calls are
    enough. *)
Fixpoint makedirs_go (fuel : nat) (s : pystr) (exist_ok : bool) : M unit :=
  match fuel with
  | O => throw OSError
  | S f =>
      let '(head0, tail0) := path_split s in
      let '(head, tail) := if bool_decide (tail0 = []) then path_split head0 else (head0, tail0) in
      fun w =>
        if bool_decide (head <> []) && bool_decide (tail <> []) && negb (exists_b w head) then
          match try_except (makedirs_go f head exist_ok)
                  (fun e => if decide (e = FileExistsError) then mret tt else throw e) w with
          | (Err e, w1) => (Err e, w1)
          | (Ok _, w1) =>
              if bool_decide (tail = lit_dot) then (Ok tt, w1) else mkdir_exist_ok s exist_ok w1
          end
        else mkdir_exist_ok s exist_ok w
  end.

Definition os_makedirs (s : pystr) (exist_ok : bool) : M unit :=
  makedirs_go (S (length s)) s exist_ok.

(** The names of the entries of the directory [p]. *)
Definition children (m : gmap path node) (p : path) : list pystr :=
  omap (fun kv : path * node =>
          match kv.1 with c :: p' => if decide (p' = p) then Some c else None | [] => None end)
       (map_to_list m).

(** [os.listdir(s)] *)
Definition os_listdir (s : pystr) : M (list pystr) := fun w =>
  match resolve w s with
  | Err e => (Err e, w)
  | Ok p =>
      match node_at (fs w) p with
      | Some Dir => (Ok (children (fs w) p), w)
      | Some (File _) => (Err NotADirectoryError, w)
      | None => (Err FileNotFoundError, w)
      end
  end.

(** [os.rename(src, dst)] for a file: replaces a file at [dst]. *)
Definition os_rename (src dst : pystr) : M unit := fun w =>
  match resolve w src, resolve w dst with
  | Err e, _ | _, Err e => (Err e, w)
  | Ok p, Ok q =>
      match node_at (fs w) p with
      | None => (Err FileNotFoundError, w)
      | Some Dir => (Err OSError, w)
      | Some (File d) =>
          match node_at (fs w) q with
          | Some Dir => (Err IsADirectoryError, w)
          | _ => (Ok tt, set_fs w (<[q := File d]> (delete p (fs w))))
          end
      end
  end.

(** [os.path.basename] *)
Definition basename (s : pystr) : pystr := (path_split s).2.

(** [shutil.move(src, dst)]: into [dst] when it is a directory, refusing
    an existing entry there; otherwise a rename. *)
Definition shutil_move (src dst : pystr) : M unit := fun w =>
  if isdir_b w dst then
    let real := path_join dst (basename (rev (drop_while (fun c => c =? ch_slash) (rev src)))) in
    if exists_b w real then (Err ShutilError, w) else os_rename src real w
  else os_rename src dst w.

(** ** Well-formed worlds

    Every entry's parent is a directory, the root is not an entry, and the
    working directory is a directory. *)
Definition wf_fs (m : gmap path node) : Prop :=
  forall p n, m !! p = Some n -> p <> [] /\ node_at m (tail p) = Some Dir.

Definition wf (w : world) : Prop := wf_fs (fs w) /\ node_at (fs w) (cwd w) = Some Dir.

(** Well-formedness is decidable: a check of every entry of the map. *)
#[export] Instance wf_fs_dec (m : gmap path node) : Decision (wf_fs m).
Proof.
  refine (cast_if (decide (map_Forall (fun p _ => p <> [] /\ node_at m (tail p) = Some Dir) m)));
    unfold wf_fs; rewrite <- map_Forall_lookup; done.
Defined.

#[export] Instance wf_dec (w : world) : Decision (wf w).
Proof. unfold wf. apply _. Defined.

(** An operation keeps every well-formed world well formed. *)
Definition preserves {A} (m : M A) : Prop := forall w, wf w -> wf (m w).2.

Create HintDb wfdb discriminated.

(** The file system and the working directory are left as they are; only
    output may be added. *)
Definition readonly {A} (m : M A) : Prop := forall w, fs (m w).2 = fs w /\ cwd (m w).2 = cwd w.

Create HintDb rodb discriminated.

(** The value an operation returns, when it returns normally, satisfies
    [Q]: a postcondition on the result, whatever the world. *)
Definition has_post {A} (m : M A) (Q : A -> Prop) : Prop :=
  forall w, match (m w).1 with Ok a => Q a | Err _ => True end.

Create HintDb postdb discriminated.

(** A name [os.listdir] can return: not empty, no separator, neither
    ["."] nor [".."]; it resolves inside the working directory. *)
Definition simple_name (s : pystr) : bool :=
  bool_decide (s <> []) && forallb (fun c => negb (c =? ch_slash)) s &&
  negb (bool_decide (s = lit_dot)) && negb (bool_decide (s = lit_dotdot)).

(** Operations that keep every directory. *)
Definition keeps_dirs (m m' : gmap path node) : Prop :=
  forall x, node_at m x = Some Dir -> node_at m' x = Some Dir.

(** From [w] to [w']: the file [d] at [p] is still there, every
    directory is kept and the working directory is the same. *)
Definition file_frame (p : path) (d : bytes) (w w' : world) : Prop :=
  node_at (fs w') p = Some (File d) /\ keeps_dirs (fs w) (fs w') /\ cwd w' = cwd w.

(** ** Lemmas of the file system *)

Lemma node_at_insert (m : gmap path node) (p q : path) (n : node) :
  p <> [] -> node_at (<[p := n]> m) q = if decide (p = q) then Some n else node_at m q.
Proof.
  intros Hp. destruct q as [|c q]; simpl.
  - by rewrite decide_False by done.
  - by rewrite lookup_insert.
Qed.

Lemma node_at_delete (m : gmap path node) (p q : path) :
  p <> [] -> node_at (delete p m) q = if decide (p = q) then None else node_at m q.
Proof.
  intros Hp. destruct q as [|c q]; simpl.
  - by rewrite decide_False by done.
  - by rewrite lookup_delete.
Qed.

Lemma tail_neq (p : path) : p <> [] -> tail p <> p.
Proof. destruct p as [|c p]; [done|]. intros _ H. apply (f_equal length) in H. simpl in H. lia. Qed.

Lemma wf_parent_dir (m : gmap path node) (p : path) :
  wf_fs m -> node_at m p = Some Dir -> node_at m (tail p) = Some Dir.
Proof. intros Hwf. destruct p as [|c p]; [done|]. intros H. by apply (Hwf (c :: p) Dir). Qed.

Lemma wf_step (m : gmap path node) (cur : path) (c : pystr) :
  wf_fs m -> node_at m cur = Some Dir -> node_at m (tail (step cur c)) = Some Dir.
Proof.
  intros Hwf Hcur. unfold step.
  destruct (bool_decide (c = []) || bool_decide (c = lit_dot)); [by apply wf_parent_dir|].
  destruct (bool_decide (c = lit_dotdot)); [|done].
  by apply wf_parent_dir; [|apply wf_parent_dir].
Qed.

(** A resolved path lies in an existing directory. *)
Lemma walk_parent (m : gmap path node) (comps : list pystr) (cur p : path) :
  wf_fs m -> node_at m cur = Some Dir -> walk m cur comps = Ok p -> node_at m (tail p) = Some Dir.
Proof.
  intros Hwf. revert cur. induction comps as [|c cs IH]; intros cur Hcur; simpl.
  - intros [= <-]. by apply wf_parent_dir.
  - destruct cs as [|c' cs']; [intros [= <-]; by apply wf_step|].
    destruct (node_at m (step cur c)) as [[d|]|] eqn:E; try done. by apply IH.
Qed.

Lemma resolve_parent (w : world) (s : pystr) (p : path) :
  wf w -> resolve w s = Ok p -> node_at (fs w) (tail p) = Some Dir.
Proof.
  intros [Hwf Hcwd]. destruct s as [|c s]; [done|]. simpl.
  apply walk_parent; [done|]. by destruct (c =? ch_slash).
Qed.

Lemma wf_insert (m : gmap path node) (p : path) (n : node) :
  wf_fs m -> node_at m (tail p) = Some Dir -> node_at m p <> Some Dir ->
  wf_fs (<[p := n]> m) /\ (forall q, node_at m q = Some Dir -> node_at (<[p := n]> m) q = Some Dir).
Proof.
  intros Hwf Hpar Hp. assert (Hne : p <> []) by (by intros ->).
  assert (Hdir : forall q, node_at m q = Some Dir -> node_at (<[p := n]> m) q = Some Dir).
  { intros q Hq. rewrite node_at_insert by done. by case_decide; [subst|]. }
  split; [|done]. intros q n'. rewrite lookup_insert. case_decide as Hq.
  - intros _. subst q. split; [done|]. by apply Hdir.
  - intros (? & ?)%Hwf. split; [done|]. by apply Hdir.
Qed.

Lemma wf_delete (m : gmap path node) (p : path) (d : bytes) :
  wf_fs m -> node_at m p = Some (File d) ->
  wf_fs (delete p m) /\ (forall q, node_at m q = Some Dir -> node_at (delete p m) q = Some Dir).
Proof.
  intros Hwf Hp. assert (Hne : p <> []) by (by intros ->).
  assert (Hdir : forall q, node_at m q = Some Dir -> node_at (delete p m) q = Some Dir).
  { intros q Hq. rewrite node_at_delete by done. by case_decide; [subst; congruence|]. }
  split; [|done]. intros q n'. rewrite lookup_delete. case_decide; [done|].
  intros (? & ?)%Hwf. split; [done|]. by apply Hdir.
Qed.

Lemma wf_set_insert (w : world) (p : path) (n : node) :
  wf w -> node_at (fs w) (tail p) = Some Dir -> node_at (fs w) p <> Some Dir ->
  wf (set_fs w (<[p := n]> (fs w))).
Proof.
  intros [Hwf Hcwd] Hpar Hp. destruct (wf_insert (fs w) p n Hwf Hpar Hp) as [H1 H2].
  split; [done|]. by apply H2.
Qed.

(** ** Every operation preserves well-formedness *)

Lemma preserves_ret {A} (a : A) : preserves (mret a).
Proof. by intros w Hw. Qed.

Lemma preserves_bind {A B} (m : M A) (f : A -> M B) :
  preserves m -> (forall a, preserves (f a)) -> preserves (m ≫= f).
Proof.
  intros Hm Hf w Hw. unfold mbind, M_bind.
  specialize (Hm w Hw). destruct (m w) as [[a|e] w']; simpl in *; [by apply Hf | done].
Qed.

Lemma preserves_throw {A} (e : exn) : preserves (throw (A := A) e).
Proof. by intros w Hw. Qed.

Lemma preserves_lift {A} (r : res A) : preserves (lift r).
Proof. by intros w Hw. Qed.

Lemma preserves_try_except {A} (m : M A) (h : exn -> M A) :
  preserves m -> (forall e, preserves (h e)) -> preserves (try_except m h).
Proof.
  intros Hm Hh w Hw. unfold try_except.
  specialize (Hm w Hw). destruct (m w) as [[a|e] w']; simpl in *; [done | by apply Hh].
Qed.

Lemma preserves_try_finally {A} (m : M A) (f : M unit) :
  preserves m -> preserves f -> preserves (try_finally m f).
Proof.
  intros Hm Hf w Hw. unfold try_finally.
  specialize (Hm w Hw). destruct (m w) as [r w']. simpl in *.
  specialize (Hf w' Hm). destruct (f w') as [[]]; done.
Qed.

Lemma preserves_print (l : line) : preserves (print l).
Proof. by intros w Hw. Qed.

Lemma preserves_exists (s : pystr) : preserves (os_path_exists s).
Proof. by intros w Hw. Qed.

Lemma preserves_read (s : pystr) : preserves (read_bytes s).
Proof.
  intros w Hw. unfold read_bytes. destruct (resolve w s); [|done].
  by destruct (node_at _ _) as [[]|].
Qed.

Lemma preserves_listdir (s : pystr) : preserves (os_listdir s).
Proof.
  intros w Hw. unfold os_listdir. destruct (resolve w s); [|done].
  by destruct (node_at _ _) as [[]|].
Qed.

Lemma preserves_write (s : pystr) (d : bytes) : preserves (write_bytes s d).
Proof.
  intros w Hw. unfold write_bytes. destruct (resolve w s) as [p|] eqn:Er; [|done].
  destruct (node_at _ p) as [[]|] eqn:En; simpl; try done;
    apply wf_set_insert; eauto using resolve_parent; congruence.
Qed.

Lemma preserves_remove (s : pystr) : preserves (os_remove s).
Proof.
  intros w Hw. unfold os_remove. destruct (resolve w s) as [p|] eqn:Er; [|done].
  destruct (node_at _ p) as [[d|]|] eqn:En; simpl; try done.
  destruct Hw as [Hwf Hcwd]. destruct (wf_delete _ _ _ Hwf En) as [H1 H2].
  split; [done|]. by apply H2.
Qed.

Lemma preserves_mkdir (s : pystr) : preserves (os_mkdir s).
Proof.
  intros w Hw. unfold os_mkdir. destruct (resolve w _) as [p|] eqn:Er; [|done].
  destruct (node_at _ p) eqn:En; simpl; [done|].
  apply wf_set_insert; eauto using resolve_parent; congruence.
Qed.

Lemma preserves_rename (src dst : pystr) : preserves (os_rename src dst).
Proof.
  intros w Hw. unfold os_rename.
  destruct (resolve w src) as [p|] eqn:Ep, (resolve w dst) as [q|] eqn:Eq; try done.
  destruct (node_at _ p) as [[d|]|] eqn:En; try done.
  destruct (node_at _ q) as [[d'|]|] eqn:Eq'; try done; simpl;
    destruct Hw as [Hwf Hcwd] eqn:Hw';
    destruct (wf_delete _ _ _ Hwf En) as [H1 H2];
    (destruct (wf_insert (delete p (fs w)) q (File d) H1) as [H3 H4];
     [ by apply H2, (resolve_parent w dst)
     | rewrite node_at_delete by (by intros ->); case_decide; congruence
     | split; [done | by apply H4, H2]]).
Qed.

Lemma preserves_mkdir_exist_ok (s : pystr) (b : bool) : preserves (mkdir_exist_ok s b).
Proof.
  apply preserves_try_except; [apply preserves_mkdir|].
  intros e w Hw. by destruct (b && isdir_b w s).
Qed.

Lemma preserves_makedirs (s : pystr) (b : bool) : preserves (os_makedirs s b).
Proof.
  unfold os_makedirs. generalize (S (length s)) as f. intros f. revert s.
  induction f as [|f IH]; intros s; cbn [makedirs_go]; [apply preserves_throw|].
  destruct (path_split s) as [h0 t0].
  destruct (if bool_decide (t0 = []) then path_split h0 else (h0, t0)) as [h t].
  intros w Hw.
  destruct (bool_decide (h <> []) && bool_decide (t <> []) && negb (exists_b w h));
    [|by apply preserves_mkdir_exist_ok].
  match goal with
  | |- context [try_except ?m ?hd w] =>
      assert (Ht : preserves (try_except m hd));
      [apply preserves_try_except; [apply IH | intros e; case_decide;
         [apply preserves_ret | apply preserves_throw]] |];
      specialize (Ht w Hw); destruct (try_except m hd w) as [[u|e] w1]
  end; [|done].
  destruct (bool_decide (t = lit_dot)); [done|]. by apply preserves_mkdir_exist_ok.
Qed.

Lemma preserves_move (src dst : pystr) : preserves (shutil_move src dst).
Proof.
  intros w Hw. unfold shutil_move.
  destruct (isdir_b w dst); [destruct (exists_b w _)|]; [done | ..]; by apply preserves_rename.
Qed.

#[export] Hint Resolve preserves_ret preserves_bind preserves_throw preserves_lift
  preserves_try_except preserves_try_finally preserves_print preserves_exists
  preserves_read preserves_listdir preserves_write preserves_remove preserves_mkdir
  preserves_rename preserves_mkdir_exist_ok preserves_makedirs preserves_move : wfdb.

(** ** Postconditions of results *)

Lemma post_ret {A} (a : A) (Q : A -> Prop) : Q a -> has_post (mret a) Q.
Proof. by intros HQ w. Qed.

Lemma post_throw {A} (e : exn) (Q : A -> Prop) : has_post (throw e) Q.
Proof. by intros w. Qed.

Lemma post_lift {A} (r : res A) (Q : A -> Prop) :
  match r with Ok a => Q a | Err _ => True end -> has_post (lift r) Q.
Proof. by intros H w. Qed.

Lemma post_bind {A B} (m : M A) (f : A -> M B) (P : A -> Prop) (Q : B -> Prop) :
  has_post m P -> (forall a, P a -> has_post (f a) Q) -> has_post (m ≫= f) Q.
Proof.
  intros Hm Hf w. unfold mbind, M_bind. specialize (Hm w).
  destruct (m w) as [[a|e] w']; [by apply Hf | done].
Qed.

Lemma post_try_except {A} (m : M A) (h : exn -> M A) (Q : A -> Prop) :
  has_post m Q -> (forall e, has_post (h e) Q) -> has_post (try_except m h) Q.
Proof.
  intros Hm Hh w. unfold try_except. specialize (Hm w).
  destruct (m w) as [[a|e] w']; [done | apply Hh].
Qed.

Lemma post_try_finally {A} (m : M A) (f : M unit) (Q : A -> Prop) :
  has_post m Q -> has_post (try_finally m f) Q.
Proof.
  intros Hm w. unfold try_finally. specialize (Hm w).
  destruct (m w) as [r w']. by destruct (f w') as [[]].
Qed.

Lemma post_weaken {A} (m : M A) (P Q : A -> Prop) :
  has_post m P -> (forall a, P a -> Q a) -> has_post m Q.
Proof. intros Hm HPQ w. specialize (Hm w). destruct (m w).1; [by apply HPQ | done]. Qed.

#[export] Hint Resolve post_ret post_throw post_try_except post_try_finally : postdb.
#[export] Hint Extern 1 (has_post (_ ≫= _) _) => eapply post_bind : postdb.

(** ** Operations that do not touch the file system *)


Lemma readonly_ret {A} (a : A) : readonly (mret a).
Proof. by intros w. Qed.

Lemma readonly_bind {A B} (m : M A) (f : A -> M B) :
  readonly m -> (forall a, readonly (f a)) -> readonly (m ≫= f).
Proof.
  intros Hm Hf w. unfold mbind, M_bind. destruct (Hm w) as [H1 H2].
  destruct (m w) as [[a|e] w']; simpl in *; [|done].
  destruct (Hf a w') as [H3 H4]. by rewrite H3, H4.
Qed.

Lemma readonly_throw {A} (e : exn) : readonly (throw (A := A) e).
Proof. by intros w. Qed.

Lemma readonly_lift {A} (r : res A) : readonly (lift r).
Proof. by intros w. Qed.

Lemma readonly_print (l : line) : readonly (print l).
Proof. by intros w. Qed.

Lemma readonly_exists (s : pystr) : readonly (os_path_exists s).
Proof. by intros w. Qed.

Lemma readonly_read (s : pystr) : readonly (read_bytes s).
Proof.
  intros w. unfold read_bytes. destruct (resolve w s); [|done]. by destruct (node_at _ _) as [[]|].
Qed.

Lemma readonly_try_except {A} (m : M A) (h : exn -> M A) :
  readonly m -> (forall e, readonly (h e)) -> readonly (try_except m h).
Proof.
  intros Hm Hh w. unfold try_except. destruct (Hm w) as [H1 H2].
  destruct (m w) as [[a|e] w']; simpl in *; [done|].
  destruct (Hh e w') as [H3 H4]. by rewrite H3, H4.
Qed.

#[export] Hint Resolve readonly_ret readonly_bind readonly_throw readonly_lift readonly_print
  readonly_exists readonly_read readonly_try_except : rodb.

(** A read-only operation keeps a world well formed. *)
Lemma preserves_readonly {A} (m : M A) : readonly m -> preserves m.
Proof. intros Hm w [Hf Hc]. destruct (Hm w) as [E1 E2]. unfold wf. by rewrite E1, E2. Qed.

#[export] Hint Extern 2 (preserves (match ?x with _ => _ end)) => destruct x : wfdb.

(** A readonly operation never changes what a path resolves to. *)
Lemma resolve_same (w w' : world) (s : pystr) :
  fs w' = fs w -> cwd w' = cwd w -> resolve w' s = resolve w s.
Proof. intros H1 H2. unfold resolve. by rewrite H1, H2. Qed.

Lemma lookup_same (w w' : world) (s : pystr) :
  fs w' = fs w -> cwd w' = cwd w -> lookup_path w' s = lookup_path w s.
Proof. intros H1 H2. unfold lookup_path. by rewrite (resolve_same w w'), H1. Qed.

(** ** Simple names *)

Lemma split_slash_noslash (s : pystr) :
  forallb (fun c => negb (c =? ch_slash)) s = true -> split_slash s = [s].
Proof.
  induction s as [|c s IH]; [done|]. cbn [forallb split_slash].
  intros [Hc Hs]%andb_true_iff. apply negb_true_iff in Hc. by rewrite Hc, IH.
Qed.

Lemma step_simple (cur : path) (s : pystr) : simple_name s = true -> step cur s = s :: cur.
Proof.
  unfold simple_name, step. intros H. rewrite !andb_true_iff, !negb_true_iff in H.
  destruct H as [[[H1 _] H3] H4]. rewrite H3, H4, orb_false_r.
  by rewrite (bool_decide_eq_false_2 (s = [])) by (by apply bool_decide_eq_true in H1).
Qed.

(** A simple name is the entry of that name in the working directory. *)
Lemma resolve_simple (w : world) (s : pystr) :
  simple_name s = true -> resolve w s = Ok (s :: cwd w).
Proof.
  intros H. pose proof H as H'. unfold simple_name in H'. rewrite !andb_true_iff in H'.
  destruct H' as [[[_ Hns] _] _].
  destruct s as [|c s']; [done|]. unfold resolve.
  rewrite split_slash_noslash by done. cbn [walk]. rewrite step_simple by done.
  cbn [forallb] in Hns. apply andb_true_iff in Hns as [Hc _]. apply negb_true_iff in Hc.
  by rewrite Hc.
Qed.

(** ** Reading what a path holds *)

Lemma read_lookup (w : world) (s : pystr) (d : bytes) :
  lookup_path w s = Some (File d) -> read_bytes s w = (Ok d, w).
Proof.
  unfold lookup_path, read_bytes. destruct (resolve w s); [|done].
  by destruct (node_at _ _) as [[]|]; intros [= ->].
Qed.

Lemma exists_lookup (w : world) (s : pystr) (n : node) :
  lookup_path w s = Some n -> exists_b w s = true.
Proof. unfold exists_b. by intros ->. Qed.

(** ** Joined paths *)

Lemma split_slash_nonempty (s : pystr) : split_slash s <> [].
Proof.
  induction s as [|c s IH]; cbn [split_slash]; [done|].
  destruct (c =? ch_slash); [done|]. by destruct (split_slash s).
Qed.

Lemma split_slash_sep (a b : pystr) :
  split_slash (a ++ [ch_slash] ++ b) = split_slash a ++ split_slash b.
Proof.
  induction a as [|c a IH]; [done|]. cbn [app split_slash] in *. rewrite IH.
  destruct (c =? ch_slash); [done|].
  destruct (split_slash a) as [|x xs] eqn:E; [by apply split_slash_nonempty in E|]. done.
Qed.

(** The last component of a path that ends with a slash-free text. *)
Lemma split_slash_noslash_tail (a y : pystr) :
  forallb (fun c => negb (c =? ch_slash)) y = true ->
  exists xs l, split_slash (a ++ y) = xs ++ [l ++ y].
Proof.
  intros Hy. induction a as [|c a IH].
  - exists [], []. by rewrite split_slash_noslash.
  - destruct IH as (xs & l & E). cbn [app split_slash]. rewrite E.
    destruct (c =? ch_slash); [by exists ([] :: xs), l|].
    destruct xs as [|x xs]; [by exists [], (c :: l)|]. by exists ((c :: x) :: xs), l.
Qed.

Lemma walk_cons2 (m : gmap path node) (cur : path) (c c' : pystr) (rest : list pystr) :
  walk m cur (c :: c' :: rest) =
    match node_at m (step cur c) with
    | Some Dir => walk m (step cur c) (c' :: rest)
    | Some (File _) => Err NotADirectoryError
    | None => Err FileNotFoundError
    end.
Proof. reflexivity. Qed.

Lemma walk_snoc (m : gmap path node) (cur : path) (xs : list pystr) (b : pystr) :
  xs <> [] ->
  walk m cur (xs ++ [b]) =
    match walk m cur xs with
    | Ok A => match node_at m A with
              | Some Dir => Ok (step A b)
              | Some (File _) => Err NotADirectoryError
              | None => Err FileNotFoundError
              end
    | Err e => Err e
    end.
Proof.
  revert cur. induction xs as [|c xs IH]; intros cur Hne; [done|].
  destruct xs as [|c' xs']; [done|].
  cbn [app]. rewrite !walk_cons2. specialize (IH (step cur c) ltac:(done)).
  cbn [app] in IH. rewrite IH. by destruct (node_at m (step cur c)) as [[]|].
Qed.

Lemma walk_last (m : gmap path node) (cur : path) (xs : list pystr) (b : pystr) (q : path) :
  walk m cur (xs ++ [b]) = Ok q -> exists A, q = step A b.
Proof.
  destruct xs as [|x xs]; [intros [= <-]; eauto|].
  rewrite walk_snoc by done. destruct (walk m cur (x :: xs)); [|done].
  destruct (node_at m _) as [[]|]; [done | intros [= <-]; eauto | done].
Qed.

(** The directory a path string is resolved from. *)
Lemma resolve_eq (w : world) (s : pystr) :
  s <> [] ->
  resolve w s = walk (fs w) (match s with c :: _ => if c =? ch_slash then [] else cwd w
                                          | [] => cwd w end) (split_slash s).
Proof. by destruct s. Qed.

Lemma start_sep (w : world) (u x : pystr) :
  match u ++ [ch_slash] ++ x with c :: _ => if c =? ch_slash then [] else cwd w | [] => cwd w end =
  match u with c :: _ => if c =? ch_slash then [] else cwd w | [] => [] end.
Proof. by destruct u. Qed.

(** Joining a simple name to a resolved directory path. *)
(** Joining one component without a slash ([..] included) resolves to
    one step from the resolved directory. *)
Lemma resolve_join_step (w : world) (a b : pystr) (A : path) :
  resolve w a = Ok A -> b <> [] -> forallb (fun c => negb (c =? ch_slash)) b = true ->
  resolve w (path_join a b) =
    match node_at (fs w) A with
    | Some Dir => Ok (step A b)
    | Some (File _) => Err NotADirectoryError
    | None => Err FileNotFoundError
    end.
Proof.
  intros Ha Hne Hns.
  assert (Hane : a <> []) by (by intros ->).
  assert (Hpre : is_prefix [ch_slash] b = false).
  { destruct b as [|x b]; [done|]. cbn [forallb] in Hns. apply andb_true_iff in Hns as [Hx _].
    cbn [is_prefix]. rewrite N.eqb_sym. apply negb_true_iff in Hx. by rewrite Hx. }
  unfold path_join. rewrite Hpre. destruct a as [|c a']; [done|].
  destruct (endswith (c :: a') [ch_slash]) eqn:Hend.
  - apply endswith_spec in Hend as [u Hu]. rewrite Hu in Ha |- *.
    rewrite <- (app_nil_r [ch_slash]), app_assoc in Ha. rewrite <- app_assoc in Ha.
    rewrite <- app_assoc.
    rewrite resolve_eq in Ha |- * by (by destruct u).
    rewrite start_sep in Ha |- *. rewrite split_slash_sep in Ha |- *.
    rewrite (split_slash_noslash b) by done. cbn [split_slash] in Ha.
    rewrite walk_snoc in Ha |- * by apply split_slash_nonempty.
    destruct (walk _ _ (split_slash u)) as [A'|]; [|done].
    destruct (node_at _ A') as [[]|] eqn:En; try done.
    injection Ha as HA. assert (A = A') as -> by (rewrite <- HA; unfold step; by rewrite bool_decide_true).
    by rewrite En.
  - rewrite resolve_eq in Ha |- * by done.
    change (c :: a' ++ [ch_slash] ++ b) with ((c :: a') ++ [ch_slash] ++ b).
    rewrite split_slash_sep, (split_slash_noslash b) by done.
    rewrite walk_snoc by apply split_slash_nonempty. cbn [app]. by rewrite Ha.
Qed.

Lemma resolve_join (w : world) (a b : pystr) (A : path) :
  resolve w a = Ok A -> simple_name b = true ->
  resolve w (path_join a b) =
    match node_at (fs w) A with
    | Some Dir => Ok (b :: A)
    | Some (File _) => Err NotADirectoryError
    | None => Err FileNotFoundError
    end.
Proof.
  intros Ha Hb. pose proof Hb as Hb'. unfold simple_name in Hb'. rewrite !andb_true_iff in Hb'.
  destruct Hb' as [[[Hne Hns] _] _]. apply bool_decide_eq_true in Hne.
  rewrite (resolve_join_step w a b A Ha Hne Hns). by rewrite step_simple.
Qed.

(** A path string ending in a slash-free text [y] of length at least 3
    resolves to an entry whose name ends with [y]. *)
Lemma resolve_tail_name (w : world) (x y : pystr) (q : path) :
  forallb (fun c => negb (c =? ch_slash)) y = true -> (3 <= length y)%nat ->
  resolve w (x ++ y) = Ok q -> exists l A, q = (l ++ y) :: A.
Proof.
  intros Hy Hlen. destruct (x ++ y) as [|c s] eqn:Exy.
  { apply (f_equal length) in Exy. rewrite length_app in Exy. simpl in Exy. lia. }
  rewrite <- Exy. rewrite resolve_eq by (rewrite Exy; done).
  destruct (split_slash_noslash_tail x y Hy) as (xs & l & ->).
  intros (A & ->)%walk_last. exists l, A. unfold step.
  rewrite !bool_decide_false; [done | | |];
    intros E; apply (f_equal length) in E; rewrite length_app in E; cbn in E; lia.
Qed.

Lemma path_join_suffix (a z : pystr) : exists x, path_join a z = x ++ z.
Proof.
  unfold path_join. destruct (is_prefix [ch_slash] z); [by exists []|].
  destruct a as [|c a]; [by exists []|].
  destruct (endswith _ _); [by exists (c :: a) | exists ((c :: a) ++ [ch_slash])].
  by rewrite <- app_assoc.
Qed.

Lemma walk_mono (m m' : gmap path node) (cur : path) (cs : list pystr) (q : path) :
  keeps_dirs m m' -> walk m cur cs = Ok q -> walk m' cur cs = Ok q.
Proof.
  intros Hk. revert cur. induction cs as [|c cs IH]; intros cur; [done|].
  destruct cs as [|c' cs]; [done|]. rewrite !walk_cons2.
  destruct (node_at m (step cur c)) as [[]|] eqn:E; try done.
  rewrite (Hk _ E). apply IH.
Qed.

Lemma resolve_mono (w w' : world) (s : pystr) (q : path) :
  keeps_dirs (fs w) (fs w') -> cwd w' = cwd w -> resolve w s = Ok q -> resolve w' s = Ok q.
Proof.
  intros Hk Hc. destruct s as [|c s]; [done|]. unfold resolve. rewrite Hc. by apply walk_mono.
Qed.

Lemma keeps_dirs_refl (m : gmap path node) : keeps_dirs m m.
Proof. by intros x. Qed.

Lemma keeps_dirs_trans (m1 m2 m3 : gmap path node) :
  keeps_dirs m1 m2 -> keeps_dirs m2 m3 -> keeps_dirs m1 m3.
Proof. intros H1 H2 x Hx. by apply H2, H1. Qed.

Lemma keeps_dirs_insert_file (m : gmap path node) (q : path) (d : bytes) :
  node_at m q <> Some Dir -> keeps_dirs m (<[q := File d]> m).
Proof.
  intros Hq x Hx. destruct (decide (q = [])) as [->|Hne]; [done|].
  rewrite node_at_insert by done. case_decide; [subst; congruence | done].
Qed.

Lemma keeps_dirs_insert_dir (m : gmap path node) (q : path) : keeps_dirs m (<[q := Dir]> m).
Proof.
  intros x Hx. destruct (decide (q = [])) as [->|Hne].
  - destruct x as [|c x]; [done|]. cbn. by rewrite lookup_insert_ne.
  - rewrite node_at_insert by done. by destruct (decide (q = x)).
Qed.

Lemma keeps_dirs_delete_file (m : gmap path node) (p : path) (d : bytes) :
  m !! p = Some (File d) -> keeps_dirs m (delete p m).
Proof.
  intros Hp x Hx. destruct (decide (p = [])) as [->|Hne].
  { destruct x as [|c x]; [done|]. cbn in *. by rewrite lookup_delete_ne. }
  rewrite node_at_delete by done. case_decide as E; [subst x | exact Hx].
  destruct p; [done|]. cbn in Hx. congruence.
Qed.

#[export] Hint Resolve keeps_dirs_refl keeps_dirs_insert_file keeps_dirs_delete_file : wfdb.

Lemma path_join_sep (a f : pystr) :
  a <> [] -> simple_name f = true -> exists u, path_join a f = u ++ [ch_slash] ++ f.
Proof.
  intros Ha Hf. unfold simple_name in Hf. rewrite !andb_true_iff in Hf.
  destruct Hf as [[[Hne Hns] _] _].
  unfold path_join. destruct f as [|x f]; [by apply bool_decide_eq_true in Hne|].
  cbn [forallb] in Hns. apply andb_true_iff in Hns as [Hx _]. apply negb_true_iff in Hx.
  cbn [is_prefix]. rewrite N.eqb_sym, Hx. destruct a as [|c a]; [done|].
  destruct (endswith (c :: a) [ch_slash]) eqn:Hend; [|by exists (c :: a)].
  apply endswith_spec in Hend as [u ->]. exists u. by rewrite <- app_assoc.
Qed.

(** The name [shutil.move] gives the moved entry inside a directory. *)
Lemma basename_join (a f : pystr) :
  a <> [] -> simple_name f = true ->
  basename (rev (drop_while (fun c => c =? ch_slash) (rev (path_join a f)))) = f.
Proof.
  intros Ha Hf. destruct (path_join_sep a f Ha Hf) as [u ->].
  unfold simple_name in Hf. rewrite !andb_true_iff in Hf. destruct Hf as [[[Hne Hns] _] _].
  apply bool_decide_eq_true in Hne. pose proof (proj1 (forallb_forall _ _) Hns) as Hns0. clear Hns. rename Hns0 into Hns.
  rewrite !rev_app_distr. destruct (rev f) as [|x r] eqn:Ef.
  { by destruct f; [|apply (f_equal length) in Ef; rewrite length_rev in Ef]. }
  assert (Hx : (x =? ch_slash) = false).
  { apply negb_true_iff, Hns. apply in_rev. rewrite Ef. by left. }
  rewrite <- app_assoc. cbn [app drop_while]. rewrite Hx.
  rewrite app_comm_cons, <- Ef, !rev_app_distr, !rev_involutive.
  unfold basename, path_split. cbn [snd].
  rewrite !rev_app_distr, drop_while_app_l.
  - cbn [rev app drop_while]. rewrite N.eqb_refl. cbn [negb length].
    rewrite drop_app_length'; [done|]. rewrite length_app, length_rev. cbn. lia.
  - apply Forall_forall. intros c Hc. apply negb_true_iff, negb_true_iff, Hns.
    apply in_rev, list_elem_of_In, Hc.
Qed.

(** [shutil.move] of a file: it fails with the world unchanged, or the
    file's bytes are at a path [q] and the source entry is gone; [q] is
    the source itself only when [dst] names it. *)
Lemma move_file (w : world) (src dst : pystr) (p : path) (d : bytes) :
  resolve w src = Ok p -> fs w !! p = Some (File d) ->
  match shutil_move src dst w with
  | (Ok _, w') => exists q, fs w' = <[q := File d]> (delete p (fs w)) /\ cwd w' = cwd w /\
                  out w' = out w /\ node_at (fs w) q <> Some Dir /\ (q <> p \/ resolve w dst = Ok p)
  | (Err _, w') => w' = w
  end.
Proof.
  intros Hs Hp. unfold shutil_move.
  assert (Hrn : forall t, match os_rename src t w with
    | (Ok _, w') => exists q, fs w' = <[q := File d]> (delete p (fs w)) /\ cwd w' = cwd w /\
                    out w' = out w /\ node_at (fs w) q <> Some Dir /\ resolve w t = Ok q
    | (Err _, w') => w' = w end).
  { intros t. unfold os_rename. rewrite Hs. destruct (resolve w t) as [q|]; [|done].
    destruct p as [|x p]; [done|]. cbn [node_at]. rewrite Hp.
    destruct (node_at (fs w) q) as [[]|] eqn:Eq; [| done |]; eexists; split_and!; try done; by rewrite Eq. }
  destruct (isdir_b w dst).
  - destruct (exists_b w _) eqn:He; [done|].
    specialize (Hrn (path_join dst (basename (rev (drop_while (fun c => c =? ch_slash) (rev src)))))).
    destruct (os_rename _ _ w) as [[]] ; [|done]. destruct Hrn as (q & ? & ? & ? & ? & Hq).
    exists q. split_and!; try done. left. intros ->. unfold exists_b, lookup_path in He.
    rewrite Hq in He. destruct p; [done|]. cbn in He. by rewrite Hp in He.
  - specialize (Hrn dst). destruct (os_rename src dst w) as [[]]; [|done].
    destruct Hrn as (q & ? & ? & ? & ? & Hq). exists q. split_and!; try done.
    destruct (decide (q = p)) as [->|]; [by right | by left].
Qed.

(** A write elsewhere keeps a file and every directory. *)
Lemma write_keeps (w : world) (s : pystr) (d' : bytes) (p : path) (d : bytes) :
  node_at (fs w) p = Some (File d) -> (forall q, resolve w s = Ok q -> q <> p) ->
  node_at (fs (write_bytes s d' w).2) p = Some (File d) /\
  keeps_dirs (fs w) (fs (write_bytes s d' w).2) /\ cwd (write_bytes s d' w).2 = cwd w.
Proof.
  intros Hp Hq. unfold write_bytes.
  destruct (resolve w s) as [q|] eqn:Er; [|split_and!; auto with wfdb].
  specialize (Hq q eq_refl).
  assert (Hins : node_at (fs w) q <> Some Dir ->
    node_at (<[q := File d']> (fs w)) p = Some (File d) /\ keeps_dirs (fs w) (<[q := File d']> (fs w))).
  { intros Hn. split; [|by apply keeps_dirs_insert_file].
    rewrite node_at_insert by (by intros ->). by rewrite decide_False. }
  destruct (node_at (fs w) q) as [[]|] eqn:En; cbn; split_and!; auto with wfdb; apply Hins; done.
Qed.

(** Two simple names joined to a directory's path. *)
(** A name [../x] joined to a directory resolves next to it. *)
Lemma resolve_join_up (w : world) (a b x : pystr) (A : path) :
  resolve w a = Ok (b :: A) -> node_at (fs w) (b :: A) = Some Dir -> node_at (fs w) A = Some Dir ->
  simple_name x = true ->
  resolve w (path_join a (lit_dotdot ++ [ch_slash] ++ x)) = Ok (x :: A).
Proof.
  intros Ha HbA HA Hx.
  assert (Hane : a <> []) by (by intros ->).
  assert (Hx' : is_prefix [ch_slash] x = false).
  { unfold simple_name in Hx. rewrite !andb_true_iff in Hx. destruct Hx as [[[_ Hns] _] _].
    destruct x as [|y x]; [done|]. cbn [forallb] in Hns. apply andb_true_iff in Hns as [Hy _].
    cbn [is_prefix]. rewrite N.eqb_sym. apply negb_true_iff in Hy. by rewrite Hy. }
  assert (Hj : path_join a (lit_dotdot ++ [ch_slash] ++ x) = path_join (path_join a lit_dotdot) x).
  { assert (Hj1 : forall u v, u <> [] -> is_prefix [ch_slash] v = false ->
              path_join u v = if endswith u [ch_slash] then u ++ v else u ++ [ch_slash] ++ v).
    { intros u v Hu Hv. unfold path_join. rewrite Hv. by destruct u. }
    assert (He : forall t, endswith (t ++ lit_dotdot) [ch_slash] = false).
    { intros t. unfold endswith. rewrite rev_app_distr. reflexivity. }
    rewrite (Hj1 a _ Hane), (Hj1 a lit_dotdot Hane) by reflexivity.
    destruct (endswith a [ch_slash]); [rewrite (Hj1 (a ++ lit_dotdot) x) | rewrite (Hj1 (a ++ [ch_slash] ++ lit_dotdot) x)];
      rewrite ?app_assoc, ?He; rewrite <- ?app_assoc; try done; by intros []%app_eq_nil. }
  rewrite Hj, (resolve_join w _ x A); [by rewrite HA | | done].
  rewrite (resolve_join_step w a lit_dotdot (b :: A) Ha); [| done | done].
  by rewrite HbA.
Qed.

Lemma resolve_join2 (w : world) (a b c : pystr) (A : path) :
  resolve w a = Ok A -> node_at (fs w) A = Some Dir -> node_at (fs w) (b :: A) = Some Dir ->
  simple_name b = true -> simple_name c = true ->
  resolve w (path_join (path_join a b) c) = Ok (c :: b :: A).
Proof.
  intros Ha HA HbA Hb Hc. rewrite (resolve_join w _ c (b :: A)); [by rewrite HbA | | done].
  rewrite (resolve_join w a b A Ha Hb). by rewrite HA.
Qed.

(** A trailing slash asks for a directory. *)
Lemma resolve_slash (w : world) (x : pystr) :
  x <> [] ->
  resolve w (x ++ [ch_slash]) =
    match resolve w x with
    | Ok A => match node_at (fs w) A with
              | Some Dir => Ok A
              | Some (File _) => Err NotADirectoryError
              | None => Err FileNotFoundError
              end
    | Err e => Err e
    end.
Proof.
  intros Hx. rewrite !resolve_eq by (by destruct x).
  replace (x ++ [ch_slash]) with (x ++ [ch_slash] ++ []) by by rewrite app_nil_r.
  rewrite split_slash_sep. cbn [split_slash].
  rewrite walk_snoc by apply split_slash_nonempty.
  replace (match x ++ [ch_slash] ++ [] with c :: _ => if c =? ch_slash then [] else cwd w
           | [] => cwd w end)
    with (match x with c :: _ => if c =? ch_slash then [] else cwd w | [] => cwd w end)
    by (by destruct x).
  destruct (walk _ _ _) as [A|]; [|done].
  destruct (node_at (fs w) A) as [[]|]; [done | | done].
  unfold step. by rewrite bool_decide_true.
Qed.

Lemma resolve_strip (w : world) (y : pystr) (k : nat) (F : path) :
  y <> [] -> resolve w (y ++ repeat ch_slash k) = Ok F -> resolve w y = Ok F.
Proof.
  intros Hy. induction k as [|k IH]; [by rewrite app_nil_r|].
  cbn [repeat]. rewrite repeat_cons, app_assoc, resolve_slash by (by destruct y).
  destruct (resolve w (y ++ repeat ch_slash k)); [|done].
  destruct (node_at _ _) as [[]|]; [done | intros [= ->]; by apply IH | done].
Qed.

(** The head [os.makedirs] computes for a name joined to a directory. *)
Lemma path_split_join (folder name : pystr) :
  folder <> [] -> simple_name name = true ->
  exists u, (folder = u \/ folder = u ++ [ch_slash]) /\
    path_split (path_join folder name) =
      (if negb (forallb (fun c => c =? ch_slash) (u ++ [ch_slash]))
       then rev (drop_while (fun c => c =? ch_slash) (rev (u ++ [ch_slash])))
       else u ++ [ch_slash], name).
Proof.
  intros Hf Hn. pose proof Hn as Hn'. unfold simple_name in Hn'. rewrite !andb_true_iff in Hn'.
  destruct Hn' as [[[Hne Hns] _] _].
  assert (Hpre : is_prefix [ch_slash] name = false).
  { destruct name as [|x name]; [done|]. cbn [forallb] in Hns. apply andb_true_iff in Hns as [Hx _].
    cbn [is_prefix]. rewrite N.eqb_sym. apply negb_true_iff in Hx. by rewrite Hx. }
  assert (Hsplit : forall u, path_split (u ++ [ch_slash] ++ name) =
    (if negb (forallb (fun c => c =? ch_slash) (u ++ [ch_slash]))
     then rev (drop_while (fun c => c =? ch_slash) (rev (u ++ [ch_slash])))
     else u ++ [ch_slash], name)).
  { intros u. unfold path_split.
    assert (Hd : drop_while (fun c => negb (c =? ch_slash)) (rev (u ++ [ch_slash] ++ name)) =
                 ch_slash :: rev u).
    { rewrite !rev_app_distr, <- app_assoc, drop_while_app_l; [reflexivity|].
      apply Forall_forall. intros c Hc. apply negb_true_iff, negb_true_iff.
      apply (proj1 (forallb_forall _ _) Hns). apply in_rev, list_elem_of_In, Hc. }
    rewrite Hd. cbn [length].
    replace (u ++ [ch_slash] ++ name) with ((u ++ [ch_slash]) ++ name) by (by rewrite <- app_assoc).
    rewrite take_app_length', drop_app_length' by (rewrite length_app, length_rev; cbn; lia).
    rewrite bool_decide_true by (by destruct u). done. }
  unfold path_join. rewrite Hpre. destruct folder as [|c f]; [done|].
  destruct (endswith (c :: f) [ch_slash]) eqn:Hend.
  - apply endswith_spec in Hend as [u Hu]. exists u. split; [by right|].
    rewrite Hu, <- app_assoc. apply Hsplit.
  - exists (c :: f). split; [by left | apply Hsplit].
Qed.

(** That head names the directory itself. *)
Lemma resolve_split_head (w : world) (folder name : pystr) (F : path) :
  resolve w folder = Ok F -> node_at (fs w) F = Some Dir -> simple_name name = true ->
  resolve w (path_split (path_join folder name)).1 = Ok F.
Proof.
  intros HF HFd Hn. assert (Hfne : folder <> []) by (by intros ->).
  destruct (path_split_join folder name Hfne Hn) as (u & Hu & ->). cbn [fst].
  assert (Hus : resolve w (u ++ [ch_slash]) = Ok F).
  { destruct Hu as [->| ->]; [rewrite resolve_slash, HF, HFd by done; done | done]. }
  destruct (forallb _ (u ++ [ch_slash])) eqn:Hall; cbn [negb]; [done|].
  destruct (drop_while_suffix (fun c => c =? ch_slash) (rev (u ++ [ch_slash]))) as (t & Ht & Hts).
  set (y := drop_while _ _) in *.
  assert (Hy : y <> []).
  { intros Hy. rewrite Hy, app_nil_r in Ht.
    assert (Htrue : forallb (fun c => c =? ch_slash) (u ++ [ch_slash]) = true).
    { apply forallb_forall. intros c Hc. apply in_rev in Hc. rewrite Ht in Hc.
      apply (proj1 (Forall_forall _ _) Hts), list_elem_of_In, Hc. }
    congruence. }
  assert (Ht' : t = repeat ch_slash (length t)).
  { clear -Hts. induction Hts as [|c t Hc _ IH]; [done|]. cbn [length repeat].
    apply N.eqb_eq in Hc. by rewrite Hc, <- IH. }
  apply (resolve_strip w (rev y) (length t)); [by intros ?%(f_equal (@rev char)); rewrite rev_involutive in *|].
  rewrite <- (rev_involutive (u ++ [ch_slash])), Ht, Ht', rev_app_distr, rev_repeat in Hus. exact Hus.
Qed.

(** A name joined to a directory has no trailing slash to strip. *)
Lemma rstrip_join (folder name : pystr) :
  folder <> [] -> simple_name name = true -> rstrip_slash (path_join folder name) = path_join folder name.
Proof.
  intros Hf Hn. destruct (path_join_sep folder name Hf Hn) as [u ->].
  unfold simple_name in Hn. rewrite !andb_true_iff in Hn. destruct Hn as [[[Hne Hns] _] _].
  apply bool_decide_eq_true in Hne.
  unfold rstrip_slash. rewrite !rev_app_distr, <- app_assoc. destruct (rev name) as [|x r] eqn:Er.
  { by destruct name; [|apply (f_equal length) in Er; rewrite length_rev in Er]. }
  assert (Hx : (x =? ch_slash) = false).
  { apply negb_true_iff. apply (proj1 (forallb_forall _ _) Hns). apply in_rev. rewrite Er. by left. }
  cbn [app drop_while]. rewrite Hx. rewrite app_comm_cons, <- Er, !rev_app_distr, !rev_involutive.
  rewrite <- app_assoc. by destruct u.
Qed.

(** The two parts [posixpath.split] returns are no longer than the
    path together. *)
Lemma path_split_length (s : pystr) :
  (length (path_split s).1 + length (path_split s).2 <= length s)%nat.
Proof.
  unfold path_split. cbn [fst snd].
  set (i := length (drop_while _ (rev s))).
  assert (Hi : (i <= length s)%nat).
  { unfold i. destruct (drop_while_suffix (fun c => negb (c =? ch_slash)) (rev s)) as (t & Ht & _).
    apply (f_equal length) in Ht. rewrite length_app, length_rev in Ht. lia. }
  assert (Hh : (length (take i s) <= i)%nat) by (rewrite length_take; lia).
  rewrite length_drop.
  destruct (bool_decide _ && _); [|lia].
  rewrite length_rev.
  destruct (drop_while_suffix (fun c => c =? ch_slash) (rev (take i s))) as (t & Ht & _).
  apply (f_equal length) in Ht. rewrite length_app, length_rev in Ht. lia.
Qed.

(** ** Frames of a file *)

Lemma file_frame_refl (p : path) (d : bytes) (w : world) :
  node_at (fs w) p = Some (File d) -> file_frame p d w w.
Proof. intros H. split_and!; auto with wfdb. Qed.

Lemma file_frame_trans (p : path) (d : bytes) (w1 w2 w3 : world) :
  file_frame p d w1 w2 -> file_frame p d w2 w3 -> file_frame p d w1 w3.
Proof.
  intros (_ & H12 & C12) (H3 & H23 & C23). split_and!; [done | by eapply keeps_dirs_trans | congruence].
Qed.

Lemma file_frame_readonly {A} (m : M A) (p : path) (d : bytes) (w : world) :
  readonly m -> node_at (fs w) p = Some (File d) -> file_frame p d w (m w).2.
Proof. intros Hm Hp. destruct (Hm w) as [E1 E2]. unfold file_frame. rewrite E1, E2. by apply file_frame_refl. Qed.

Lemma file_frame_resolve (p : path) (d : bytes) (w w' : world) (s : pystr) (q : path) :
  file_frame p d w w' -> resolve w s = Ok q -> resolve w' s = Ok q.
Proof. intros (_ & Hk & Hc). by apply resolve_mono. Qed.

(** A removal elsewhere keeps a file and every directory. *)
Lemma remove_keeps (w : world) (s : pystr) (p : path) (d : bytes) :
  node_at (fs w) p = Some (File d) -> (forall q, resolve w s = Ok q -> q <> p) ->
  file_frame p d w (os_remove s w).2.
Proof.
  intros Hp Hq. unfold os_remove.
  destruct (resolve w s) as [q|] eqn:Er; [|by apply file_frame_refl].
  specialize (Hq q eq_refl).
  destruct (node_at (fs w) q) as [[d'|]|] eqn:En; cbn [snd]; try by apply file_frame_refl.
  destruct q as [|x q]; [done|]. split_and!; [| by apply (keeps_dirs_delete_file _ _ d') | done].
  cbn [fs set_fs]. rewrite node_at_delete by done. by rewrite decide_False.
Qed.

(** [except Exception: print(...); raise]: the outcome and the file
    system of the body. *)
Lemma try_reraise {A} (m : M A) (l : line) (w : world) :
  (try_except m (fun e => print l;; throw e) w).1 = (m w).1 /\
  fs (try_except m (fun e => print l;; throw e) w).2 = fs (m w).2.
Proof. unfold try_except. destruct (m w) as [[a|e] w']; done. Qed.

End World.

Import World.

(** The folder layout step of [process_invoices] (lines 123-124,
    [os.makedirs(..., exist_ok=True)]) is idempotent: for a directory
    [folder] and a simple name, the call makes the entry a directory when
    it is absent, leaves the world unchanged when the directory is already
    there, and raises [FileExistsError] (the world unchanged) when a file
    has that name. *)
Theorem folder_layout (folder name : pystr) (F : path) (w : world) :
  resolve w folder = Ok F -> node_at (fs w) F = Some Dir -> simple_name name = true ->
  os_makedirs (path_join folder name) true w =
    match node_at (fs w) (name :: F) with
    | Some (File _) => (Err FileExistsError, w)
    | _ => (Ok tt, set_fs w (<[name :: F := Dir]> (fs w)))
    end.
Proof.
  intros HF HFd Hn. assert (Hfne : folder <> []) by (by intros ->).
  pose proof (resolve_split_head w folder name F HF HFd Hn) as Hh.
  destruct (path_split_join folder name Hfne Hn) as (u & _ & Hs).
  unfold os_makedirs. cbn [makedirs_go]. rewrite Hs in Hh |- *. cbn [fst] in Hh.
  rewrite bool_decide_false by (intros ->; unfold simple_name in Hn; done).
  assert (He : exists_b w (if negb (forallb (fun c => c =? ch_slash) (u ++ [ch_slash]))
                           then rev (drop_while (fun c => c =? ch_slash) (rev (u ++ [ch_slash])))
                           else u ++ [ch_slash]) = true).
  { unfold exists_b, lookup_path. by rewrite Hh, HFd. }
  rewrite He, andb_false_r. unfold mkdir_exist_ok, try_except, os_mkdir.
  rewrite rstrip_join, (resolve_join w folder name F HF Hn), HFd by done.
  destruct (node_at (fs w) (name :: F)) as [[]|] eqn:E; [| | done];
    unfold isdir_b, lookup_path; rewrite (resolve_join w folder name F HF Hn), HFd;
    cbn [andb]; rewrite E.
  - by rewrite bool_decide_false.
  - rewrite bool_decide_true, insert_id by done. by destruct w.
Qed.

(** [os.makedirs] terminates within its fuel: each recursive call of
    [makedirs_go] is on the head [posixpath.split] returns, which is
    shorter than the path whenever the recursion is taken, so any fuel
    above the length of the path gives the same result, and the fuel
    [os_makedirs] gives never runs out. *)
Theorem makedirs_fuel (f1 f2 : nat) (s : pystr) (exist_ok : bool) (w : world) :
  (length s < f1)%nat -> (length s < f2)%nat ->
  makedirs_go f1 s exist_ok w = makedirs_go f2 s exist_ok w.
Proof.
  revert f2 s w. induction f1 as [|f1 IH]; intros f2 s w H1 H2; [lia|].
  destruct f2 as [|f2]; [lia|]. cbn [makedirs_go].
  pose proof (path_split_length s) as Hl0.
  destruct (path_split s) as [head0 tail0]. cbn [fst snd] in Hl0.
  pose proof (path_split_length head0) as Hl1.
  assert (Hstep : forall head tail, (length head < length s)%nat ->
    (if bool_decide (head <> []) && bool_decide (tail <> []) && negb (exists_b w head) then
       match try_except (makedirs_go f1 head exist_ok)
               (fun e => if decide (e = FileExistsError) then mret tt else throw e) w with
       | (Err e, w1) => (Err e, w1)
       | (Ok _, w1) => if bool_decide (tail = lit_dot) then (Ok tt, w1) else mkdir_exist_ok s exist_ok w1
       end
     else mkdir_exist_ok s exist_ok w) =
    (if bool_decide (head <> []) && bool_decide (tail <> []) && negb (exists_b w head) then
       match try_except (makedirs_go f2 head exist_ok)
               (fun e => if decide (e = FileExistsError) then mret tt else throw e) w with
       | (Err e, w1) => (Err e, w1)
       | (Ok _, w1) => if bool_decide (tail = lit_dot) then (Ok tt, w1) else mkdir_exist_ok s exist_ok w1
       end
     else mkdir_exist_ok s exist_ok w)).
  { intros head tail Hlt. unfold try_except. by rewrite (IH f2 head w) by lia. }
  destruct (bool_decide (tail0 = [])) eqn:Ht0.
  - destruct (path_split head0) as [head tail]. cbn [fst snd] in Hl1.
    destruct tail as [|c tail]; [by destruct (bool_decide ([] <> [])) eqn:E;
      [apply bool_decide_eq_true in E | rewrite andb_false_r]|].
    apply Hstep. cbn [length] in Hl1. lia.
  - apply bool_decide_eq_false in Ht0. destruct tail0 as [|c tail0]; [done|].
    apply Hstep. cbn [length] in Hl0. lia.
Qed.

