(* ===== verification/Base64.v ===== *)
(** * The image encoder: [base64.b64encode]

    [encode_image] ([src/rename_invoices.py] lines 25-27,
    [src/label_invoices.py] lines 18-20) reads the file's bytes and
    returns [base64.b64encode(data).decode('utf-8')], which the vision
    request embeds in a [data:] URL.  [b64encode] is RFC 4648's encoding
    with the standard alphabet and [=] padding, as [binascii.b2a_base64]
    computes it: each group of three bytes is one 24-bit number cut into
    four 6-bit digits.  [b64decode] decodes it back; the round trip
    shows that the request carries exactly the bytes of the file. *)

From S2P Require Import Prelude.

Open Scope N_scope.

Module Base64.

Definition bytes := list N.

(** The digit [n < 64] of the standard alphabet. *)
Definition b64_char (n : N) : char :=
  if n <? 26 then 65 + n
  else if n <? 52 then 97 + (n - 26)
  else if n <? 62 then 48 + (n - 52)
  else if n =? 62 then 43
  else 47.

Definition b64_val (c : char) : option N :=
  if (65 <=? c) && (c <=? 90) then Some (c - 65)
  else if (97 <=? c) && (c <=? 122) then Some (c - 71)
  else if (48 <=? c) && (c <=? 57) then Some (c + 4)
  else if c =? 43 then Some 62
  else if c =? 47 then Some 63
  else None.

(** The four digits of a 24-bit group. *)
Definition quad (n : N) : pystr :=
  [b64_char (n / 262144); b64_char (n / 4096 mod 64); b64_char (n / 64 mod 64);
   b64_char (n mod 64)].

Definition ch_pad : char := 61.

Fixpoint b64encode (bs : bytes) : pystr :=
  match bs with
  | a :: b :: c :: rest => quad (a * 65536 + b * 256 + c) ++ b64encode rest
  | [a; b] => take 3 (quad (a * 65536 + b * 256)) ++ [ch_pad]
  | [a] => take 2 (quad (a * 65536)) ++ [ch_pad; ch_pad]
  | [] => []
  end.

(** The number of four digits, when they are all in the alphabet. *)
Definition unquad (c1 c2 c3 c4 : char) : option N :=
  match b64_val c1, b64_val c2, b64_val c3, b64_val c4 with
  | Some x1, Some x2, Some x3, Some x4 => Some (((x1 * 64 + x2) * 64 + x3) * 64 + x4)
  | _, _, _, _ => None
  end.

(** A decoder: four digits give three bytes, a final group with one or
    two [=] gives two or one. *)
Fixpoint b64decode (s : pystr) : option bytes :=
  match s with
  | [] => Some []
  | c1 :: c2 :: c3 :: c4 :: rest =>
      if (c3 =? ch_pad) && (c4 =? ch_pad) && bool_decide (rest = []) then
        match unquad c1 c2 65 65 with
        | Some n => Some [n / 65536]
        | None => None
        end
      else if (c4 =? ch_pad) && bool_decide (rest = []) then
        match unquad c1 c2 c3 65 with
        | Some n => Some [n / 65536; n / 256 mod 256]
        | None => None
        end
      else
        match unquad c1 c2 c3 c4, b64decode rest with
        | Some n, Some r => Some ([n / 65536; n / 256 mod 256; n mod 256] ++ r)
        | _, _ => None
        end
  | _ => None
  end.

(** ** Lemmas *)

Lemma b64_val_char (n : N) : n < 64 -> b64_val (b64_char n) = Some n.
Proof.
  intros Hn. unfold b64_char, b64_val.
  destruct (N.ltb_spec n 26); [|destruct (N.ltb_spec n 52); [|destruct (N.ltb_spec n 62)]].
  - replace (65 <=? 65 + n) with true by (symmetry; apply N.leb_le; lia).
    replace (65 + n <=? 90) with true by (symmetry; apply N.leb_le; lia).
    simpl. f_equal. lia.
  - replace (65 <=? 97 + (n - 26)) with true by (symmetry; apply N.leb_le; lia).
    replace (97 + (n - 26) <=? 90) with false by (symmetry; apply N.leb_gt; lia).
    replace (97 <=? 97 + (n - 26)) with true by (symmetry; apply N.leb_le; lia).
    replace (97 + (n - 26) <=? 122) with true by (symmetry; apply N.leb_le; lia).
    simpl. f_equal. lia.
  - replace (65 <=? 48 + (n - 52)) with false by (symmetry; apply N.leb_gt; lia).
    replace (97 <=? 48 + (n - 52)) with false by (symmetry; apply N.leb_gt; lia).
    replace (48 <=? 48 + (n - 52)) with true by (symmetry; apply N.leb_le; lia).
    replace (48 + (n - 52) <=? 57) with true by (symmetry; apply N.leb_le; lia).
    simpl. f_equal. lia.
  - destruct (N.eqb_spec n 62) as [->|]; [done|].
    replace n with 63 by lia. done.
Qed.

(** The four digits of a 24-bit number read back as the number. *)
Lemma unquad_quad (n : N) :
  n < 16777216 ->
  unquad (b64_char (n / 262144)) (b64_char (n / 4096 mod 64)) (b64_char (n / 64 mod 64))
         (b64_char (n mod 64)) = Some n.
Proof.
  intros Hn. unfold unquad.
  assert (n / 262144 < 64) by (apply N.Div0.div_lt_upper_bound; lia).
  rewrite !b64_val_char by (try apply N.mod_lt; lia). f_equal.
  replace (n / 4096) with (n / 64 / 64) by (rewrite N.Div0.div_div; done).
  replace (n / 262144) with (n / 64 / 64 / 64) in * by (rewrite !N.Div0.div_div; done).
  pose proof (N.div_mod n 64 ltac:(lia)).
  pose proof (N.div_mod (n / 64) 64 ltac:(lia)).
  pose proof (N.div_mod (n / 64 / 64) 64 ltac:(lia)).
  set (q3 := n / 64 / 64 / 64) in *. set (q2 := n / 64 / 64) in *. set (q1 := n / 64) in *.
  set (r1 := n mod 64) in *. set (r2 := q1 mod 64) in *. set (r3 := q2 mod 64) in *.
  clearbody q1 q2 q3 r1 r2 r3. lia.
Qed.

(** The three bytes of a 24-bit group. *)
Lemma bytes_of_group (a b c : N) :
  a < 256 -> b < 256 -> c < 256 ->
  let n := a * 65536 + b * 256 + c in
  n < 16777216 /\ n / 65536 = a /\ n / 256 mod 256 = b /\ n mod 256 = c.
Proof.
  intros Ha Hb Hc n. unfold n. split_and!; [lia | | |].
  - symmetry. apply N.div_unique with (b * 256 + c); lia.
  - rewrite <- (N.div_unique (a * 65536 + b * 256 + c) 256 (a * 256 + b) c) by lia.
    symmetry. apply N.mod_unique with a; lia.
  - symmetry. apply N.mod_unique with (a * 256 + b); lia.
Qed.

Lemma b64_char_not_pad (n : N) : (b64_char n =? ch_pad) = false.
Proof.
  apply N.eqb_neq. unfold b64_char, ch_pad.
  destruct (N.ltb_spec n 26); [lia|]. destruct (N.ltb_spec n 52); [lia|].
  destruct (N.ltb_spec n 62); [lia|]. by destruct (n =? 62).
Qed.

(** The digits of a group whose low bits are zero. *)
Lemma quad_low_zero (n : N) (k : N) :
  n = k * 256 -> b64_char (n mod 64) = 65.
Proof. intros ->. replace ((k * 256) mod 64) with 0; [done|]. apply N.mod_unique with (k * 4); lia. Qed.

Lemma quad_low_zero2 (n : N) (k : N) :
  n = k * 65536 -> b64_char (n / 64 mod 64) = 65.
Proof.
  intros ->. replace (k * 65536 / 64) with (k * 1024).
  - replace ((k * 1024) mod 64) with 0; [done|]. apply N.mod_unique with (k * 16); lia.
  - apply N.div_unique with 0; lia.
Qed.

End Base64.

Import Base64.

(** Base64 round trip: decoding the text [encode_image] puts in the
    request gives back exactly the bytes of the file, so the vision model
    receives the image unchanged. *)
Theorem b64_roundtrip (bs : bytes) :
  Forall (fun b => b < 256) bs -> b64decode (b64encode bs) = Some bs.
Proof.
  intros Hall. remember (length bs) as len eqn:Hlen.
  revert bs Hall Hlen. induction len as [len IH] using lt_wf_ind.
  intros [|a [|b [|c rest]]] Hall ->; [done | | |].
  - apply Forall_cons in Hall as [Ha _].
    destruct (bytes_of_group a 0 0 Ha ltac:(lia) ltac:(lia)) as (Hn & Ha' & _).
    replace (a * 65536 + 0 * 256 + 0) with (a * 65536) in * by lia.
    cbn [b64encode quad take app b64decode].
    pose proof (unquad_quad _ Hn) as Hq.
    rewrite (quad_low_zero2 (a * 65536) a), (quad_low_zero (a * 65536) (a * 256)) in Hq by lia.
    rewrite N.eqb_refl, bool_decide_true by done. cbn [andb]. by rewrite Hq, Ha'.
  - apply Forall_cons in Hall as [Ha [Hb _]%Forall_cons].
    destruct (bytes_of_group a b 0 Ha Hb ltac:(lia)) as (Hn & Ha' & Hb' & _).
    replace (a * 65536 + b * 256 + 0) with (a * 65536 + b * 256) in * by lia.
    cbn [b64encode quad take app b64decode].
    pose proof (unquad_quad _ Hn) as Hq.
    rewrite (quad_low_zero (a * 65536 + b * 256) (a * 256 + b)) in Hq by lia.
    rewrite b64_char_not_pad, N.eqb_refl, bool_decide_true by done. cbn [andb].
    by rewrite Hq, Ha', Hb'.
  - apply Forall_cons in Hall as [Ha [Hb [Hc Hrest]%Forall_cons]%Forall_cons].
    destruct (bytes_of_group a b c Ha Hb Hc) as (Hn & Ha' & Hb' & Hc').
    cbn [b64encode quad app b64decode].
    rewrite (b64_char_not_pad (_ / 64 mod 64)), (b64_char_not_pad (_ mod 64)). cbn [andb].
    rewrite unquad_quad by done. rewrite (IH (length rest)); [by rewrite Ha', Hb', Hc' | | done | done].
    simpl. lia.
Qed.

(** A digit of the encoding, or its padding. *)
Ltac b64_digit :=
  first [right; reflexivity
        | left; rewrite b64_val_char; [done | try apply N.mod_lt; lia]].

(** The text [encode_image] embeds has the length [base64.b64encode]
    gives: four characters for every started group of three bytes, that
    is [4 * ceil(n / 3)] for [n] bytes, and every character is a digit
    of the alphabet or the padding [=]. *)
Theorem b64_length_alphabet (bs : bytes) :
  Forall (fun b => b < 256) bs ->
  length (b64encode bs) = (4 * ((length bs + 2) / 3))%nat /\
  Forall (fun c => is_Some (b64_val c) \/ c = ch_pad) (b64encode bs).
Proof.
  intros Hall. remember (length bs) as len eqn:Hlen.
  revert bs Hall Hlen. induction len as [len IH] using lt_wf_ind.
  intros [|a [|b [|c rest]]] Hall ->; [done | | |].
  - apply Forall_cons in Hall as [Ha _]. split; [done|].
    cbn -[b64_char b64_val N.div N.modulo N.mul N.add]. assert (a * 65536 / 262144 < 64) by (apply N.Div0.div_lt_upper_bound; lia).
    repeat (first [apply List.Forall_nil | apply List.Forall_cons]); b64_digit.
  - apply Forall_cons in Hall as [Ha [Hb _]%Forall_cons]. split; [done|].
    cbn -[b64_char b64_val N.div N.modulo N.mul N.add].
    assert ((a * 65536 + b * 256) / 262144 < 64) by (apply N.Div0.div_lt_upper_bound; lia).
    repeat (first [apply List.Forall_nil | apply List.Forall_cons]); b64_digit.
  - apply Forall_cons in Hall as [Ha [Hb [Hc Hrest]%Forall_cons]%Forall_cons].
    destruct (IH (length rest) ltac:(simpl; lia) rest Hrest eq_refl) as [Hl Hf].
    cbn [b64encode quad app length]. split.
    + rewrite Hl. cbn [length]. replace (S (S (S (length rest))) + 2)%nat with (1 * 3 + (length rest + 2))%nat by lia.
      rewrite Nat.div_add_l by lia. lia.
    + assert ((a * 65536 + b * 256 + c) / 262144 < 64) by (apply N.Div0.div_lt_upper_bound; lia).
      repeat (first [exact Hf | apply List.Forall_cons]); b64_digit.
Qed.

