(* ===== verification/Extract.v ===== *)
(** * The extractors: vision request, OCR fallback, PDF pages

    [src/rename_invoices.py] lines 29-108 and [src/label_invoices.py]
    lines 22-56.  The external collaborators (the HTTP endpoint, PIL,
    Tesseract, PyMuPDF) are the fields of [env]: functions of the bytes
    they are given, fixed for a run; the HTTP endpoint also sees the
    request headers, built from the process environment [environ] of
    [env] (the API key, lines 17-23; label 11-16).  Everything the code does around them
    (reading and writing files, building the request, parsing the reply,
    the regular expressions, the [try]/[except]/[finally] structure, the
    temporary files, the merge of the pages) is modelled in the monad [M]
    of [World].

    A Python value the functions pass around is a [json] value: the reply
    of the vision model is subscripted as parsed JSON and its [content]
    returned whatever its type; the other functions return [str] values
    ([JStr]). *)

From S2P Require Import Prelude PyStr Json JsonRoundtrip Regex World Base64.

Open Scope N_scope.

Module Extract.

Import Json Regex World Base64.

(** ** The collaborators *)

Record env := {
  (** the process environment [os.environ] when the script starts *)
  environ : list (pystr * pystr);
  (** [requests.post(url, headers=headers, json=payload).text]: the body
      the endpoint answers for these headers and this payload;
      [RequestException] on a transport failure *)
  http_post : list (pystr * pystr) -> json -> res pystr;
  (** [Image.open] recognises the bytes as an image *)
  pil_decode : bytes -> bool;
  (** [pytesseract.image_to_string] of the decoded image *)
  tesseract : bytes -> res pystr;
  (** the bytes [image.save(path, "PDF")] writes *)
  pil_pdf : bytes -> bytes;
  (** [fitz.open]: the pages of a document, [None] when it is not one *)
  fitz_pages : bytes -> option (list bytes);
  (** [page.get_pixmap()] then [pix.save(path)] as JPEG *)
  render : bytes -> res bytes;
  (** the bytes [doc.save(path)] writes *)
  fitz_save : bytes -> bytes
}.

(** OCR text is valid Unicode: no surrogate, below U+110000 (it is decoded
    from Tesseract's UTF-8 output). *)
Definition valid_char (c : char) : bool :=
  (c <? 1114112) && negb (is_high_surrogate c) && negb (is_low_surrogate c).

Definition ocr_valid (E : env) : Prop :=
  forall d t, tesseract E d = Ok t -> Forall (fun c => valid_char c = true) t.

(** ** Literals *)

Definition q : pystr := [34].
Definition key_company : pystr := py "company_name".
Definition key_amount : pystr := py "amount".

(** The instruction of both scripts; [rename_invoices.py] appends
    [" Some "] (line 40), [label_invoices.py] does not (line 32). *)
Definition prompt_label : pystr :=
  py "Extract the company name and amount charged from this invoice image. Return in JSON format as exactly {"
  ++ q ++ key_company ++ q ++ py ": " ++ q ++ py "..." ++ q ++ py ", "
  ++ q ++ key_amount ++ q ++ py ": " ++ q ++ py "..." ++ q
  ++ py "}. Do not include any ```json``` tags, just return the exact JSON dictionary.".

Definition prompt_rename : pystr := prompt_label ++ py " Some ".

(** The request body of lines 32-52 (label: 24-44). *)
Definition payload (prompt b64 : pystr) : json :=
  JObj [(py "model", JStr (py "gpt-4o"));
        (py "messages", JArr [JObj [
           (py "role", JStr (py "user"));
           (py "content", JArr [
              JObj [(py "type", JStr (py "text")); (py "text", JStr prompt)];
              JObj [(py "type", JStr (py "image_url"));
                    (py "image_url", JObj [(py "url", JStr (py "data:image/jpeg;base64," ++ b64))])]])]]);
        (py "max_tokens", JNum (py "300"))].

(** [{"company_name": c, "amount": a}] *)
Definition info (c a : json) : json := JObj [(key_company, c); (key_amount, a)].

Definition empty_info : json := info (JStr []) (JStr []).

(** ** The API key and the request headers *)

(** [os.getenv(key)]: the value of the first binding of [key] in the
    environment, [None] when there is none. *)
Fixpoint getenv (environ : list (pystr * pystr)) (key : pystr) : option pystr :=
  match environ with
  | [] => None
  | (k, v) :: rest => if bool_decide (k = key) then Some v else getenv rest key
  end.

(** [f"{x}"] of a [str | None] value: [str(None)] is ["None"]. *)
Definition fstr_opt (x : option pystr) : pystr :=
  match x with Some s => s | None => py "None" end.

(** [api_key = os.getenv("OPENAI_API_KEY")], read once at import. *)
Definition api_key (E : env) : option pystr := getenv (environ E) (py "OPENAI_API_KEY").

(** The module-level [headers] dictionary, built from [api_key]. *)
Definition headers (api_key : option pystr) : list (pystr * pystr) :=
  [(py "Content-Type", py "application/json");
   (py "Authorization", py "Bearer " ++ fstr_opt api_key)].

(** [label_invoices.py] reads the key and builds the headers again. *)
Definition api_key_label (E : env) : option pystr := getenv (environ E) (py "OPENAI_API_KEY").

Definition headers_label (api_key : option pystr) : list (pystr * pystr) :=
  [(py "Content-Type", py "application/json");
   (py "Authorization", py "Bearer " ++ fstr_opt api_key)].

(** ** [encode_image] and the vision request *)

(** [encode_image(image_path)] *)
Definition encode_image (image_path : pystr) : M pystr :=
  data ← read_bytes image_path; mret (b64encode data).

(** [result['choices'][0]['message']['content']] *)
Definition reply_content (result : json) : res json :=
  let! x := getitem result (IStr (py "choices")) in
  let! y := getitem x (IInt 0) in
  let! z := getitem y (IStr (py "message")) in
  getitem z (IStr (py "content")).

(** The body of [extract_info_from_image] without its handler: encode,
    post, [response.json()], subscript. *)
Definition vision_request (E : env) (hdrs : list (pystr * pystr)) (prompt image_path : pystr) : M json :=
  b64 ← encode_image image_path;
  body ← lift (http_post E hdrs (payload prompt b64));
  result ← lift (loads body);
  lift (reply_content result).

(** ** [extract_info_with_tesseract] (lines 60-78) *)

(** The fields the two regular expressions extract from OCR text. *)
Definition ocr_fields (text : pystr) : pystr * pystr :=
  (strip (search_group company_pattern text), strip (search_group amount_pattern text)).

Definition extract_info_with_tesseract (E : env) (image_path : pystr) : M json :=
  try_except
    (data ← read_bytes image_path;
     (if pil_decode E data then mret tt else throw UnidentifiedImageError);;
     text ← lift (tesseract E data);
     let '(c, a) := ocr_fields text in
     mret (JStr (dumps (info (JStr c) (JStr a)))))
    (fun e =>
       print (LineExn (py "Error extracting info with Tesseract: ") e []);;
       mret (JStr (dumps empty_info))).

(** ** [extract_info_from_image] (lines 29-58; label 22-47) *)

Definition extract_info_from_image (E : env) (image_path : pystr) : M json :=
  try_except (vision_request E (headers (api_key E)) prompt_rename image_path)
    (fun e =>
       print (LineExn (py "Error using OpenAI API: ") e (py ". Falling back to Tesseract."));;
       extract_info_with_tesseract E image_path).

(** [encode_image] of [label_invoices.py] (lines 18-20). *)
Definition encode_image_label (image_path : pystr) : M pystr :=
  data ← read_bytes image_path; mret (b64encode data).

(** [extract_info_from_image] of [label_invoices.py] (lines 22-47): the
    same request with the label prompt, and no handler: every exception
    propagates. *)
Definition extract_info_from_image_label (E : env) (image_path : pystr) : M json :=
  base64_image ← encode_image_label image_path;
  body ← lift (http_post E (headers_label (api_key_label E)) (payload prompt_label base64_image));
  result ← lift (loads body);
  lift (reply_content result).

(** ** [extract_info_from_pdf] (lines 80-108) *)

(** [str(n)] for a natural number. *)
Fixpoint digits_go (fuel : nat) (n : N) : pystr :=
  match fuel with
  | O => []
  | S f => if n <? 10 then [48 + n] else digits_go f (n / 10) ++ [48 + n mod 10]
  end.

Definition str_of_nat (n : nat) : pystr := digits_go (S (N.size_nat (N.of_nat n))) (N.of_nat n).

(** [f"temp_image_{page.number}.jpg"], relative to the working directory. *)
Definition temp_name (n : nat) : pystr := py "temp_image_" ++ str_of_nat n ++ py ".jpg".

(** The page loop of lines 85-92, with the local variable
    [temp_image_path] it leaves behind: [Some t] when an exception leaves
    it set to [t], [None] when it was reset or never set. *)
Fixpoint pages_loop (E : env) (pages : list bytes) (n : nat) (acc : list json) (w : world)
    : (res (list json) * option pystr) * world :=
  match pages with
  | [] => ((Ok acc, None), w)
  | pg :: rest =>
      match render E pg with
      | Err e => ((Err e, None), w)
      | Ok pix =>
          let temp := temp_name n in
          match write_bytes temp pix w with
          | (Err e, w1) => ((Err e, Some temp), w1)
          | (Ok _, w1) =>
              match extract_info_from_image E temp w1 with
              | (Err e, w2) => ((Err e, Some temp), w2)
              | (Ok v, w2) =>
                  match loads_value v with
                  | Err e => ((Err e, Some temp), w2)
                  | Ok d =>
                      match os_remove temp w2 with
                      | (Err e, w3) => ((Err e, Some temp), w3)
                      | (Ok _, w3) => pages_loop E rest (S n) (acc ++ [d]) w3
                      end
                  end
              end
          end
      end
  end.

(** One step of the merge of lines 94-99, on the two values of
    [combined]: a field is filled from the page only while it is false,
    and the page's key is read only then. *)
Definition merge_field (cur : json) (page : json) (key : pystr) : res json :=
  if truthy cur then Ok cur
  else let! v := getitem page (IStr key) in Ok (if truthy v then v else cur).

Definition merge_step (comb : json * json) (page : json) : res (json * json) :=
  let! c := merge_field comb.1 page key_company in
  let! a := merge_field comb.2 page key_amount in
  Ok (c, a).

Fixpoint merge_go (comb : json * json) (pages : list json) : res (json * json) :=
  match pages with
  | [] => Ok comb
  | p :: ps => let! comb' := merge_step comb p in merge_go comb' ps
  end.

Definition merge (pages : list json) : res (json * json) := merge_go (JStr [], JStr []) pages.

(** The [try] block of lines 83-100 with the value of [temp_image_path]
    when it ends. *)
Definition pdf_try (E : env) (pdf_path : pystr) (w : world)
    : (res json * option pystr) * world :=
  match read_bytes pdf_path w with
  | (Err e, w') => ((Err e, None), w')
  | (Ok data, w') =>
      match fitz_pages E data with
      | None => ((Err FitzError, None), w')
      | Some pages =>
          match pages_loop E pages 0 [] w' with
          | ((Err e, t), w'') => ((Err e, t), w'')
          | ((Ok infos, t), w'') =>
              match merge infos with
              | Err e => ((Err e, t), w'')
              | Ok (c, a) => ((Ok (JStr (dumps (info c a))), t), w'')
              end
          end
      end
  end.

(** The [except] block of lines 101-105. *)
Definition pdf_except (E : env) (pdf_path : pystr) (temp : option pystr) (e : exn) : M json :=
  print (LineExn (py "Error processing PDF " ++ pdf_path ++ py ": ") e []);;
  match temp with
  | Some t => if bool_decide (t = []) then mret (JStr (dumps empty_info))
              else extract_info_with_tesseract E t
  | None => mret (JStr (dumps empty_info))
  end.

(** The [finally] block of lines 106-108. *)
Definition pdf_finally (temp : option pystr) : M unit :=
  match temp with
  | Some t => if bool_decide (t = []) then mret tt
              else os_path_exists t ≫= fun present : bool => if present then os_remove t else mret tt
  | None => mret tt
  end.

Definition extract_info_from_pdf (E : env) (pdf_path : pystr) : M json := fun w =>
  match pdf_try E pdf_path w with
  | ((r, temp), w1) =>
      try_finally
        (try_except (lift r) (pdf_except E pdf_path temp))
        (pdf_finally temp) w1
  end.

(** [label_invoices.py] lines 49-56: the first page only, a temporary
    file given by the caller, no handler. *)
Definition extract_info_from_pdf_label (E : env) (pdf_path temp : pystr) : M json :=
  data ← read_bytes pdf_path;
  pages ← lift (match fitz_pages E data with Some ps => Ok ps | None => Err FitzError end);
  page ← lift (match pages with pg :: _ => Ok pg | [] => Err IndexError end);
  pix ← lift (render E page);
  write_bytes temp pix;;
  v ← extract_info_from_image_label E temp;
  os_remove temp;;
  mret v.

(** What the OCR step sees: the text when the file reads, decodes and is
    recognised, [None] when one of these raises. *)
Definition ocr_outcome (E : env) (w : world) (image_path : pystr) : option pystr :=
  match (read_bytes image_path w).1 with
  | Ok data =>
      if pil_decode E data then
        match tesseract E data with Ok t => Some t | Err _ => None end
      else None
  | Err _ => None
  end.

(** The two fields of the OCR fallback's reply. *)
Definition ocr_info (o : option pystr) : json :=
  match o with
  | Some t => info (JStr (ocr_fields t).1) (JStr (ocr_fields t).2)
  | None => empty_info
  end.

(** The working-directory entry a temporary page image is written to. *)
Definition temp_path (c : path) (n : nat) : path := temp_name n :: c.

(** [m'] is [m] except that some temporary page images, never
    directories, are gone. *)
Definition temps_only (m m' : gmap path node) (c : path) : Prop :=
  forall p, m' !! p = m !! p \/
    ((exists n, p = temp_path c n) /\ m' !! p = None /\ m !! p <> Some Dir).

(** The same, except at the page image [tp] still in use, which may hold
    a file of the loop. *)
Definition pending (m m' : gmap path node) (c tp : path) : Prop :=
  (forall p, p <> tp -> m' !! p = m !! p \/
     ((exists n, p = temp_path c n) /\ m' !! p = None /\ m !! p <> Some Dir)) /\
  (m' !! tp = m !! tp \/
   (m !! tp <> Some Dir /\ (m' !! tp = None \/ exists d, m' !! tp = Some (File d)))).

(** The reference of the merge: per field, the first true value of the
    pages, or the initial value. *)
Definition pick (cur : json) (vs : list json) : json :=
  if truthy cur then cur else match find truthy vs with Some v => v | None => cur end.

(** [page[key]] when present. *)
Definition field (key : pystr) (page : json) : json :=
  match getitem page (IStr key) with Ok v => v | Err _ => JNull end.

Definition has_fields (page : json) : Prop :=
  is_ok (getitem page (IStr key_company)) = true /\ is_ok (getitem page (IStr key_amount)) = true.

(** A Python [str] value. *)
Definition is_str (v : json) : Prop := exists s, v = JStr s.

(** The value one page contributes to [all_info] when rendering, the
    vision request and both parses succeed (lines 86-90). *)
Definition page_reply (E : env) (pg : bytes) : option json :=
  match render E pg with
  | Err _ => None
  | Ok pix =>
      match res_bind (http_post E (headers (api_key E)) (payload prompt_rename (b64encode pix)))
              (fun body => res_bind (loads body) reply_content) with
      | Ok (JStr c) => match loads c with Ok v => Some v | Err _ => None end
      | _ => None
      end
  end.

(** The file system once the page images [n], ..., [n + len - 1] of the
    directory [c] are removed. *)
Definition del_temps (c : path) (n len : nat) (m : gmap path node) : gmap path node :=
  fold_left (fun m k => delete (temp_path c k) m) (seq n len) m.

(** ** Lemmas *)

Lemma readonly_vision (E : env) (hdrs : list (pystr * pystr)) (prompt p : pystr) :
  readonly (vision_request E hdrs prompt p).
Proof. unfold vision_request, encode_image. eauto 10 with rodb. Qed.

Lemma readonly_tesseract (E : env) (p : pystr) : readonly (extract_info_with_tesseract E p).
Proof.
  unfold extract_info_with_tesseract. apply readonly_try_except; [|eauto with rodb].
  apply readonly_bind; [apply readonly_read|]. intros d.
  apply readonly_bind; [destruct (pil_decode E d); eauto with rodb|]. intros _.
  apply readonly_bind; [apply readonly_lift|]. intros t. destruct (ocr_fields t).
  apply readonly_ret.
Qed.

(** The label extractor is the vision request with the label prompt and
    headers ([encode_image_label] is [encode_image]). *)
Lemma image_label_vision (E : env) (p : pystr) :
  extract_info_from_image_label E p = vision_request E (headers_label (api_key_label E)) prompt_label p.
Proof. reflexivity. Qed.

Lemma readonly_image_label (E : env) (p : pystr) : readonly (extract_info_from_image_label E p).
Proof. rewrite image_label_vision. apply readonly_vision. Qed.

Lemma readonly_image (E : env) (p : pystr) : readonly (extract_info_from_image E p).
Proof.
  unfold extract_info_from_image. apply readonly_try_except; [apply readonly_vision|].
  eauto using readonly_tesseract with rodb.
Qed.

#[export] Hint Resolve readonly_vision readonly_tesseract readonly_image readonly_image_label : rodb.

(** The OCR fallback never raises, and returns the fields of the OCR
    text, or empty fields when reading, decoding or recognition fails. *)
Lemma tesseract_result (E : env) (p : pystr) (w : world) :
  (extract_info_with_tesseract E p w).1 = Ok (JStr (dumps (ocr_info (ocr_outcome E w p)))).
Proof.
  unfold extract_info_with_tesseract, ocr_outcome. munfold.
  destruct (read_bytes p w) as [[d|e] w1] eqn:Er; cbn -[dumps ocr_fields py]; [|done].
  destruct (pil_decode E d); cbn -[dumps ocr_fields py]; [|done].
  destruct (tesseract E d) as [t|e]; cbn -[dumps ocr_fields py]; [|done].
  by destruct (ocr_fields t).
Qed.

(** The image extractor of [rename_invoices.py] never raises. *)
Lemma image_never_raises (E : env) (p : pystr) (w : world) :
  exists v, (extract_info_from_image E p w).1 = Ok v.
Proof.
  unfold extract_info_from_image, try_except.
  destruct (vision_request E (headers (api_key E)) prompt_rename p w) as [[v|e] w1]; [by exists v|].
  cbn [mbind M_bind print]. eexists. apply tesseract_result.
Qed.

Lemma Forall_strip (P : char -> Prop) (s : pystr) : Forall P s -> Forall P (strip s).
Proof.
  intros H. unfold strip, rstrip, lstrip. apply Forall_rev.
  destruct (drop_while_suffix isspace (rev (drop_while isspace s))) as (t1 & Ht1 & _).
  destruct (drop_while_suffix isspace s) as (t2 & Ht2 & _).
  rewrite Ht2, Forall_app in H. destruct H as [_ H].
  apply Forall_rev in H. rewrite Ht1, Forall_app in H. by destruct H.
Qed.

Lemma valid_str_ok (s : pystr) : Forall (fun c => valid_char c = true) s -> str_ok s = true.
Proof.
  induction 1 as [|c s Hc _ IH]; [done|]. cbn [str_ok]. unfold valid_char in Hc.
  apply andb_true_iff in Hc as [[Hlt Hh]%andb_true_iff _].
  apply negb_true_iff in Hh. by rewrite Hlt, Hh, IH.
Qed.

Lemma valid_search_group (r b : re) (t : pystr) :
  group_body r = Some b -> Forall (fun c => valid_char c = true) t ->
  Forall (fun c => valid_char c = true) (search_group r t).
Proof.
  intros Hb Ht. destruct (search_group_sound r b t Hb) as [[_ ->]|(pre & post & E & _)];
    [constructor|]. rewrite E, !Forall_app in Ht. tauto.
Qed.

(** The reply of the OCR fallback parses back to its two fields when the
    OCR text is valid Unicode. *)
Lemma ocr_info_roundtrip (E : env) (w : world) (p : pystr) :
  ocr_valid E -> loads (dumps (ocr_info (ocr_outcome E w p))) = Ok (ocr_info (ocr_outcome E w p)).
Proof.
  intros Hv. apply loads_dumps. unfold ocr_outcome.
  destruct (read_bytes p w).1 as [d|]; [|done].
  destruct (pil_decode E d); [|done].
  destruct (tesseract E d) as [t|] eqn:Et; [|done].
  apply Hv in Et. cbn -[strip search_group].
  rewrite !valid_str_ok; [done | ..]; apply Forall_strip;
    first [ apply (valid_search_group company_pattern (plus dot))
          | apply (valid_search_group amount_pattern amount_digits) ]; done.
Qed.

Lemma digits_go_noslash (f : nat) (n : N) :
  forallb (fun c => negb (c =? ch_slash)) (digits_go f n) = true.
Proof.
  revert n. induction f as [|f IH]; intros n; [done|]. cbn [digits_go].
  destruct (N.ltb_spec n 10).
  - cbn [forallb]. rewrite andb_true_r. apply negb_true_iff, N.eqb_neq. unfold ch_slash. lia.
  - rewrite forallb_app, IH. cbn [forallb andb]. rewrite andb_true_r.
    apply negb_true_iff, N.eqb_neq. unfold ch_slash. generalize (n mod 10). lia.
Qed.

Lemma temp_name_simple (n : nat) : simple_name (temp_name n) = true.
Proof.
  unfold simple_name. replace (forallb _ (temp_name n)) with true.
  - unfold temp_name, str_of_nat. destruct (digits_go _ _); vm_compute; reflexivity.
  - symmetry. unfold temp_name, str_of_nat. rewrite !forallb_app, digits_go_noslash. reflexivity.
Qed.

Lemma resolve_temp (w : world) (n : nat) : resolve w (temp_name n) = Ok (temp_path (cwd w) n).
Proof. apply resolve_simple, temp_name_simple. Qed.

Lemma temps_only_refl (m : gmap path node) (c : path) : temps_only m m c.
Proof. intros p. by left. Qed.

Lemma temps_only_pending (m m' : gmap path node) (c : path) (n : nat) :
  temps_only m m' c -> pending m m' c (temp_path c n).
Proof.
  intros H. split; [intros p _; apply H|].
  destruct (H (temp_path c n)) as [E|(_ & E & Hd)]; auto.
Qed.

Lemma write_temp (w : world) (n : nat) (d : bytes) :
  write_bytes (temp_name n) d w =
    match fs w !! temp_path (cwd w) n with
    | Some Dir => (Err IsADirectoryError, w)
    | _ => (Ok tt, set_fs w (<[temp_path (cwd w) n := File d]> (fs w)))
    end.
Proof. unfold write_bytes. rewrite resolve_temp. reflexivity. Qed.

Lemma remove_temp (w : world) (n : nat) :
  os_remove (temp_name n) w =
    match fs w !! temp_path (cwd w) n with
    | Some (File _) => (Ok tt, set_fs w (delete (temp_path (cwd w) n) (fs w)))
    | Some Dir => (Err IsADirectoryError, w)
    | None => (Err FileNotFoundError, w)
    end.
Proof. unfold os_remove. rewrite resolve_temp. reflexivity. Qed.

Lemma exists_temp (w : world) (n : nat) :
  exists_b w (temp_name n) = bool_decide (is_Some (fs w !! temp_path (cwd w) n)).
Proof.
  unfold exists_b, lookup_path. rewrite resolve_temp. cbn [node_at temp_path].
  by destruct (fs w !! _).
Qed.

Lemma temps_only_not_dir (m m' : gmap path node) (c p : path) :
  temps_only m m' c -> m' !! p <> Some Dir -> m !! p <> Some Dir.
Proof. intros H Hp. by destruct (H p) as [<-|(_ & _ & ?)]. Qed.

Lemma insert_pending (m m' : gmap path node) (c : path) (n : nat) (d : bytes) :
  temps_only m m' c -> m' !! temp_path c n <> Some Dir ->
  pending m (<[temp_path c n := File d]> m') c (temp_path c n).
Proof.
  intros H Hn. split.
  - intros p Hp. rewrite lookup_insert_ne by congruence. apply H.
  - rewrite lookup_insert_eq. right. split; [by eapply temps_only_not_dir|eauto].
Qed.

Lemma delete_insert_temps (m m' : gmap path node) (c : path) (n : nat) (x : node) :
  temps_only m m' c -> m' !! temp_path c n <> Some Dir ->
  temps_only m (delete (temp_path c n) (<[temp_path c n := x]> m')) c.
Proof.
  intros H Hn p. destruct (decide (p = temp_path c n)) as [->|Hne].
  - right. rewrite lookup_delete_eq. split_and!; [eauto | done | by eapply temps_only_not_dir].
  - rewrite lookup_delete_ne, lookup_insert_ne by congruence. apply H.
Qed.

(** The page loop changes the file system only at the temporary page
    images: when it ends without a current image they are all as before
    or gone, otherwise the current one may still hold a file. *)
Lemma pages_loop_frame (E : env) (pages : list bytes) :
  forall n acc w m0, temps_only m0 (fs w) (cwd w) ->
  match pages_loop E pages n acc w with
  | ((_, t), w') =>
      cwd w' = cwd w /\
      match t with
      | None => temps_only m0 (fs w') (cwd w)
      | Some t => exists k, t = temp_name k /\ pending m0 (fs w') (cwd w) (temp_path (cwd w) k)
      end
  end.
Proof.
  induction pages as [|pg rest IH]; intros n acc w m0 H; cbn [pages_loop]; [done|].
  destruct (render E pg) as [pix|e]; [|done].
  rewrite write_temp.
  destruct (fs w !! temp_path (cwd w) n) as [[d|]|] eqn:Etp;
    [| split; [done|]; exists n; split; [done | by apply temps_only_pending] |].
  all: assert (Hpend : pending m0 (<[temp_path (cwd w) n := File pix]> (fs w)) (cwd w)
                    (temp_path (cwd w) n)) by (apply insert_pending; [done | by rewrite Etp]).
  all: set (w1 := set_fs w _).
  all: destruct (readonly_image E (temp_name n) w1) as [Hf Hc].
  all: destruct (extract_info_from_image E (temp_name n) w1) as [[v|e] w2]; cbn in Hf, Hc;
    [| split; [done|]; exists n; rewrite Hf; by split].
  all: destruct (loads_value v) as [d'|e]; [| split; [done|]; exists n; rewrite Hf; by split].
  all: rewrite remove_temp, Hf, Hc; cbn [cwd w1 set_fs]; rewrite lookup_insert_eq.
  all: specialize (IH (S n) (acc ++ [d']) (set_fs w2 (delete (temp_path (cwd w) n)
         (<[temp_path (cwd w) n := File pix]> (fs w)))) m0).
  all: cbn [cwd set_fs] in IH; rewrite Hc in IH; cbn [cwd w1 set_fs] in IH.
  all: destruct (pages_loop _ _ _ _ _) as [[r t] w']; apply IH, delete_insert_temps;
    [apply H | by rewrite Etp].
Qed.

Lemma pending_delete (m m' : gmap path node) (c : path) (k : nat) (d : bytes) :
  pending m m' c (temp_path c k) -> m' !! temp_path c k = Some (File d) ->
  temps_only m (delete (temp_path c k) m') c.
Proof.
  intros [Hp Ht] Hf p. destruct (decide (p = temp_path c k)) as [->|Hne].
  - right. rewrite lookup_delete_eq. split_and!; [eauto | done |].
    destruct Ht as [<-|[? _]]; [by rewrite Hf | done].
  - rewrite lookup_delete_ne by congruence. by apply Hp.
Qed.

Lemma pending_keep (m m' : gmap path node) (c : path) (k : nat) :
  pending m m' c (temp_path c k) ->
  (m' !! temp_path c k = None \/ m' !! temp_path c k = Some Dir) -> temps_only m m' c.
Proof.
  intros [Hp Ht] Hk p. destruct (decide (p = temp_path c k)) as [->|Hne]; [|by apply Hp].
  destruct Hk as [Hk|Hk].
  - destruct Ht as [Ht|[Hd _]]; [by left|]. right. eauto.
  - left. destruct Ht as [?|[_ [?|[d ?]]]]; congruence.
Qed.

Lemma temp_name_ne (k : nat) : bool_decide (temp_name k = []) = false.
Proof. by apply bool_decide_eq_false_2. Qed.

Lemma readonly_pdf_except (E : env) (pdf : pystr) (t : option pystr) (e : exn) :
  readonly (pdf_except E pdf t e).
Proof.
  unfold pdf_except. apply readonly_bind; [apply readonly_print|]. intros _.
  destruct t as [t|]; [destruct (bool_decide (t = []))|]; eauto with rodb.
Qed.

(** The [finally] block removes the current page image. *)
Lemma pdf_finally_frame (m0 : gmap path node) (w : world) (t : option pystr) :
  match t with
  | None => temps_only m0 (fs w) (cwd w)
  | Some t => exists k, t = temp_name k /\ pending m0 (fs w) (cwd w) (temp_path (cwd w) k)
  end ->
  cwd (pdf_finally t w).2 = cwd w /\ temps_only m0 (fs (pdf_finally t w).2) (cwd w).
Proof.
  destruct t as [t|]; [|done]. intros (k & -> & Hp). unfold pdf_finally.
  rewrite temp_name_ne. munfold. cbn [os_path_exists]. rewrite exists_temp.
  destruct (fs w !! temp_path (cwd w) k) as [[d|]|] eqn:Ek; cbn -[os_remove temp_name].
  - rewrite remove_temp, Ek. split; [done|]. by apply (pending_delete _ _ _ _ d).
  - rewrite remove_temp, Ek. split; [done|]. apply (pending_keep _ _ _ k); auto.
  - split; [done|]. apply (pending_keep _ _ _ k); auto.
Qed.

Lemma merge_field_pick (cur page : json) (key : pystr) :
  is_ok (getitem page (IStr key)) = true ->
  merge_field cur page key = Ok (pick cur [field key page]).
Proof.
  unfold merge_field, pick, field. intros Hk.
  destruct (truthy cur) eqn:Hc; [done|].
  destruct (getitem page (IStr key)) as [v|]; [|done]. cbn. by destruct (truthy v).
Qed.

Lemma pick_cons (cur v : json) (vs : list json) : pick (pick cur [v]) vs = pick cur (v :: vs).
Proof.
  unfold pick. destruct (truthy cur) eqn:Hc; [by rewrite Hc|]. cbn [find].
  destruct (truthy v) eqn:Hv; [by rewrite Hv|]. by rewrite Hc.
Qed.

Lemma merge_go_pick (c a : json) (pages : list json) :
  Forall has_fields pages ->
  merge_go (c, a) pages = Ok (pick c (map (field key_company) pages),
                              pick a (map (field key_amount) pages)).
Proof.
  revert c a. induction pages as [|pg ps IH]; intros c a Hall.
  - cbn. unfold pick. cbn. by destruct (truthy c), (truthy a).
  - apply Forall_cons in Hall as [[Hc Ha] Hps]. cbn [merge_go]. unfold merge_step.
    cbn [fst snd]. rewrite (merge_field_pick _ _ _ Hc), (merge_field_pick _ _ _ Ha).
    cbn [res_bind]. by rewrite IH, !pick_cons.
Qed.

(** A page image written over whatever the path held is pending against
    the file system without that path. *)
Lemma pending_fresh (m : gmap path node) (c : path) (n : nat) (x : bytes) :
  pending (delete (temp_path c n) m) (<[temp_path c n := File x]> m) c (temp_path c n).
Proof.
  split.
  - intros p Hp. left. by rewrite lookup_insert_ne, lookup_delete_ne by congruence.
  - right. rewrite lookup_delete_eq, lookup_insert_eq. split; [done|]. right. by exists x.
Qed.

(** The [except] and [finally] blocks of the PDF extractor (lines
    101-108) keep the frame the page loop established. *)
Lemma pdf_after_loop_frame (E : env) (pdf : pystr) (m0 : gmap path node) (r : res json)
    (t : option pystr) (w1 : world) :
  match t with
  | None => temps_only m0 (fs w1) (cwd w1)
  | Some t => exists k, t = temp_name k /\ pending m0 (fs w1) (cwd w1) (temp_path (cwd w1) k)
  end ->
  cwd (try_finally (try_except (lift r) (pdf_except E pdf t)) (pdf_finally t) w1).2 = cwd w1 /\
  temps_only m0 (fs (try_finally (try_except (lift r) (pdf_except E pdf t)) (pdf_finally t) w1).2) (cwd w1).
Proof.
  intros Ht. munfold.
  assert (Hh : forall w2, fs w2 = fs w1 -> cwd w2 = cwd w1 ->
            cwd (pdf_finally t w2).2 = cwd w1 /\ temps_only m0 (fs (pdf_finally t w2).2) (cwd w1)).
  { intros w2 H1 H2. rewrite <- H2. apply pdf_finally_frame. by rewrite H1, H2. }
  destruct r as [v|e]; cbn [fst snd].
  - destruct (pdf_finally t w1) as [[]] eqn:Ef; specialize (Hh w1 eq_refl eq_refl);
      rewrite Ef in Hh; exact Hh.
  - destruct (readonly_pdf_except E pdf t e w1) as [H1 H2].
    destruct (pdf_except E pdf t e w1) as [r2 w2]. cbn [fst snd] in H1, H2.
    specialize (Hh w2 H1 H2).
    destruct (pdf_finally t w2) as [[]]; exact Hh.
Qed.

(** The frame of the PDF extractor, on every path. *)
Lemma pdf_frame (E : env) (pdf : pystr) (w : world) :
  cwd (extract_info_from_pdf E pdf w).2 = cwd w /\
  temps_only (fs w) (fs (extract_info_from_pdf E pdf w).2) (cwd w).
Proof.
  unfold extract_info_from_pdf.
  assert (Hloop : match pdf_try E pdf w with
    | ((_, t), w1) => cwd w1 = cwd w /\
        match t with
        | None => temps_only (fs w) (fs w1) (cwd w)
        | Some t => exists k, t = temp_name k /\ pending (fs w) (fs w1) (cwd w) (temp_path (cwd w) k)
        end
    end).
  { unfold pdf_try. destruct (readonly_read pdf w) as [Hf Hc].
    destruct (read_bytes pdf w) as [[d|e] w']; cbn [fst snd] in Hf, Hc;
      [| split; [done|]; rewrite Hf; apply temps_only_refl].
    destruct (fitz_pages E d) as [pages|]; [| split; [done|]; rewrite Hf; apply temps_only_refl].
    pose proof (pages_loop_frame E pages 0 [] w' (fs w)) as Hpl.
    rewrite Hf, Hc in Hpl. specialize (Hpl (temps_only_refl _ _)).
    destruct (pages_loop E pages 0 [] w') as [[[infos|e] t] w''];
      [destruct (merge infos) as [[c a]|e]|]; exact Hpl. }
  destruct (pdf_try E pdf w) as [[r t] w1].
  destruct Hloop as [Hc1 Ht]. rewrite <- Hc1 in Ht |- *. by apply pdf_after_loop_frame.
Qed.

Lemma temps_only_keep (m m' : gmap path node) (c p : path) :
  temps_only m m' c -> (forall n, p <> temp_path c n) -> m' !! p = m !! p.
Proof. intros H Hp. destruct (H p) as [?|([n ->] & _)]; [done|]. by destruct (Hp n). Qed.

Lemma temps_only_keeps_dirs (m m' : gmap path node) (c : path) :
  temps_only m m' c -> keeps_dirs m m'.
Proof.
  intros H [|x p] Hx; [done|]. cbn in *. by destruct (H (x :: p)) as [->|(_ & _ & ?)].
Qed.

(** Removing files keeps a file system well formed. *)
Lemma wf_temps_only (m m' : gmap path node) (c : path) :
  temps_only m m' c -> wf_fs m -> wf_fs m'.
Proof.
  intros H Hwf p n Hp. destruct (H p) as [E|(_ & E & _)].
  2: { assert (Some n = None) by (transitivity (m' !! p); [symmetry; exact Hp | exact E]). done. }
  assert (Hm : m !! p = Some n) by (transitivity (m' !! p); [symmetry; exact E | exact Hp]).
  destruct (Hwf p n Hm) as [? Hd]. split; [done|].
  by apply (temps_only_keeps_dirs m m' c).
Qed.

Lemma preserves_pdf (E : env) (pdf : pystr) : preserves (extract_info_from_pdf E pdf).
Proof.
  intros w [Hf Hc]. destruct (pdf_frame E pdf w) as [Hc' Ht]. split.
  - by eapply wf_temps_only.
  - rewrite Hc'. by apply (temps_only_keeps_dirs _ _ _ Ht).
Qed.

Lemma preserves_image (E : env) (p : pystr) : preserves (extract_info_from_image E p).
Proof. apply preserves_readonly, readonly_image. Qed.

Lemma preserves_pdf_label (E : env) (pdf temp : pystr) :
  preserves (extract_info_from_pdf_label E pdf temp).
Proof.
  unfold extract_info_from_pdf_label.
  eauto 20 using preserves_readonly, readonly_image_label with wfdb.
Qed.

#[export] Hint Resolve preserves_image preserves_pdf_label : wfdb.

(** The image extractor on each branch. *)
Lemma image_result (E : env) (p : pystr) (d : bytes) (w : world) :
  lookup_path w p = Some (File d) ->
  extract_info_from_image E p w =
    match res_bind (http_post E (headers (api_key E)) (payload prompt_rename (b64encode d)))
            (fun body => res_bind (loads body) reply_content) with
    | Ok v => (Ok v, w)
    | Err e =>
        extract_info_with_tesseract E p
          (mkWorld (fs w) (cwd w)
             (out w ++ [LineExn (py "Error using OpenAI API: ") e (py ". Falling back to Tesseract.")]))
    end.
Proof.
  intros Hl. unfold extract_info_from_image, vision_request, encode_image. munfold.
  rewrite (read_lookup _ _ _ Hl).
  destruct (http_post E _) as [body|e]; cbn [res_bind]; [|done].
  destruct (loads body) as [result|e]; cbn [res_bind]; [|done].
  by destruct (reply_content result).
Qed.

(** The page loop when every page succeeds: the values in page order,
    no page image left, each written and removed in turn. *)
Lemma pages_loop_success (E : env) (pages : list bytes) (vs : list json) :
  Forall2 (fun pg v => page_reply E pg = Some v) pages vs ->
  forall n acc w, (forall k, node_at (fs w) (temp_path (cwd w) k) <> Some Dir) ->
  pages_loop E pages n acc w =
    ((Ok (acc ++ vs), None), set_fs w (del_temps (cwd w) n (length pages) (fs w))).
Proof.
  induction 1 as [|pg v pages vs Hpg _ IH]; intros n acc w Hnd.
  - rewrite app_nil_r. by destruct w.
  - unfold page_reply in Hpg. cbn [pages_loop].
    destruct (render E pg) as [pix|]; [|discriminate].
    rewrite write_temp.
    destruct (fs w !! temp_path (cwd w) n) as [[]|] eqn:Ex; [| by destruct (Hnd n Ex) |];
    (assert (Hl : lookup_path (set_fs w (<[temp_path (cwd w) n := File pix]> (fs w))) (temp_name n)
                = Some (File pix))
       by (unfold lookup_path; rewrite resolve_temp; cbn [node_at temp_path fs set_fs cwd];
           by rewrite lookup_insert_eq);
     rewrite (image_result E _ pix _ Hl);
     destruct (res_bind _ _) as [[]|]; try discriminate;
     cbn [loads_value]; destruct (loads _) as [v'|]; [|discriminate]; injection Hpg as ->;
     rewrite remove_temp; cbn [cwd fs set_fs]; rewrite lookup_insert_eq, delete_insert_eq;
     rewrite IH; [by rewrite <- app_assoc |];
     intros k; cbn [cwd fs set_fs]; rewrite node_at_delete by done;
     case_decide; [done | apply Hnd]).
Qed.

(** ** The extractors' results are [str] values *)

Lemma post_tesseract (E : env) (p : pystr) : has_post (extract_info_with_tesseract E p) is_str.
Proof. intros w. rewrite tesseract_result. eexists; reflexivity. Qed.

Lemma post_pdf_except (E : env) (pdf : pystr) (t : option pystr) (e : exn) :
  has_post (pdf_except E pdf t e) is_str.
Proof.
  unfold pdf_except. apply (post_bind _ _ (fun _ => True)); [by intros w | intros _ _].
  destruct t as [t|]; [destruct (bool_decide (t = []))|]; eauto using post_tesseract with postdb;
    apply post_ret; eexists; reflexivity.
Qed.

Lemma post_pdf_try (E : env) (pdf : pystr) (w : world) :
  match (pdf_try E pdf w).1.1 with Ok v => is_str v | Err _ => True end.
Proof.
  unfold pdf_try. destruct (read_bytes pdf w) as [[d|e] w1]; [|done].
  destruct (fitz_pages E d) as [pages|]; [|done].
  destruct (pages_loop E pages 0 [] w1) as [[[infos|e] t] w2]; [|done].
  destruct (merge infos) as [[c a]|e]; [|done]. eexists; reflexivity.
Qed.


(** The success path of the PDF extractor (lines 80-100). *)
Lemma pdf_success (E : env) (pdf : pystr) (data : bytes) (pages : list bytes)
    (vs : list json) (w : world) :
  lookup_path w pdf = Some (File data) -> fitz_pages E data = Some pages ->
  Forall2 (fun pg v => page_reply E pg = Some v) pages vs -> Forall has_fields vs ->
  (forall k, node_at (fs w) (temp_path (cwd w) k) <> Some Dir) ->
  extract_info_from_pdf E pdf w =
    (Ok (JStr (dumps (info (pick (JStr []) (map (field key_company) vs))
                           (pick (JStr []) (map (field key_amount) vs))))),
     set_fs w (del_temps (cwd w) 0 (length pages) (fs w))).
Proof.
  intros Hl Hp Hvs Hf Hnd. unfold extract_info_from_pdf, pdf_try.
  rewrite (read_lookup _ _ _ Hl), Hp, (pages_loop_success E pages vs Hvs 0 [] w Hnd).
  unfold merge. rewrite (merge_go_pick _ _ _ Hf). reflexivity.
Qed.

End Extract.

Import Json Regex World Base64 Extract.

(** C1: The PDF extractor of [rename_invoices.py] leaves no temporary page
    image behind and touches nothing else: on every path (the page loop,
    the [except] fallback to OCR, the [finally] clean-up), the file system
    afterwards equals the one before except that some
    [temp_image_<n>.jpg] entries of the working directory are gone. *)
Theorem pdf_leaves_no_temp_files (E : env) (pdf : pystr) (w : world) :
  cwd (extract_info_from_pdf E pdf w).2 = cwd w /\
  temps_only (fs w) (fs (extract_info_from_pdf E pdf w).2) (cwd w).
Proof. apply pdf_frame. Qed.

(** C2: The merge of the PDF pages' results (lines 94-99): when every page
    result has both keys, each field of the merged result is the first
    true value of that field over the pages, in page order, independently
    of the other field; a field no page fills stays [""]. *)
Theorem merge_first_non_empty (pages : list json) :
  Forall has_fields pages ->
  merge pages = Ok (pick (JStr []) (map (field key_company) pages),
                    pick (JStr []) (map (field key_amount) pages)).
Proof. apply merge_go_pick. Qed.

(** The merge example of the specification: pages
    [{"", "100"}, {"Acme", ""}, {"Other", "200"}] merge into
    [{"Acme", "100"}]. *)
Example merge_spec_example :
  merge [info (JStr []) (JStr (py "100")); info (JStr (py "Acme")) (JStr []);
         info (JStr (py "Other")) (JStr (py "200"))] =
    Ok (JStr (py "Acme"), JStr (py "100")).
Proof. vm_compute. reflexivity. Qed.

(** C3: The OCR fallback never raises and does not touch the file system:
    it returns the JSON text of the two fields the regular expressions
    find in the OCR text, or of two empty fields when reading, decoding or
    recognition fails; with valid OCR text that JSON text parses back to
    exactly those two strings. *)
Theorem ocr_fallback_never_raises (E : env) (p : pystr) (w : world) :
  ocr_valid E ->
  (extract_info_with_tesseract E p w).1 = Ok (JStr (dumps (ocr_info (ocr_outcome E w p)))) /\
  loads (dumps (ocr_info (ocr_outcome E w p))) = Ok (ocr_info (ocr_outcome E w p)) /\
  fs (extract_info_with_tesseract E p w).2 = fs w.
Proof.
  intros Hv. split_and!; [apply tesseract_result | by apply ocr_info_roundtrip |].
  apply readonly_tesseract.
Qed.


Lemma merge_first_non_empty_witness :
  Forall has_fields [info (JStr []) (JStr (py "100")); info (JStr (py "Acme")) (JStr [])] /\
  merge [info (JStr []) (JStr (py "100")); info (JStr (py "Acme")) (JStr [])] =
    Ok (pick (JStr []) (map (field key_company)
          [info (JStr []) (JStr (py "100")); info (JStr (py "Acme")) (JStr [])]),
        pick (JStr []) (map (field key_amount)
          [info (JStr []) (JStr (py "100")); info (JStr (py "Acme")) (JStr [])])).
Proof.
  assert (H : Forall has_fields [info (JStr []) (JStr (py "100")); info (JStr (py "Acme")) (JStr [])])
    by (unfold has_fields; repeat constructor).
  split; [exact H | apply merge_first_non_empty; exact H].
Defined.

Lemma ocr_fallback_never_raises_witness :
  let E := {| environ := [(py "OPENAI_API_KEY", py "sk-test")];
  http_post := fun _ _ => Err RequestException; pil_decode := fun _ => true;
              tesseract := fun _ => Ok (py "Company: Acme"); pil_pdf := fun d => d;
              fitz_pages := fun _ => None; render := fun d => Ok d; fitz_save := fun d => d |} in
  let w := mkWorld (<[[py "a.png"] := File [1; 2]]> ∅) [] [] in
  ocr_valid E /\
  ((extract_info_with_tesseract E (py "a.png") w).1 =
     Ok (JStr (dumps (ocr_info (ocr_outcome E w (py "a.png"))))) /\
   loads (dumps (ocr_info (ocr_outcome E w (py "a.png")))) =
     Ok (ocr_info (ocr_outcome E w (py "a.png"))) /\
   fs (extract_info_with_tesseract E (py "a.png") w).2 = fs w).
Proof.
  intros E w. assert (Hv : ocr_valid E).
  { intros d t [= <-]. repeat constructor. }
  split; [exact Hv | apply ocr_fallback_never_raises; exact Hv].
Defined.

(** C21: [encode_image] (lines 25-27, label 18-20) embeds the whole
    file: on a file of bytes it returns, without changing the world, a
    text that [base64.b64decode] turns back into exactly those bytes and
    whose length is four characters per started group of three bytes;
    on a path that is not a file it raises, with the world unchanged. *)
Theorem encode_image_roundtrip (p : pystr) (w : world) :
  match lookup_path w p with
  | Some (File d) =>
      Forall (fun b => b < 256) d ->
      exists s, encode_image p w = (Ok s, w) /\ b64decode s = Some d /\
        length s = (4 * ((length d + 2) / 3))%nat
  | _ => exists e, encode_image p w = (Err e, w)
  end.
Proof.
  unfold encode_image, lookup_path, read_bytes. munfold.
  destruct (resolve w p) as [q|e]; [|by exists e].
  destruct (node_at (fs w) q) as [[d|]|]; [|by eexists..].
  intros Hd. exists (b64encode d). split_and!; [done | by apply b64_roundtrip |].
  by apply b64_length_alphabet.
Qed.

Lemma encode_image_roundtrip_witness :
  let w := mkWorld (<[[py "a.png"] := File [137; 80; 78; 71]]> ∅) [] [] in
  Forall (fun b => b < 256) [137; 80; 78; 71] /\
  exists s, encode_image (py "a.png") w = (Ok s, w) /\ b64decode s = Some [137; 80; 78; 71] /\
    length s = (4 * ((length [137; 80; 78; 71] + 2) / 3))%nat.
Proof.
  intros w. assert (Hd : Forall (fun b => b < 256) [137; 80; 78; 71]) by (repeat constructor; lia).
  split; [exact Hd|]. exact (encode_image_roundtrip (py "a.png") w Hd).
Defined.

(** C13: The PDF extractor of [rename_invoices.py] on its success path
    (lines 80-99): when the PDF reads and opens, and every page renders
    and gets a vision reply that parses to a value with both keys, the
    result is the JSON text of the per-field first non-empty merge of
    those values in page order; nothing is printed and the file system
    is the one before with the page images [temp_image_0.jpg], ...
    removed (each written and removed in turn). *)
Theorem pdf_extractor_success (E : env) (pdf : pystr) (data : bytes) (pages : list bytes)
    (vs : list json) (w : world) :
  lookup_path w pdf = Some (File data) -> fitz_pages E data = Some pages ->
  Forall2 (fun pg v => page_reply E pg = Some v) pages vs -> Forall has_fields vs ->
  (forall k, node_at (fs w) (temp_path (cwd w) k) <> Some Dir) ->
  extract_info_from_pdf E pdf w =
    (Ok (JStr (dumps (info (pick (JStr []) (map (field key_company) vs))
                           (pick (JStr []) (map (field key_amount) vs))))),
     set_fs w (del_temps (cwd w) 0 (length pages) (fs w))).
Proof. apply pdf_success. Qed.

Lemma pdf_extractor_success_witness :
  let c := dumps (info (JStr (py "Acme")) (JStr (py "5.00"))) in
  let result := JObj [(py "choices", JArr [JObj [(py "message", JObj [(py "content", JStr c)])]])] in
  let E := {| environ := [(py "OPENAI_API_KEY", py "sk-test")];
  http_post := fun _ _ => Ok (dumps result); pil_decode := fun _ => true;
              tesseract := fun _ => Ok []; pil_pdf := fun d => d;
              fitz_pages := fun d => Some [d; d]; render := fun d => Ok d; fitz_save := fun d => d |} in
  let w := mkWorld (<[[py "a.pdf"] := File [1]]> ∅) [] [] in
  let vs := [info (JStr (py "Acme")) (JStr (py "5.00")); info (JStr (py "Acme")) (JStr (py "5.00"))] in
  lookup_path w (py "a.pdf") = Some (File [1]) /\ fitz_pages E [1] = Some [[1]; [1]] /\
  Forall2 (fun pg v => page_reply E pg = Some v) [[1]; [1]] vs /\ Forall has_fields vs /\
  (forall k, node_at (fs w) (temp_path (cwd w) k) <> Some Dir) /\
  extract_info_from_pdf E (py "a.pdf") w =
    (Ok (JStr (dumps (info (pick (JStr []) (map (field key_company) vs))
                           (pick (JStr []) (map (field key_amount) vs))))),
     set_fs w (del_temps (cwd w) 0 (length [[1]; [1]]) (fs w))).
Proof.
  intros c result E w vs.
  assert (H1 : lookup_path w (py "a.pdf") = Some (File [1])) by (vm_compute; reflexivity).
  assert (H2 : fitz_pages E [1] = Some [[1]; [1]]) by reflexivity.
  assert (H3 : Forall2 (fun pg v => page_reply E pg = Some v) [[1]; [1]] vs)
    by (repeat constructor; vm_compute; reflexivity).
  assert (H4 : Forall has_fields vs) by (repeat constructor; vm_compute; reflexivity).
  assert (H5 : forall k, node_at (fs w) (temp_path (cwd w) k) <> Some Dir).
  { intros k. cbn [node_at temp_path fs cwd w]. rewrite lookup_insert_ne; [by rewrite lookup_empty|].
    by intros [= Hk]. }
  split_and!; [exact H1 | exact H2 | exact H3 | exact H4 | exact H5 |].
  exact (pdf_extractor_success E (py "a.pdf") [1] [[1]; [1]] vs w H1 H2 H3 H4 H5).
Defined.

(** C15: The PDF extractor of [label_invoices.py] (lines 49-56) leaves its
    page image behind whenever the vision step fails: the first page is
    rendered and written to the [temp] path the caller gives, and when
    the request, [response.json()] or a subscript raises, the exception
    propagates past [os.remove], so the file system afterwards holds the
    rendered page at [temp] (in [label_invoices.py], inside the invoice
    folder). *)
Theorem label_pdf_leaves_temp (E : env) (pdf temp : pystr) (data pix : bytes) (pg : bytes)
    (pages : list bytes) (q : path) (e : exn) (w : world) :
  lookup_path w pdf = Some (File data) -> fitz_pages E data = Some (pg :: pages) ->
  render E pg = Ok pix -> resolve w temp = Ok q -> node_at (fs w) q <> Some Dir ->
  res_bind (http_post E (headers_label (api_key_label E)) (payload prompt_label (b64encode pix)))
    (fun body => res_bind (loads body) reply_content) = Err e ->
  extract_info_from_pdf_label E pdf temp w = (Err e, set_fs w (<[q := File pix]> (fs w))).
Proof.
  intros Hl Hp Hr Hq Hn He. unfold extract_info_from_pdf_label. munfold.
  rewrite (read_lookup _ _ _ Hl), Hp, Hr. cbn [lift].
  assert (Hw : write_bytes temp pix w = (Ok tt, set_fs w (<[q := File pix]> (fs w)))).
  { unfold write_bytes. rewrite Hq. by destruct (node_at (fs w) q) as [[]|]. }
  rewrite Hw. unfold extract_info_from_image_label, encode_image_label. munfold.
  assert (Hl' : lookup_path (set_fs w (<[q := File pix]> (fs w))) temp = Some (File pix)).
  { unfold lookup_path. rewrite (resolve_mono w _ temp q); [| by apply keeps_dirs_insert_file | done | done].
    cbn [fs set_fs]. destruct q as [|x q]; [done|]. cbn [node_at]. by rewrite lookup_insert_eq. }
  rewrite (read_lookup _ _ _ Hl').
  destruct (http_post E _) as [body|e']; cbn [res_bind] in He |- *; [|by injection He as ->].
  destruct (loads body) as [result|e']; cbn [res_bind] in He |- *; [|by injection He as ->].
  by rewrite He.
Qed.

Lemma label_pdf_leaves_temp_witness :
  let E := {| environ := [(py "OPENAI_API_KEY", py "sk-test")];
  http_post := fun _ _ => Err RequestException; pil_decode := fun _ => true;
              tesseract := fun _ => Ok []; pil_pdf := fun d => d;
              fitz_pages := fun d => Some [d]; render := fun d => Ok (255 :: d); fitz_save := fun d => d |} in
  let w := mkWorld (<[[py "a.pdf"; py "inv"] := File [1]]> (<[[py "inv"] := Dir]> ∅)) [] [] in
  let temp := py "inv/temp_image.jpg" in
  lookup_path w (py "inv/a.pdf") = Some (File [1]) /\ fitz_pages E [1] = Some [[1]] /\
  render E [1] = Ok [255; 1] /\ resolve w temp = Ok [py "temp_image.jpg"; py "inv"] /\
  node_at (fs w) [py "temp_image.jpg"; py "inv"] <> Some Dir /\
  res_bind (http_post E (headers_label (api_key_label E)) (payload prompt_label (b64encode [255; 1])))
    (fun body => res_bind (loads body) reply_content) = Err RequestException /\
  extract_info_from_pdf_label E (py "inv/a.pdf") temp w =
    (Err RequestException, set_fs w (<[[py "temp_image.jpg"; py "inv"] := File [255; 1]]> (fs w))).
Proof.
  intros E w temp.
  split_and!; [(vm_compute; reflexivity) || (vm_compute; discriminate) .. |].
  apply (label_pdf_leaves_temp E (py "inv/a.pdf") temp [1] [255; 1] [1] []);
    (vm_compute; reflexivity) || (vm_compute; discriminate).
Defined.

(** C14: The OCR fallback and the PDF extractor of [rename_invoices.py]
    always return a [str] when they return: the JSON text of the fields
    ([json.dumps] on lines 75, 77, 100 and 105) or the OCR fallback's
    text on the page image, so the [json.loads] of line 138 is applied
    to a [str] for a PDF and never raises [TypeError]; only the vision
    reply's [content], which the code returns unchecked, can be another
    JSON value. *)
Theorem extractors_return_str (E : env) (p : pystr) :
  has_post (extract_info_with_tesseract E p) is_str /\ has_post (extract_info_from_pdf E p) is_str.
Proof.
  split; [apply post_tesseract|]. intros w. unfold extract_info_from_pdf.
  pose proof (post_pdf_try E p w) as Hr. destruct (pdf_try E p w) as [[r t] w1].
  apply post_try_finally, post_try_except; [by apply post_lift | apply post_pdf_except].
Qed.

(** C16: With [OPENAI_API_KEY] unset, both scripts still send the vision
    request, with the header [Authorization: Bearer None] (the f-string
    of [None], lines 17-23; label 11-16); no startup check rejects the
    missing key.  When the endpoint answers such a request with a JSON
    object without a ["choices"] key (an error reply), the subscript
    raises [KeyError]: [rename_invoices.py] prints the API error and
    returns what the Tesseract fallback returns on the same file, while
    [label_invoices.py] lets the [KeyError] escape, leaving the world
    unchanged. *)
Theorem missing_key_request (E : env) (p body : pystr) (d : bytes) (fields : list (pystr * json))
    (w : world) :
  getenv (environ E) (py "OPENAI_API_KEY") = None ->
  (forall pl, http_post E [(py "Content-Type", py "application/json");
                           (py "Authorization", py "Bearer None")] pl = Ok body) ->
  loads body = Ok (JObj fields) -> dict_get fields (py "choices") = None ->
  lookup_path w p = Some (File d) ->
  extract_info_from_image E p w =
    extract_info_with_tesseract E p
      (mkWorld (fs w) (cwd w)
         (out w ++ [LineExn (py "Error using OpenAI API: ") KeyError (py ". Falling back to Tesseract.")]))
  /\ extract_info_from_image_label E p w = (Err KeyError, w).
Proof.
  intros Hk Hp Hb Hc Hl. split.
  - rewrite (image_result E p d w Hl). unfold api_key. rewrite Hk, Hp. cbn [res_bind].
    rewrite Hb. unfold res_bind, reply_content, getitem. by rewrite Hc.
  - unfold extract_info_from_image_label, encode_image_label, api_key_label. munfold.
    rewrite (read_lookup _ _ _ Hl), Hk, Hp. cbn [res_bind]. rewrite Hb. unfold res_bind, reply_content, getitem. by rewrite Hc.
Qed.

Lemma missing_key_request_witness :
  let body := dumps (JObj [(py "error", JObj [(py "code", JStr (py "invalid_api_key"))])]) in
  let E := {| environ := [(py "HOME", py "/root")];
              http_post := fun _ _ => Ok body; pil_decode := fun _ => true;
              tesseract := fun _ => Ok (py "Company: Acme"); pil_pdf := fun d => d;
              fitz_pages := fun _ => None; render := fun d => Ok d; fitz_save := fun d => d |} in
  let w := mkWorld (<[[py "a.png"] := File [1; 2]]> ∅) [] [] in
  extract_info_from_image E (py "a.png") w =
    extract_info_with_tesseract E (py "a.png")
      (mkWorld (fs w) (cwd w)
         (out w ++ [LineExn (py "Error using OpenAI API: ") KeyError (py ". Falling back to Tesseract.")]))
  /\ extract_info_from_image_label E (py "a.png") w = (Err KeyError, w).
Proof.
  intros body E w.
  apply (missing_key_request E (py "a.png") body [1; 2]
           [(py "error", JObj [(py "code", JStr (py "invalid_api_key"))])] w);
    [vm_compute; reflexivity | intros; reflexivity | vm_compute; reflexivity
    | vm_compute; reflexivity | vm_compute; reflexivity].
Defined.

(** C26: The page images of [rename_invoices.py] are written to the
    working directory under fixed names (lines 87-88): processing any PDF
    whose first page renders leaves no file [temp_image_0.jpg] in the
    working directory, whatever it held before (a file of the user
    included), on every path of the extractor: the first page image is
    written over it, and removed either after its reply (line 92) or by
    the [finally] block (lines 106-108), and no later step writes it
    again. *)
Theorem pdf_clobbers_temp0 (E : env) (pdf : pystr) (data pg pix : bytes) (pages : list bytes)
    (w : world) :
  lookup_path w pdf = Some (File data) -> fitz_pages E data = Some (pg :: pages) ->
  render E pg = Ok pix -> node_at (fs w) (temp_path (cwd w) 0) <> Some Dir ->
  node_at (fs (extract_info_from_pdf E pdf w).2) (temp_path (cwd w) 0) = None.
Proof.
  intros Hl Hf Hr Hn. cbn [node_at temp_path] in Hn |- *. fold (temp_path (cwd w) 0) in Hn |- *.
  set (m0 := delete (temp_path (cwd w) 0) (fs w)).
  assert (Hfr : cwd (extract_info_from_pdf E pdf w).2 = cwd w /\
                temps_only m0 (fs (extract_info_from_pdf E pdf w).2) (cwd w)).
  { unfold extract_info_from_pdf, pdf_try. rewrite (read_lookup _ _ _ Hl), Hf. cbn [pages_loop].
    rewrite Hr, write_temp. destruct (fs w !! temp_path (cwd w) 0) as [[|]|] eqn:E0; [| done |].
    all: set (w1 := set_fs w (<[temp_path (cwd w) 0 := File pix]> (fs w))).
    all: assert (Hp : pending m0 (fs w1) (cwd w1) (temp_path (cwd w1) 0)) by apply pending_fresh.
    all: destruct (readonly_image E (temp_name 0) w1) as [Hf1 Hc1].
    all: destruct (extract_info_from_image E (temp_name 0) w1) as [[v|e] w2]; cbn [fst snd] in Hf1, Hc1;
      [destruct (loads_value v) as [d'|e]|].
    all: try (cbv beta iota zeta; replace (cwd w) with (cwd w2) by (rewrite Hc1; reflexivity);
              apply pdf_after_loop_frame; exists 0%nat; split; [done|]; rewrite Hf1, Hc1; exact Hp).
    all: rewrite remove_temp, Hf1, Hc1; cbn [w1 fs cwd set_fs]; rewrite lookup_insert_eq.
    all: set (w3 := set_fs w2 (delete (temp_path (cwd w) 0) (<[temp_path (cwd w) 0 := File pix]> (fs w)))).
    all: assert (H3 : temps_only m0 (fs w3) (cwd w3))
           by (cbn [w3 fs set_fs]; rewrite delete_insert_eq; apply temps_only_refl).
    all: assert (Hc3 : cwd w3 = cwd w) by (cbn [w3 cwd set_fs]; by rewrite Hc1).
    all: pose proof (pages_loop_frame E pages 1 ([] ++ [d']) w3 m0 H3) as Hpl.
    all: destruct (pages_loop E pages 1 ([] ++ [d']) w3) as [[[infos|e] t] w''];
      [destruct (merge infos) as [[c a]|e]|].
    all: destruct Hpl as [Hc'' Ht]; rewrite <- Hc3, <- Hc''; apply pdf_after_loop_frame;
      by rewrite Hc''. }
  destruct Hfr as [_ Ht]. destruct (Ht (temp_path (cwd w) 0)) as [->|(_ & -> & _)]; [|done].
  apply lookup_delete_eq.
Qed.

Lemma pdf_clobbers_temp0_witness :
  let E := {| environ := []; http_post := fun _ _ => Err RequestException;
              pil_decode := fun _ => true; tesseract := fun _ => Ok []; pil_pdf := fun d => d;
              fitz_pages := fun d => Some [d]; render := fun d => Ok d; fitz_save := fun d => d |} in
  let w := mkWorld (<[[py "a.pdf"] := File [1]]> (<[[temp_name 0] := File [42]]> ∅)) [] [] in
  lookup_path w (py "a.pdf") = Some (File [1]) /\
  node_at (fs w) (temp_path (cwd w) 0) = Some (File [42]) /\
  node_at (fs (extract_info_from_pdf E (py "a.pdf") w).2) (temp_path (cwd w) 0) = None.
Proof.
  intros E w. split_and!; [vm_compute; reflexivity .. |].
  apply (pdf_clobbers_temp0 E (py "a.pdf") [1] [1] [1] []);
    [vm_compute; reflexivity .. | vm_compute; discriminate].
Defined.

(** C32: A failure on a later page of a PDF discards the pages already
    read ([rename_invoices.py] lines 85-104): when the first page goes
    through the loop (its image is written, its result parses) and the
    second page fails to render, the exception reaches the [except] block
    with [temp_image_path] reset to [None], so the extractor returns two
    empty fields whatever the first page gave.  The specification (4.4)
    merges the pages' results and says nothing of the pages read before
    a failure. *)
Theorem pdf_later_page_failure (E : env) (pdf : pystr) (data pg1 pg2 pix : bytes)
    (rest : list bytes) (v j : json) (e : exn) (w : world) :
  lookup_path w pdf = Some (File data) -> fitz_pages E data = Some (pg1 :: pg2 :: rest) ->
  render E pg1 = Ok pix -> fs w !! temp_path (cwd w) 0 <> Some Dir ->
  (extract_info_from_image E (temp_name 0)
     (set_fs w (<[temp_path (cwd w) 0 := File pix]> (fs w)))).1 = Ok v ->
  loads_value v = Ok j -> render E pg2 = Err e ->
  (extract_info_from_pdf E pdf w).1 = Ok (JStr (dumps empty_info)).
Proof.
  intros Hl Hf Hr1 Hn Hv Hj Hr2.
  unfold extract_info_from_pdf, pdf_try. rewrite (read_lookup _ _ _ Hl), Hf. cbn [pages_loop].
  rewrite Hr1, write_temp. destruct (fs w !! temp_path (cwd w) 0) as [[|]|] eqn:E0; [| done |].
  all: set (w1 := set_fs w (<[temp_path (cwd w) 0 := File pix]> (fs w))) in Hv |- *.
  all: destruct (readonly_image E (temp_name 0) w1) as [Hf1 Hc1].
  all: destruct (extract_info_from_image E (temp_name 0) w1) as [r w2]; cbn [fst snd] in Hv, Hf1, Hc1.
  all: subst r. all: rewrite Hj, remove_temp, Hf1, Hc1; cbn [w1 fs cwd set_fs]; rewrite lookup_insert_eq.
  all: cbn [pages_loop]; rewrite Hr2; munfold; unfold pdf_except, print; cbn; reflexivity.
Qed.
