(* ===== verification/Pipeline.v ===== *)
(** * The batch driver and the file materializer

    [rename_and_convert_to_pdf] and [process_invoices] of
    [src/rename_invoices.py] (lines 110-154) and of
    [src/label_invoices.py] (lines 58-93), over the world of [World] and
    the extractors of [Extract].

    [process_invoices] creates [raw/] and [processed/], lists the folder,
    keeps the names ending (case-insensitively) in [png], [jpg], [jpeg] or
    [pdf], and runs [process_file] on each name in listing order.  In
    [rename_invoices.py] the body of the loop is inside [try]: an
    exception is printed, the path is recorded, and the loop goes on; the
    recorded paths are printed at the end.  In [label_invoices.py] the
    extraction is outside the [try], the rest re-raises after a message:
    the first failure ends the run.  The progress bar of [tqdm] writes to
    the terminal only and is not modelled. *)

From S2P Require Import Prelude PyStr Normalizer Json Regex World Base64 Extract.

Open Scope N_scope.

Module Pipeline.

Import Json World Base64 Extract Normalizer.

(** ** Names *)

Definition ext_png : pystr := py "png".
Definition ext_jpg : pystr := py "jpg".
Definition ext_jpeg : pystr := py "jpeg".
Definition ext_pdf : pystr := py "pdf".

(** [s.lower().endswith(('png', 'jpg', 'jpeg'))] *)
Definition is_image_name (s : pystr) : bool := endswith_any (lower s) [ext_png; ext_jpg; ext_jpeg].

(** [s.lower().endswith('pdf')] *)
Definition is_pdf_name (s : pystr) : bool := endswith (lower s) ext_pdf.

(** The filter of line 125. *)
Definition is_invoice_name (s : pystr) : bool :=
  endswith_any (lower s) [ext_png; ext_jpg; ext_jpeg; ext_pdf].

(** ** [rename_and_convert_to_pdf] (lines 110-117; label 58-65) *)

Definition rename_and_convert_to_pdf (E : env) (file_path new_filename : pystr) : M unit :=
  if is_image_name file_path then
    data ← read_bytes file_path;
    (if pil_decode E data then mret tt else throw UnidentifiedImageError);;
    write_bytes new_filename (pil_pdf E data)
  else if is_pdf_name file_path then
    data ← read_bytes file_path;
    (match fitz_pages E data with Some _ => mret tt | None => throw FitzError end);;
    os_path_exists new_filename ≫= fun present : bool =>
      if present then mret tt else write_bytes new_filename (fitz_save E data)
  else mret tt.

(** ** The per-file pipeline of [rename_invoices.py] (lines 129-144) *)

(** The receiver of a [str] method ([.upper()] at line 139,
    [.replace] at line 141): a value of the parsed reply without the
    method raises [AttributeError]. *)
Definition str_value (x : json) : res pystr :=
  match x with JStr s => Ok s | _ => Err AttributeError end.

(** Lines 139-141: the new file name from the parsed reply, in the order
    the statements run ([.upper()] before the [amount] subscript). *)
Definition target_name (v : json) : res pystr :=
  let! company := getitem v (IStr key_company) in
  let! c := str_value company in
  let! amount := getitem v (IStr key_amount) in
  let! a := str_value amount in
  Ok (new_filename c a).

(** The body of the [try] of lines 130-144, for one listed name. *)
Definition process_file (E : env) (folder processed raw filename : pystr) : M unit :=
  let file_path := path_join folder filename in
  if is_image_name filename || is_pdf_name filename then
    info0 ← (if is_image_name filename then extract_info_from_image E file_path
             else extract_info_from_pdf E file_path);
    info ← lift (loads_value info0);
    new_filename ← lift (target_name info);
    let new_file_path := path_join processed new_filename in
    rename_and_convert_to_pdf E file_path new_file_path;;
    shutil_move file_path (path_join raw filename)
  else mret tt.

(** The loop of lines 128-147: the paths of the files whose pipeline
    raised, in order. *)
Fixpoint process_loop (E : env) (folder processed raw : pystr) (files errored : list pystr)
    : M (list pystr) :=
  match files with
  | [] => mret errored
  | filename :: rest =>
      try_except (process_file E folder processed raw filename;; mret errored)
        (fun e =>
           print (LineExn ([ch_nl] ++ py "Error processing " ++ filename ++ py ": ") e []);;
           mret (errored ++ [path_join folder filename])) ≫= fun errored' =>
      process_loop E folder processed raw rest errored'
  end.

(** Lines 149-154. *)
Definition report (errored : list pystr) : M unit :=
  match errored with
  | [] => print (Line ([ch_nl] ++ py "All files processed successfully!"))
  | _ :: _ =>
      print (Line ([ch_nl] ++ py "The following files encountered errors and need examination:"));;
      fold_right (fun file k => print (Line file);; k) (mret tt) errored
  end.

(** The lines [report] prints, as a list. *)
Definition report_lines (errored : list pystr) : list line :=
  match errored with
  | [] => [Line ([ch_nl] ++ py "All files processed successfully!")]
  | _ :: _ =>
      Line ([ch_nl] ++ py "The following files encountered errors and need examination:")
        :: map Line errored
  end.

(** [process_invoices(folder_path)] of [rename_invoices.py] (lines 119-154). *)
Definition process_invoices (E : env) (folder : pystr) : M unit :=
  let raw := path_join folder (py "raw") in
  let processed := path_join folder (py "processed") in
  os_makedirs raw true;;
  os_makedirs processed true;;
  names ← os_listdir folder;
  errored ← process_loop E folder processed raw (filter is_invoice_name names) [];
  report errored.

(** ** [label_invoices.py] (lines 67-93) *)

(** [str(x)] in the f-string of line 87: exact for [str], [None] and
    [bool]; the text of a number, list or dict ([repr] of the parsed
    value) is left to the environment. *)
Definition py_str (repr_other : json -> pystr) (x : json) : pystr :=
  match x with
  | JStr s => s
  | JNull => py "None"
  | JBool true => py "True"
  | JBool false => py "False"
  | _ => repr_other x
  end.

Definition target_name_label (repr_other : json -> pystr) (v : json) : res pystr :=
  let! company_name := getitem v (IStr key_company) in
  let! amount := getitem v (IStr key_amount) in
  let! a := str_value amount in
  Ok (new_filename_label (py_str repr_other company_name) a).

(** [rename_and_convert_to_pdf] of [label_invoices.py] (lines 58-65),
    the same code as in [rename_invoices.py]. *)
Definition rename_and_convert_to_pdf_label (E : env) (file_path new_filename : pystr) : M unit :=
  if is_image_name file_path then
    data ← read_bytes file_path;
    (if pil_decode E data then mret tt else throw UnidentifiedImageError);;
    write_bytes new_filename (pil_pdf E data)
  else if is_pdf_name file_path then
    data ← read_bytes file_path;
    (match fitz_pages E data with Some _ => mret tt | None => throw FitzError end);;
    os_path_exists new_filename ≫= fun present : bool =>
      if present then mret tt else write_bytes new_filename (fitz_save E data)
  else mret tt.

(** One iteration of lines 74-93: extraction outside the [try]; inside,
    a message and the exception raised again. *)
Definition process_file_label (E : env) (repr_other : json -> pystr)
    (folder temp processed raw filename : pystr) : M unit :=
  let file_path := path_join folder filename in
  if is_image_name filename || is_pdf_name filename then
    info0 ← (if is_image_name filename then extract_info_from_image_label E file_path
             else extract_info_from_pdf_label E file_path temp);
    info ← lift (loads_value info0);
    try_except
      (new_filename ← lift (target_name_label repr_other info);
       let new_file_path := path_join processed new_filename in
       rename_and_convert_to_pdf_label E file_path new_file_path;;
       shutil_move file_path (path_join raw filename))
      (fun e =>
         print (Line (py "Failed to extract information from " ++ filename));;
         throw e)
  else mret tt.

Fixpoint process_loop_label (E : env) (repr_other : json -> pystr)
    (folder temp processed raw : pystr) (names : list pystr) : M unit :=
  match names with
  | [] => mret tt
  | filename :: rest =>
      process_file_label E repr_other folder temp processed raw filename;;
      process_loop_label E repr_other folder temp processed raw rest
  end.

Definition process_invoices_label (E : env) (repr_other : json -> pystr) (folder : pystr) : M unit :=
  let temp := path_join folder (py "temp_image.jpg") in
  let raw := path_join folder (py "raw") in
  let processed := path_join folder (py "processed") in
  os_makedirs raw true;;
  os_makedirs processed true;;
  names ← os_listdir folder;
  process_loop_label E repr_other folder temp processed raw names.

(** The map after the folder setup: [raw] and [processed] are
    directories. *)
Definition setup_fs (F : path) (m : gmap path node) : gmap path node :=
  <[py "processed" :: F := Dir]> (<[py "raw" :: F := Dir]> m).

(** ** Lemmas *)

(** A name ending in [.pdf] is not an image name. *)
Lemma pdf_suffix_not_image (s : pystr) : is_image_name (s ++ py ".pdf") = false.
Proof.
  unfold is_image_name, endswith_any, endswith.
  by destruct (rev_lower_app s (py ".pdf")) as [x ->].
Qed.

(** The page images of the PDF extractor are not PDF names. *)
Lemma temp_name_not_pdf (n : nat) : is_pdf_name (temp_name n) = false.
Proof.
  unfold is_pdf_name, endswith, temp_name. rewrite app_assoc.
  by destruct (rev_lower_app (py "temp_image_" ++ str_of_nat n) (py ".jpg")) as [x ->].
Qed.

(** The extension tests give the same answer on a name and on the
    name joined to a directory. *)
Lemma lower_join (u f : pystr) : lower (u ++ [ch_slash] ++ f) = lower u ++ [ch_slash] ++ lower f.
Proof. apply lower_sep; by vm_compute. Qed.

Lemma image_name_join (a f : pystr) :
  a <> [] -> simple_name f = true -> is_image_name (path_join a f) = is_image_name f.
Proof.
  intros Ha Hf. destruct (path_join_sep a f Ha Hf) as [u ->].
  unfold is_image_name, endswith_any. rewrite lower_join. cbn [existsb].
  by rewrite !endswith_sep.
Qed.

Lemma pdf_name_join (a f : pystr) :
  a <> [] -> simple_name f = true -> is_pdf_name (path_join a f) = is_pdf_name f.
Proof.
  intros Ha Hf. destruct (path_join_sep a f Ha Hf) as [u ->].
  unfold is_pdf_name. rewrite lower_join. by rewrite endswith_sep.
Qed.

(** The materializer keeps its source file, every directory and the
    working directory, as long as an image's target is not the source. *)
Lemma convert_keeps_source (E : env) (fp new : pystr) (w : world) (p : path) (d : bytes) :
  resolve w fp = Ok p -> node_at (fs w) p = Some (File d) ->
  (is_image_name fp = true -> forall q, resolve w new = Ok q -> q <> p) ->
  let w' := (rename_and_convert_to_pdf E fp new w).2 in
  node_at (fs w') p = Some (File d) /\ keeps_dirs (fs w) (fs w') /\ cwd w' = cwd w.
Proof.
  intros Hr Hp Hq w'. subst w'. unfold rename_and_convert_to_pdf.
  assert (Hl : read_bytes fp w = (Ok d, w)) by (apply read_lookup; unfold lookup_path; by rewrite Hr).
  destruct (is_image_name fp) eqn:Hi; [|destruct (is_pdf_name fp)]; munfold; rewrite ?Hl;
    [destruct (pil_decode E d) | destruct (fitz_pages E d) |]; cbn [fst snd];
    try (split_and!; auto with wfdb; fail).
  - apply write_keeps; [done | by apply Hq].
  - cbn [os_path_exists]. destruct (exists_b w new) eqn:He; cbn [fst snd]; [split_and!; auto with wfdb|].
    apply write_keeps; [done|]. intros q Hq' ->. unfold exists_b, lookup_path in He.
    by rewrite Hq', Hp in He.
Qed.

(** The extraction step keeps the invoice file of the folder, every
    directory and the working directory. *)
Lemma extract_frame (E : env) (fp f : pystr) (p : path) (d : bytes) (w : world) :
  (is_image_name f = false -> is_pdf_name f = true) -> fs w !! (f :: p) = Some (File d) ->
  let w1 := ((if is_image_name f then extract_info_from_image E fp
              else extract_info_from_pdf E fp) w).2 in
  fs w1 !! (f :: p) = Some (File d) /\ keeps_dirs (fs w) (fs w1) /\ cwd w1 = cwd w.
Proof.
  intros Hk Hd w1. subst w1. destruct (is_image_name f) eqn:Hi.
  - destruct (readonly_image E fp w) as [-> ->]. split_and!; auto with wfdb.
  - destruct (pdf_frame E fp w) as [Hc Ht]. split_and!; [| by eapply temps_only_keeps_dirs | done].
    rewrite (temps_only_keep _ _ _ _ Ht); [done|]. intros n [= Hn _].
    specialize (Hk eq_refl). rewrite Hn, temp_name_not_pdf in Hk. done.
Qed.

(** The names [target_name] gives are those of the template. *)
Lemma target_name_ok (v : json) (nm : pystr) :
  target_name v = Ok nm -> exists c a, nm = new_filename c a.
Proof.
  unfold target_name. intros H.
  destruct (getitem v (IStr key_company)) as [[]|]; cbn [res_bind str_value] in H; try discriminate.
  destruct (getitem v (IStr key_amount)) as [[]|]; cbn [res_bind str_value] in H; try discriminate.
  injection H as <-. eauto.
Qed.

Lemma target_name_label_ok (ro : json -> pystr) (v : json) (nm : pystr) :
  target_name_label ro v = Ok nm -> exists c a, nm = new_filename_label c a.
Proof.
  unfold target_name_label. intros H.
  destruct (getitem v (IStr key_company)) as [c|]; cbn [res_bind] in H; [|discriminate].
  destruct (getitem v (IStr key_amount)) as [[]|]; cbn [res_bind str_value] in H; try discriminate.
  injection H as <-. eauto.
Qed.

(** A target name [../x] from [target_name] leaves a PDF name [x]. *)
Lemma target_name_dotdot (v : json) (x : pystr) :
  target_name v = Ok (lit_dotdot ++ [ch_slash] ++ x) -> exists z, x = z ++ py ".pdf".
Proof.
  intros (c & a & Hn)%target_name_ok. unfold new_filename in Hn. rewrite format_filename_pdf in Hn.
  exists (drop 3 (upper c ++ py " -- " ++ amount_segment a)).
  transitivity (drop 3 (lit_dotdot ++ [ch_slash] ++ x)); [reflexivity|].
  rewrite Hn, drop_app_le; [done|]. rewrite !length_app. cbn. lia.
Qed.

(** A name ending in [.pdf] passes the filter of line 125. *)
Lemma pdf_suffix_invoice (z : pystr) : is_invoice_name (z ++ py ".pdf") = true.
Proof.
  unfold is_invoice_name, endswith_any, endswith.
  by destruct (rev_lower_app z (py ".pdf")) as [x ->].
Qed.

(** Every new name ends in [.pdf]. *)
Lemma target_name_pdf (v : json) (nm : pystr) :
  target_name v = Ok nm -> exists x, nm = x ++ py ".pdf".
Proof.
  intros (c & a & ->)%target_name_ok. unfold new_filename. rewrite format_filename_pdf. eauto.
Qed.

Lemma target_name_label_pdf (ro : json -> pystr) (v : json) (nm : pystr) :
  target_name_label ro v = Ok nm -> exists x, nm = x ++ py ".pdf".
Proof.
  intros (c & a & ->)%target_name_label_ok. unfold new_filename_label. rewrite format_filename_pdf. eauto.
Qed.

(** A target under [processed/] is never the image being converted. *)
Lemma target_not_source (w : world) (folder f processed nm : pystr) (F : path) :
  (exists x, nm = x ++ py ".pdf") -> is_image_name (path_join folder f) = true ->
  forall q, resolve w (path_join processed nm) = Ok q -> q <> f :: F.
Proof.
  intros [x ->] Hi q Hq ->.
  destruct (path_join_suffix processed (x ++ py ".pdf")) as [y Ey].
  rewrite Ey, app_assoc in Hq.
  destruct (resolve_tail_name w _ (py ".pdf") _ ltac:(reflexivity) ltac:(cbn; lia) Hq) as (l & A & E).
  assert (f = l ++ py ".pdf") as -> by congruence.
  destruct (path_join_suffix folder (l ++ py ".pdf")) as [z Ez].
  pose proof (pdf_suffix_not_image (z ++ l)) as Hn. rewrite <- app_assoc, <- Ez in Hn. congruence.
Qed.

(** The two scripts' materializers are the same function. *)
Lemma convert_label_same (E : env) (fp new : pystr) :
  rename_and_convert_to_pdf_label E fp new = rename_and_convert_to_pdf E fp new.
Proof. reflexivity. Qed.

(** ** Well-formedness of every step *)

Lemma preserves_convert (E : env) (fp new : pystr) : preserves (rename_and_convert_to_pdf E fp new).
Proof. unfold rename_and_convert_to_pdf. eauto 20 with wfdb. Qed.

Lemma preserves_convert_label (E : env) (fp new : pystr) :
  preserves (rename_and_convert_to_pdf_label E fp new).
Proof. rewrite convert_label_same. apply preserves_convert. Qed.

Lemma preserves_process_file (E : env) (folder processed raw f : pystr) :
  preserves (process_file E folder processed raw f).
Proof. unfold process_file. eauto 20 using preserves_convert, preserves_pdf with wfdb. Qed.

Lemma preserves_process_loop (E : env) (folder processed raw : pystr) (files errored : list pystr) :
  preserves (process_loop E folder processed raw files errored).
Proof.
  revert errored. induction files as [|f files IH]; intros errored; cbn [process_loop];
    eauto 20 using preserves_process_file with wfdb.
Qed.

Lemma preserves_report (errored : list pystr) : preserves (report errored).
Proof.
  unfold report. destruct errored as [|x rest]; [eauto with wfdb|].
  apply preserves_bind; [eauto with wfdb | intros _].
  induction (x :: rest); cbn [fold_right]; eauto with wfdb.
Qed.

Lemma preserves_process_file_label (E : env) (ro : json -> pystr) (folder temp processed raw f : pystr) :
  preserves (process_file_label E ro folder temp processed raw f).
Proof.
  unfold process_file_label.
  eauto 20 using preserves_convert_label, preserves_readonly, readonly_image_label with wfdb.
Qed.

Lemma preserves_process_loop_label (E : env) (ro : json -> pystr) (folder temp processed raw : pystr)
    (names : list pystr) :
  preserves (process_loop_label E ro folder temp processed raw names).
Proof.
  induction names as [|f names IH]; cbn [process_loop_label];
    eauto 20 using preserves_process_file_label with wfdb.
Qed.

(** The end of the per-file pipeline of both scripts, from a world [w1]
    that kept the file [f] of the folder: the conversion to
    [processed/nm] and the move to [raw/f] either fail with the file in
    place, or leave it moved to another path. *)
Lemma convert_move_commit (E : env) (folder processed f nm : pystr) (F : path) (d : bytes)
    (w w1 : world) :
  resolve w folder = Ok F -> node_at (fs w) F = Some Dir -> simple_name f = true ->
  file_frame (f :: F) d w w1 -> (exists x, nm = x ++ py ".pdf") ->
  let r := (rename_and_convert_to_pdf E (path_join folder f) (path_join processed nm);;
            shutil_move (path_join folder f) (path_join (path_join folder (py "raw")) f)) w1 in
  match r.1 with
  | Err _ => fs r.2 !! (f :: F) = Some (File d)
  | Ok _ => fs r.2 !! (f :: F) = None /\ exists q, fs r.2 !! q = Some (File d)
  end.
Proof.
  intros HF HFd Hf H1 Hnm r. subst r.
  assert (Hsrc : forall w', file_frame (f :: F) d w w' -> resolve w' (path_join folder f) = Ok (f :: F)).
  { intros w' (_ & Hk' & Hc'). rewrite (resolve_join w' folder f F); [by rewrite (Hk' F HFd) | | done].
    by apply (resolve_mono w). }
  destruct H1 as (Hd1 & Hk1 & Hc1).
  pose proof (convert_keeps_source E (path_join folder f) (path_join processed nm) w1 (f :: F) d
    (Hsrc w1 (conj Hd1 (conj Hk1 Hc1))) Hd1 (fun Hi => target_not_source w1 folder f processed nm F Hnm Hi))
    as H2.
  assert (H12 : file_frame (f :: F) d w (rename_and_convert_to_pdf E (path_join folder f) (path_join processed nm) w1).2)
    by (eapply file_frame_trans; [exact (conj Hd1 (conj Hk1 Hc1)) | exact H2]).
  munfold.
  destruct (rename_and_convert_to_pdf E _ _ w1) as [[[]|e] w2]; cbn [fst snd] in *; [|apply H12].
  destruct H12 as (Hd2 & Hk12 & Hc12).
  pose proof (move_file w2 (path_join folder f) (path_join (path_join folder (py "raw")) f) (f :: F) d
    (Hsrc w2 (conj Hd2 (conj Hk12 Hc12))) Hd2) as Hmv.
  destruct (shutil_move _ _ w2) as [[[]|e] w3]; cbn [fst snd]; [|by subst].
  destruct Hmv as (q & -> & _ & _ & _ & Hq).
  assert (Hne : q <> f :: F).
  { destruct Hq as [|Hdst]; [done|]. exfalso.
    rewrite (resolve_join w2 _ f (py "raw" :: F)) in Hdst; [| |done].
    - destruct (node_at (fs w2) (py "raw" :: F)) as [[]|]; try discriminate.
      injection Hdst as HH. apply (f_equal length) in HH. simpl in HH. lia.
    - rewrite (resolve_join w2 folder (py "raw") F); [by rewrite (Hk12 F HFd) | | done].
      apply (resolve_mono w); [exact Hk12 | exact Hc12 | exact HF]. }
  split; [by rewrite lookup_insert_ne, lookup_delete_eq | exists q; by rewrite lookup_insert_eq].
Qed.

(** The extraction step of [label_invoices.py] keeps the file of the
    folder, every directory and the working directory, when its page
    image [temp] is not that file. *)
Lemma label_extract_frame (E : env) (fp temp f : pystr) (F : path) (d : bytes) (w : world) :
  (is_image_name f = false -> is_pdf_name f = true) -> node_at (fs w) (f :: F) = Some (File d) ->
  (is_image_name f = false -> forall q, resolve w temp = Ok q -> q <> f :: F) ->
  file_frame (f :: F) d w
    ((if is_image_name f then extract_info_from_image_label E fp
      else extract_info_from_pdf_label E fp temp) w).2.
Proof.
  intros Hk Hd Ht. destruct (is_image_name f); [by apply file_frame_readonly; [apply readonly_image_label|]|].
  specialize (Ht eq_refl). unfold extract_info_from_pdf_label. munfold.
  destruct (readonly_read fp w) as [Hf1 Hc1].
  destruct (read_bytes fp w) as [r w1]; cbn [fst snd] in *.
  assert (F1 : file_frame (f :: F) d w w1) by (unfold file_frame; rewrite Hf1, Hc1; by apply file_frame_refl).
  destruct r as [data|e]; [|exact F1].
  destruct (match fitz_pages E data with Some ps => Ok ps | None => Err FitzError end) as [pages|];
    cbn [fst snd]; [|exact F1].
  destruct (match pages with pg :: _ => Ok pg | [] => Err IndexError end) as [pg|]; cbn [fst snd]; [|exact F1].
  destruct (render E pg) as [pix|]; cbn [fst snd]; [|exact F1].
  assert (Ht1 : forall q, resolve w1 temp = Ok q -> q <> f :: F) by (intros q; rewrite (resolve_same w w1); auto).
  pose proof (write_keeps w1 temp pix (f :: F) d (proj1 F1) Ht1) as F2.
  destruct (resolve w temp) as [q0|] eqn:Eq0.
  2: { unfold write_bytes. rewrite (resolve_same w w1), Eq0 by done. exact F1. }
  destruct (write_bytes temp pix w1) as [[[]|e] w2] eqn:Ew; cbn [fst snd] in *;
    [|eapply file_frame_trans; [exact F1 | exact F2]].
  assert (F12 : file_frame (f :: F) d w w2) by (eapply file_frame_trans; [exact F1 | exact F2]).
  pose proof (file_frame_readonly _ _ _ w2 (readonly_image_label E temp) (proj1 F12)) as F3.
  assert (F13 : file_frame (f :: F) d w (extract_info_from_image_label E temp w2).2)
    by (eapply file_frame_trans; [exact F12 | exact F3]).
  destruct (extract_info_from_image_label E temp w2) as [[v|e] w3]; cbn [fst snd] in *; [|exact F13].
  assert (F4 : file_frame (f :: F) d w3 (os_remove temp w3).2).
  { apply remove_keeps; [exact (proj1 F13)|]. intros q Hq.
    rewrite (file_frame_resolve _ _ _ _ _ _ F13 Eq0) in Hq. injection Hq as <-. by apply Ht. }
  eapply file_frame_trans; [exact F13|]. destruct (os_remove temp w3) as [[] w4]; exact F4.
Qed.

(** The loop of lines 128-147 returns the list it was given extended by
    a sublist of the listed paths. *)
Lemma process_loop_result (E : env) (folder processed raw : pystr)
    (files errored : list pystr) (w : world) :
  exists l, (process_loop E folder processed raw files errored w).1 = Ok (errored ++ l) /\
            l `sublist_of` map (path_join folder) files.
Proof.
  revert errored w. induction files as [|f files IH]; intros errored w.
  - exists []. by rewrite app_nil_r.
  - cbn [process_loop map]. munfold.
    destruct (process_file E folder processed raw f w) as [[[]|e] w1].
    + destruct (IH errored w1) as (l & Hl & Hs). exists l. split; [done|]. by apply sublist_cons.
    + unfold print. cbn [fst snd].
      match goal with |- context [process_loop _ _ _ _ _ _ ?w2] =>
        destruct (IH (errored ++ [path_join folder f]) w2) as (l & Hl & Hs) end.
      exists (path_join folder f :: l). rewrite <- app_assoc in Hl. split; [done|].
      by apply sublist_skip.
Qed.

(** The loop of lines 153-154 prints the files in order. *)
Lemma print_all_out (l : list pystr) (w : world) :
  fold_right (fun file k => print (Line file);; k) (mret tt) l w =
    (Ok tt, mkWorld (fs w) (cwd w) (out w ++ map Line l)).
Proof.
  revert w. induction l as [|g l IH]; intros w; cbn [fold_right map].
  - by rewrite app_nil_r; destruct w.
  - munfold. unfold print at 1. rewrite IH. cbn [fs cwd out]. by rewrite <- app_assoc.
Qed.

(** [report] prints [report_lines] and returns. *)
Lemma report_out (errored : list pystr) (w : world) :
  report errored w = (Ok tt, mkWorld (fs w) (cwd w) (out w ++ report_lines errored)).
Proof.
  destruct errored as [|f l]; [done|]. unfold report, report_lines. munfold.
  unfold print at 1. rewrite print_all_out. cbn [fs cwd out]. by rewrite <- app_assoc.
Qed.

(** [process_invoices] of [rename_invoices.py] raises only in its folder
    setup and otherwise ends with the report of the loop's list. *)
Lemma process_invoices_result (E : env) (folder : pystr) (w : world) :
  let raw := path_join folder (py "raw") in
  let processed := path_join folder (py "processed") in
  match (os_makedirs raw true;; os_makedirs processed true;; os_listdir folder) w with
  | (Err e, w1) => process_invoices E folder w = (Err e, w1)
  | (Ok names, w1) =>
      exists es w2,
        process_loop E folder processed raw (filter is_invoice_name names) [] w1 = (Ok es, w2) /\
        es `sublist_of` map (path_join folder) (filter is_invoice_name names) /\
        process_invoices E folder w = (Ok tt, mkWorld (fs w2) (cwd w2) (out w2 ++ report_lines es))
  end.
Proof.
  cbv zeta. unfold process_invoices. munfold.
  destruct (os_makedirs _ true w) as [[[]|e] w0]; [|done].
  destruct (os_makedirs _ true w0) as [[[]|e] w0']; [|done].
  destruct (os_listdir folder w0') as [[names|e] w1]; [|done].
  destruct (process_loop_result E folder (path_join folder (py "processed"))
              (path_join folder (py "raw")) (filter is_invoice_name names) [] w1) as (l & Hl & Hs).
  destruct (process_loop _ _ _ _ _ _ w1) as [r w2]. cbn in Hl. subst r.
  exists l, w2. split_and!; [done | done | apply report_out].
Qed.

(** [os.makedirs(d, exist_ok=True)] on a directory that exists changes
    nothing. *)
Lemma makedirs_existing (folder name : pystr) (F : path) (w : world) :
  resolve w folder = Ok F -> node_at (fs w) F = Some Dir -> simple_name name = true ->
  node_at (fs w) (name :: F) = Some Dir -> os_makedirs (path_join folder name) true w = (Ok tt, w).
Proof.
  intros HF HFd Hn Hd. rewrite (folder_layout folder name F w HF HFd Hn), Hd.
  rewrite insert_id by exact Hd. by destruct w.
Qed.

(** [os.makedirs(d, exist_ok=True)] where no file is in the way leaves
    a directory at [d]. *)
Lemma makedirs_fresh (folder name : pystr) (F : path) (w : world) :
  resolve w folder = Ok F -> node_at (fs w) F = Some Dir -> simple_name name = true ->
  (forall x, fs w !! (name :: F) <> Some (File x)) ->
  os_makedirs (path_join folder name) true w = (Ok tt, set_fs w (<[name :: F := Dir]> (fs w))).
Proof.
  intros HF HFd Hn Hx. rewrite (folder_layout folder name F w HF HFd Hn). unfold node_at.
  destruct_match; [|done]. destruct n as [x|]; [|done]. exfalso. apply (Hx x). exact E.
Qed.

Lemma keeps_dirs_setup (F : path) (m : gmap path node) : keeps_dirs m (setup_fs F m).
Proof. eapply keeps_dirs_trans; apply keeps_dirs_insert_dir. Qed.

(** The setup of lines 120-125 (label 68-74) on a folder where no file
    is named [raw] or [processed]: both become directories and the
    listing is the folder's entries after that. *)
Lemma setup_ok (folder : pystr) (F : path) (w : world) :
  resolve w folder = Ok F -> node_at (fs w) F = Some Dir ->
  (forall x, fs w !! (py "raw" :: F) <> Some (File x)) ->
  (forall x, fs w !! (py "processed" :: F) <> Some (File x)) ->
  (os_makedirs (path_join folder (py "raw")) true;; os_makedirs (path_join folder (py "processed")) true;;
   os_listdir folder) w = (Ok (children (setup_fs F (fs w)) F), set_fs w (setup_fs F (fs w))).
Proof.
  intros HF HFd Hr Hp. munfold.
  rewrite (makedirs_fresh folder (py "raw") F w) by done.
  set (w1 := set_fs w (<[py "raw" :: F := Dir]> (fs w))).
  assert (HF1 : resolve w1 folder = Ok F) by (apply (resolve_mono w); [apply keeps_dirs_insert_dir | done | done]).
  assert (HFd1 : node_at (fs w1) F = Some Dir) by (apply keeps_dirs_insert_dir, HFd).
  rewrite (makedirs_fresh folder (py "processed") F w1) by
    (done || (intros x; cbn [fs w1 set_fs]; rewrite lookup_insert_ne by (intros [=]); apply Hp)).
  unfold os_listdir. rewrite (resolve_mono w1 _ folder F); [| apply keeps_dirs_insert_dir | done | done].
  cbn [fs set_fs w1]. rewrite (keeps_dirs_insert_dir _ _ F HFd1). done.
Qed.

(** The setup of lines 120-125 (label 68-74) on a folder that already
    holds [raw] and [processed]: nothing changes, and the listing is the
    folder's entries. *)
Lemma setup_existing (folder : pystr) (F : path) (w : world) :
  resolve w folder = Ok F -> node_at (fs w) F = Some Dir ->
  node_at (fs w) (py "raw" :: F) = Some Dir -> node_at (fs w) (py "processed" :: F) = Some Dir ->
  (os_makedirs (path_join folder (py "raw")) true;; os_makedirs (path_join folder (py "processed")) true;;
   os_listdir folder) w = (Ok (children (fs w) F), w).
Proof.
  intros HF HFd Hr Hp. munfold.
  rewrite (makedirs_existing folder (py "raw") F w), (makedirs_existing folder (py "processed") F w)
    by done.
  unfold os_listdir. by rewrite HF, HFd.
Qed.

(** Once the folder setup has returned the listing, [process_invoices]
    is the loop over the invoice names followed by the report. *)
Lemma process_invoices_setup (E : env) (folder : pystr) (names : list pystr) (w w1 : world) :
  (os_makedirs (path_join folder (py "raw")) true;; os_makedirs (path_join folder (py "processed")) true;;
   os_listdir folder) w = (Ok names, w1) ->
  process_invoices E folder w =
    (errored ← process_loop E folder (path_join folder (py "processed")) (path_join folder (py "raw"))
                 (filter is_invoice_name names) [];
     report errored) w1.
Proof.
  unfold process_invoices. munfold. cbv zeta.
  destruct (os_makedirs _ true w) as [[[]|] w0]; [|done].
  destruct (os_makedirs _ true w0) as [[[]|] w0']; [|done].
  destruct (os_listdir folder w0') as [[|] w2]; [|done]. by intros [= -> ->].
Qed.

(** A PDF name is not an image name. *)
Lemma pdf_not_image (s : pystr) : is_pdf_name s = true -> is_image_name s = false.
Proof.
  unfold is_pdf_name, is_image_name, endswith_any. intros [t Ht]%endswith_spec.
  rewrite Ht. unfold endswith. rewrite rev_app_distr. reflexivity.
Qed.

(** Line 144: the source, a file of the folder, is renamed to [raw/]
    under its own name. *)
Lemma archive_move (folder f : pystr) (F : path) (d : bytes) (w : world) :
  resolve w folder = Ok F -> node_at (fs w) F = Some Dir -> node_at (fs w) (py "raw" :: F) = Some Dir ->
  simple_name f = true -> node_at (fs w) (f :: F) = Some (File d) ->
  node_at (fs w) (f :: py "raw" :: F) <> Some Dir ->
  shutil_move (path_join folder f) (path_join (path_join folder (py "raw")) f) w =
    (Ok tt, set_fs w (<[f :: py "raw" :: F := File d]> (delete (f :: F) (fs w)))).
Proof.
  intros HF HFd Hraw Hf Hd Hrf.
  assert (Hdst : resolve w (path_join (path_join folder (py "raw")) f) = Ok (f :: py "raw" :: F))
    by (apply resolve_join2; done).
  unfold shutil_move, isdir_b, lookup_path. rewrite Hdst, bool_decide_false by exact Hrf.
  unfold os_rename. rewrite (resolve_join w folder f F HF Hf), HFd, Hdst, Hd.
  destruct (node_at (fs w) (f :: py "raw" :: F)) as [[]|] eqn:Eq; [reflexivity | by destruct Hrf | reflexivity].
Qed.

(** Lines 115-117: a PDF that opens is saved at the target unless the
    target exists. *)
Lemma convert_pdf_at (E : env) (src dst : pystr) (d : bytes) (ps : list bytes) (q : path) (w : world) :
  is_image_name src = false -> is_pdf_name src = true -> lookup_path w src = Some (File d) ->
  fitz_pages E d = Some ps -> resolve w dst = Ok q ->
  rename_and_convert_to_pdf E src dst w =
    match node_at (fs w) q with
    | Some _ => (Ok tt, w)
    | None => (Ok tt, set_fs w (<[q := File (fitz_save E d)]> (fs w)))
    end.
Proof.
  intros Hi Hp Hl Hf Hq. unfold rename_and_convert_to_pdf. rewrite Hi, Hp. munfold.
  rewrite (read_lookup _ _ _ Hl), Hf. cbn [os_path_exists]. unfold exists_b, lookup_path. rewrite Hq.
  destruct (node_at (fs w) q) as [n|] eqn:En; [done|]. unfold write_bytes. by rewrite Hq, En.
Qed.

(** The success path of an image with the conversion written at any
    resolved target [q] other than the source and its archive path. *)
Lemma image_commit_at (E : env) (folder f : pystr) (F : path) (d : bytes)
    (body : pystr) (result v : json) (c nm : pystr) (q : path) (w : world) :
  resolve w folder = Ok F -> node_at (fs w) F = Some Dir ->
  fs w !! (py "raw" :: F) = Some Dir -> fs w !! (py "processed" :: F) = Some Dir ->
  simple_name f = true -> is_image_name f = true -> fs w !! (f :: F) = Some (File d) ->
  fs w !! (f :: py "raw" :: F) <> Some Dir ->
  resolve w (path_join (path_join folder (py "processed")) nm) = Ok q -> node_at (fs w) q <> Some Dir ->
  q <> f :: F -> q <> f :: py "raw" :: F ->
  http_post E (headers (api_key E)) (payload prompt_rename (b64encode d)) = Ok body -> loads body = Ok result ->
  reply_content result = Ok (JStr c) -> loads c = Ok v -> target_name v = Ok nm ->
  pil_decode E d = true ->
  process_file E folder (path_join folder (py "processed")) (path_join folder (py "raw")) f w =
    (Ok tt, set_fs w (<[f :: py "raw" :: F := File d]> (delete (f :: F)
                       (<[q := File (pil_pdf E d)]> (fs w))))).
Proof.
  intros HF HFd Hraw Hproc Hf Hi Hd Hrf Hq Hnm Hqs Hqr Hpost Hbody Hreply Hc Ht Hdec.
  assert (Hsrc : resolve w (path_join folder f) = Ok (f :: F))
    by (rewrite (resolve_join w folder f F HF Hf); by rewrite HFd).
  assert (Hl : lookup_path w (path_join folder f) = Some (File d))
    by (unfold lookup_path; rewrite Hsrc; exact Hd).
  unfold process_file. rewrite Hi. cbn [orb]. munfold.
  rewrite (image_result E _ d w Hl), Hpost. cbn [res_bind]. rewrite Hbody. cbn [res_bind].
  rewrite Hreply. cbn [loads_value]. rewrite Hc, Ht.
  assert (Hfa : folder <> []) by (intros ->; discriminate).
  assert (Hq0 : q <> []) by (intros ->; by apply Hnm).
  set (m2 := <[q := File (pil_pdf E d)]> (fs w)).
  assert (Hk : keeps_dirs (fs w) m2) by (apply keeps_dirs_insert_file; exact Hnm).
  assert (Hw : write_bytes (path_join (path_join folder (py "processed")) nm) (pil_pdf E d) w =
               (Ok tt, set_fs w m2)).
  { unfold write_bytes. rewrite Hq. match goal with |- match ?x with _ => _ end = _ => destruct x as [[]|] eqn:Eq end;
      [reflexivity | by destruct Hnm | reflexivity]. }
  unfold rename_and_convert_to_pdf. rewrite (image_name_join _ _ Hfa Hf), Hi. munfold.
  rewrite (read_lookup _ _ _ Hl), Hdec, Hw.
  assert (Hm2 : forall x, x <> q -> node_at m2 x = node_at (fs w) x).
  { intros x Hx. unfold m2. rewrite node_at_insert by exact Hq0. by rewrite decide_False. }
  rewrite (archive_move folder f F d (set_fs w m2)); [done | by apply (resolve_mono w) | by apply Hk
    | by apply Hk | done | | ].
  - rewrite Hm2; [exact Hd | intros Heq; apply Hqs; symmetry; exact Heq].
  - rewrite Hm2; [exact Hrf | intros Heq; apply Hqr; symmetry; exact Heq].
Qed.

End Pipeline.

Import Json World Base64 Extract Pipeline.

(** C4: The materializer never overwrites an existing target for a PDF
    source: whatever the source and the collaborators, when the target
    path exists the call leaves the file system as it was (so a second
    call with the same target leaves the target unchanged). *)
Theorem pdf_existing_target_unchanged (E : env) (file_path new : pystr) (w : world) :
  is_image_name file_path = false -> is_pdf_name file_path = true -> exists_b w new = true ->
  fs (rename_and_convert_to_pdf E file_path new w).2 = fs w.
Proof.
  intros Hi Hp He. unfold rename_and_convert_to_pdf. rewrite Hi, Hp. munfold.
  destruct (readonly_read file_path w) as [Hf Hc].
  destruct (read_bytes file_path w) as [[d|e] w1]; cbn [fst snd] in Hf, Hc; [|done].
  destruct (fitz_pages E d); [|done]. cbn [os_path_exists].
  unfold exists_b in *. rewrite (lookup_same w w1), He by done. done.
Qed.

(** C5: The materializer always overwrites the target for an image
    source: when the image reads and decodes and the target resolves to a
    non-directory, the target afterwards holds the PDF conversion of the
    image, whatever it held before, and nothing else changes. *)
Theorem image_target_overwritten (E : env) (file_path new : pystr) (w : world)
    (d : bytes) (q : path) :
  is_image_name file_path = true -> lookup_path w file_path = Some (File d) ->
  pil_decode E d = true -> resolve w new = Ok q -> node_at (fs w) q <> Some Dir ->
  rename_and_convert_to_pdf E file_path new w = (Ok tt, set_fs w (<[q := File (pil_pdf E d)]> (fs w))).
Proof.
  intros Hi Hl Hd Hq Hn. unfold rename_and_convert_to_pdf. rewrite Hi. munfold.
  rewrite (read_lookup _ _ _ Hl), Hd. unfold write_bytes. rewrite Hq.
  by destruct (node_at (fs w) q) as [[]|].
Qed.

(** C28: The extension filter of line 125 and the branch tests of lines
    131-133 have no dot and ignore case: any name ending in the letters
    [png], [jpg], [jpeg] or [pdf], in lower or upper case, is taken as an
    invoice ([notes_pdf], [backup-png], [scan.PDF]), and a name ending in
    [pdf] goes to the PDF extractor and one ending in [PNG] to the image
    extractor. *)
Theorem extension_filter_without_dot (s : pystr) :
  Forall (fun e => is_invoice_name (s ++ e) = true /\ is_invoice_name (s ++ upper e) = true)
    [py "png"; py "jpg"; py "jpeg"; py "pdf"] /\
  is_pdf_name (s ++ py "pdf") = true /\ is_image_name (s ++ py "PNG") = true.
Proof.
  split_and!; [repeat constructor | |];
  match goal with
  | |- ?f (s ++ ?t) = true =>
      unfold f, endswith_any, endswith; by destruct (rev_lower_app s t) as [x ->]
  end.
Qed.

Lemma pdf_existing_target_unchanged_witness :
  let E := {| environ := [(py "OPENAI_API_KEY", py "sk-test")];
  http_post := fun _ _ => Err RequestException; pil_decode := fun _ => true;
              tesseract := fun _ => Ok []; pil_pdf := fun d => d;
              fitz_pages := fun d => Some [d]; render := fun d => Ok d; fitz_save := fun d => 0 :: d |} in
  let w := mkWorld (<[[py "b.pdf"] := File [2]]> (<[[py "a.pdf"] := File [1]]> ∅)) [] [] in
  is_image_name (py "a.pdf") = false /\ is_pdf_name (py "a.pdf") = true /\
  exists_b w (py "b.pdf") = true /\
  fs (rename_and_convert_to_pdf E (py "a.pdf") (py "b.pdf") w).2 = fs w.
Proof.
  intros E w. split_and!; [reflexivity | reflexivity | reflexivity |].
  apply pdf_existing_target_unchanged; reflexivity.
Defined.

Lemma image_target_overwritten_witness :
  let E := {| environ := [(py "OPENAI_API_KEY", py "sk-test")];
  http_post := fun _ _ => Err RequestException; pil_decode := fun _ => true;
              tesseract := fun _ => Ok []; pil_pdf := fun d => 9 :: d;
              fitz_pages := fun d => Some [d]; render := fun d => Ok d; fitz_save := fun d => d |} in
  let w := mkWorld (<[[py "b.pdf"] := File [2]]> (<[[py "a.png"] := File [1]]> ∅)) [] [] in
  is_image_name (py "a.png") = true /\ lookup_path w (py "a.png") = Some (File [1]) /\
  pil_decode E [1] = true /\ resolve w (py "b.pdf") = Ok [py "b.pdf"] /\
  node_at (fs w) [py "b.pdf"] <> Some Dir /\
  rename_and_convert_to_pdf E (py "a.png") (py "b.pdf") w =
    (Ok tt, set_fs w (<[[py "b.pdf"] := File (pil_pdf E [1])]> (fs w))).
Proof.
  intros E w. split_and!; [reflexivity | reflexivity | reflexivity | reflexivity | discriminate |].
  apply image_target_overwritten; [reflexivity | reflexivity | reflexivity | reflexivity | discriminate].
Defined.


(** C6: Per-file commit point of [rename_invoices.py] (lines 130-144): for
    a file [f] of the folder, the pipeline either fails and leaves the
    file where it was with its bytes, or succeeds and, for an invoice
    name, the file is gone from the folder and its bytes are at another
    path (under [raw/]); a name that is neither an image nor a PDF is left
    alone with the world unchanged. *)
Theorem process_file_commit (E : env) (folder processed f : pystr) (F : path) (d : bytes)
    (w : world) :
  resolve w folder = Ok F -> node_at (fs w) F = Some Dir -> simple_name f = true ->
  fs w !! (f :: F) = Some (File d) ->
  let r := process_file E folder processed (path_join folder (py "raw")) f w in
  match r.1 with
  | Err _ => fs r.2 !! (f :: F) = Some (File d)
  | Ok _ =>
      if is_image_name f || is_pdf_name f
      then fs r.2 !! (f :: F) = None /\ exists q, fs r.2 !! q = Some (File d)
      else r.2 = w
  end.
Proof.
  intros HF HFd Hf Hd r. subst r. unfold process_file.
  destruct (is_image_name f || is_pdf_name f) eqn:Hkind; [|done].
  assert (Hk : is_image_name f = false -> is_pdf_name f = true) by (intros Hi; by rewrite Hi in Hkind).
  pose proof (extract_frame E (path_join folder f) f F d w Hk Hd) as H1.
  munfold.
  destruct ((if is_image_name f then extract_info_from_image E (path_join folder f)
             else extract_info_from_pdf E (path_join folder f)) w) as [[v|e] w1];
    cbn [fst snd] in *; [|exact (proj1 H1)].
  destruct (loads_value v) as [v'|]; [|exact (proj1 H1)].
  destruct (target_name v') as [nm|] eqn:Ht; [|exact (proj1 H1)].
  pose proof (convert_move_commit E folder processed f nm F d w w1 HF HFd Hf H1 (target_name_pdf _ _ Ht))
    as H. munfold. exact H.
Qed.

Lemma process_file_commit_witness :
  let E := {| environ := [(py "OPENAI_API_KEY", py "sk-test")];
  http_post := fun _ _ => Err RequestException; pil_decode := fun _ => true;
              tesseract := fun _ => Ok (py "Company: Acme Total: 5.00"); pil_pdf := fun d => 9 :: d;
              fitz_pages := fun d => Some [d]; render := fun d => Ok d; fitz_save := fun d => d |} in
  let w := mkWorld (<[[py "a.jpg"; py "inv"] := File [1]]>
                    (<[[py "raw"; py "inv"] := Dir]> (<[[py "inv"] := Dir]> ∅))) [] [] in
  resolve w (py "inv") = Ok [py "inv"] /\ node_at (fs w) [py "inv"] = Some Dir /\
  simple_name (py "a.jpg") = true /\ fs w !! [py "a.jpg"; py "inv"] = Some (File [1]) /\
  let r := process_file E (py "inv") (py "inv/processed") (path_join (py "inv") (py "raw"))
             (py "a.jpg") w in
  match r.1 with
  | Err _ => fs r.2 !! [py "a.jpg"; py "inv"] = Some (File [1])
  | Ok _ =>
      if is_image_name (py "a.jpg") || is_pdf_name (py "a.jpg")
      then fs r.2 !! [py "a.jpg"; py "inv"] = None /\ exists q, fs r.2 !! q = Some (File [1])
      else r.2 = w
  end.
Proof.
  intros E w. split_and!; [vm_compute; reflexivity .. |].
  apply process_file_commit; vm_compute; reflexivity.
Defined.

(** C9: Per-file isolation in [rename_invoices.py] (lines 128-147): the
    batch loop never raises, whatever the collaborators do; it returns the
    list it was given extended by the paths of some of the listed files,
    in listing order, each at most once (the files whose pipeline raised). *)
Theorem process_loop_never_raises (E : env) (folder processed raw : pystr)
    (files errored : list pystr) (w : world) :
  exists l, (process_loop E folder processed raw files errored w).1 = Ok (errored ++ l) /\
            l `sublist_of` map (path_join folder) files.
Proof. apply process_loop_result. Qed.

(** C7: The success path of the specification for an image (section 3):
    in a folder [F] holding the image [f] and the directories [raw/] and
    [processed/], when the vision service answers with a content that
    parses to a reply whose name is [nm] and the image decodes, the
    per-file pipeline returns normally, writes the PDF conversion to
    [processed/nm], and moves the original bytes to [raw/f] (replacing a
    file of that name), printing nothing and changing nothing else. *)
Theorem image_invoice_committed (E : env) (folder f : pystr) (F : path) (d : bytes)
    (body : pystr) (result v : json) (c nm : pystr) (w : world) :
  resolve w folder = Ok F -> node_at (fs w) F = Some Dir ->
  fs w !! (py "raw" :: F) = Some Dir -> fs w !! (py "processed" :: F) = Some Dir ->
  simple_name f = true -> is_image_name f = true -> fs w !! (f :: F) = Some (File d) ->
  fs w !! (f :: py "raw" :: F) <> Some Dir -> fs w !! (nm :: py "processed" :: F) <> Some Dir ->
  http_post E (headers (api_key E)) (payload prompt_rename (b64encode d)) = Ok body -> loads body = Ok result ->
  reply_content result = Ok (JStr c) -> loads c = Ok v -> target_name v = Ok nm ->
  simple_name nm = true -> pil_decode E d = true ->
  process_file E folder (path_join folder (py "processed")) (path_join folder (py "raw")) f w =
    (Ok tt, set_fs w (<[f :: py "raw" :: F := File d]> (delete (f :: F)
                       (<[nm :: py "processed" :: F := File (pil_pdf E d)]> (fs w))))).
Proof.
  intros HF HFd Hraw Hproc Hf Hi Hd Hrf Hnm Hpost Hbody Hreply Hc Ht Hnms Hdec.
  apply (image_commit_at E folder f F d body result v c nm); try done.
  - by apply resolve_join2.
  - intros Heq. apply (f_equal length) in Heq. cbn in Heq. lia.
Qed.

Lemma image_invoice_committed_witness :
  let c := dumps (info (JStr (py "Acme")) (JStr (py "5.00"))) in
  let result := JObj [(py "choices", JArr [JObj [(py "message", JObj [(py "content", JStr c)])]])] in
  let E := {| environ := [(py "OPENAI_API_KEY", py "sk-test")];
  http_post := fun _ _ => Ok (dumps result); pil_decode := fun _ => true;
              tesseract := fun _ => Ok []; pil_pdf := fun d => 37 :: d;
              fitz_pages := fun d => Some [d]; render := fun d => Ok d; fitz_save := fun d => d |} in
  let F := [py "inv"] in
  let w := mkWorld (<[[py "a.jpg"; py "inv"] := File [1]]> (<[[py "processed"; py "inv"] := Dir]>
                    (<[[py "raw"; py "inv"] := Dir]> (<[[py "inv"] := Dir]> ∅)))) [] [] in
  let nm := py "ACME -- 5_00.pdf" in
  resolve w (py "inv") = Ok F /\ node_at (fs w) F = Some Dir /\
  fs w !! (py "raw" :: F) = Some Dir /\ fs w !! (py "processed" :: F) = Some Dir /\
  simple_name (py "a.jpg") = true /\ is_image_name (py "a.jpg") = true /\
  fs w !! (py "a.jpg" :: F) = Some (File [1]) /\
  fs w !! (py "a.jpg" :: py "raw" :: F) <> Some Dir /\ fs w !! (nm :: py "processed" :: F) <> Some Dir /\
  http_post E (headers (api_key E)) (payload prompt_rename (b64encode [1])) = Ok (dumps result) /\
  loads (dumps result) = Ok result /\ reply_content result = Ok (JStr c) /\
  loads c = Ok (info (JStr (py "Acme")) (JStr (py "5.00"))) /\
  target_name (info (JStr (py "Acme")) (JStr (py "5.00"))) = Ok nm /\
  simple_name nm = true /\ pil_decode E [1] = true /\
  process_file E (py "inv") (path_join (py "inv") (py "processed")) (path_join (py "inv") (py "raw"))
    (py "a.jpg") w =
    (Ok tt, set_fs w (<[py "a.jpg" :: py "raw" :: F := File [1]]> (delete (py "a.jpg" :: F)
                       (<[nm :: py "processed" :: F := File (pil_pdf E [1])]> (fs w))))).
Proof.
  intros c result E F w nm.
  split_and!; [(vm_compute; reflexivity) || (vm_compute; discriminate) .. |].
  apply (image_invoice_committed E (py "inv") (py "a.jpg") F [1] (dumps result) result
           (info (JStr (py "Acme")) (JStr (py "5.00"))) c nm w); (vm_compute; reflexivity) || (vm_compute; discriminate).
Defined.

(** C8: Per-file commit point of [label_invoices.py] (lines 74-93): for a
    file [f] of the folder, the iteration either raises (in the
    extraction, which is outside the [try], or re-raised after the
    message) and leaves the file where it was with its bytes, even when
    the page image [temp_image.jpg] is left in the folder, or returns
    and, for an invoice name, the file is gone from the folder and its
    bytes are at another path; other names leave the world unchanged. *)
Theorem process_file_label_commit (E : env) (ro : json -> pystr) (folder processed f : pystr)
    (F : path) (d : bytes) (w : world) :
  resolve w folder = Ok F -> node_at (fs w) F = Some Dir -> simple_name f = true ->
  fs w !! (f :: F) = Some (File d) ->
  let r := process_file_label E ro folder (path_join folder (py "temp_image.jpg")) processed
             (path_join folder (py "raw")) f w in
  match r.1 with
  | Err _ => fs r.2 !! (f :: F) = Some (File d)
  | Ok _ =>
      if is_image_name f || is_pdf_name f
      then fs r.2 !! (f :: F) = None /\ exists q, fs r.2 !! q = Some (File d)
      else r.2 = w
  end.
Proof.
  intros HF HFd Hf Hd r. subst r. unfold process_file_label.
  destruct (is_image_name f || is_pdf_name f) eqn:Hkind; [|done].
  assert (Hk : is_image_name f = false -> is_pdf_name f = true) by (intros Hi; by rewrite Hi in Hkind).
  assert (Htemp : is_image_name f = false ->
            forall q, resolve w (path_join folder (py "temp_image.jpg")) = Ok q -> q <> f :: F).
  { intros Hi q Hq ->. rewrite (resolve_join w folder (py "temp_image.jpg") F HF ltac:(reflexivity)), HFd in Hq.
    assert (f = py "temp_image.jpg") as -> by congruence. specialize (Hk Hi). vm_compute in Hk. discriminate. }
  pose proof (label_extract_frame E (path_join folder f) (path_join folder (py "temp_image.jpg"))
                f F d w Hk Hd Htemp) as H1.
  munfold.
  destruct ((if is_image_name f then extract_info_from_image_label E (path_join folder f)
             else extract_info_from_pdf_label E (path_join folder f) (path_join folder (py "temp_image.jpg"))) w)
    as [[v|e] w1]; cbn [fst snd] in *; [|exact (proj1 H1)].
  destruct (loads_value v) as [v'|]; [|exact (proj1 H1)].
  destruct (try_reraise (new_filename ← lift (target_name_label ro v');
       rename_and_convert_to_pdf_label E (path_join folder f) (path_join processed new_filename);;
       shutil_move (path_join folder f) (path_join (path_join folder (py "raw")) f))
       (Line (py "Failed to extract information from " ++ f)) w1) as [E1 E2].
  munfold. rewrite E1, E2. clear E1 E2.
  munfold. destruct (target_name_label ro v') as [nm|e] eqn:Ht; cbn [fst snd]; [|exact (proj1 H1)].
  rewrite convert_label_same.
  pose proof (convert_move_commit E folder processed f nm F d w w1 HF HFd Hf H1 (target_name_label_pdf _ _ _ Ht))
    as H. munfold. exact H.
Qed.

Lemma process_file_label_commit_witness :
  let E := {| environ := [(py "OPENAI_API_KEY", py "sk-test")];
  http_post := fun _ _ => Err RequestException; pil_decode := fun _ => true;
              tesseract := fun _ => Ok []; pil_pdf := fun d => d;
              fitz_pages := fun d => Some [d]; render := fun d => Ok (255 :: d); fitz_save := fun d => d |} in
  let w := mkWorld (<[[py "a.pdf"; py "inv"] := File [1]]>
                    (<[[py "raw"; py "inv"] := Dir]> (<[[py "inv"] := Dir]> ∅))) [] [] in
  resolve w (py "inv") = Ok [py "inv"] /\ node_at (fs w) [py "inv"] = Some Dir /\
  simple_name (py "a.pdf") = true /\ fs w !! [py "a.pdf"; py "inv"] = Some (File [1]) /\
  let r := process_file_label E (fun _ => []) (py "inv") (path_join (py "inv") (py "temp_image.jpg"))
             (py "inv/processed") (path_join (py "inv") (py "raw")) (py "a.pdf") w in
  match r.1 with
  | Err _ => fs r.2 !! [py "a.pdf"; py "inv"] = Some (File [1])
  | Ok _ =>
      if is_image_name (py "a.pdf") || is_pdf_name (py "a.pdf")
      then fs r.2 !! [py "a.pdf"; py "inv"] = None /\ exists q, fs r.2 !! q = Some (File [1])
      else r.2 = w
  end.
Proof.
  intros E w. split_and!; [vm_compute; reflexivity .. |].
  apply process_file_label_commit; vm_compute; reflexivity.
Defined.

(** C10: Liveness of the batch of [rename_invoices.py] (lines 119-154):
    once the two [os.makedirs] calls and [os.listdir] have succeeded, no
    file can stop the run: the loop over the listed invoice names returns
    a list of some of their paths in listing order, and the run ends by
    printing the report of that list (the success line when it is empty,
    else the header and one line per path) and returning normally.  The
    only exceptions [process_invoices] raises are those of the folder
    setup. *)
Theorem batch_reaches_report (E : env) (folder : pystr) (w : world) :
  let raw := path_join folder (py "raw") in
  let processed := path_join folder (py "processed") in
  match (os_makedirs raw true;; os_makedirs processed true;; os_listdir folder) w with
  | (Err e, w1) => process_invoices E folder w = (Err e, w1)
  | (Ok names, w1) =>
      exists es w2,
        process_loop E folder processed raw (filter is_invoice_name names) [] w1 = (Ok es, w2) /\
        es `sublist_of` map (path_join folder) (filter is_invoice_name names) /\
        process_invoices E folder w = (Ok tt, mkWorld (fs w2) (cwd w2) (out w2 ++ report_lines es))
  end.
Proof. apply process_invoices_result. Qed.

(** C12: A second run over the same folder: when [raw] and [processed]
    already exist, [os.makedirs(..., exist_ok=True)] (lines 122-123,
    label 71-72) leaves them as they are and raises nothing, so
    [rename_invoices.py] goes through every listed invoice and ends by
    printing its report, and [label_invoices.py] goes on to its loop over
    the folder's entries ([raw] and [processed] among them). *)
Theorem rerun_setup_ok (E : env) (ro : json -> pystr) (folder : pystr) (F : path) (w : world) :
  resolve w folder = Ok F -> node_at (fs w) F = Some Dir ->
  node_at (fs w) (py "raw" :: F) = Some Dir -> node_at (fs w) (py "processed" :: F) = Some Dir ->
  (exists es w2, es `sublist_of` map (path_join folder) (filter is_invoice_name (children (fs w) F)) /\
     process_invoices E folder w = (Ok tt, mkWorld (fs w2) (cwd w2) (out w2 ++ report_lines es))) /\
  process_invoices_label E ro folder w =
    process_loop_label E ro folder (path_join folder (py "temp_image.jpg"))
      (path_join folder (py "processed")) (path_join folder (py "raw")) (children (fs w) F) w.
Proof.
  intros HF HFd Hr Hp. pose proof (setup_existing folder F w HF HFd Hr Hp) as Hs. split.
  - pose proof (process_invoices_result E folder w) as Hres. cbv zeta in Hres. rewrite Hs in Hres.
    destruct Hres as (es & w2 & _ & Hsub & Hrun). eauto.
  - unfold process_invoices_label. munfold. munfold. cbv zeta.
    revert Hs. munfold. destruct (os_makedirs _ true w) as [[[]|] w1]; [|done].
    destruct (os_makedirs _ true w1) as [[[]|] w1']; [|done].
    destruct (os_listdir folder w1') as [[|] w2]; [|done]. by intros [= -> ->].
Qed.

Lemma rerun_setup_ok_witness :
  let E := {| environ := []; http_post := fun _ _ => Err RequestException;
              pil_decode := fun _ => true; tesseract := fun _ => Ok (py "Company: Acme");
              pil_pdf := fun d => d; fitz_pages := fun _ => None; render := fun d => Ok d;
              fitz_save := fun d => d |} in
  let w := mkWorld (<[[py "processed"; py "inv"] := Dir]> (<[[py "raw"; py "inv"] := Dir]>
                     (<[[py "inv"] := Dir]> ∅))) [] [] in
  resolve w (py "inv") = Ok [py "inv"] /\ node_at (fs w) [py "inv"] = Some Dir /\
  node_at (fs w) [py "raw"; py "inv"] = Some Dir /\ node_at (fs w) [py "processed"; py "inv"] = Some Dir /\
  process_invoices_label E (fun _ => []) (py "inv") w =
    process_loop_label E (fun _ => []) (py "inv") (path_join (py "inv") (py "temp_image.jpg"))
      (path_join (py "inv") (py "processed")) (path_join (py "inv") (py "raw"))
      (children (fs w) [py "inv"]) w.
Proof.
  intros E w. split_and!; [vm_compute; reflexivity .. |].
  apply (rerun_setup_ok E (fun _ => []) (py "inv") [py "inv"] w); vm_compute; reflexivity.
Defined.

(** C17: The end-to-end scenario of the specification (sections 3 and
    9) for any folder: a folder [F] where no file is named [raw] or
    [processed], whose one invoice is the image [f], whose vision reply
    parses to a name [nm] and whose bytes decode, ends the run of
    [rename_invoices.py] with [raw/] and [processed/] created, the PDF
    conversion at [processed/nm], the original bytes at [raw/f], the
    image gone from the folder, nothing else changed, and the one line
    of the success report printed. *)
Theorem single_image_run (E : env) (folder f : pystr) (F : path) (d : bytes)
    (body : pystr) (result v : json) (c nm : pystr) (w : world) :
  resolve w folder = Ok F -> node_at (fs w) F = Some Dir ->
  (forall x, fs w !! (py "raw" :: F) <> Some (File x)) ->
  (forall x, fs w !! (py "processed" :: F) <> Some (File x)) ->
  filter is_invoice_name (children (setup_fs F (fs w)) F) = [f] ->
  simple_name f = true -> is_image_name f = true -> fs w !! (f :: F) = Some (File d) ->
  fs w !! (f :: py "raw" :: F) <> Some Dir -> fs w !! (nm :: py "processed" :: F) <> Some Dir ->
  http_post E (headers (api_key E)) (payload prompt_rename (b64encode d)) = Ok body -> loads body = Ok result ->
  reply_content result = Ok (JStr c) -> loads c = Ok v -> target_name v = Ok nm ->
  simple_name nm = true -> pil_decode E d = true ->
  process_invoices E folder w =
    (Ok tt, mkWorld (<[f :: py "raw" :: F := File d]> (delete (f :: F)
                       (<[nm :: py "processed" :: F := File (pil_pdf E d)]> (setup_fs F (fs w)))))
              (cwd w) (out w ++ [Line ([ch_nl] ++ py "All files processed successfully!")])).
Proof.
  intros HF HFd Hraw Hproc Hl Hf Hi Hd Hrf Hnm Hpost Hbody Hreply Hc Ht Hnms Hdec.
  rewrite (process_invoices_setup E folder _ w _ (setup_ok folder F w HF HFd Hraw Hproc)), Hl.
  cbn [process_loop]. munfold.
  assert (Hne : forall p, p <> py "raw" :: F -> p <> py "processed" :: F ->
                  setup_fs F (fs w) !! p = fs w !! p)
    by (intros p H1 H2; unfold setup_fs; by rewrite !lookup_insert_ne by congruence).
  assert (Hfr : f <> py "raw" /\ f <> py "processed") by (split; intros ->; discriminate Hi).
  rewrite (image_commit_at E folder f F d body result v c nm (nm :: py "processed" :: F)
             (set_fs w (setup_fs F (fs w)))); cbn [fs set_fs cwd out]; try done.
  - apply (resolve_mono w); [apply keeps_dirs_setup | done | done].
  - by apply keeps_dirs_setup.
  - unfold setup_fs. rewrite lookup_insert_ne by (intros [=]). by rewrite lookup_insert_eq.
  - unfold setup_fs. by rewrite lookup_insert_eq.
  - destruct Hfr. rewrite Hne; [done | congruence | congruence].
  - rewrite Hne; [done | ..]; intros Heq; apply (f_equal length) in Heq; cbn in Heq; lia.
  - apply resolve_join2; try done.
    + apply (resolve_mono w); [apply keeps_dirs_setup | done | done].
    + by apply keeps_dirs_setup.
    + unfold node_at, setup_fs. apply lookup_insert_eq.
  - change (setup_fs F (fs w) !! (nm :: py "processed" :: F) <> Some Dir).
    rewrite Hne; [done | ..]; intros Heq; apply (f_equal length) in Heq; cbn in Heq; lia.
  - intros Heq. apply (f_equal length) in Heq. cbn in Heq. lia.
Qed.

(** C27: Ordering in [label_invoices.py] (lines 73-93): the handler
    prints and re-raises, so once the files listed before [f] have gone
    through, a file whose pipeline raises ends the whole batch with the
    same exception and the world that iteration left: the files listed
    after it are never read, converted or moved. *)
Theorem label_loop_stops (E : env) (ro : json -> pystr) (folder temp processed raw f : pystr)
    (pre rest : list pystr) (w w0 w1 : world) (e : exn) :
  process_loop_label E ro folder temp processed raw pre w = (Ok tt, w0) ->
  process_file_label E ro folder temp processed raw f w0 = (Err e, w1) ->
  process_loop_label E ro folder temp processed raw (pre ++ f :: rest) w = (Err e, w1).
Proof.
  revert w. induction pre as [|g pre IH]; intros w Hpre Hf; cbn [app process_loop_label] in *; munfold.
  - injection Hpre as <-. by rewrite Hf.
  - destruct (process_file_label E ro folder temp processed raw g w) as [[[]|e'] w'];
      [exact (IH w' Hpre Hf) | discriminate].
Qed.

(** C25: Path traversal through the company name (lines 139-143): the
    target name is joined to [processed/] unchecked, so when the reply
    of an image gives the target name [../x] for a plain name [x], the
    per-file pipeline of [rename_invoices.py] writes the conversion to
    [x] in the invoice folder itself, beside [processed/], then archives
    the image as usual and reports nothing; [x] ends in [.pdf], so the
    next run lists the converted file as a new invoice. *)
Theorem target_escapes_processed (E : env) (folder f : pystr) (F : path) (d : bytes)
    (body : pystr) (result v : json) (c x : pystr) (w : world) :
  resolve w folder = Ok F -> node_at (fs w) F = Some Dir ->
  fs w !! (py "raw" :: F) = Some Dir -> fs w !! (py "processed" :: F) = Some Dir ->
  simple_name f = true -> is_image_name f = true -> fs w !! (f :: F) = Some (File d) ->
  fs w !! (f :: py "raw" :: F) <> Some Dir -> fs w !! (x :: F) <> Some Dir ->
  http_post E (headers (api_key E)) (payload prompt_rename (b64encode d)) = Ok body -> loads body = Ok result ->
  reply_content result = Ok (JStr c) -> loads c = Ok v ->
  target_name v = Ok (lit_dotdot ++ [ch_slash] ++ x) -> simple_name x = true -> pil_decode E d = true ->
  process_file E folder (path_join folder (py "processed")) (path_join folder (py "raw")) f w =
    (Ok tt, set_fs w (<[f :: py "raw" :: F := File d]> (delete (f :: F)
                       (<[x :: F := File (pil_pdf E d)]> (fs w))))) /\
  is_invoice_name x = true.
Proof.
  intros HF HFd Hraw Hproc Hf Hi Hd Hrf Hx Hpost Hbody Hreply Hc Ht Hxs Hdec.
  destruct (target_name_dotdot v x Ht) as [z ->]. split; [|apply pdf_suffix_invoice].
  assert (Hq : resolve w (path_join (path_join folder (py "processed")) (lit_dotdot ++ [ch_slash] ++ z ++ py ".pdf"))
               = Ok ((z ++ py ".pdf") :: F))
    by (apply (resolve_join_up w _ (py "processed")); [by rewrite (resolve_join w folder _ F HF), HFd | done | done | done]).
  apply (image_commit_at E folder f F d body result v c (lit_dotdot ++ [ch_slash] ++ z ++ py ".pdf") ((z ++ py ".pdf") :: F) w); try done.
  - intros Heq. injection Heq as Heq. rewrite <- Heq in Hi. by rewrite pdf_suffix_not_image in Hi.
  - intros Heq. apply (f_equal length) in Heq. cbn in Heq. lia.
Qed.

(** C23: A vision reply whose content is a string that is not JSON (a
    reply wrapped in a markdown fence, say) is not a fallback case of
    [rename_invoices.py]: [extract_info_from_image] returns it as it is,
    and the [json.loads] of line 138 raises in the per-file pipeline, so
    the file fails with that exception, the world untouched and nothing
    printed, and the OCR fallback never reads the image.  The
    specification (4.2) says a malformed model reply falls back to OCR. *)
Theorem malformed_content_no_fallback (E : env) (folder processed raw f : pystr) (d : bytes)
    (body : pystr) (result : json) (c : pystr) (e : exn) (w : world) :
  lookup_path w (path_join folder f) = Some (File d) -> is_image_name f = true ->
  http_post E (headers (api_key E)) (payload prompt_rename (b64encode d)) = Ok body ->
  loads body = Ok result -> reply_content result = Ok (JStr c) -> loads c = Err e ->
  process_file E folder processed raw f w = (Err e, w).
Proof.
  intros Hl Hi Hpost Hbody Hreply Hc.
  unfold process_file. rewrite Hi. cbn [orb]. munfold.
  rewrite (image_result E _ d w Hl), Hpost. cbn [res_bind]. rewrite Hbody. cbn [res_bind].
  rewrite Hreply. cbn [loads_value]. by rewrite Hc.
Qed.

(** C24: The success path of the specification for a PDF (sections 3 and
    4.6): in a folder [F] holding the PDF [f] and the directories [raw/]
    and [processed/], when the document opens, every page renders and
    gets a reply with both keys, and the merged fields give the name
    [nm], the per-file pipeline of [rename_invoices.py] returns normally:
    the page images are gone, [processed/nm] receives the saved document
    only when nothing is there yet (an existing target is left as it is,
    so a second invoice with the same name is archived without a copy
    and no error is reported), and the original bytes are moved to
    [raw/f]. *)
Theorem pdf_invoice_committed (E : env) (folder f : pystr) (F : path) (data : bytes)
    (pages : list bytes) (vs : list json) (v : json) (nm : pystr) (w : world) :
  resolve w folder = Ok F -> node_at (fs w) F = Some Dir ->
  node_at (fs w) (py "raw" :: F) = Some Dir -> node_at (fs w) (py "processed" :: F) = Some Dir ->
  simple_name f = true -> is_pdf_name f = true -> node_at (fs w) (f :: F) = Some (File data) ->
  node_at (fs w) (f :: py "raw" :: F) <> Some Dir -> simple_name nm = true ->
  fitz_pages E data = Some pages -> Forall2 (fun pg v => page_reply E pg = Some v) pages vs ->
  Forall has_fields vs -> (forall k, node_at (fs w) (temp_path (cwd w) k) <> Some Dir) ->
  loads (dumps (info (pick (JStr []) (map (field key_company) vs))
                     (pick (JStr []) (map (field key_amount) vs)))) = Ok v ->
  target_name v = Ok nm ->
  let m1 := del_temps (cwd w) 0 (length pages) (fs w) in
  let m2 := match node_at m1 (nm :: py "processed" :: F) with
            | Some _ => m1
            | None => <[nm :: py "processed" :: F := File (fitz_save E data)]> m1
            end in
  process_file E folder (path_join folder (py "processed")) (path_join folder (py "raw")) f w =
    (Ok tt, set_fs w (<[f :: py "raw" :: F := File data]> (delete (f :: F) m2))).
Proof.
  intros HF HFd Hraw Hproc Hf Hpdf Hd Hrf Hnm Hp Hvs Hfs Hnd Hv Ht m1 m2.
  assert (Hfa : folder <> []) by (intros ->; discriminate).
  assert (Hsrc : resolve w (path_join folder f) = Ok (f :: F))
    by (rewrite (resolve_join w folder f F HF Hf); by rewrite HFd).
  assert (Hl : lookup_path w (path_join folder f) = Some (File data))
    by (unfold lookup_path; rewrite Hsrc; exact Hd).
  destruct (pdf_frame E (path_join folder f) w) as [_ Htf].
  rewrite (pdf_success E _ data pages vs w Hl Hp Hvs Hfs Hnd) in Htf. cbn [fs set_fs snd] in Htf.
  assert (Hk : keeps_dirs (fs w) m1) by (by eapply temps_only_keeps_dirs).
  assert (Hnt : forall g G, is_pdf_name g = true -> node_at m1 (g :: G) = node_at (fs w) (g :: G)).
  { intros g G Hg. apply (temps_only_keep _ _ _ _ Htf). intros n [= Hn _].
    rewrite Hn, temp_name_not_pdf in Hg. done. }
  unfold process_file. rewrite (pdf_not_image f Hpdf), Hpdf. cbn [orb]. munfold.
  rewrite (pdf_success E _ data pages vs w Hl Hp Hvs Hfs Hnd). cbn [loads_value]. rewrite Hv, Ht.
  set (w1 := set_fs w m1).
  assert (HF1 : resolve w1 folder = Ok F) by (by apply (resolve_mono w)).
  assert (Hl1 : lookup_path w1 (path_join folder f) = Some (File data)).
  { unfold lookup_path. rewrite (resolve_mono w w1 _ _ Hk eq_refl Hsrc). cbn [fs w1 set_fs].
    by rewrite Hnt. }
  assert (Hq1 : resolve w1 (path_join (path_join folder (py "processed")) nm) =
                Ok (nm :: py "processed" :: F)) by (apply resolve_join2; auto).
  rewrite (convert_pdf_at E _ _ data pages (nm :: py "processed" :: F) w1); [| by rewrite image_name_join, pdf_not_image
    | by rewrite pdf_name_join | done | done | done].
  assert (Hd1 : node_at m1 (f :: F) = Some (File data)) by (by rewrite Hnt).
  assert (Hr1 : node_at m1 (f :: py "raw" :: F) <> Some Dir) by (by rewrite Hnt).
  change (fs w1) with m1. unfold m2.
  match goal with |- context [node_at m1 ?q] => destruct (node_at m1 q) as [n|] eqn:En end.
  - by rewrite (archive_move folder f F data w1 HF1 (Hk F HFd) (Hk _ Hraw) Hf Hd1 Hr1).
  - assert (Hk2 : keeps_dirs m1 (<[nm :: py "processed" :: F := File (fitz_save E data)]> m1))
      by (apply keeps_dirs_insert_file; intros Hc; congruence).
    assert (Hne : forall x, x <> nm :: py "processed" :: F -> node_at (<[nm :: py "processed" :: F := File (fitz_save E data)]> m1) x = node_at m1 x)
      by (intros x Hx; rewrite node_at_insert by done; by rewrite decide_False).
    rewrite (archive_move folder f F data (set_fs w1 (<[nm :: py "processed" :: F := File (fitz_save E data)]> m1)));
      [done | by apply (resolve_mono w1) | by apply Hk2, Hk | by apply Hk2, Hk | done | | ].
    + rewrite Hne; [exact Hd1|]. intros Heq. apply (f_equal length) in Heq. cbn in Heq. lia.
    + rewrite Hne; [exact Hr1|]. intros Heq. injection Heq as _ Heq. discriminate.
Qed.
