(* ===== verification/Cli.v ===== *)
(** * The command-line entry point and the exit status of a run

    The [__main__] blocks of [src/rename_invoices.py] (lines 157-161) and
    [src/label_invoices.py] (lines 96-101):

    {[
      parser = argparse.ArgumentParser(description='...')
      parser.add_argument('folder_path', type=str, help='...')
      args = parser.parse_args()
      process_invoices(args.folder_path)
    ]}

    [parse_args] is [argparse]'s parse of [sys.argv[1:]] for a parser
    with the one positional [folder_path] (and the automatic [-h]),
    defined on the argument lists whose arguments are positionals (not
    starting with [-], or the empty string, or [-] alone) or the help
    flags [-h] and [--help]: a help flag anywhere prints the help and
    exits with status 0 (the help action runs when it is reached, and
    the checks for a missing or unrecognised argument only come at the
    end); otherwise the first argument is [folder_path], any further
    one is reported as unrecognised, and an empty list misses the
    required positional.  An argument list with another option-like
    argument (an unknown option, an abbreviation of [--help], [-hx],
    [--]) is outside the model ([None]).  The parser's error message
    goes to standard error, which the model does not record, and ends
    the process with status 2.

    [main] is the process, given [prog], the base name of
    [sys.argv[0]]: its exit status is 0 when [process_invoices] returns
    or the help was printed, 1 when an exception escapes (the
    interpreter prints the traceback to standard error), 2 on a usage
    error. *)

From S2P Require Import Prelude PyStr Json World Extract Pipeline.

Open Scope N_scope.

Module Cli.

Import Json World Extract Pipeline.

(** ** [parser.parse_args()] *)

(** The prefix character of options. *)
Definition ch_dash : char := 45.

(** What [parse_args] returns or the error it reports before exiting. *)
Inductive args_result :=
  | ArgsOk (folder_path : pystr)
  | ArgsHelp
  | ArgsError (message : pystr).

(** [ArgumentParser._parse_optional] classifies an argument as a
    positional when it is empty, does not start with a prefix character,
    or is the single character [-]. *)
Definition is_positional (arg : pystr) : bool :=
  match arg with
  | [] => true
  | c :: rest => negb (bool_decide (c = ch_dash)) || bool_decide (rest = [])
  end.

(** The option strings of the automatic help action. *)
Definition is_help_flag (arg : pystr) : bool :=
  bool_decide (arg = py "-h") || bool_decide (arg = py "--help").

(** The parser of lines 158-160 on the arguments [sys.argv[1:]]. *)
Definition parse_args (argv : list pystr) : option args_result :=
  if forallb (fun a => is_positional a || is_help_flag a) argv then
    Some (if existsb is_help_flag argv then ArgsHelp
          else match argv with
               | [] => ArgsError (py "the following arguments are required: folder_path")
               | [folder_path] => ArgsOk folder_path
               | _ :: extras => ArgsError (py "unrecognized arguments: " ++ join [ch_space] extras)
               end)
  else None.

(** [parser.print_help()] for the parser of lines 158-159, in the format
    of CPython 3.10 and later, as printed lines: the usage, the
    description and the two arguments with their help texts, aligned at
    column 15 (two more than the longest invocation [folder_path],
    indented by two).  The usage fits the default width of 80 columns
    for program names of up to 50 characters, where no line wraps. *)
Definition help_lines (prog : pystr) : list line :=
  [Line (py "usage: " ++ prog ++ py " [-h] folder_path"); Line [];
   Line (py "Process a folder of invoice images and PDFs."); Line [];
   Line (py "positional arguments:");
   Line (py "  folder_path  The path to the folder containing the invoices."); Line [];
   Line (py "options:");
   Line (py "  -h, --help   show this help message and exit")].

(** ** The process *)

(** The exit status of the interpreter once the module body returns
    (0), lets an exception escape (1), or [parser.error] calls
    [sys.exit(2)]. *)
Definition exit_status {A} (r : res A) : N :=
  match r with Ok _ => 0 | Err _ => 1 end.

(** [rename_invoices.py] run as a script, lines 157-161. *)
Definition main (E : env) (prog : pystr) (argv : list pystr) (w : world) : option (N * world) :=
  match parse_args argv with
  | None => None
  | Some ArgsHelp => Some (0, mkWorld (fs w) (cwd w) (out w ++ help_lines prog))
  | Some (ArgsError _) => Some (2, w)
  | Some (ArgsOk folder_path) =>
      let '(r, w') := process_invoices E folder_path w in Some (exit_status r, w')
  end.

(** [label_invoices.py] run as a script, lines 96-101. *)
Definition main_label (E : env) (repr_other : json -> pystr) (prog : pystr) (argv : list pystr)
    (w : world) : option (N * world) :=
  match parse_args argv with
  | None => None
  | Some ArgsHelp => Some (0, mkWorld (fs w) (cwd w) (out w ++ help_lines prog))
  | Some (ArgsError _) => Some (2, w)
  | Some (ArgsOk folder_path) =>
      let '(r, w') := process_invoices_label E repr_other folder_path w in
      Some (exit_status r, w')
  end.

(** ** Lemmas *)

(** On plain arguments no help flag is given. *)
Lemma parse_args_plain (argv : list pystr) :
  forallb is_positional argv = true ->
  parse_args argv =
    Some (match argv with
          | [] => ArgsError (py "the following arguments are required: folder_path")
          | [folder_path] => ArgsOk folder_path
          | _ :: extras => ArgsError (py "unrecognized arguments: " ++ join [ch_space] extras)
          end).
Proof.
  intros Hp. unfold parse_args.
  assert (Hh : forall a, is_positional a = true -> is_help_flag a = false)
    by (intros a Ha; unfold is_help_flag; by do 2 (rewrite bool_decide_false by (intros ->; done))).
  rewrite forallb_forall in Hp.
  rewrite (proj2 (forallb_forall _ argv)) by (intros a Ha; by rewrite Hp).
  replace (existsb is_help_flag argv) with false; [done|].
  symmetry. apply not_true_is_false. intros [a [Ha Hf]]%existsb_exists.
  by rewrite (Hh a (Hp a Ha)) in Hf.
Qed.

End Cli.

Import Json World Extract Pipeline Cli.

(** C11: The exit status of either script run on arguments that are
    plain or help flags.  A help flag anywhere ([-h] or [--help], also
    after a folder or with extra arguments) makes both scripts print the
    help built from lines 158-159 and exit with status 0 without touching
    the file system.  Otherwise, with one argument, [rename_invoices.py]
    ends with status 1 exactly when the folder setup ([os.makedirs] of
    [raw] and [processed], [os.listdir]) raises, with the world that
    setup left, and else with status 0 after printing the report of the
    files that failed, whatever those files hold or the collaborators
    answer; with no argument or more than one, both scripts end with the
    usage error status 2 before touching the file system or printing to
    standard output. *)
Theorem main_exit_status (E : env) (prog : pystr) (argv : list pystr) (w : world) :
  forallb (fun a => is_positional a || is_help_flag a) argv = true ->
  if existsb is_help_flag argv then
    main E prog argv w = Some (0, mkWorld (fs w) (cwd w) (out w ++ help_lines prog)) /\
    forall ro, main_label E ro prog argv w = Some (0, mkWorld (fs w) (cwd w) (out w ++ help_lines prog))
  else
  match argv with
  | [folder] =>
      let raw := path_join folder (py "raw") in
      let processed := path_join folder (py "processed") in
      match (os_makedirs raw true;; os_makedirs processed true;; os_listdir folder) w with
      | (Err _, w1) => main E prog argv w = Some (1, w1)
      | (Ok names, w1) =>
          exists es w2, es `sublist_of` map (path_join folder) (filter is_invoice_name names) /\
            main E prog argv w = Some (0, mkWorld (fs w2) (cwd w2) (out w2 ++ report_lines es))
      end
  | _ => main E prog argv w = Some (2, w) /\ forall ro, main_label E ro prog argv w = Some (2, w)
  end.
Proof.
  intros Hp. destruct (existsb is_help_flag argv) eqn:Eh.
  { unfold main, main_label, parse_args. by rewrite Hp, Eh. }
  assert (Hp' : forallb is_positional argv = true).
  { apply forallb_forall. intros a Ha. rewrite forallb_forall in Hp. specialize (Hp a Ha).
    destruct (is_help_flag a) eqn:Ea; [|by rewrite orb_false_r in Hp].
    assert (existsb is_help_flag argv = true) by (apply existsb_exists; by exists a). congruence. }
  unfold main, main_label. rewrite (parse_args_plain argv Hp').
  destruct argv as [|folder [|a l]]; [done | | done].
  pose proof (process_invoices_result E folder w) as Hr. cbv zeta in Hr |- *.
  match type of Hr with match ?m with _ => _ end => destruct m as [[names|e] w1] end.
  - destruct Hr as (es & w2 & _ & Hs & ->). by exists es, w2.
  - by rewrite Hr.
Qed.

Lemma main_exit_status_witness :
  let E := {| environ := []; http_post := fun _ _ => Err RequestException;
              pil_decode := fun _ => true; tesseract := fun _ => Ok (py "Company: Acme");
              pil_pdf := fun d => d; fitz_pages := fun _ => None; render := fun d => Ok d;
              fitz_save := fun d => d |} in
  let w := mkWorld (<[[py "inv"] := Dir]> ∅) [] [] in
  let argv := [py "inv"; py "extra"; py "--help"] in
  forallb (fun a => is_positional a || is_help_flag a) argv = true /\
  main E (py "rename_invoices.py") argv w =
    Some (0, mkWorld (fs w) (cwd w) (out w ++ help_lines (py "rename_invoices.py"))) /\
  (forall ro, main_label E ro (py "rename_invoices.py") argv w =
    Some (0, mkWorld (fs w) (cwd w) (out w ++ help_lines (py "rename_invoices.py")))).
Proof.
  intros E w argv. assert (Hp : forallb (fun a => is_positional a || is_help_flag a) argv = true)
    by reflexivity.
  split; [exact Hp | exact (main_exit_status E (py "rename_invoices.py") argv w Hp)].
Defined.
