(* ===== verification/Scenarios.v ===== *)
(** * Scenarios: the pipeline run on concrete folders

    The end-to-end scenario of the specification and the behaviours found
    while modelling, each evaluated on a small concrete world: a folder
    [inv] under the root, which is the working directory, and collaborators
    that answer every request the same way.  The converters are marked so
    that the files they write can be told apart: [pil_pdf] prepends the
    byte 37 ([%]), [render] the byte 255. *)

From S2P Require Import Prelude PyStr Normalizer Json Regex World Extract Pipeline.

Open Scope N_scope.

Module Scenarios.

Import Json World Extract Pipeline.

(** The HTTP body of a chat completion whose message content is
    [content]. *)
Definition reply_body (content : pystr) : pystr :=
  dumps (JObj [(py "choices", JArr [JObj [(py "message", JObj [(py "content", JStr content)])]])]).

(** The vision model answers [content]; OCR reads [ocr]; PIL decodes
    everything but the bytes [[0]]. *)
Definition env_reply (content ocr : pystr) : env := {|
  environ := [(py "OPENAI_API_KEY", py "sk-test")];
  http_post := fun _ _ => Ok (reply_body content);
  pil_decode := fun d => negb (bool_decide (d = [0]));
  tesseract := fun _ => Ok ocr;
  pil_pdf := fun d => 37 :: d;
  fitz_pages := fun d => Some [d];
  render := fun d => Ok (255 :: d);
  fitz_save := fun d => d |}.

(** The vision request fails at the transport. *)
Definition env_offline (ocr : pystr) : env := {|
  environ := [(py "OPENAI_API_KEY", py "sk-test")];
  http_post := fun _ _ => Err RequestException;
  pil_decode := fun d => negb (bool_decide (d = [0]));
  tesseract := fun _ => Ok ocr;
  pil_pdf := fun d => 37 :: d;
  fitz_pages := fun d => Some [d];
  render := fun d => Ok (255 :: d);
  fitz_save := fun d => d |}.

Definition reply_info (company amount : pystr) : pystr :=
  dumps (info (JStr company) (JStr amount)).

Definition inv : pystr := py "inv".

(** The folder [inv] holding [files], plus [extra] entries of the root. *)
Definition folder_world (files : list (pystr * bytes)) (extra : list (pystr * bytes)) : world :=
  mkWorld
    (foldr (fun '(n, d) m => <[[n] := File d]> m)
       (foldr (fun '(n, d) m => <[[n; inv] := File d]> m) (<[[inv] := Dir]> ∅) files) extra)
    [] [].

Definition run (E : env) (w : world) : res unit * world := process_invoices E inv w.

End Scenarios.

Import Json World Extract Pipeline Scenarios.

(** The end-to-end scenario of the specification: a folder holding
    [invoice1.jpg], for which the vision call returns
    [{"company_name": "Acme Corp", "amount": "99.00"}], ends with
    [processed/ACME CORP -- 99_00.pdf] (the PDF conversion of the image)
    and [raw/invoice1.jpg] (the original bytes), the original gone from the
    folder, and the success message printed. *)
Example end_to_end_scenario :
  let w' := (run (env_reply (reply_info (py "Acme Corp") (py "99.00")) [])
               (folder_world [(py "invoice1.jpg", [1; 2; 3])] [])).2 in
  lookup_path w' (py "inv/processed/ACME CORP -- 99_00.pdf") = Some (File [37; 1; 2; 3]) /\
  lookup_path w' (py "inv/raw/invoice1.jpg") = Some (File [1; 2; 3]) /\
  lookup_path w' (py "inv/invoice1.jpg") = None /\
  out w' = [Line ([ch_nl] ++ py "All files processed successfully!")].
Proof. vm_compute. split_and!; reflexivity. Qed.

(** Per-file isolation (specification, section 8): [a.jpg] cannot be
    decoded and fails, [b.jpg] succeeds; [b.jpg] is converted and archived,
    [a.jpg] stays in the folder unchanged, the run continues, and the
    report lists [inv/a.jpg]. *)
Example batch_isolation_example :
  let w' := (run (env_reply (reply_info (py "Acme") (py "5.00")) [])
               (folder_world [(py "a.jpg", [0]); (py "b.jpg", [1])] [])).2 in
  lookup_path w' (py "inv/a.jpg") = Some (File [0]) /\
  lookup_path w' (py "inv/b.jpg") = None /\
  lookup_path w' (py "inv/raw/b.jpg") = Some (File [1]) /\
  lookup_path w' (py "inv/processed/ACME -- 5_00.pdf") = Some (File [37; 1]) /\
  out w' = [LineExn ([ch_nl] ++ py "Error processing a.jpg: ") UnidentifiedImageError [];
            Line ([ch_nl] ++ py "The following files encountered errors and need examination:");
            Line (py "inv/a.jpg")].
Proof. vm_compute. split_and!; reflexivity. Qed.

(** A vision reply whose content is not JSON (here wrapped in a
    markdown fence) is not a fallback case: [extract_info_from_image]
    returns it, [json.loads] fails in [process_invoices] (line 138), the
    file is reported as failed and the OCR text, which holds both fields,
    is never read.  The specification (4.2) says a malformed reply falls
    back to OCR. *)
Example reply_not_json_no_fallback :
  let w' := (run (env_reply (py "```json {}```") (py "Company: Acme Total $5.00"))
               (folder_world [(py "a.jpg", [1])] [])).2 in
  lookup_path w' (py "inv/a.jpg") = Some (File [1]) /\
  out w' = [LineExn ([ch_nl] ++ py "Error processing a.jpg: ") JSONDecodeError [];
            Line ([ch_nl] ++ py "The following files encountered errors and need examination:");
            Line (py "inv/a.jpg")].
Proof. vm_compute. split_and!; reflexivity. Qed.

(** Two PDFs whose replies give the same name: the first one listed is
    saved to [processed/], the second is not (the target exists) but is
    still moved to [raw/], and the run reports success: the second
    invoice has no converted copy and no error is printed. *)
Example pdf_collision_silent :
  let w' := (run (env_reply (reply_info (py "Acme") (py "5.00")) [])
               (folder_world [(py "a.pdf", [1]); (py "b.pdf", [2])] [])).2 in
  lookup_path w' (py "inv/processed/ACME -- 5_00.pdf") = Some (File [2]) /\
  lookup_path w' (py "inv/raw/a.pdf") = Some (File [1]) /\
  lookup_path w' (py "inv/raw/b.pdf") = Some (File [2]) /\
  out w' = [Line ([ch_nl] ++ py "All files processed successfully!")].
Proof. vm_compute. split_and!; reflexivity. Qed.

(** The company name is joined to [processed/] unchecked: a reply
    with company [../evil] writes the converted file [EVIL -- 1_00.pdf]
    into the invoice folder itself, where the next run lists it as an
    invoice. *)
Example company_path_traversal :
  let w' := (run (env_reply (reply_info (py "../evil") (py "1.00")) [])
               (folder_world [(py "a.jpg", [1])] [])).2 in
  lookup_path w' (py "inv/EVIL -- 1_00.pdf") = Some (File [37; 1]) /\
  is_invoice_name (py "EVIL -- 1_00.pdf") = true.
Proof. vm_compute. split; reflexivity. Qed.

(** The page images of a PDF are written to the working directory
    under fixed names and removed: a file [temp_image_0.jpg] the user
    kept there is overwritten and deleted by processing any PDF. *)
Example temp_image_clobbered :
  let w := folder_world [(py "a.pdf", [1])] [(py "temp_image_0.jpg", [42])] in
  lookup_path w (py "temp_image_0.jpg") = Some (File [42]) /\
  lookup_path (run (env_reply (reply_info (py "Acme") (py "1.00")) []) w).2
    (py "temp_image_0.jpg") = None.
Proof. vm_compute. split; reflexivity. Qed.

(** [label_invoices.py] leaves its page image in the invoice folder
    when the vision call fails: the exception propagates past
    [os.remove], and [inv/temp_image.jpg] remains, a file the next run
    lists as an invoice. *)
Example label_temp_left_behind :
  let r := process_invoices_label (env_offline []) (fun _ => []) inv
             (folder_world [(py "a.pdf", [1])] []) in
  r.1 = Err RequestException /\
  lookup_path r.2 (py "inv/temp_image.jpg") = Some (File [255; 1]) /\
  is_invoice_name (py "temp_image.jpg") = true.
Proof. vm_compute. split_and!; reflexivity. Qed.

(** [label_invoices.py] stops at the first failure: [b.jpg] (listed
    first) cannot be decoded, the message is printed and the exception
    ends the run, so [a.pdf] is never processed. *)
Example label_aborts_on_first_failure :
  let r := process_invoices_label (env_reply (reply_info (py "Acme") (py "5.00")) []) (fun _ => [])
             inv (folder_world [(py "a.pdf", [1]); (py "b.jpg", [0])] []) in
  r.1 = Err UnidentifiedImageError /\
  lookup_path r.2 (py "inv/a.pdf") = Some (File [1]) /\
  lookup_path r.2 (py "inv/b.jpg") = Some (File [0]) /\
  out r.2 = [Line (py "Failed to extract information from b.jpg")].
Proof. vm_compute. split_and!; reflexivity. Qed.

(** A failure on a later page of a PDF discards the pages already
    read: page 1 of [a.pdf] gives both fields, page 2 cannot be rendered;
    the exception reaches the [except] of [extract_info_from_pdf] with no
    page image pending, so the result is two empty fields and the file
    is renamed [ -- .pdf].  The specification (4.4) merges the pages'
    results and says nothing of the pages read before a failure. *)
Example pdf_later_page_failure_discards :
  let E := {| environ := [(py "OPENAI_API_KEY", py "sk-test")];
  http_post := fun _ _ => Ok (reply_body (reply_info (py "Acme") (py "5.00")));
              pil_decode := fun _ => true; tesseract := fun _ => Ok [];
              pil_pdf := fun d => 37 :: d; fitz_pages := fun d => Some [d; [0]];
              render := fun d => if bool_decide (d = [0]) then Err FitzError else Ok (255 :: d);
              fitz_save := fun d => d |} in
  let w := folder_world [(py "a.pdf", [1])] [] in
  (extract_info_from_pdf E (py "inv/a.pdf") w).1 = Ok (JStr (dumps empty_info)) /\
  lookup_path (run E w).2 (py "inv/processed/ -- .pdf") = Some (File [1]) /\
  lookup_path (run E w).2 (py "inv/raw/a.pdf") = Some (File [1]).
Proof. vm_compute. split_and!; reflexivity. Qed.

Lemma label_loop_stops_witness :
  let E := env_reply (reply_info (py "Acme") (py "5.00")) [] in
  let w := folder_world [(py "a.pdf", [1]); (py "b.jpg", [0])] [] in
  let T := path_join inv (py "temp_image.jpg") in
  let P := path_join inv (py "processed") in
  let R := path_join inv (py "raw") in
  let r := process_file_label E (fun _ => []) inv T P R (py "b.jpg") w in
  r.1 = Err UnidentifiedImageError /\
  process_loop_label E (fun _ => []) inv T P R ([] ++ py "b.jpg" :: [py "a.pdf"]) w =
    (Err UnidentifiedImageError, r.2).
Proof.
  intros E w T P R r. split; [vm_compute; reflexivity|].
  apply (label_loop_stops E _ inv T P R (py "b.jpg") [] [py "a.pdf"] w w r.2);
    [reflexivity | vm_compute; reflexivity].
Defined.

Lemma target_escapes_processed_witness :
  let E := env_reply (reply_info (py "../evil") (py "1.00")) [] in
  let w := mkWorld (<[[py "a.jpg"; inv] := File [1]]> (<[[py "raw"; inv] := Dir]>
             (<[[py "processed"; inv] := Dir]> (<[[inv] := Dir]> ∅)))) [] [] in
  process_file E inv (path_join inv (py "processed")) (path_join inv (py "raw")) (py "a.jpg") w =
    (Ok tt, set_fs w (<[[py "a.jpg"; py "raw"; inv] := File [1]]> (delete [py "a.jpg"; inv]
       (<[[py "EVIL -- 1_00.pdf"; inv] := File [37; 1]]> (fs w))))) /\
  is_invoice_name (py "EVIL -- 1_00.pdf") = true.
Proof.
  intros E w.
  apply (target_escapes_processed E inv (py "a.jpg") [inv] [1]
           (reply_body (reply_info (py "../evil") (py "1.00")))
           (JObj [(py "choices", JArr [JObj [(py "message",
              JObj [(py "content", JStr (reply_info (py "../evil") (py "1.00")))])]])])
           (info (JStr (py "../evil")) (JStr (py "1.00")))
           (reply_info (py "../evil") (py "1.00")) (py "EVIL -- 1_00.pdf") w);
    vm_compute; first [reflexivity | discriminate].
Defined.

Lemma malformed_content_no_fallback_witness :
  let E := env_reply (py "```json {}```") (py "Company: Acme Total $5.00") in
  let w := folder_world [(py "a.jpg", [1])] [] in
  process_file E inv (path_join inv (py "processed")) (path_join inv (py "raw")) (py "a.jpg") w =
    (Err JSONDecodeError, w).
Proof.
  intros E w.
  apply (malformed_content_no_fallback E inv _ _ (py "a.jpg") [1] (reply_body (py "```json {}```"))
           (JObj [(py "choices", JArr [JObj [(py "message",
              JObj [(py "content", JStr (py "```json {}```"))])]])])
           (py "```json {}```")); vm_compute; reflexivity.
Defined.

Lemma pdf_later_page_failure_witness :
  let E := {| environ := [(py "OPENAI_API_KEY", py "sk-test")];
              http_post := fun _ _ => Ok (reply_body (reply_info (py "Acme") (py "5.00")));
              pil_decode := fun _ => true; tesseract := fun _ => Ok [];
              pil_pdf := fun d => 37 :: d; fitz_pages := fun d => Some [d; [0]];
              render := fun d => if bool_decide (d = [0]) then Err FitzError else Ok (255 :: d);
              fitz_save := fun d => d |} in
  let w := folder_world [(py "a.pdf", [1])] [] in
  (extract_info_from_pdf E (py "inv/a.pdf") w).1 = Ok (JStr (dumps empty_info)).
Proof.
  intros E w.
  apply (pdf_later_page_failure E (py "inv/a.pdf") [1] [1] [0] [255; 1] []
           (JStr (reply_info (py "Acme") (py "5.00"))) (info (JStr (py "Acme")) (JStr (py "5.00")))
           FitzError w); vm_compute; first [reflexivity | discriminate].
Defined.

Lemma single_image_run_witness :
  let E := env_reply (reply_info (py "Acme Corp") (py "99.00")) [] in
  let w := folder_world [(py "invoice1.jpg", [1; 2; 3])] [] in
  let nm := py "ACME CORP -- 99_00.pdf" in
  process_invoices E inv w =
    (Ok tt, mkWorld (<[py "invoice1.jpg" :: py "raw" :: [inv] := File [1; 2; 3]]>
                       (delete (py "invoice1.jpg" :: [inv])
                          (<[nm :: py "processed" :: [inv] := File (pil_pdf E [1; 2; 3])]>
                             (setup_fs [inv] (fs w)))))
              (cwd w) (out w ++ [Line ([ch_nl] ++ py "All files processed successfully!")])).
Proof.
  intros E w nm.
  apply (single_image_run E inv (py "invoice1.jpg") [inv] [1; 2; 3]
           (reply_body (reply_info (py "Acme Corp") (py "99.00")))
           (JObj [(py "choices", JArr [JObj [(py "message",
              JObj [(py "content", JStr (reply_info (py "Acme Corp") (py "99.00")))])]])])
           (info (JStr (py "Acme Corp")) (JStr (py "99.00"))) (reply_info (py "Acme Corp") (py "99.00"))
           nm w);
    first [vm_compute; reflexivity | vm_compute; discriminate | intros ?; vm_compute; discriminate].
Defined.

Lemma pdf_invoice_committed_witness :
  let E := env_reply (reply_info (py "Acme") (py "5.00")) [] in
  let w := mkWorld (<[[py "a.pdf"; inv] := File [1]]> (<[[py "raw"; inv] := Dir]>
             (<[[py "processed"; inv] := Dir]> (<[[inv] := Dir]> ∅)))) [] [] in
  let m1 := del_temps (cwd w) 0 (length [[1]]) (fs w) in
  let m2 := match node_at m1 (py "ACME -- 5_00.pdf" :: py "processed" :: [inv]) with
            | Some _ => m1
            | None => <[py "ACME -- 5_00.pdf" :: py "processed" :: [inv] := File (fitz_save E [1])]> m1
            end in
  process_file E inv (path_join inv (py "processed")) (path_join inv (py "raw")) (py "a.pdf") w =
    (Ok tt, set_fs w (<[py "a.pdf" :: py "raw" :: [inv] := File [1]]> (delete (py "a.pdf" :: [inv]) m2))).
Proof.
  intros E w m1 m2.
  apply (pdf_invoice_committed E inv (py "a.pdf") [inv] [1] [[1]]
           [info (JStr (py "Acme")) (JStr (py "5.00"))] (info (JStr (py "Acme")) (JStr (py "5.00")))
           (py "ACME -- 5_00.pdf") w);
    try (vm_compute; first [reflexivity | discriminate]).
  - repeat constructor.
  - repeat constructor.
  - intros k. cbn [node_at temp_path fs w]. unfold temp_name.
    rewrite !lookup_insert_ne, lookup_empty; [discriminate | intros [=] ..].
Defined.

(** The company name is upper-cased with Python's full case mapping:
    [Straße] (U+00DF) becomes [STRASSE] and the ligature U+FB01 becomes
    [FI], so the name grows. *)
Example company_full_upper :
  Normalizer.new_filename ([83; 116; 114; 97; 223; 101; 32; 64257; 110; 101]) (py "12.50") =
    py "STRASSE FINE -- 12_50.pdf".
Proof. vm_compute. reflexivity. Qed.

(** [str.lower] writes a final sigma at the end of a word; the context
    stops at [/]: [ΟΔΟΣ/ΣΟ] becomes [οδος/σο]. *)
Example lower_final_sigma :
  lower [927; 916; 927; 931; 47; 931; 927] = [959; 948; 959; 962; 47; 963; 959].
Proof. vm_compute. reflexivity. Qed.
